(** * hoadonYen: the invoice extraction engine of [extract_invoices.py]

    A shallow embedding of the money parser, the line-item extractor,
    the tax reconciliation cascade and the validation rules, together
    with the Python runtime pieces they rely on (Unicode strings,
    [int()], string formatting, the [re] module, binary64 floats). *)

From Stdlib Require Import String Ascii List ZArith NArith Bool Lia.
From Stdlib Require Import SpecFloat.
Import ListNotations.

Set Implicit Arguments.
#[local] Open Scope N_scope.

(* ================================================================== *)
(** * Python strings: sequences of Unicode code points *)
(* ================================================================== *)

Module Unicode.

(** A Python [str] is a sequence of code points; [len], slicing and
    indexing all count code points, never bytes. *)
Definition char := N.
Definition pystr := list char.

(** Source literals are written as Rocq strings, which hold the UTF-8
    bytes of the source file; [py] decodes them to code points. *)
Fixpoint utf8_decode (bs : list N) : pystr :=
  match bs with
  | [] => []
  | b0 :: r0 =>
    if b0 <? 128 then b0 :: utf8_decode r0
    else if b0 <? 224 then
      match r0 with
      | b1 :: r1 => ((b0 mod 32) * 64 + b1 mod 64) :: utf8_decode r1
      | _ => []
      end
    else if b0 <? 240 then
      match r0 with
      | b1 :: b2 :: r2 =>
          ((b0 mod 16) * 4096 + (b1 mod 64) * 64 + b2 mod 64) :: utf8_decode r2
      | _ => []
      end
    else
      match r0 with
      | b1 :: b2 :: b3 :: r3 =>
          ((b0 mod 8) * 262144 + (b1 mod 64) * 4096 + (b2 mod 64) * 64 + b3 mod 64)
            :: utf8_decode r3
      | _ => []
      end
  end.

Definition py (s : string) : pystr :=
  utf8_decode (map N_of_ascii (list_ascii_of_string s)).

Definition chr (a : ascii) : char := N_of_ascii a.

Definition in_range (lo hi c : N) : bool := (lo <=? c) && (c <=? hi).

(** ** Character classes

    The tables below cover the Basic Multilingual Plane blocks that
    invoice text is written in; code points outside them are treated as
    caseless symbols. *)

(** [str.isspace], also the class [\s] of [re] and what [int()] and
    [str.strip()] discard. *)
Definition is_space (c : char) : bool :=
  in_range 9 13 c || in_range 28 32 c || (c =? 133) || (c =? 160)
  || (c =? 5760) || in_range 8192 8202 c || (c =? 8232) || (c =? 8233)
  || (c =? 8239) || (c =? 8287) || (c =? 12288).

(** First code point of every block of ten decimal digits (category Nd). *)
Definition decimal_blocks : list N :=
  [ 48; 1632; 1776; 1984; 2406; 2534; 2662; 2790; 2918; 3046; 3174; 3302;
    3430; 3558; 3664; 3792; 3872; 4160; 4240; 6112; 6160; 6470; 6608; 6784;
    6800; 6992; 7088; 7232; 7248; 42528; 43216; 43264; 43472; 43504; 43600;
    44016; 65296 ].

Fixpoint digit_in (blocks : list N) (c : char) : option N :=
  match blocks with
  | [] => None
  | b :: bs => if in_range b (b + 9) c then Some (c - b) else digit_in bs c
  end.

(** The decimal value of a digit character, as [int()] reads it. *)
Definition decimal_value (c : char) : option N := digit_in decimal_blocks c.

(** The class [\d] of [re] on [str] patterns. *)
Definition is_decimal (c : char) : bool :=
  match decimal_value c with Some _ => true | None => false end.

(** [str.isdigit] also accepts superscript and subscript digits. *)
Definition is_digit_char (c : char) : bool :=
  is_decimal c || (c =? 178) || (c =? 179) || (c =? 185) || (c =? 8304)
  || in_range 8308 8313 c || in_range 8320 8329 c.

Definition is_ascii_upper (c : char) : bool := in_range 65 90 c.
Definition is_ascii_lower (c : char) : bool := in_range 97 122 c.

(** Paired blocks where the upper-case letter is the even code point. *)
Definition even_upper_block (c : char) : bool :=
  in_range 256 303 c || in_range 306 311 c || in_range 330 375 c
  || in_range 416 417 c || in_range 7680 7829 c || in_range 7840 7935 c.

(** Paired blocks where the upper-case letter is the odd code point. *)
Definition odd_upper_block (c : char) : bool :=
  in_range 313 328 c || in_range 377 382 c || in_range 431 432 c.

Definition is_upper_char (c : char) : bool :=
  is_ascii_upper c
  || (in_range 192 222 c && negb (c =? 215))
  || (c =? 376)
  || (even_upper_block c && N.even c)
  || (odd_upper_block c && N.odd c).

Definition is_lower_char (c : char) : bool :=
  is_ascii_lower c
  || (in_range 223 255 c && negb (c =? 247))
  || (c =? 181) || (c =? 170) || (c =? 186)
  || (even_upper_block c && N.odd c)
  || (odd_upper_block c && N.even c).

Definition is_cased (c : char) : bool := is_upper_char c || is_lower_char c.

(** Letters: the cased characters and the remaining Latin letters. *)
Definition is_alpha (c : char) : bool :=
  is_cased c || in_range 248 705 c || in_range 7680 7935 c.

(** The class [\w] of [re]. *)
Definition is_word (c : char) : bool :=
  is_alpha c || is_digit_char c || (c =? 95).

Definition lower_char (c : char) : char :=
  if is_ascii_upper c then c + 32
  else if in_range 192 222 c && negb (c =? 215) then c + 32
  else if c =? 376 then 255
  else if even_upper_block c && N.even c then c + 1
  else if odd_upper_block c && N.odd c then c + 1
  else c.

Definition upper_char (c : char) : char :=
  if is_ascii_lower c then c - 32
  else if in_range 224 254 c && negb (c =? 247) then c - 32
  else if c =? 255 then 376
  else if c =? 181 then 924
  else if even_upper_block c && N.odd c then c - 1
  else if odd_upper_block c && N.even c then c - 1
  else c.

(** [str.lower] and [str.upper]; the sharp s upper-cases to two letters. *)
Definition lower (s : pystr) : pystr := map lower_char s.
Definition upper (s : pystr) : pystr :=
  flat_map (fun c => if c =? 223 then [83; 83] else [upper_char c]) s.

End Unicode.
Export Unicode.

(* ================================================================== *)
(** * The [str] methods the program calls *)
(* ================================================================== *)

Module Str.

Fixpoint eqb (a b : pystr) : bool :=
  match a, b with
  | [], [] => true
  | x :: a', y :: b' => (x =? y) && eqb a' b'
  | _, _ => false
  end.

(** [s.startswith(p)] *)
Fixpoint startswith (p s : pystr) : bool :=
  match p, s with
  | [], _ => true
  | x :: p', y :: s' => (x =? y) && startswith p' s'
  | _ :: _, [] => false
  end.

(** [s.endswith(p)] *)
Definition endswith (p s : pystr) : bool := startswith (rev p) (rev s).

(** [s.find(sub)]: index of the first occurrence, or -1. *)
Fixpoint find_at (sub s : pystr) (i : Z) : Z :=
  if startswith sub s then i
  else match s with
       | [] => (-1)%Z
       | _ :: s' => find_at sub s' (i + 1)%Z
       end.
Definition find (sub s : pystr) : Z := find_at sub s 0%Z.

(** [s.rfind(sub)]: index of the last occurrence, or -1. *)
Fixpoint rfind_at (sub s : pystr) (i : Z) (best : Z) : Z :=
  let best' := if startswith sub s then i else best in
  match s with
  | [] => best'
  | _ :: s' => rfind_at sub s' (i + 1)%Z best'
  end.
Definition rfind (sub s : pystr) : Z := rfind_at sub s 0%Z (-1)%Z.

(** [sub in s] *)
Definition contains (sub s : pystr) : bool := (0 <=? find sub s)%Z.

(** [c in s] for a single character. *)
Definition has_char (c : char) (s : pystr) : bool := existsb (N.eqb c) s.

(** [any(w in s for w in ws)] *)
Definition contains_any (ws : list pystr) (s : pystr) : bool :=
  existsb (fun w => contains w s) ws.

(** Slices: [s[:n]], [s[n:]], [s[:-n]], [s[-n:]] and [s[a:b]]. *)
Definition upto (n : nat) (s : pystr) : pystr := firstn n s.
Definition from (n : nat) (s : pystr) : pystr := skipn n s.
Definition drop_last (n : nat) (s : pystr) : pystr := firstn (length s - n) s.
Definition take_last (n : nat) (s : pystr) : pystr := skipn (length s - n) s.
Definition slice (a b : nat) (s : pystr) : pystr := firstn (b - a) (skipn a s).

(** [s.replace(old, new)] for a non-empty [old]: occurrences are found
    left to right and do not overlap.  [skip] counts the characters of
    an occurrence still to be dropped. *)
Fixpoint replace_go (old new : pystr) (skip : nat) (s : pystr) : pystr :=
  match s with
  | [] => []
  | c :: s' =>
    match skip with
    | S k => replace_go old new k s'
    | O => if startswith old s
           then new ++ replace_go old new (length old - 1) s'
           else c :: replace_go old new 0 s'
    end
  end.
Definition replace (old new s : pystr) : pystr := replace_go old new 0 s.

(** [s.count(sub)] for a non-empty [sub]. *)
Fixpoint count_go (sub : pystr) (skip : nat) (s : pystr) : nat :=
  match s with
  | [] => 0
  | _ :: s' =>
    match skip with
    | S k => count_go sub k s'
    | O => if startswith sub s
           then S (count_go sub (length sub - 1) s')
           else count_go sub 0 s'
    end
  end.
Definition count (sub s : pystr) : nat := count_go sub 0 s.

Fixpoint dropwhile (p : char -> bool) (s : pystr) : pystr :=
  match s with
  | [] => []
  | c :: s' => if p c then dropwhile p s' else s
  end.

(** [s.lstrip()], [s.rstrip()], [s.strip()] and the variants with an
    explicit character set. *)
Definition lstrip_by (p : char -> bool) (s : pystr) : pystr := dropwhile p s.
Definition rstrip_by (p : char -> bool) (s : pystr) : pystr :=
  rev (dropwhile p (rev s)).
Definition strip_by (p : char -> bool) (s : pystr) : pystr :=
  rstrip_by p (lstrip_by p s).
Definition lstrip := lstrip_by is_space.
Definition rstrip := rstrip_by is_space.
Definition strip := strip_by is_space.
Definition strip_chars (cs : pystr) := strip_by (fun c => has_char c cs).
Definition rstrip_chars (cs : pystr) := rstrip_by (fun c => has_char c cs).

(** [s.split()]: maximal runs of non-space characters. *)
Fixpoint split_ws_go (cur : pystr) (s : pystr) : list pystr :=
  match s with
  | [] => match cur with [] => [] | _ => [rev cur] end
  | c :: s' =>
    if is_space c
    then match cur with
         | [] => split_ws_go [] s'
         | _ => rev cur :: split_ws_go [] s'
         end
    else split_ws_go (c :: cur) s'
  end.
Definition split_ws (s : pystr) : list pystr := split_ws_go [] s.

(** [s.split(sep)] for a non-empty separator; empty fields are kept. *)
Fixpoint split_go (sep : pystr) (skip : nat) (cur : pystr) (s : pystr)
  : list pystr :=
  match s with
  | [] => [rev cur]
  | c :: s' =>
    match skip with
    | S k => split_go sep k cur s'
    | O => if startswith sep s
           then match length sep with
                | 1%nat => rev cur :: split_go sep 0 [] s'
                | n => rev cur :: split_go sep (n - 1) [] s'
                end
           else split_go sep 0 (c :: cur) s'
    end
  end.
Definition split (sep s : pystr) : list pystr := split_go sep 0 [] s.
Definition splitlines_n (s : pystr) : list pystr := split [10] s.

(** [sep.join(parts)] *)
Fixpoint join (sep : pystr) (parts : list pystr) : pystr :=
  match parts with
  | [] => []
  | [p] => p
  | p :: ps => p ++ sep ++ join sep ps
  end.

(** [s.isdigit()]: non-empty and every character a digit. *)
Definition isdigit (s : pystr) : bool :=
  match s with [] => false | _ => forallb is_digit_char s end.

(** [s.isupper()] and [s.islower()]: at least one cased character and
    none of the other case. *)
Definition isupper (s : pystr) : bool :=
  existsb is_cased s && negb (existsb is_lower_char s).
Definition islower (s : pystr) : bool :=
  existsb is_cased s && negb (existsb is_upper_char s).

(** Truthiness of a string: [if s:]. *)
Definition truthy (s : pystr) : bool :=
  match s with [] => false | _ => true end.

(** Membership of a string in a list or set of strings. *)
Definition mem (s : pystr) (l : list pystr) : bool := existsb (eqb s) l.

(** [s.find(sub, start)] and [s.rfind(sub, 0, stop)] *)
Definition find_from (sub s : pystr) (start : nat) : Z :=
  let r := find sub (skipn start s) in
  if (r <? 0)%Z then (-1)%Z else (r + Z.of_nat start)%Z.
Definition rfind_before (sub s : pystr) (stop : nat) : Z :=
  rfind sub (firstn stop s).

(** The text line around the span [a, b): from the last newline before
    [a] to the first newline at or after [b]. *)
Definition line_around (text : pystr) (a b : nat) : pystr :=
  let start := Z.to_nat (rfind_before [10%N] text a + 1) in
  let stop := find_from [10%N] text b in
  let stop := if (stop =? -1)%Z then length text else Z.to_nat stop in
  slice start stop text.

End Str.

(* ================================================================== *)
(** * The [re] module: a backtracking matcher *)
(* ================================================================== *)

Module Re.

(** ** Patterns *)

Inductive citem : Type :=
| CRange (lo hi : char)
| CDigit | CNotDigit | CSpace | CNotSpace | CWord | CNotWord.

Inductive regex : Type :=
| REps
| RFail
| RSet (neg : bool) (items : list citem)      (* a literal or [...] *)
| RAny                                        (* . *)
| RBol | REol | RWordB                        (* ^ $ \b *)
| RSeq (r1 r2 : regex)
| RAlt (r1 r2 : regex)
| RRep (lo : nat) (hi : option nat) (greedy : bool) (r : regex)
| RGroup (n : nat) (r : regex).

Record flags := { ignorecase : bool; dotall : bool }.
Definition NOFLAGS := {| ignorecase := false; dotall := false |}.
Definition IGNORECASE := {| ignorecase := true; dotall := false |}.
Definition DOTALL := {| ignorecase := false; dotall := true |}.
Definition IGNORECASE_DOTALL := {| ignorecase := true; dotall := true |}.

Definition item_has (c : char) (it : citem) : bool :=
  match it with
  | CRange lo hi => in_range lo hi c
  | CDigit => is_decimal c
  | CNotDigit => negb (is_decimal c)
  | CSpace => is_space c
  | CNotSpace => negb (is_space c)
  | CWord => is_word c
  | CNotWord => negb (is_word c)
  end.

Definition set_has (items : list citem) (c : char) : bool :=
  existsb (item_has c) items.

(** Under IGNORECASE a character matches when it or one of its case
    variants is in the set. *)
Definition set_match (fl : flags) (neg : bool) (items : list citem) (c : char)
  : bool :=
  let hit := set_has items c
             || (ignorecase fl
                 && (set_has items (lower_char c) || set_has items (upper_char c))) in
  xorb neg hit.

(** ** Matching *)

Record st := { pos : nat; prev : option char; rest : pystr;
               caps : list (nat * (nat * nat)) }.

Definition at_word_boundary (s : st) : bool :=
  let before := match prev s with Some c => is_word c | None => false end in
  let after := match rest s with c :: _ => is_word c | [] => false end in
  xorb before after.

Definition at_end (s : st) : bool :=
  match rest s with
  | [] => true
  | [c] => c =? 10
  | _ => false
  end.

Definition step (s : st) : option (char * st) :=
  match rest s with
  | [] => None
  | c :: r => Some (c, {| pos := S (pos s); prev := Some c; rest := r;
                          caps := caps s |})
  end.

Definition orelse {A} (a b : option A) : option A :=
  match a with Some x => Some x | None => b end.

(** The loop of a repetition: [i] iterations done so far, [body] does
    one more.  An iteration that consumes nothing is not repeated once
    the lower bound is met; [fuel] bounds the iterations. *)
Fixpoint rep_loop (body : st -> (st -> option st) -> option st)
  (lo : nat) (hi : option nat) (greedy : bool) (k : st -> option st)
  (fuel i : nat) (s : st) {struct fuel} : option st :=
  let stop := if Nat.leb lo i then k s else None in
  let more :=
    if match hi with Some h => Nat.ltb i h | None => true end then
      match fuel with
      | O => None
      | S f =>
        body s (fun s' =>
          if Nat.ltb (pos s) (pos s') || Nat.ltb i lo
          then rep_loop body lo hi greedy k f (S i) s' else None)
      end
    else None in
  if greedy then orelse more stop else orelse stop more.

(** [run fl r s k]: match [r] at state [s] and continue with [k];
    alternatives are tried in the order of Python's engine (greedy
    repetitions take as much as possible first, lazy ones as little). *)
Fixpoint run (fl : flags) (r : regex) (s : st) (k : st -> option st)
  {struct r} : option st :=
  match r with
  | REps => k s
  | RFail => None
  | RSet neg items =>
      match step s with
      | Some (c, s') => if set_match fl neg items c then k s' else None
      | None => None
      end
  | RAny =>
      match step s with
      | Some (c, s') => if dotall fl || negb (c =? 10) then k s' else None
      | None => None
      end
  | RBol => if Nat.eqb (pos s) 0 then k s else None
  | REol => if at_end s then k s else None
  | RWordB => if at_word_boundary s then k s else None
  | RSeq r1 r2 => run fl r1 s (fun s' => run fl r2 s' k)
  | RAlt r1 r2 => orelse (run fl r1 s k) (run fl r2 s k)
  | RGroup n r1 =>
      run fl r1 s (fun s' =>
        k {| pos := pos s'; prev := prev s'; rest := rest s';
             caps := (n, (pos s, pos s')) :: caps s' |})
  | RRep lo hi greedy r1 =>
      rep_loop (run fl r1) lo hi greedy k (length (rest s) + lo + 1)%nat O s
  end.

(** ** Match objects *)

Record mobj := { m_text : pystr; m_start : nat; m_end : nat;
                 m_caps : list (nat * (nat * nat)) }.

Fixpoint lookup_cap (n : nat) (cs : list (nat * (nat * nat)))
  : option (nat * nat) :=
  match cs with
  | [] => None
  | (i, se) :: cs' => if Nat.eqb i n then Some se else lookup_cap n cs'
  end.

(** [m.group(n)]; [None] when the group took no part in the match. *)
Definition group_opt (n : nat) (m : mobj) : option pystr :=
  match n with
  | O => Some (Str.slice (m_start m) (m_end m) (m_text m))
  | _ => match lookup_cap n (m_caps m) with
         | Some (a, b) => Some (Str.slice a b (m_text m))
         | None => None
         end
  end.

(** [m.group(n)] for a group that always takes part; also what
    [findall] reports (an absent group is the empty string). *)
Definition group (n : nat) (m : mobj) : pystr :=
  match group_opt n m with Some g => g | None => [] end.

(** [m.start(n)] and [m.end(n)]. *)
Definition start_of (n : nat) (m : mobj) : nat :=
  match n with
  | O => m_start m
  | _ => match lookup_cap n (m_caps m) with Some (a, _) => a | None => 0%nat end
  end.
Definition end_of (n : nat) (m : mobj) : nat :=
  match n with
  | O => m_end m
  | _ => match lookup_cap n (m_caps m) with Some (_, b) => b | None => 0%nat end
  end.

(** [m.lastindex]: the index of the capturing group closed last. *)
Definition lastindex (m : mobj) : option nat :=
  match m_caps m with
  | [] => None
  | (i, _) :: _ => Some i
  end.

(** Try to match at [start]; [must_advance] forbids an empty match. *)
Definition match_at (fl : flags) (r : regex) (text : pystr) (start : nat)
  (prev0 : option char) (rest0 : pystr) (must_advance : bool) : option mobj :=
  let s0 := {| pos := start; prev := prev0; rest := rest0; caps := [] |} in
  match run fl r s0 (fun s' =>
          if must_advance && Nat.eqb (pos s') start then None else Some s') with
  | Some s' => Some {| m_text := text; m_start := start; m_end := pos s';
                       m_caps := caps s' |}
  | None => None
  end.

(** Leftmost match at or after the current position. *)
Fixpoint scan (fl : flags) (r : regex) (text : pystr) (start : nat)
  (prev0 : option char) (rest0 : pystr) (must_advance : bool) : option mobj :=
  match match_at fl r text start prev0 rest0 must_advance with
  | Some m => Some m
  | None =>
    match rest0 with
    | [] => None
    | c :: rest1 => scan fl r text (S start) (Some c) rest1 false
    end
  end.

(** [re.match(r, text, flags)] *)
Definition rmatch (fl : flags) (r : regex) (text : pystr) : option mobj :=
  match_at fl r text 0 None text false.

(** [re.search(r, text, flags)] *)
Definition search (fl : flags) (r : regex) (text : pystr) : option mobj :=
  scan fl r text 0 None text false.

Definition last_char (s : pystr) : option char :=
  match rev s with c :: _ => Some c | [] => None end.

(** [re.finditer]: successive non-overlapping matches; after an empty
    match the next one at the same place has to advance. *)
Fixpoint finditer_go (fuel : nat) (fl : flags) (r : regex) (text : pystr)
  (start : nat) (must_advance : bool) : list mobj :=
  match fuel with
  | O => []
  | S f =>
    if Nat.ltb (length text) start then []
    else
      match scan fl r text start (last_char (firstn start text))
                 (skipn start text) must_advance with
      | None => []
      | Some m =>
          m :: finditer_go f fl r text (m_end m) (Nat.eqb (m_end m) (m_start m))
      end
  end.
Definition finditer (fl : flags) (r : regex) (text : pystr) : list mobj :=
  finditer_go (length text + 2) fl r text 0 false.

(** [re.findall] for patterns with no group, with one group, and with
    several groups (the tuple is given as a list). *)
Definition findall0 (fl : flags) (r : regex) (text : pystr) : list pystr :=
  map (group 0) (finditer fl r text).
Definition findall1 (fl : flags) (r : regex) (text : pystr) : list pystr :=
  map (group 1) (finditer fl r text).
Definition findall_groups (n : nat) (fl : flags) (r : regex) (text : pystr)
  : list (list pystr) :=
  map (fun m => map (fun i => group i m) (seq 1 n)) (finditer fl r text).

(** [re.sub(r, repl, text)] where [repl] is computed from the match. *)
Fixpoint sub_go (repl : mobj -> pystr) (text : pystr) (from : nat)
  (ms : list mobj) : pystr :=
  match ms with
  | [] => skipn from text
  | m :: ms' =>
      Str.slice from (m_start m) text ++ repl m ++ sub_go repl text (m_end m) ms'
  end.
Definition sub_with (fl : flags) (r : regex) (repl : mobj -> pystr)
  (text : pystr) : pystr :=
  sub_go repl text 0 (finditer fl r text).
Definition sub (fl : flags) (r : regex) (repl : pystr) (text : pystr) : pystr :=
  sub_with fl r (fun _ => repl) text.

(** [re.split(r, text)] for a pattern without groups. *)
Fixpoint split_go (text : pystr) (from : nat) (ms : list mobj) : list pystr :=
  match ms with
  | [] => [skipn from text]
  | m :: ms' => Str.slice from (m_start m) text :: split_go text (m_end m) ms'
  end.
Definition split (fl : flags) (r : regex) (text : pystr) : list pystr :=
  split_go text 0 (finditer fl r text).

End Re.

(* ================================================================== *)
(** * Reading pattern strings *)
(* ================================================================== *)

Module Pattern.
Import Re.

Definition isc (a : ascii) (c : char) : bool := c =? chr a.
Arguments isc a%_char c.

Definition lit (c : char) : regex := RSet false [CRange c c].

Definition hex_val (c : char) : option N :=
  if in_range 48 57 c then Some (c - 48)
  else if in_range 97 102 c then Some (c - 87)
  else if in_range 65 70 c then Some (c - 55)
  else None.

Fixpoint hex_digits (n : nat) (acc : N) (s : pystr) : option (N * pystr) :=
  match n with
  | O => Some (acc, s)
  | S n' =>
    match s with
    | c :: s' =>
      match hex_val c with
      | Some v => hex_digits n' (acc * 16 + v) s'
      | None => None
      end
    | [] => None
    end
  end.

(** The class or character denoted by the escape [\c]. *)
Definition escape_item (c : char) (s : pystr) : option (citem * pystr) :=
  if isc "d" c then Some (CDigit, s)
  else if isc "D" c then Some (CNotDigit, s)
  else if isc "s" c then Some (CSpace, s)
  else if isc "S" c then Some (CNotSpace, s)
  else if isc "w" c then Some (CWord, s)
  else if isc "W" c then Some (CNotWord, s)
  else if isc "n" c then Some (CRange 10 10, s)
  else if isc "t" c then Some (CRange 9 9, s)
  else if isc "r" c then Some (CRange 13 13, s)
  else if isc "u" c then
    match hex_digits 4 0 s with
    | Some (v, s') => Some (CRange v v, s')
    | None => None
    end
  else if isc "x" c then
    match hex_digits 2 0 s with
    | Some (v, s') => Some (CRange v v, s')
    | None => None
    end
  else if is_word c then None
  else Some (CRange c c, s).

(** The items of a bracketed set, up to the closing bracket. *)
Fixpoint class_items (fuel : nat) (s : pystr) : option (list citem * pystr) :=
  match fuel with
  | O => None
  | S f =>
    match s with
    | [] => None
    | c :: s1 =>
      if isc "]" c then Some ([], s1)
      else
        let first :=
          if isc "\" c then
            match s1 with
            | e :: s2 => escape_item e s2
            | [] => None
            end
          else Some (CRange c c, s1) in
        match first with
        | None => None
        | Some (CRange lo _, d :: hi :: s3) =>
            if isc "-" d && negb (isc "]" hi) && negb (isc "\" hi) then
              match class_items f s3 with
              | Some (its, s4) => Some (CRange lo hi :: its, s4)
              | None => None
              end
            else
              match class_items f (d :: hi :: s3) with
              | Some (its, s4) => Some (CRange lo lo :: its, s4)
              | None => None
              end
        | Some (it, s2) =>
            match class_items f s2 with
            | Some (its, s4) => Some (it :: its, s4)
            | None => None
            end
        end
    end
  end.

Fixpoint number (acc : nat) (seen : bool) (fuel : nat) (s : pystr)
  : option (nat * pystr) :=
  match fuel with
  | O => None
  | S f =>
    match s with
    | c :: s' =>
      if in_range 48 57 c
      then number (acc * 10 + N.to_nat (c - 48)) true f s'
      else if seen then Some (acc, s) else None
    | [] => if seen then Some (acc, s) else None
    end
  end.

(** A counted repetition [{m}], [{m,}] or [{m,n}] after the brace. *)
Definition braces (s : pystr) : option (nat * option nat * pystr) :=
  match number 0 false (length s + 1) s with
  | Some (lo, c :: s1) =>
    if isc "}" c then Some (lo, Some lo, s1)
    else if isc "," c then
      match s1 with
      | c2 :: s2 =>
        if isc "}" c2 then Some (lo, None, s2)
        else
          match number 0 false (length s1 + 1) s1 with
          | Some (hi, c3 :: s3) =>
              if isc "}" c3 then Some (lo, Some hi, s3) else None
          | _ => None
          end
      | [] => None
      end
    else None
  | _ => None
  end.

Definition lazy_suffix (lo : nat) (hi : option nat) (r : regex) (s : pystr)
  : regex * pystr :=
  match s with
  | c :: s' => if isc "?" c then (RRep lo hi false r, s')
               else (RRep lo hi true r, s)
  | [] => (RRep lo hi true r, s)
  end.

(** The quantifier, if any, that follows an atom. *)
Definition quantified (r : regex) (s : pystr) : regex * pystr :=
  match s with
  | c :: s1 =>
    if isc "*" c then lazy_suffix 0 None r s1
    else if isc "+" c then lazy_suffix 1 None r s1
    else if isc "?" c then lazy_suffix 0 (Some 1%nat) r s1
    else if isc "{" c then
      match braces s1 with
      | Some (lo, hi, s2) => lazy_suffix lo hi r s2
      | None => (r, s)
      end
    else (r, s)
  | [] => (r, s)
  end.

(** Recursive descent over alternatives, sequences and atoms; [g] is
    the number of capturing groups opened so far. *)
Fixpoint alternatives (fuel : nat) (s : pystr) (g : nat)
  : option (regex * pystr * nat) :=
  match fuel with
  | O => None
  | S f =>
    match sequence f s g with
    | Some (r, c :: s1, g1) =>
      if isc "|" c then
        match alternatives f s1 g1 with
        | Some (r2, s2, g2) => Some (RAlt r r2, s2, g2)
        | None => None
        end
      else Some (r, c :: s1, g1)
    | other => other
    end
  end
with sequence (fuel : nat) (s : pystr) (g : nat)
  : option (regex * pystr * nat) :=
  match fuel with
  | O => None
  | S f =>
    match s with
    | [] => Some (REps, s, g)
    | c :: _ =>
      if isc ")" c || isc "|" c then Some (REps, s, g)
      else
        match atom f s g with
        | Some (a, s1, g1) =>
          let '(a', s2) := quantified a s1 in
          match sequence f s2 g1 with
          | Some (REps, s3, g3) => Some (a', s3, g3)
          | Some (r, s3, g3) => Some (RSeq a' r, s3, g3)
          | None => None
          end
        | None => None
        end
    end
  end
with atom (fuel : nat) (s : pystr) (g : nat)
  : option (regex * pystr * nat) :=
  match fuel with
  | O => None
  | S f =>
    match s with
    | [] => None
    | c :: s1 =>
      if isc "(" c then
        match s1 with
        | q :: k :: s2 =>
          if isc "?" q && isc ":" k then
            match alternatives f s2 g with
            | Some (r, e :: s3, g3) =>
                if isc ")" e then Some (r, s3, g3) else None
            | _ => None
            end
          else
            match alternatives f s1 (S g) with
            | Some (r, e :: s3, g3) =>
                if isc ")" e then Some (RGroup (S g) r, s3, g3) else None
            | _ => None
            end
        | _ =>
            match alternatives f s1 (S g) with
            | Some (r, e :: s3, g3) =>
                if isc ")" e then Some (RGroup (S g) r, s3, g3) else None
            | _ => None
            end
        end
      else if isc "[" c then
        match s1 with
        | n :: s2 =>
          if isc "^" n then
            match class_items (length s2 + 1) s2 with
            | Some (its, s3) => Some (RSet true its, s3, g)
            | None => None
            end
          else
            match class_items (length s1 + 1) s1 with
            | Some (its, s3) => Some (RSet false its, s3, g)
            | None => None
            end
        | [] => None
        end
      else if isc "\" c then
        match s1 with
        | e :: s2 =>
          if isc "b" e then Some (RWordB, s2, g)
          else
            match escape_item e s2 with
            | Some (it, s3) => Some (RSet false [it], s3, g)
            | None => None
            end
        | [] => None
        end
      else if isc "." c then Some (RAny, s1, g)
      else if isc "^" c then Some (RBol, s1, g)
      else if isc "$" c then Some (REol, s1, g)
      else if isc "*" c || isc "+" c || isc "?" c then None
      else Some (lit c, s1, g)
    end
  end.

(** [re.compile]: the pattern of a source literal.  A literal the
    reader cannot parse yields [RFail], which matches nothing. *)
Definition compile (p : pystr) : regex :=
  match alternatives (2 * length p + 4) p 0 with
  | Some (r, [], _) => r
  | _ => RFail
  end.

Definition re (p : string) : regex := compile (py p).

Definition well_formed (r : regex) : bool :=
  match r with RFail => false | _ => true end.

End Pattern.

(* ================================================================== *)
(** * Numbers: [int()], [str()], format specs and floats *)
(* ================================================================== *)

Module PyNum.

#[local] Open Scope Z_scope.

(** ** The limit on conversions between [int] and decimal text

    CPython 3.11 and later refuses, with [ValueError], to convert a
    decimal string of more than [sys.get_int_max_str_digits()] digits
    to an [int], and an [int] of more than that many decimal digits to
    text.  The default is 4300 and the program never changes it. *)
Definition MAX_STR_DIGITS : Z := 4300.

(** The digit characters of a string: what the limit counts (signs and
    underscores are not counted, leading zeros are). *)
Definition count_digits (s : pystr) : nat :=
  length (filter is_decimal s).

(** ** [int(s)] on a string

    Surrounding white space is dropped, one sign is allowed, and the
    digits may be separated by single underscores.  [None] stands for
    [ValueError], which is also what a string of more than
    [MAX_STR_DIGITS] digits gives.  Integers are unbounded. *)
Fixpoint int_digits (acc : Z) (after_digit : bool) (s : pystr) : option Z :=
  match s with
  | [] => if after_digit then Some acc else None
  | c :: r =>
    match decimal_value c with
    | Some d => int_digits (acc * 10 + Z.of_N d) true r
    | None => if N.eqb c 95 && after_digit then int_digits acc false r else None
    end
  end.

Definition int_of_str (s : pystr) : option Z :=
  match Str.strip s with
  | [] => None
  | c :: r =>
    if MAX_STR_DIGITS <? Z.of_nat (count_digits (c :: r)) then None
    else if N.eqb c 45 then option_map Z.opp (int_digits 0 false r)
    else if N.eqb c 43 then int_digits 0 false r
    else int_digits 0 false (c :: r)
  end.

(** ** [str(n)] and the format specs [','] and [',.0f'] *)

(** Decimal digits of a natural number, least significant first. *)
Fixpoint rev_digits (fuel : nat) (n : N) : pystr :=
  match fuel with
  | O => []
  | S f =>
    if (n <? 10)%N then [(48 + n)%N]
    else (48 + n mod 10)%N :: rev_digits f (n / 10)%N
  end.

Definition digits (n : N) : pystr := rev (rev_digits (S (N.size_nat n)) n).

(** The number of decimal digits of [n]. *)
Definition decimal_length (n : Z) : Z := Z.of_nat (length (digits (Z.abs_N n))).

(** [str(n)], for an integer of at most [MAX_STR_DIGITS] digits. *)
Definition str_of_int (n : Z) : pystr :=
  match n with
  | Zneg p => 45%N :: digits (Npos p)
  | _ => digits (Z.to_N n)
  end.

(** Insert [sep] between groups of three digits, counting from the
    least significant digit; the argument is least significant first. *)
Fixpoint group3_rev (sep : char) (ds : pystr) : pystr :=
  match ds with
  | a :: b :: c :: ((_ :: _) as more) => a :: b :: c :: sep :: group3_rev sep more
  | _ => ds
  end.

Definition grouped (sep : char) (n : N) : pystr :=
  rev (group3_rev sep (rev_digits (S (N.size_nat n)) n)).

(** The sign and the digits of [n] with a comma between groups of
    three digits. *)
Definition comma_text (n : Z) : pystr :=
  match n with
  | Zneg p => 45%N :: grouped 44%N (Npos p)
  | _ => grouped 44%N (Z.to_N n)
  end.

(** [f"{n:,}"] for an integer: [comma_text n], and [None], for
    [ValueError], when [n] has more than [MAX_STR_DIGITS] digits. *)
Definition format_comma (n : Z) : option pystr :=
  if MAX_STR_DIGITS <? decimal_length n then None else Some (comma_text n).

(** ** binary64 floats *)

Definition float := spec_float.
Definition prec := 53.
Definition emax := 1024.

(** [float(n)] for an integer; [None] is [OverflowError]. *)
Definition float_of_int (n : Z) : option float :=
  match binary_normalize prec emax n 0 false with
  | S754_finite s m e => Some (S754_finite s m e)
  | S754_zero s => Some (S754_zero s)
  | _ => None
  end.

(** True division [a / b] of two integers: the quotient is rounded
    once, to the nearest float.  [None] is [ZeroDivisionError] or
    [OverflowError]. *)
Definition int_truediv (a b : Z) : option float :=
  let sign z := match z with Zneg _ => true | _ => false end in
  match a, b with
  | _, Z0 => None
  | Z0, _ => Some (S754_zero false)
  | _, _ =>
    match Z.abs a, Z.abs b with
    | Zpos ma, Zpos mb =>
      let '(mz, ez, lz) := SFdiv_core_binary prec emax (Zpos ma) 0 (Zpos mb) 0 in
      match binary_round_aux prec emax (xorb (sign a) (sign b)) mz ez lz with
      | S754_infinity _ | S754_nan => None
      | f => Some f
      end
    | _, _ => None
    end
  end.

Definition fmul : float -> float -> float := SFmul prec emax.
Definition fdiv : float -> float -> float := SFdiv prec emax.
Definition fsub : float -> float -> float := SFsub prec emax.
Definition fabs : float -> float := SFabs.
Definition fltb : float -> float -> bool := SFltb.
Definition fleb : float -> float -> bool := SFleb.
Definition feqb : float -> float -> bool := SFeqb.

(** [int * float], [int / float], ...: the integer operand is converted
    first. *)
Definition of_int_exact (n : Z) : float :=
  match float_of_int n with Some f => f | None => S754_infinity (n <? 0) end.

(** The float denoted by the decimal literal [num / 10^scale], rounded
    once (as the parser of float literals and [float(s)] do). *)
Definition float_of_decimal (num : Z) (scale : nat) : float :=
  match num with
  | Z0 => S754_zero false
  | Zpos m =>
      let '(mz, ez, lz) :=
        SFdiv_core_binary prec emax (Zpos m) 0 (10 ^ Z.of_nat scale) 0 in
      binary_round_aux prec emax false mz ez lz
  | Zneg m =>
      let '(mz, ez, lz) :=
        SFdiv_core_binary prec emax (Zpos m) 0 (10 ^ Z.of_nat scale) 0 in
      binary_round_aux prec emax true mz ez lz
  end.

(** [round(x)]: the nearest integer, ties to even.  [None] for
    infinities and NaN, where Python raises. *)
Definition round_half_even (num den : Z) : Z :=
  let q := num / den in
  let r := num mod den in
  match Z.compare (2 * r) den with
  | Lt => q
  | Gt => q + 1
  | Eq => if Z.even q then q else q + 1
  end.

Definition round_float (x : float) : option Z :=
  match x with
  | S754_zero _ => Some 0
  | S754_finite s m e =>
      let mag := if 0 <=? e then Zpos m * 2 ^ e
                 else round_half_even (Zpos m) (2 ^ (- e)) in
      Some (if s then - mag else mag)
  | _ => None
  end.

(** [round(x, 2)]: [x] rounded to two decimals (ties to even on the
    exact binary value), as the float nearest to that decimal. *)
Definition round2_float (x : float) : option float :=
  match x with
  | S754_zero s => Some x
  | S754_finite s m e =>
      let hundredths :=
        if 0 <=? e then Zpos m * 2 ^ e * 100
        else round_half_even (Zpos m * 100) (2 ^ (- e)) in
      Some (float_of_decimal (if s then - hundredths else hundredths) 2)
  | _ => None
  end.

(** [f"{x:,.0f}"] for a float: the nearest integer (ties to even) with
    comma grouping.  Infinities and NaN print as words.  Formatting a
    float does not go through an [int], and a binary64 float has at
    most 309 digits before the point: the digit limit plays no part. *)
Definition format_comma_0f (x : float) : pystr :=
  match round_float x with
  | Some n =>
      match x, n with
      | S754_zero true, _ | S754_finite true _ _, 0 => 45%N :: grouped 44%N 0
      | _, _ => comma_text n
      end
  | None =>
      match x with
      | S754_infinity false => py "inf"
      | S754_infinity true => py "-inf"
      | _ => py "nan"
      end
  end.

(** ** [float(s)] on a string

    A decimal literal with optional fraction and exponent, or one of
    the words [inf], [infinity], [nan].  [None] is [ValueError]. *)
Fixpoint take_digits (acc : Z) (cnt : nat) (s : pystr) : Z * nat * pystr :=
  match s with
  | c :: r =>
    match decimal_value c with
    | Some d => take_digits (acc * 10 + Z.of_N d) (S cnt) r
    | None =>
      if N.eqb c 95 && Nat.ltb 0 cnt then
        match r with
        | c2 :: r2 =>
          match decimal_value c2 with
          | Some d2 => take_digits (acc * 10 + Z.of_N d2) (S cnt) r2
          | None => (acc, cnt, s)
          end
        | [] => (acc, cnt, s)
        end
      else (acc, cnt, s)
    end
  | [] => (acc, cnt, s)
  end.

(** The float nearest to [num * 10^e10]. *)
Definition float_of_scaled (neg : bool) (num : Z) (e10 : Z) : float :=
  match num with
  | Zpos m =>
      let '(n, d) := if 0 <=? e10 then (Zpos m * 10 ^ e10, 1)
                     else (Zpos m, 10 ^ (- e10)) in
      let '(mz, ez, lz) := SFdiv_core_binary prec emax n 0 d 0 in
      binary_round_aux prec emax neg mz ez lz
  | _ => S754_zero neg
  end.

Definition exponent_part (s : pystr) : option Z :=
  match s with
  | [] => Some 0
  | c :: r =>
    if N.eqb c 101 || N.eqb c 69 then
      let '(neg, r1) :=
        match r with
        | sg :: r' => if N.eqb sg 45 then (true, r')
                      else if N.eqb sg 43 then (false, r') else (false, r)
        | [] => (false, r)
        end in
      match take_digits 0 0 r1 with
      | (_, O, _) => None
      | (e, _, []) => Some (if neg then - e else e)
      | _ => None
      end
    else None
  end.

Definition float_of_str (s : pystr) : option float :=
  match Str.strip s with
  | [] => None
  | c :: r =>
    let '(neg, body) :=
      if N.eqb c 45 then (true, r)
      else if N.eqb c 43 then (false, r) else (false, c :: r) in
    let word := lower body in
    if Str.eqb word (py "inf") || Str.eqb word (py "infinity")
    then Some (S754_infinity neg)
    else if Str.eqb word (py "nan") then Some S754_nan
    else
      let '(ip, ic, r1) := take_digits 0 0 body in
      let '(num, fc, r2) :=
        match r1 with
        | d :: r1' => if N.eqb d 46 then take_digits ip 0 r1' else (ip, O, r1)
        | [] => (ip, O, r1)
        end in
      match (ic + fc)%nat with
      | O => None
      | _ =>
        match exponent_part r2 with
        | Some e => Some (float_of_scaled neg num (e - Z.of_nat fc))
        | None => None
        end
      end
  end.

End PyNum.

(* ================================================================== *)
(** * extract_invoices.py: module-level tables and helpers *)
(* ================================================================== *)

Import Pattern.
#[local] Open Scope string_scope.
#[local] Open Scope list_scope.

Definition dot : pystr := [46%N].
Definition comma : pystr := [44%N].
Definition space : pystr := [32%N].
Definition newline : pystr := [10%N].
Definition empty : pystr := [].

Definition COMMON_UNITS : list pystr := Eval vm_compute in map py
  [ "CÁI"; "CHIẾC"; "BỘ"; "GÓI"; "HỘP"; "THÙNG"; "BAO"; "CHAI"; "LON"; "LÍT";
    "LIT"; "KG"; "GRAM"; "GM"; "MÉT";
    "M"; "M2"; "M3"; "CUỘN"; "TẤM"; "THANH"; "VIÊN"; "VỈ"; "TỜ"; "QUYỂN";
    "CUỐN"; "RAM"; "CẶP"; "ĐÔI";
    "DĨA"; "ĐĨA"; "PHẦN"; "THỐ"; "TÔ"; "CHÉN"; "LY"; "CỐC"; "SUẤT"; "KIM";
    "CHẬU"; "CÂY"; "GIỜ"; "NGÀY"; "THÁNG";
    "NĂM"; "LẦN"; "CHUYẾN"; "LƯỢT"; "PHÚT"; "KW"; "KWH"; "SỐ"; "MÓN"; "KỆ";
    "BỊCH"; "NỒI"; "CON"; "PCS"; "NGƯỜI" ].

Definition JUNK_TEXT_KEYWORDS : list pystr := Eval vm_compute in map py
  [ "stt"; "tên hàng"; "đơn vị tính"; "số lượng"; "thành tiền"; "người mua";
    "ký bởi"; "trang"; "thuế suất"; "cộng tiền"; "tổng cộng"; "bằng chữ";
    "tiền thuế"; "serial"; "ký hiệu"; "mẫu số"; "vnd"; "chuyển khoản";
    "vat invoice"; "đơn vị bán"; "mã tra cứu"; "vat) rate)"; "vat rate";
    "gtgt"; "rate)"; "amount)"; "rate%)"; "tên h"; "đơ n v"; "s ố l";
    "vị tính"; "sau thuế"; "chiết khấu"; "a b c" ].

Definition SURCHARGE_KEYWORDS : list pystr := Eval vm_compute in map py
  [ "phụ thu"; "phí dịch vụ"; "phí phục vụ"; "service charge"; "surcharge" ].

Definition RE_DECIMAL_2 : Re.regex := Eval vm_compute in re "[,.]\d{2}$".
Definition RE_DECIMAL_3 : Re.regex := Eval vm_compute in re "[,.]\d{3}$".

Definition found (m : option Re.mobj) : bool :=
  match m with Some _ => true | None => false end.

(** The shared front of every money parser of the file: cut the
    decimal part.  With both separators the later one is the decimal
    point; with one kind only, a two-digit (and not three-digit) tail is
    a decimal suffix. *)
Definition cut_decimals (s : pystr) : pystr :=
  if Str.contains dot s && Str.contains comma s then
    let last_dot := Str.rfind dot s in
    let last_comma := Str.rfind comma s in
    if (last_dot <? last_comma)%Z
    then Str.upto (Z.to_nat last_comma) s
    else Str.upto (Z.to_nat last_dot) s
  else
    if found (Re.search Re.NOFLAGS RE_DECIMAL_2 s)
       && negb (found (Re.search Re.NOFLAGS RE_DECIMAL_3 s))
    then Str.drop_last 3 s
    else s.

(** [parse_money(value)] (module level): "Returns None if invalid". *)
Definition parse_money (value : pystr) : option Z :=
  if negb (Str.truthy value) then None
  else
    let s := cut_decimals (Str.strip value) in
    let clean := Str.replace comma empty (Str.replace dot empty s) in
    PyNum.int_of_str clean.

(** [format_money(value)] (module level): comma separated.  The
    result [None] stands for the [ValueError] of [f"{value:,}"], which
    the function does not catch. *)
Definition format_money (value : option Z) : option pystr :=
  match value with
  | None => Some empty
  | Some n => PyNum.format_comma n
  end.

(** [format_price_value(value)]: re-format a price with commas; a
    value that does not parse is returned unchanged, and so is one that
    [f"{num:,}"] refuses (the bare [except] covers both). *)
Definition format_price_value (value : pystr) : pystr :=
  if negb (Str.truthy value) then value
  else
    let value := Str.strip value in
    let s := Str.strip value in
    let s :=
      if Str.contains dot s && Str.contains comma s then
        if (Str.rfind dot s <? Str.rfind comma s)%Z
        then Str.upto (Z.to_nat (Str.rfind comma s)) s
        else Str.upto (Z.to_nat (Str.rfind dot s)) s
      else if found (Re.search Re.NOFLAGS RE_DECIMAL_2 s)
              && negb (found (Re.search Re.NOFLAGS RE_DECIMAL_3 s))
      then Str.drop_last 3 s
      else s in
    let clean := Str.replace comma empty (Str.replace dot empty s) in
    match PyNum.int_of_str clean with
    | Some num =>
        match PyNum.format_comma num with
        | Some formatted => formatted
        | None => value
        end
    | None => value
    end.

Definition RE_SPACED_CAPS : Re.regex := Eval vm_compute in re "^([A-Z]\s+)+[A-Z]$".
Definition RE_DIGITS_OPS : Re.regex := Eval vm_compute in re "^[\d\s()=x+]+$".

(** [is_junk_text(text)]: header, footer and summary lines. *)
Definition is_junk_text (text : pystr) : bool :=
  if negb (Str.truthy text) || Nat.ltb (length text) 2 then true
  else
    let t := lower text in
    if found (Re.rmatch Re.NOFLAGS RE_SPACED_CAPS text) then true
    else if found (Re.rmatch Re.NOFLAGS RE_DIGITS_OPS text) then true
    else if Str.contains_any JUNK_TEXT_KEYWORDS t then true
    else if Nat.ltb 50 (length t)
            && Nat.ltb 4 (length (filter (fun c => Str.has_char c (py "()")) t))
    then true
    else false.

(** [parse_vietnamese_number(value)]: dot for thousands, comma for the
    decimals; 0 when the text is no number. *)
Definition parse_vietnamese_number (value : pystr) : PyNum.float :=
  if negb (Str.truthy value) then S754_zero false
  else
    match PyNum.float_of_str (Str.replace comma dot (Str.replace dot empty value)) with
    | Some f => f
    | None => S754_zero false
    end.

(** [clean_string_value(val)]: drop control characters and squeeze
    white space. *)
Definition clean_string_value (val : pystr) : pystr :=
  let val := Str.replace [9%N] space
               (Str.replace [173%N] empty (Str.replace [13%N] empty val)) in
  Str.join space (Str.split_ws val).

(* ================================================================== *)
(** * The line-item extractor: [extract_services_from_text] *)
(* ================================================================== *)

Module Services.

Record service := {
  name : pystr; qty : pystr; unit_price : pystr; amount : pystr;
  tax_rate : option pystr }.

Definition RE_HEADER_NUMS := Eval vm_compute in re "^[\d\s.,|()x=+]+$".
Definition RE_CAPS_NUMS := Eval vm_compute in re "^[A-Z\s]+[\d\s=x]+$".
Definition RE_STT := Eval vm_compute in re "^(\d{1,3})[._\-\s|]+".
Definition RE_NUM := Eval vm_compute in re "(\d+(?:[.,]\d+)*)".
Definition RE_RATE := Eval vm_compute in re "\b(0|5|8|10)\s*%".
Definition RE_NUM_PLAIN := Eval vm_compute in re "\d+(?:[.,]\d+)*".
Definition RE_YEAR_TOKEN := Eval vm_compute in re "^\d{4}$".
Definition RE_LEADING_NUM := Eval vm_compute in re "^\d+\s+".
Definition RE_ANY_DIGIT := Eval vm_compute in re "\d".
Definition RE_DATE := Eval vm_compute in re "\d{1,2}[/-]\d{1,2}[/-]\d{2,4}".
Definition RE_PRICE_NUM := Eval vm_compute in re "\d{1,3}(?:[.,]\d{3})+(?:[.,]\d{2})?".
Definition RE_LONG_NUM := Eval vm_compute in re "\b\d{4,}\b".
Definition RE_LATIN := Eval vm_compute in re "[a-zA-Z]".
Definition RE_DATE_WORD := Eval vm_compute in re "(ngày|từ|đến|tháng|năm)".
Definition RE_STT_NEXT := Eval vm_compute in re "^\d{1,3}[._\-\s|]+".
Definition RE_DATE_SPACED :=
  Eval vm_compute in re "\d{1,2}\s*[/-]\s*\d{1,2}\s*[/-]\s*\d{2,4}".
Definition RE_VIETNAMESE := Eval vm_compute in
  re "[àáạảãâầấậẩẫăằắặẳẵèéẹẻẽêềếệểễìíịỉĩòóọỏõôồốộổỗơờớợởỡùúụủũưừứựửữỳýỵỷỹđ]".
Definition RE_ABC_PREFIX := Eval vm_compute in re "^(?:[A-C]\s)+[\d\s=x]+".
Definition RE_NUM_PREFIX := Eval vm_compute in re "^[\d\s=x+]+(\s|$)".
Definition RE_OPS_TAIL := Eval vm_compute in re "\s+[\-\+]\s*[\d\s=x\+\-]+$".
Definition RE_TRAILING := Eval vm_compute in re "(\S+)\s+(\d+[\s.,\d]*)$".
Definition RE_ONLY_DIGITS := Eval vm_compute in re "^[\d\s]+$".
Definition RE_ONLY_SYMBOLS := Eval vm_compute in re "^[\d\s=x\+\-\.,()\[\]]+$".

Definition SUMMARY_WORDS : list pystr := Eval vm_compute in map py
  [ "cộng tiền"; "tổng cộng"; "thuế"; "thành tiền" ].

Definition prefixes_to_remove : list pystr := Eval vm_compute in map py
  [ "GTGT"; "VAT) rate)"; "VAT rate"; "Rate)"; "A B C"; "khấu"; "KHẤU";
    "Phần）"; "Phần)"; "PHẦN）"; "PHẦN)"; "ĐVT:"; "ĐVT" ].

Definition price_keywords : list pystr := Eval vm_compute in map py
  [ "giá"; "gia"; "mệnh"; "số"; "phòng"; "room"; "no"; "no." ].

Definition THANH : pystr := Eval vm_compute in py "THANH".
Definition lparen : pystr := Eval vm_compute in py "(".
Definition rparen : pystr := Eval vm_compute in py ")".
Definition wide_lparen : pystr := Eval vm_compute in py "（".
Definition wide_rparen : pystr := Eval vm_compute in py "）".

Definition is_unit (tok : pystr) : bool := Str.mem (upper tok) COMMON_UNITS.

Definition nth_str (i : nat) (l : list pystr) : pystr := nth i l empty.

(** The loop [for i in range(len(tokens) - 1, -1, -1)]: the last unit
    word (never THANH) that still has a number after it. *)
Fixpoint last_unit_index (i : nat) (tokens : list pystr) : option nat :=
  match tokens with
  | [] => None
  | tok :: after =>
    match last_unit_index (S i) after with
    | Some j => Some j
    | None =>
      if is_unit tok && negb (Str.eqb (upper tok) THANH)
         && found (Re.search Re.NOFLAGS RE_NUM_PLAIN (Str.join space after))
      then Some i else None
    end
  end.

Fixpoint dropwhile_tok (p : pystr -> bool) (l : list pystr) : list pystr :=
  match l with
  | [] => []
  | t :: l' => if p t then dropwhile_tok p l' else l
  end.

(** [while tokens and tokens[-1].upper() in COMMON_UNITS] *)
Definition drop_trailing_unit_tokens (tokens : list pystr) : list pystr :=
  rev (dropwhile_tok is_unit (rev tokens)).

(** [while tokens and tokens[0].upper() in COMMON_UNITS and ... != "THANH"] *)
Definition drop_leading_unit_tokens (tokens : list pystr) : list pystr :=
  dropwhile_tok (fun t => is_unit t && negb (Str.eqb (upper t) THANH)) tokens.

(** The loop over COMMON_UNITS that cuts a long unit glued to the end
    of the last token.  The set is walked in the order it is written. *)
Fixpoint cut_glued_unit (units : list pystr) (last : pystr) : option pystr :=
  match units with
  | [] => None
  | unit :: units' =>
    if Nat.leb 3 (length unit) && Str.endswith unit (upper last)
       && Nat.ltb (length unit) (length last)
    then Some (Str.rstrip_chars (wide_lparen ++ lparen)
                 (Str.drop_last (length unit) last))
    else cut_glued_unit units' last
  end.

Definition set_last (l : list pystr) (x : pystr) : list pystr :=
  match rev l with
  | [] => []
  | _ :: r => rev (x :: r)
  end.

(** "Clean name": unit words at both ends, a leading bracket, a glued
    unit. *)
Definition clean_name_tokens (name_part : pystr) : pystr :=
  let tokens := Str.split_ws name_part in
  let tokens := drop_trailing_unit_tokens tokens in
  let tokens := drop_leading_unit_tokens tokens in
  let tokens :=
    match tokens with
    | [] => tokens
    | first :: others =>
      let tokens :=
        if Str.startswith wide_rparen first || Str.startswith rparen first
        then Str.strip (Str.from 1 first) :: others
        else tokens in
      let last := nth_str (length tokens - 1) tokens in
      match cut_glued_unit COMMON_UNITS last with
      | Some cut => set_last tokens cut
      | None => tokens
      end
    end in
  Str.join space tokens.

Definition first_char_str (s : pystr) : pystr := Str.upto 1 s.
Definition last_char_str (s : pystr) : pystr := Str.take_last 1 s.

(** One step of the look-back loop; [None] is [break]. *)
Definition prev_step (prev_parts : list pystr) (raw : pystr)
  : option (list pystr) :=
  let prev_line := Str.strip raw in
  if negb (Str.truthy prev_line) || Nat.ltb (length prev_line) 2 then None
  else
    let after_stt :=
      match Re.rmatch Re.NOFLAGS RE_STT prev_line with
      | Some match_stt =>
          let stt_len := length (Re.group 0 match_stt) in
          let rest_of_line := Str.strip (Str.from stt_len prev_line) in
          if found (Re.search Re.NOFLAGS RE_ANY_DIGIT rest_of_line)
          then None else Some rest_of_line
      | None => Some prev_line
      end in
    match after_stt with
    | None => None
    | Some prev_line =>
      if is_junk_text prev_line then None
      else
        let temp_line := Re.sub Re.NOFLAGS RE_DATE empty prev_line in
        let price_nums := Re.findall0 Re.NOFLAGS RE_PRICE_NUM temp_line in
        let simple_nums := Re.findall0 Re.NOFLAGS RE_LONG_NUM temp_line in
        if Nat.ltb 0 (length price_nums) || Nat.ltb 1 (length simple_nums)
        then None
        else if Str.contains_any SUMMARY_WORDS (lower prev_line) then None
        else if (Str.endswith rparen prev_line || Str.endswith wide_rparen prev_line)
                && found (Re.search Re.NOFLAGS RE_LATIN prev_line)
                && negb (Str.contains lparen prev_line)
                && negb (Str.contains wide_lparen prev_line)
        then None
        else
          let stop :=
            match prev_parts with
            | [] => false
            | last_collected :: _ =>
              let is_vietnamese_line :=
                Str.isupper (first_char_str last_collected)
                && negb (Str.startswith lparen last_collected) in
              let is_english_paren :=
                Str.startswith lparen prev_line
                && found (Re.search Re.NOFLAGS RE_LATIN prev_line) in
              is_vietnamese_line && is_english_paren
            end in
          if stop then None else Some (prev_line :: prev_parts)
    end.

(** [for offset in range(1, 3)]: up to two lines back. *)
Fixpoint look_back (lines : list pystr) (line_idx : nat) (offsets : list nat)
  (prev_parts : list pystr) : list pystr :=
  match offsets with
  | [] => prev_parts
  | offset :: more =>
    if Nat.leb offset line_idx then
      match prev_step prev_parts (nth_str (line_idx - offset) lines) with
      | Some parts => look_back lines line_idx more parts
      | None => prev_parts
      end
    else prev_parts
  end.

(** One step of the look-ahead loop; [None] is [break]. *)
Definition next_step (has_unclosed_paren : bool) (raw : pystr) : option pystr :=
  let next_line := Str.strip raw in
  if negb (Str.truthy next_line) || Nat.ltb (length next_line) 2 then None
  else if found (Re.rmatch Re.NOFLAGS RE_STT_NEXT next_line) then None
  else if is_junk_text next_line then None
  else
    let temp_next := Re.sub Re.NOFLAGS RE_DATE_SPACED empty next_line in
    let nums_in_next := Re.findall0 Re.NOFLAGS RE_NUM_PLAIN temp_next in
    if Nat.ltb 1 (length nums_in_next) then None
    else if Str.contains_any SUMMARY_WORDS (lower next_line) then None
    else
      let c0 := first_char_str next_line in
      if Str.isupper c0 && negb (Str.eqb c0 lparen)
         && negb (has_unclosed_paren
                  && (Str.contains wide_rparen next_line
                      || Str.contains rparen next_line))
         && found (Re.search Re.IGNORECASE RE_VIETNAMESE next_line)
      then None
      else Some next_line.

(** [for offset in range(1, 4)]: up to three lines ahead. *)
Fixpoint look_ahead (lines : list pystr) (line_idx : nat) (offsets : list nat)
  (has_unclosed_paren : bool) (next_parts : list pystr) : list pystr :=
  match offsets with
  | [] => next_parts
  | offset :: more =>
    if Nat.ltb (line_idx + offset) (length lines) then
      match next_step has_unclosed_paren (nth_str (line_idx + offset) lines) with
      | Some l => look_ahead lines line_idx more has_unclosed_paren
                    (next_parts ++ [l])
      | None => next_parts
      end
    else next_parts
  end.

(** [for prefix in prefixes_to_remove] *)
Fixpoint remove_prefixes (prefixes : list pystr) (name_part : pystr) : pystr :=
  match prefixes with
  | [] => name_part
  | prefix :: more =>
    let name_part :=
      if Str.startswith (prefix ++ space) name_part
      then Str.strip (Str.from (length prefix) name_part) else name_part in
    let name_part :=
      if Str.startswith prefix name_part
      then Str.strip (Str.from (length prefix) name_part) else name_part in
    remove_prefixes more name_part
  end.

(** The trailing-number rule: a number at the end of the name goes,
    unless it is a four-digit year or follows a price word. *)
Definition drop_trailing_number (name_part : pystr) : pystr :=
  match Re.search Re.NOFLAGS RE_TRAILING name_part with
  | Some trailing_match =>
    let word_before := lower (Re.group 1 trailing_match) in
    let g2 := Str.strip (Re.group 2 trailing_match) in
    let num_part := if Str.truthy g2 then nth_str 0 (Str.split_ws g2) else empty in
    let keep_number :=
      (Nat.eqb (length num_part) 4 && Str.isdigit num_part)
      || Str.mem word_before price_keywords in
    if keep_number then name_part
    else Str.strip (Str.upto (Re.start_of 2 trailing_match) name_part)
  | None => name_part
  end.

(** The name boundary when no unit word was found: the first number
    after the sequence number that looks like a price. *)
Fixpoint first_price_start (nums_after_stt : list Re.mobj) (dflt : nat) : nat :=
  match nums_after_stt with
  | [] => dflt
  | m :: more =>
    let num_str := Re.group 1 m in
    if Str.contains dot num_str || Str.contains comma num_str
       || Nat.leb 4 (length (Str.replace comma empty (Str.replace dot empty num_str)))
    then Re.start_of 0 m
    else first_price_start more dflt
  end.

Definition zero_f : PyNum.float := S754_zero false.

(** The [try] block of the five-column case; [None] is an exception
    raised by [float()]. *)
Definition closest_candidate (qty unit_price cand2 cand3 : pystr)
  (has_discount_column : bool) : option pystr :=
  match PyNum.float_of_str
          (if Str.contains comma qty
           then Str.replace dot empty (Str.replace comma dot qty) else qty) with
  | None => None
  | Some q_val =>
    match PyNum.float_of_str (Str.replace comma dot (Str.replace dot empty unit_price)) with
    | None => None
    | Some p_val0 =>
      let p_val_opt :=
        if PyNum.fltb p_val0 (PyNum.of_int_exact 100) && Str.contains dot unit_price
        then PyNum.float_of_str (Str.replace comma empty (Str.replace dot empty unit_price))
        else Some p_val0 in
      match p_val_opt with
      | None => None
      | Some p_val =>
        let expected := PyNum.fmul q_val p_val in
        let expected :=
          if PyNum.feqb expected zero_f && PyNum.feqb q_val zero_f
          then p_val else expected in
        let v2 := parse_vietnamese_number cand2 in
        let v3 := if Str.truthy cand3 then parse_vietnamese_number cand3 else zero_f in
        let diff2 := PyNum.fabs (PyNum.fsub v2 expected) in
        let diff3 := if Str.truthy cand3 then PyNum.fabs (PyNum.fsub v3 expected)
                     else S754_infinity false in
        if Str.truthy cand3 && PyNum.fltb diff3 diff2
           && PyNum.fltb v2 (PyNum.fmul (PyNum.float_of_decimal 5 1) expected)
        then Some cand3
        else if has_discount_column && Str.truthy cand3 then Some cand3
        else Some cand2
      end
    end
  end.

(** "Determine qty, unit_price, amount"; [None] is [continue]. *)
Definition assign_columns (nums : list pystr) : option (pystr * pystr * pystr) :=
  if Nat.leb 5 (length nums) then
    let discount_val :=
      Str.strip_chars (py "0")
        (Str.replace comma empty (Str.replace dot empty (nth_str 2 nums))) in
    let has_discount_column :=
      Str.eqb discount_val empty || Str.eqb discount_val (py "0") in
    let qty := nth_str 0 nums in
    let unit_price := nth_str 1 nums in
    let cand2 := nth_str 2 nums in
    let cand3 := nth_str 3 nums in
    let amount :=
      match closest_candidate qty unit_price cand2 cand3 has_discount_column with
      | Some a => a
      | None => if has_discount_column && Nat.leb 4 (length nums)
                then nth_str 3 nums else nth_str 2 nums
      end in
    Some (qty, unit_price, amount)
  else if Nat.leb 3 (length nums) then
    Some (nth_str 0 nums, nth_str 1 nums, nth_str 2 nums)
  else if Nat.eqb (length nums) 2 then
    Some (nth_str 0 nums, nth_str 1 nums, nth_str 1 nums)
  else None.

(** The fix for a tax-rate digit captured as the amount. *)
Definition fix_small_amount (qty unit_price amount : pystr) : pystr * pystr :=
  let a_str := Str.replace comma empty (Str.replace dot empty amount) in
  let p_str := Str.replace comma empty (Str.replace dot empty unit_price) in
  if Str.isdigit a_str && Str.isdigit p_str then
    match PyNum.float_of_str a_str, PyNum.float_of_str p_str with
    | Some val_amount, Some val_price =>
      if PyNum.fleb val_amount (PyNum.of_int_exact 100)
         && PyNum.fltb (PyNum.of_int_exact 1000) val_price
      then (if Str.eqb qty (py "0") || negb (Str.truthy qty) then py "1" else qty,
            unit_price)
      else (qty, amount)
    | _, _ => (qty, amount)
    end
  else (qty, amount).

(** The body of the loop over the lines; [None] is [continue]. *)
Definition line_item (lines : list pystr) (line_idx : nat) (raw : pystr)
  : option service :=
  let line := Str.strip raw in
  if negb (Str.truthy line) then None else
  let first_token := nth_str 0 (Str.split_ws line) in
  if negb (Str.isdigit first_token) then None else
  if found (Re.rmatch Re.NOFLAGS RE_HEADER_NUMS line) then None else
  if found (Re.rmatch Re.NOFLAGS RE_CAPS_NUMS line) then None else
  match Re.rmatch Re.NOFLAGS RE_STT line with
  | None => None
  | Some match_start =>
    let all_nums := Re.finditer Re.NOFLAGS RE_NUM line in
    if Nat.ltb (length all_nums) 3
       && negb (Str.contains_any SURCHARGE_KEYWORDS (lower line)
                && Nat.eqb (length all_nums) 2)
    then None else
    let tax_rate :=
      match Re.search Re.NOFLAGS RE_RATE line with
      | Some rate_match => Some (Re.group 1 rate_match)
      | None => None
      end in
    let stt_end := length (Re.group 0 match_start) in
    let tokens := Str.split_ws line in
    let parts :=
      match last_unit_index 0 tokens with
      | None =>
        let nums_after_stt :=
          filter (fun m => Nat.ltb stt_end (Re.start_of 0 m)) all_nums in
        let name_end_pos := first_price_start nums_after_stt (length line) in
        if Nat.leb name_end_pos stt_end then None
        else Some (Str.strip (Str.slice stt_end name_end_pos line),
                   map (Re.group 1) nums_after_stt)
      | Some unit_idx =>
        let name_tokens := firstn unit_idx tokens in
        let remaining_text := Str.join space (skipn (S unit_idx) tokens) in
        let nums := Re.findall1 Re.NOFLAGS RE_NUM remaining_text in
        if Nat.ltb (length nums) 2
           && negb (Str.contains_any SURCHARGE_KEYWORDS
                      (lower (Str.join space name_tokens))
                    && Nat.eqb (length nums) 1)
        then None
        else Some (Str.join space name_tokens, nums)
      end in
    match parts with
    | None => None
    | Some (name_part, nums) =>
      let is_surcharge_item :=
        Str.contains_any SURCHARGE_KEYWORDS (lower name_part) in
      let nums_opt :=
        if Nat.ltb (length nums) 2 then
          if is_surcharge_item && Nat.eqb (length nums) 1
          then Some [py "1"; nth_str 0 nums; nth_str 0 nums] else None
        else Some nums in
      match nums_opt with
      | None => None
      | Some nums =>
        let name_part := clean_name_tokens name_part in
        let stt_val := Re.group 1 match_start in
        let name_part :=
          if Str.startswith stt_val name_part
          then Str.strip (Str.from (length stt_val) name_part) else name_part in
        (* look back *)
        let check_name := Str.strip (Re.sub Re.NOFLAGS RE_LEADING_NUM empty name_part) in
        let first_char := first_char_str check_name in
        let needs_prev :=
          Nat.ltb (length check_name) 5
          || (Str.truthy first_char && Str.islower first_char)
          || Str.eqb first_char lparen || Str.eqb first_char rparen
          || Str.contains rparen (Str.upto 10 check_name) in
        let name_part :=
          if needs_prev then
            match look_back lines line_idx [1; 2]%nat [] with
            | [] => name_part
            | prev_parts => Str.join space prev_parts ++ space ++ name_part
            end
          else name_part in
        (* look ahead *)
        let last_char := last_char_str name_part in
        let next_line_is_suffix :=
          if Nat.ltb (line_idx + 1) (length lines) then
            let peek_line := Str.strip (nth_str (line_idx + 1) lines) in
            (Str.startswith lparen peek_line
             && found (Re.search Re.NOFLAGS RE_LATIN peek_line))
            || (Str.startswith lparen peek_line
                && found (Re.search Re.IGNORECASE RE_DATE_WORD peek_line))
          else false in
        let has_unclosed_paren :=
          Nat.ltb (Str.count rparen name_part) (Str.count lparen name_part)
          || Nat.ltb (Str.count wide_rparen name_part)
                     (Str.count wide_lparen name_part) in
        let needs_next :=
          Str.contains last_char (py "(-（")
          || Str.endswith lparen (Str.rstrip name_part)
          || Str.endswith wide_lparen (Str.rstrip name_part)
          || has_unclosed_paren || next_line_is_suffix in
        let name_part :=
          if needs_next then
            match look_ahead lines line_idx [1; 2; 3]%nat has_unclosed_paren [] with
            | [] => name_part
            | next_parts => name_part ++ space ++ Str.join space next_parts
            end
          else name_part in
        let name_part := Str.strip name_part in
        (* junk prefixes and suffixes *)
        let name_part := remove_prefixes prefixes_to_remove name_part in
        let name_part := Re.sub Re.NOFLAGS RE_ABC_PREFIX empty name_part in
        let name_part := Re.sub Re.NOFLAGS RE_NUM_PREFIX empty name_part in
        let name_part := Re.sub Re.NOFLAGS RE_OPS_TAIL empty name_part in
        let name_part := drop_trailing_number name_part in
        let name_part := Str.strip name_part in
        let final_tokens :=
          drop_leading_unit_tokens
            (drop_trailing_unit_tokens (Str.split_ws name_part)) in
        let name_part := Str.join space final_tokens in
        if Nat.ltb (length name_part) 3 then None else
        if is_junk_text name_part then None else
        if found (Re.rmatch Re.NOFLAGS RE_ONLY_DIGITS name_part) then None else
        if found (Re.rmatch Re.NOFLAGS RE_ONLY_SYMBOLS name_part) then None else
        match assign_columns nums with
        | None => None
        | Some (qty, unit_price, amount) =>
          let '(qty, amount) := fix_small_amount qty unit_price amount in
          Some {| name := name_part;
                  qty := format_price_value qty;
                  unit_price := format_price_value unit_price;
                  amount := format_price_value amount;
                  tax_rate := tax_rate |}
        end
      end
    end
  end.

Fixpoint each_line (lines : list pystr) (line_idx : nat) (todo : list pystr)
  : list service :=
  match todo with
  | [] => []
  | raw :: more =>
    match line_item lines line_idx raw with
    | Some item => item :: each_line lines (S line_idx) more
    | None => each_line lines (S line_idx) more
    end
  end.

(** [extract_services_from_text(full_text)] *)
Definition extract_services_from_text (full_text : pystr) : list service :=
  let lines := Str.split newline full_text in
  each_line lines 0 lines.

End Services.

(* ================================================================== *)
(** * The invoice record: a [dict] from field names to strings *)
(* ================================================================== *)

Module Dict.

(** Insertion-ordered, as Python's [dict]. *)
Definition dict := list (pystr * pystr).

Fixpoint get (d : dict) (k : pystr) : option pystr :=
  match d with
  | [] => None
  | (k', v) :: d' => if Str.eqb k' k then Some v else get d' k
  end.

(** [d.get(k, default)] *)
Definition get_or (d : dict) (k default : pystr) : pystr :=
  match get d k with Some v => v | None => default end.

(** [d[k]] for a key that is present; [d.get(k)] read as a string (a
    missing key reads as the falsy empty string). *)
Definition item (d : dict) (k : pystr) : pystr := get_or d k [].

(** [k in d] *)
Definition has_key (d : dict) (k : pystr) : bool :=
  match get d k with Some _ => true | None => false end.

(** [d[k] = v]: overwrite in place, or append a new key. *)
Fixpoint set (d : dict) (k v : pystr) : dict :=
  match d with
  | [] => [(k, v)]
  | (k', v') :: d' =>
    if Str.eqb k' k then (k', v) :: d' else (k', v') :: set d' k v
  end.

Definition keys (d : dict) : list pystr := map fst d.

End Dict.

Module Keys.
Definition TEN_FILE := Eval vm_compute in py "Tên file".
Definition NGAY_HOA_DON := Eval vm_compute in py "Ngày hóa đơn".
Definition SO_HOA_DON := Eval vm_compute in py "Số hóa đơn".
Definition DON_VI_BAN := Eval vm_compute in py "Đơn vị bán".
Definition PHAN_LOAI := Eval vm_compute in py "Phân loại".
Definition TRUOC_THUE := Eval vm_compute in py "Số tiền trước Thuế".
Definition THUE_0 := Eval vm_compute in py "Thuế 0%".
Definition THUE_5 := Eval vm_compute in py "Thuế 5%".
Definition THUE_8 := Eval vm_compute in py "Thuế 8%".
Definition THUE_10 := Eval vm_compute in py "Thuế 10%".
Definition THUE_KHAC := Eval vm_compute in py "Thuế khác".
Definition TIEN_THUE := Eval vm_compute in py "Tiền thuế".
Definition SO_TIEN_SAU := Eval vm_compute in py "Số tiền sau".
Definition LINK := Eval vm_compute in py "Link lấy hóa đơn".
Definition MA_TRA_CUU := Eval vm_compute in py "Mã tra cứu".
Definition MA_SO_THUE := Eval vm_compute in py "Mã số thuế".
Definition MA_CQT := Eval vm_compute in py "Mã CQT".
Definition KY_HIEU := Eval vm_compute in py "Ký hiệu".
Definition PHI_PV := Eval vm_compute in py "Phí PV".

(** The keys of the record, in the order of the literal at the head of
    [extract_invoice_data]. *)
Definition ALL : list pystr :=
  [ TEN_FILE; NGAY_HOA_DON; SO_HOA_DON; DON_VI_BAN; PHAN_LOAI; TRUOC_THUE;
    THUE_0; THUE_5; THUE_8; THUE_10; THUE_KHAC; TIEN_THUE; SO_TIEN_SAU;
    LINK; MA_TRA_CUU; MA_SO_THUE; MA_CQT; KY_HIEU; PHI_PV ].
End Keys.

(* ================================================================== *)
(** * The validation engine: [validate_invoice_data] *)
(* ================================================================== *)

Module Validate.
Import Dict.

Inductive severity := error | warning.

Record issue := { field : pystr; severity_of : severity; message : pystr }.

(** [_parse_money(s)] (local to the validator): separators removed, 0
    when the rest is no integer. *)
Definition _parse_money (s : pystr) : Z :=
  if negb (Str.truthy s) then 0%Z
  else
    match PyNum.int_of_str
            (Str.replace dot empty (Str.replace comma empty (Str.strip s))) with
    | Some n => n
    | None => 0%Z
    end.

Definition RE_DATE_FORMAT := Eval vm_compute in re "^\d{1,2}/\d{1,2}/\d{4}$".
Definition RE_MST_FORMAT := Eval vm_compute in re "^[\d\-]{10,14}$".

(** The validator reads the record through [data.get] and appends to a
    local list; it is written here as a computation over the record
    that returns the record it leaves behind. *)
Definition M (A : Type) : Type := dict -> A * dict.
Definition ret {A} (a : A) : M A := fun d => (a, d).
Definition bind {A B} (m : M A) (f : A -> M B) : M B :=
  fun d => let '(a, d') := m d in f a d'.
Definition data_get (k default : pystr) : M pystr :=
  fun d => (get_or d k default, d).

Notation "x <- m ;; f" := (bind m (fun x => f))
  (at level 61, m at next level, right associativity).

Definition when (b : bool) (i : issue) : list issue := if b then [i] else [].

Definition validate_invoice_data : M (list issue) :=
  seller0 <- data_get Keys.DON_VI_BAN empty ;;
  let seller := Str.strip seller0 in
  let i1 := when (negb (Str.truthy seller) || Nat.ltb (length seller) 5)
    {| field := Keys.DON_VI_BAN; severity_of := error;
       message := py "Thiếu hoặc quá ngắn" |} in
  inv <- data_get Keys.SO_HOA_DON empty ;;
  let i2 := when (negb (Str.truthy (Str.strip inv)))
    {| field := Keys.SO_HOA_DON; severity_of := error;
       message := py "Thiếu số hóa đơn" |} in
  date0 <- data_get Keys.NGAY_HOA_DON empty ;;
  let date_val := Str.strip date0 in
  let i3 :=
    if negb (Str.truthy date_val) then
      [ {| field := Keys.NGAY_HOA_DON; severity_of := error;
           message := py "Thiếu ngày hóa đơn" |} ]
    else if negb (found (Re.rmatch Re.NOFLAGS RE_DATE_FORMAT date_val)) then
      [ {| field := Keys.NGAY_HOA_DON; severity_of := warning;
           message := py "Định dạng ngày không chuẩn: " ++ date_val |} ]
    else [] in
  before0 <- data_get Keys.TRUOC_THUE empty ;;
  let before_tax := _parse_money before0 in
  let i4 := when (before_tax =? 0)%Z
    {| field := Keys.TRUOC_THUE; severity_of := error;
       message := py "Số tiền trước thuế = 0 hoặc trống" |} in
  after0 <- data_get Keys.SO_TIEN_SAU empty ;;
  let after_tax := _parse_money after0 in
  let i5 := when (after_tax =? 0)%Z
    {| field := Keys.SO_TIEN_SAU; severity_of := error;
       message := py "Số tiền sau thuế = 0 hoặc trống" |} in
  mst0 <- data_get Keys.MA_SO_THUE empty ;;
  let mst := Str.strip mst0 in
  let i6 :=
    if negb (Str.truthy mst) then
      [ {| field := Keys.MA_SO_THUE; severity_of := warning;
           message := py "Thiếu mã số thuế" |} ]
    else if negb (found (Re.rmatch Re.NOFLAGS RE_MST_FORMAT mst)) then
      [ {| field := Keys.MA_SO_THUE; severity_of := warning;
           message := py "MST không hợp lệ ("
                      ++ PyNum.str_of_int (Z.of_nat (length mst))
                      ++ py " ký tự)" |} ]
    else [] in
  link <- data_get Keys.LINK empty ;;
  let i7 := when (negb (Str.truthy (Str.strip link)))
    {| field := Keys.LINK; severity_of := warning;
       message := py "Thiếu link tra cứu" |} in
  code <- data_get Keys.MA_TRA_CUU empty ;;
  let i8 := when (negb (Str.truthy (Str.strip code)))
    {| field := Keys.MA_TRA_CUU; severity_of := warning;
       message := py "Thiếu mã tra cứu" |} in
  serial <- data_get Keys.KY_HIEU empty ;;
  let i9 := when (negb (Str.truthy (Str.strip serial)))
    {| field := Keys.KY_HIEU; severity_of := warning;
       message := py "Thiếu ký hiệu" |} in
  (* both amounts were read by [_parse_money], that is by [int()], so
     they are within the digit limit and [f"{n:,}"] writes them *)
  let i10 := when ((0 <? before_tax)%Z && (0 <? after_tax)%Z
                   && (after_tax <? before_tax)%Z)
    {| field := Keys.SO_TIEN_SAU; severity_of := warning;
       message := py "Số tiền sau (" ++ PyNum.comma_text after_tax
                  ++ py ") < trước thuế (" ++ PyNum.comma_text before_tax
                  ++ py ")" |} in
  ret (i1 ++ i2 ++ i3 ++ i4 ++ i5 ++ i6 ++ i7 ++ i8 ++ i9 ++ i10).

End Validate.

(* ================================================================== *)
(** * The OCR fallback: [extract_ocr_invoice_fields] *)
(* ================================================================== *)

Module OCR.
Import Dict.

#[local] Open Scope Z_scope.

Definition RE_AMOUNT_WORDS := Eval vm_compute in
  re "\b(đồng|dong|chẵn|chan|chấn|lẻ|le|và|va)\b".

Definition digit_map : list (pystr * Z) := Eval vm_compute in
  map (fun '(k, v) => (py k, v))
  [ ("không", 0); ("một", 1); ("mot", 1); ("hai", 2); ("ba", 3); ("bốn", 4);
    ("bon", 4); ("năm", 5); ("nam", 5); ("lăm", 5); ("sáu", 6); ("sau", 6);
    ("bảy", 7); ("bay", 7); ("tám", 8); ("tam", 8); ("chín", 9); ("chin", 9);
    ("linh", 0); ("lẻ", 0); ("le", 0) ].

Fixpoint lookup_digit (m : list (pystr * Z)) (token : pystr) : option Z :=
  match m with
  | [] => None
  | (k, v) :: m' => if Str.eqb k token then Some v else lookup_digit m' token
  end.

Definition TENS : list pystr := Eval vm_compute in map py ["mười"; "muoi"; "mươi"].
Definition HUNDREDS : list pystr := Eval vm_compute in map py ["trăm"; "tram"].
Definition THOUSANDS : list pystr :=
  Eval vm_compute in map py ["nghìn"; "nghin"; "ngàn"; "ngan"].
Definition MILLIONS : list pystr := Eval vm_compute in map py ["triệu"; "trieu"].
Definition BILLIONS : list pystr := Eval vm_compute in map py ["tỷ"; "ty"; "tỉ"].

(** The three accumulators of the word parser. *)
Record words_state := { result : Z; hundreds : Z; pending : Z }.

Definition flush_group (multiplier : Z) (w : words_state) : words_state :=
  {| result := result w + (hundreds w + pending w) * multiplier;
     hundreds := 0; pending := 0 |}.

Definition flush_scaled (multiplier : Z) (w : words_state) : words_state :=
  let w := if (hundreds w =? 0) && (pending w =? 0)
           then {| result := result w; hundreds := hundreds w; pending := 1 |}
           else w in
  flush_group multiplier w.

Definition word_step (w : words_state) (token : pystr) : words_state :=
  match lookup_digit digit_map token with
  | Some d => {| result := result w; hundreds := hundreds w; pending := d |}
  | None =>
    if Str.mem token TENS then
      if pending w =? 0
      then {| result := result w; hundreds := hundreds w + 10; pending := pending w |}
      else {| result := result w; hundreds := hundreds w + pending w * 10;
              pending := 0 |}
    else if Str.mem token HUNDREDS then
      {| result := result w; hundreds := hundreds w + pending w * 100; pending := 0 |}
    else if Str.mem token THOUSANDS then flush_scaled 1000 w
    else if Str.mem token MILLIONS then flush_scaled 1000000 w
    else if Str.mem token BILLIONS then flush_scaled 1000000000 w
    else w
  end.

(** [_parse_vietnamese_words_to_number(text)] *)
Definition _parse_vietnamese_words_to_number (text : pystr) : Z :=
  let text := lower (Str.strip text) in
  let text := Str.strip (Re.sub Re.NOFLAGS RE_AMOUNT_WORDS empty text) in
  match Str.split_ws text with
  | [] => 0
  | tokens =>
    result (flush_group 1
              (fold_left word_step tokens {| result := 0; hundreds := 0; pending := 0 |}))
  end.

(** [parse_money(s)] (local to the OCR extractor): 0 for a blank or
    unparseable string. *)
Definition parse_money (s : pystr) : Z :=
  if negb (Str.truthy s) then 0
  else
    let s := cut_decimals (Str.strip s) in
    match PyNum.int_of_str (Str.replace dot empty (Str.replace comma empty s)) with
    | Some n => n
    | None => 0
    end.

(** [format_money(n)] (local to the OCR extractor): [f"{n:,.0f}"] with
    dots; [None] is the [OverflowError] of the int-to-float conversion. *)
Definition format_money (n : Z) : option pystr :=
  match PyNum.float_of_int n with
  | Some f => Some (Str.replace comma dot (PyNum.format_comma_0f f))
  | None => None
  end.

Definition RE_SERIAL := Eval vm_compute in re "[Kk]ý\s*hiệu[:\s]*([A-Z0-9]+)".
Definition RE_COMPANY := Eval vm_compute in
  re "^(CÔNG TY|CHI NHÁNH|DNTN|TRUNG TÂM|HỘ KINH DOANH|CỬA HÀNG)".
Definition inv_patterns := Eval vm_compute in
  [ re "[Ss][oố]\s*hóa\s*đơn[:\s]+(\d{5,})";
    re "[Ss]ố\s*(?:HĐ)[:\s]*(\d+)";
    re "[Ss][oố][:\s]+(\d{6,})";
    re "[Nn]o\.?[:\s]*(\d{5,})";
    re "Invoice No\.?[:\s]*(\d+)";
    re "[Ss][ốo]\s*[(/]?\s*No\.?\s*[)/]?[:\s]*(\d+)";
    re "\(\s*VAT\s*INVOICE\s*\)[:\s]*(\d+)";
    re "Số:\s*(\d+)" ].
Definition RE_PHONE_LIKE := Eval vm_compute in
  re "^(18|19|09|08|07|06|05|03|02|01)\d{6,}".
Definition RE_FILENAME_NUM := Eval vm_compute in re "_(\d{5,})".
Definition RE_DATE_WORDS := Eval vm_compute in
  re "[Nn]gày\s*(\d{1,2})\s*tháng\s*(\d{1,2})\s*năm\s*(\d{4})".
Definition RE_DATE_NOACCENT := Eval vm_compute in
  re "[Nn]ga[yỳ]\s*(\d{1,2})\s*thang\s*(\d{1,2})\s*nam\s*(\d{4})".
Definition RE_DATE_NUMERIC := Eval vm_compute in re "(\d{1,2})[/-](\d{1,2})[/-](\d{4})".
Definition ignore_mst : list pystr := Eval vm_compute in map py
  [ "0106869738"; "0100684378"; "0101245171"; "0305482862"; "0103243195";
    "0101360697" ].
Definition mst_patterns := Eval vm_compute in
  [ re "[Mm]a\s*số\s*thuế[:\s]*([\d\-\u00AD\s]+)";
    re "MST[:\s]*([\d\-\u00AD\s]+)";
    re "[Mm]ã\s*số\s*thuế[:\s]*([\d\-\u00AD\s]+)";
    re "[Mm]a\s*s[eoc]\s*thu[eé][:\s]*([\d\-\u00AD\s]+)";
    re "[Mm]a\s*s.\s*thu.[:\s]*([\d\-\u00AD\s]+)";
    re "tax\s*code[:\s]*([\d\-\u00AD\s]+)" ].
Definition MST_BAD_CONTEXT : list pystr := Eval vm_compute in map py
  [ "giải pháp"; "phần mềm"; "cung cấp bởi"; "phát hành bởi"; "created by";
    "signature"; "ký bởi"; "bkav"; "ehoadon"; "mua hàng"; "người mua";
    "đơn vị mua" ].
Definition RE_MST_NORM := Eval vm_compute in
  re "(?:ma se thue|ma so thue|mst)[^0-9]*([0-9]{10,14})".
Definition before_patterns := Eval vm_compute in
  [ re "ông\s*tiên\s*hàng[:\s]*([\d\.,]+)";
    re "ông\s*tiên\s*hang[:\s]*([\d\.,]+)";
    re "[Cc]ộng\s*tiền\s*hàng[:\s]*([\d\.,]+)";
    re "[Tt]iền\s*hàng[:\s]*([\d\.,]+)" ].
Definition RE_YEAR := Eval vm_compute in re "^20[0-9]{2}$".
Definition vat_patterns := Eval vm_compute in
  [ re "lên\s*thuê\s*GTGT\s*\(\s*\d+\s*%?\s*\)\s*([\d\.,]+)";
    re "ién\s*thuê\s*GTGT\s*\(\s*\d+\s*%?\s*\)\s*([\d\.,]+)";
    re "[Tt]iền\s*thuế\s*GTGT[:\s]*([\d\.,]+)";
    re "thuê\s*GTGT\s*\(\s*8\s*%?\s*\)\s*([\d\.,]+)";
    re "GTGT\s*\(\s*\d+\s*%?\s*\)\s*([\d\.,]+)";
    re "[Cc]XC[:\s]*([\d\.,]+)";
    re "thuế\s*GTGT[:\s]*([\d\.,]+)" ].
Definition RE_8_PERCENT := Eval vm_compute in re "8\s*%".
Definition RE_10_PERCENT := Eval vm_compute in re "10\s*%".
Definition total_patterns := Eval vm_compute in
  [ re "ông\s*sô\s*tiên\s*thanh\s*toán[:\s]*([\d\.,]+)";
    re "[Tt]ổng\s*(?:số\s*)?(?:cộng|tiền)\s*thanh\s*toán[:\s]*([\d\.,]+)";
    re "thanh\s*toán[:\s]*([\d\.,]+)";
    re "[Tt]ổng\s*(?:cộng|tiền)[:\s]*([\d\.,]+)" ].
Definition RE_IN_WORDS := Eval vm_compute in
  re "(?:bằng chữ|bang chu)[:\s]*(.+?)(?:đồng|dong|$)".
Definition RE_LOOKUP := Eval vm_compute in
  re "(?:Mã|Ma)\s*(?:tra|tro)\s*(?:cứu|cuiu|cuu)[:\s]*([A-Z0-9*]+)".
Definition RE_LONG_CODE := Eval vm_compute in re "\b([A-Z0-9]{10,})\b".
Definition RE_CQT := Eval vm_compute in
  re "(?:Mã|Ma)\s*(?:CQT|cơ\s*quan\s*thuế)[:\s]*([A-Z0-9\-]+)".
Definition RE_LINK := Eval vm_compute in re "(https?://[^\s]+)".

Definition PETROLIMEX_UPPER := Eval vm_compute in py "PETROLIMEX".
Definition petrolimex := Eval vm_compute in py "petrolimex".
Definition KY_HIEU_COLON := Eval vm_compute in py "Ký hiệu:".
Definition slash := Eval vm_compute in py "/".

(** [for i, line in enumerate(lines[:15])]: the lines that open with a
    company word or mention PETROLIMEX. *)
Definition seller_candidates (lines : list pystr) : list pystr :=
  filter (fun line_clean =>
            found (Re.rmatch Re.IGNORECASE RE_COMPANY line_clean)
            || Str.contains PETROLIMEX_UPPER (upper line_clean))
         (map Str.strip (firstn 15 lines)).

(** [for p in inv_patterns]: the first pattern whose first match is not
    phone-like gives the invoice number. *)
Fixpoint first_invoice_number (patterns : list Re.regex) (text : pystr)
  : option pystr :=
  match patterns with
  | [] => None
  | p :: more =>
    match Re.search Re.NOFLAGS p text with
    | Some m =>
      let num := Re.group 1 m in
      if negb (found (Re.rmatch Re.NOFLAGS RE_PHONE_LIKE num)) then Some num
      else first_invoice_number more text
    | None => first_invoice_number more text
    end
  end.

(** The body of [for m in re.finditer(p, text)] of the tax-code search. *)
Definition accept_mst (text : pystr) (m : Re.mobj) : option pystr :=
  let raw_val := Re.group 1 m in
  let val := Str.strip (Str.replace [173%N] empty (Str.replace (py "-") empty
               (Str.replace dot empty (Str.replace space empty raw_val)))) in
  if Nat.ltb (length val) 10 || Nat.ltb 14 (length val) then None
  else if existsb (fun ign => Str.contains ign val) ignore_mst then None
  else
    let line_content := lower (Str.line_around text (Re.m_start m) (Re.m_end m)) in
    if Str.contains_any MST_BAD_CONTEXT line_content then None
    else Some val.

Fixpoint first_some {A B} (f : A -> option B) (l : list A) : option B :=
  match l with
  | [] => None
  | x :: l' => match f x with Some y => Some y | None => first_some f l' end
  end.

Definition find_mst (text : pystr) : option pystr :=
  first_some (fun p => first_some (accept_mst text) (Re.finditer Re.NOFLAGS p text))
             mst_patterns.

(** The amount cascades: the first pattern that matches decides; a
    year-like or too short capture stops nothing and the next pattern
    is tried. *)
Fixpoint first_amount (patterns : list Re.regex) (text : pystr) : option pystr :=
  match patterns with
  | [] => None
  | p :: more =>
    match Re.search Re.NOFLAGS p text with
    | Some m =>
      let val := Str.strip (Re.group 1 m) in
      if negb (found (Re.rmatch Re.NOFLAGS RE_YEAR val)) && Nat.leb 3 (length val)
      then Some val else first_amount more text
    | None => first_amount more text
    end
  end.

Definition first_group1 (patterns : list Re.regex) (text : pystr) : option pystr :=
  first_some (fun p => option_map (Re.group 1) (Re.search Re.NOFLAGS p text))
             patterns.

Definition set_opt (d : dict) (k : pystr) (v : option pystr) : dict :=
  match v with Some x => set d k x | None => d end.

(** [int(round(before_tax * 0.08))]; [None] is [OverflowError]. *)
Definition eight_percent (before_tax : Z) : option Z :=
  match PyNum.float_of_int before_tax with
  | Some f => PyNum.round_float (PyNum.fmul f (PyNum.float_of_decimal 8 2))
  | None => None
  end.

(** [int(round(total / 1.08))] *)
Definition net_of_eight_percent (total : Z) : option Z :=
  match PyNum.float_of_int total with
  | Some f => PyNum.round_float (PyNum.fdiv f (PyNum.float_of_decimal 108 2))
  | None => None
  end.

(** The "auto-calculate missing values" block; [None] is an exception
    escaping the function. *)
Definition auto_calc (text : pystr) (data : dict) : option dict :=
  let before_tax := parse_money (get_or data Keys.TRUOC_THUE empty) in
  let vat := parse_money (get_or data Keys.TIEN_THUE empty) in
  let total := parse_money (get_or data Keys.SO_TIEN_SAU empty) in
  let is_petrolimex := Str.contains petrolimex (lower text) in
  let nz z := negb (z =? 0) in
  if (total =? 0) && nz before_tax && nz vat then
    match format_money (before_tax + vat) with
    | Some s => Some (set data Keys.SO_TIEN_SAU s)
    | None => None
    end
  else if (total =? 0) && nz before_tax && is_petrolimex then
    match eight_percent before_tax with
    | Some vat =>
      match format_money (before_tax + vat), format_money vat with
      | Some st, Some sv =>
          Some (set (set (set data Keys.SO_TIEN_SAU st) Keys.TIEN_THUE sv)
                    Keys.THUE_8 sv)
      | _, _ => None
      end
    | None => None
    end
  else if (before_tax =? 0) && nz total && is_petrolimex then
    match net_of_eight_percent total with
    | Some before_tax =>
      let vat := total - before_tax in
      match format_money before_tax with
      | Some sb =>
        let data := set data Keys.TRUOC_THUE sb in
        if negb (Str.truthy (item data Keys.TIEN_THUE)) then
          match format_money vat with
          | Some sv => Some (set (set data Keys.TIEN_THUE sv) Keys.THUE_8 sv)
          | None => None
          end
        else Some data
      | None => None
      end
    | None => None
    end
  else if (vat =? 0) && nz before_tax && nz total then
    let vat := total - before_tax in
    match format_money vat with
    | Some sv =>
      let data := set data Keys.TIEN_THUE sv in
      match PyNum.int_truediv vat before_tax with
      | Some q =>
        match PyNum.round2_float q with
        | Some rate =>
          if PyNum.feqb rate (PyNum.float_of_decimal 8 2) then Some (set data Keys.THUE_8 sv)
          else if PyNum.feqb rate (PyNum.float_of_decimal 10 2) then Some (set data Keys.THUE_10 sv)
          else if PyNum.feqb rate (PyNum.float_of_decimal 5 2) then Some (set data Keys.THUE_5 sv)
          else if is_petrolimex then Some (set data Keys.THUE_8 sv)
          else Some (set data Keys.THUE_KHAC sv)
        | None => None
        end
      | None => None
      end
    | None => None
    end
  else Some data.

(** [extract_ocr_invoice_fields(text, filename)]; [None] is an
    exception escaping the function. *)
Definition extract_ocr_invoice_fields (text : pystr) (filename : option pystr)
  : option dict :=
  let data : dict := [] in
  let data := set_opt data Keys.KY_HIEU
                (option_map (Re.group 1) (Re.search Re.NOFLAGS RE_SERIAL text)) in
  let lines := Str.split newline text in
  let data :=
    match seller_candidates lines with
    | raw_seller :: _ =>
      let raw_seller :=
        if Str.contains KY_HIEU_COLON raw_seller
        then Str.strip (nth 0 (Str.split KY_HIEU_COLON raw_seller) empty)
        else raw_seller in
      set data Keys.DON_VI_BAN raw_seller
    | [] => data
    end in
  let data := set_opt data Keys.SO_HOA_DON (first_invoice_number inv_patterns text) in
  let data :=
    match has_key data Keys.SO_HOA_DON, filename with
    | false, Some fn =>
      if Str.truthy fn
      then set_opt data Keys.SO_HOA_DON
             (option_map (Re.group 1) (Re.search Re.NOFLAGS RE_FILENAME_NUM fn))
      else data
    | _, _ => data
    end in
  let dmy m := Re.group 1 m ++ slash ++ Re.group 2 m ++ slash ++ Re.group 3 m in
  let data :=
    match Re.search Re.NOFLAGS RE_DATE_WORDS text with
    | Some m => set data Keys.NGAY_HOA_DON (dmy m)
    | None =>
      match Re.search Re.NOFLAGS RE_DATE_NOACCENT text with
      | Some m => set data Keys.NGAY_HOA_DON (dmy m)
      | None =>
        match Re.search Re.NOFLAGS RE_DATE_NUMERIC text with
        | Some m => set data Keys.NGAY_HOA_DON (dmy m)
        | None => data
        end
      end
    end in
  let data := set_opt data Keys.MA_SO_THUE (find_mst text) in
  let data :=
    if negb (Str.truthy (item data Keys.MA_SO_THUE)) then
      let norm := Str.replace (py "ế") (py "e") (Str.replace (py "ú") (py "u")
                    (Str.replace (py "é") (py "e") (lower text))) in
      match Re.search Re.NOFLAGS RE_MST_NORM norm with
      | Some m_ocr =>
        let cand := Re.group 1 m_ocr in
        if negb (existsb (fun ign => Str.contains ign cand) ignore_mst)
        then set data Keys.MA_SO_THUE cand else data
      | None => data
      end
    else data in
  let data := set_opt data Keys.TRUOC_THUE (first_amount before_patterns text) in
  let data := set_opt data Keys.TIEN_THUE (first_group1 vat_patterns text) in
  let text_lower := lower text in
  let data :=
    if Str.contains petrolimex text_lower || Str.contains (py "xăng") text_lower
       || Str.contains (py "ron 95") text_lower
    then
      if Str.truthy (item data Keys.TIEN_THUE)
      then set data Keys.THUE_8 (item data Keys.TIEN_THUE) else data
    else if found (Re.search Re.NOFLAGS RE_8_PERCENT text)
    then set data Keys.THUE_8 (get_or data Keys.TIEN_THUE empty)
    else if found (Re.search Re.NOFLAGS RE_10_PERCENT text)
    then set data Keys.THUE_10 (get_or data Keys.TIEN_THUE empty)
    else data in
  let data := set_opt data Keys.SO_TIEN_SAU (first_amount total_patterns text) in
  let data_opt :=
    if negb (Str.truthy (item data Keys.SO_TIEN_SAU)) then
      match Re.search Re.IGNORECASE RE_IN_WORDS text with
      | Some chu_match =>
        let words := lower (Str.strip (Re.group 1 chu_match)) in
        let vn_num := _parse_vietnamese_words_to_number words in
        if 0 <? vn_num then
          match format_money vn_num with
          | Some s => Some (set data Keys.SO_TIEN_SAU s)
          | None => None
          end
        else Some data
      | None => Some data
      end
    else Some data in
  match data_opt with
  | None => None
  | Some data =>
    match auto_calc text data with
    | None => None
    | Some data =>
      let lookup_match :=
        match Re.search Re.IGNORECASE RE_LOOKUP text with
        | Some m => Some m
        | None => Re.search Re.NOFLAGS RE_LONG_CODE text
        end in
      let data :=
        match lookup_match with
        | Some m => if Nat.ltb 5 (length (Re.group 1 m))
                    then set data Keys.MA_TRA_CUU (Re.group 1 m) else data
        | None => data
        end in
      let data := set_opt data Keys.MA_CQT
                    (option_map (Re.group 1) (Re.search Re.IGNORECASE RE_CQT text)) in
      let data := set_opt data Keys.LINK
                    (option_map (Re.group 1) (Re.search Re.NOFLAGS RE_LINK text)) in
      Some data
    end
  end.

End OCR.

(* ================================================================== *)
(** * The main pipeline: [extract_invoice_data] *)
(* ================================================================== *)

Module Extract.
Import Dict.

#[local] Open Scope Z_scope.

(** ** What the outside world supplies

    The PDF text layer, the OCR engine and the file system are external
    collaborators; a run of the function is determined by what they
    answer. *)

Inductive hd_outcome : Type :=
| HdError                      (* the 600 dpi rendering raises *)
| HdNoImage                    (* no page image *)
| HdImage (number_crop top_crop : option pystr).
                               (* OCR text of each crop; None: it raises *)

Inductive fallback_outcome : Type :=
| FbError                      (* listing the folder raises *)
| FbNone                       (* no readable companion text file *)
| FbText (text : pystr).       (* content of the first readable one *)

Record Env := {
  pdf_source : option pystr;   (* Some path when pdf_source is a str *)
  filename_arg : option pystr; (* the filename argument *)
  pages : list pystr;          (* page.extract_text() of the pages read *)
  pdf_error : bool;            (* pdfplumber raises after those pages *)
  OCR_AVAILABLE : bool;
  ocr_text : pystr;            (* the text OCR recognises on the pages *)
  hd : hd_outcome;
  fallback : fallback_outcome }.

(** [os.path.basename] and [os.path.splitext] (POSIX flavour). *)
Definition basename (p : pystr) : pystr :=
  Str.from (Z.to_nat (Str.rfind (py "/") p + 1)) p.

Fixpoint all_dots_between (s : pystr) (i stop : nat) (fuel : nat) : bool :=
  match fuel with
  | O => true
  | S f =>
    if Nat.ltb i stop then
      if Str.eqb (Str.slice i (S i) s) dot then all_dots_between s (S i) stop f
      else false
    else true
  end.

Definition splitext_root (p : pystr) : pystr :=
  let sep_index := Str.rfind (py "/") p in
  let dot_index := Str.rfind dot p in
  if sep_index <? dot_index then
    if all_dots_between p (Z.to_nat (sep_index + 1)) (Z.to_nat dot_index) (length p)
    then p else Str.upto (Z.to_nat dot_index) p
  else p.

(** [ocr_pdf_to_text]: empty when OCR is unavailable or fails. *)
Definition ocr_pdf_to_text (env : Env) : pystr :=
  if OCR_AVAILABLE env then ocr_text env else empty.

(** ** The local helpers *)

(** [parse_money(s)] (local): 0 for a blank or unparseable string. *)
Definition parse_money (s : pystr) : Z :=
  if negb (Str.truthy s) then 0
  else
    let s := cut_decimals (Str.strip s) in
    match PyNum.int_of_str (Str.replace dot empty (Str.replace comma empty s)) with
    | Some n => n
    | None => 0
    end.

(** [parse_money(n)] on an integer: it goes through [str(n)]. *)
Definition parse_money_int (n : Z) : Z :=
  if n =? 0 then 0 else parse_money (PyNum.str_of_int n).

(** [format_money(n)] (local) on an integer: dots for thousands; when
    the float formatting raises, [str(n)]. *)
Definition format_money (n : Z) : pystr :=
  match PyNum.float_of_int (parse_money_int n) with
  | Some f => Str.replace comma dot (PyNum.format_comma_0f f)
  | None => PyNum.str_of_int n
  end.

Definition SENTINEL : pystr := Eval vm_compute in py "không nhận diện được".

(** The record literal at the head of the function. *)
Definition initial_data (filename : pystr) : dict :=
  (Keys.TEN_FILE, filename) :: map (fun k => (k, empty)) (tl Keys.ALL).

(** [for x in xs: ... break]: the body answers with the new record and
    whether to break. *)
Fixpoint for_break {A} (xs : list A) (body : A -> dict -> dict * bool)
  (data : dict) : dict :=
  match xs with
  | [] => data
  | x :: more =>
    let '(data, stop) := body x data in
    if stop then data else for_break more body data
  end.

Definition set_opt (d : dict) (k : pystr) (v : option pystr) : dict :=
  match v with Some x => set d k x | None => d end.

Definition blank (d : dict) (k : pystr) : bool := negb (Str.truthy (item d k)).

Definition ignore_mst : list pystr := OCR.ignore_mst.
Definition is_ignored (mst : pystr) : bool :=
  existsb (fun x => Str.contains x mst) ignore_mst.

(** ** The high-resolution OCR retry *)

Definition RE_HD_NUMBER := Eval vm_compute in
  re "(?:[Ss][ốoéô]|[Nn]o\.?)\s*[:\s]*(\d{4,})".
Definition RE_HD_MST := Eval vm_compute in
  re "(?:Mã\s*số\s*thuế|MST|Ma\s*s.\s*thu.)[:\s]*([\d\-\s]+)".

Definition hd_accept_mst (m : Re.mobj) : option pystr :=
  let mst_val := Str.strip (Str.replace (py "-") empty
                   (Str.replace space empty (Re.group 1 m))) in
  if Nat.leb 10 (length mst_val) && negb (is_ignored mst_val)
  then Some mst_val else None.

Definition hd_retry (env : Env) (data : dict) : dict :=
  if (blank data Keys.SO_HOA_DON || blank data Keys.MA_SO_THUE)
     && OCR_AVAILABLE env then
    match hd env with
    | HdError | HdNoImage => data
    | HdImage number_crop top_crop =>
      let step1 :=
        if blank data Keys.SO_HOA_DON then
          match number_crop with
          | Some hd_text =>
            Some (set_opt data Keys.SO_HOA_DON
                    (option_map (Re.group 1)
                       (Re.search Re.NOFLAGS RE_HD_NUMBER hd_text)))
          | None => None
          end
        else Some data in
      match step1 with
      | None => data
      | Some data =>
        if blank data Keys.MA_SO_THUE then
          match top_crop with
          | Some hd_text_top =>
            set_opt data Keys.MA_SO_THUE
              (OCR.first_some hd_accept_mst
                 (Re.finditer Re.IGNORECASE RE_HD_MST hd_text_top))
          | None => data
          end
        else data
      end
    end
  else data.

(** The classification by content on the OCR path. *)
Definition ocr_category (ocr_lower : pystr) : pystr :=
  if Str.contains_any
       (map py ["petrolimex"; "xăng"; "ron 95"; "ron95"; "diesel"; "dầu diesel"])
       ocr_lower
  then py "Xăng xe"
  else if Str.contains_any (map py ["khách sạn"; "hotel"; "phòng nghỉ"]) ocr_lower
  then py "Dịch vụ phòng nghỉ"
  else if Str.contains_any (map py ["nhà hàng"; "quán ăn"; "món ăn"]) ocr_lower
  then py "Dịch vụ ăn uống"
  else py "Khác".

(** [for key, val in ocr_data.items(): if key in data and val: ...] *)
Definition merge_ocr (ocr_data data : dict) : dict :=
  fold_left (fun data '(key, val) =>
               if has_key data key && Str.truthy val then set data key val
               else data)
            ocr_data data.

(** ** Cleaning the text layer *)

Definition RE_GARBAGE := Eval vm_compute in re "0'}([\d\.,]+)'\}'\}".

Definition strip_garbage_tokens (line : pystr) : pystr :=
  Str.replace (py "{'") empty (Str.replace (py "'}") empty
    (Str.replace (py "'}'}") empty (Str.replace (py "0'}") empty line))).

(** The body of [for line in full_text.split('\n')]. *)
Definition clean_line (acc : dict * list pystr) (line : pystr)
  : dict * list pystr :=
  let '(data, clean_lines) := acc in
  let line_strip := Str.strip line in
  let '(data, line) :=
    match Re.search Re.NOFLAGS RE_GARBAGE line with
    | Some garbage_match =>
      let val := Re.group 1 garbage_match in
      let data := if blank data Keys.SO_TIEN_SAU
                  then set data Keys.SO_TIEN_SAU val else data in
      (data, Str.replace (Re.group 0 garbage_match) (space ++ val ++ space) line)
    | None => (data, line)
    end in
  let line := strip_garbage_tokens (strip_garbage_tokens (strip_garbage_tokens line)) in
  if Str.startswith (py "{") line_strip
     || (Str.startswith (py "'") line_strip && Str.endswith (py "'") line_strip)
  then (data, clean_lines)
  else
    let line := Str.replace [0%N] empty (Str.replace [173%N] empty line) in
    (data, clean_lines ++ [line]).

Definition normalize_text (full_text : pystr) (data : dict) : dict * pystr :=
  let full_text := Str.replace [13%N] newline
                     (Str.replace [13%N; 10%N] newline full_text) in
  let '(data, clean_lines) :=
    fold_left clean_line (Str.split newline full_text) (data, []) in
  (data, Str.join newline clean_lines).

(** "Set all fields to 'không nhận diện được'" *)
Definition mark_unrecognized (data : dict) : dict :=
  map (fun '(key, v) =>
         if negb (Str.eqb key Keys.TEN_FILE) then (key, SENTINEL) else (key, v))
      data.

(** ** Field extraction from the text layer *)

Definition date_patterns := Eval vm_compute in
  [ re "Ngày\s*(\d{1,2})\s*tháng\s*(\d{1,2})\s*năm\s*(\d{4})";
    re "Ngày\s*(\d{1,2})[/\-.](\d{1,2})[/\-.](\d{4})";
    re "(\d{1,2})[/\-.](\d{1,2})[/\-.](\d{4})";
    re "Ngày[:\s]*(\d{1,2})[\s\S]{0,100}tháng[:\s]*(\d{1,2})[\s\S]{0,100}năm[:\s]*(\d{4})";
    re "Ngày(?:[^0-9]{0,35})?(\d{1,2})[\s\S]{0,35}tháng(?:[^0-9]{0,35})?(\d{1,2})[\s\S]{0,35}năm(?:[^0-9]{0,35})?(\d{4})" ].

(** [f"{n:02d}"] *)
Definition pad2 (n : Z) : pystr :=
  let s := PyNum.str_of_int n in
  if (0 <=? n) && (n <? 10) then 48%N :: s else s.

(** [int(day)] on text matched by [\d{1,2}], which always converts. *)
Definition int_of_digits (s : pystr) : Z :=
  match PyNum.int_of_str s with Some n => n | None => 0 end.

Definition extract_date (full_text : pystr) (data : dict) : dict :=
  match OCR.first_some (fun p => Re.search Re.IGNORECASE_DOTALL p full_text)
          date_patterns with
  | Some m =>
    set data Keys.NGAY_HOA_DON
      (pad2 (int_of_digits (Re.group 1 m)) ++ py "/"
       ++ pad2 (int_of_digits (Re.group 2 m)) ++ py "/" ++ Re.group 3 m)
  | None => data
  end.

Definition RE_SPACED_MST := Eval vm_compute in
  re "Mã số thuế[:\s]*((?:\d\s+){9,}[\d\s-]*\d)".
Definition RE_VAT_CODE := Eval vm_compute in re "VAT\s*Code[:\s]*(\d{10,14})".
Definition RE_SELLER_BLOCK := Eval vm_compute in
  re "(?:Đơn vị bán|Người bán|Seller)[^:]*[:\s]+(.*?)(?:Mã số thuế|MST|Tax code)[^:]*[:\s]*([0-9\s-]+)".
Definition RE_ANY_MST := Eval vm_compute in
  re "(?:Mã số thuế|MST|Tax code)[^:]*[:\s]*([0-9\s-]+)".
Definition RE_DIGITS_DASH := Eval vm_compute in re "[\d-]+".
Definition PROVIDER_CONTEXT : list pystr := Eval vm_compute in map py
  [ "giải pháp"; "phần mềm"; "cung cấp bởi"; "phát hành bởi"; "created by";
    "signature"; "ký bởi"; "bkav"; "ehoadon" ].

(** A candidate of "Priority 2": cleaned, of plausible length, not a
    provider's code. *)
Definition mst_candidate (m : Re.mobj) : list pystr :=
  let raw_mst := Str.strip (Str.replace space empty (Re.group 1 m)) in
  match Re.rmatch Re.NOFLAGS RE_DIGITS_DASH raw_mst with
  | Some clean_mst =>
    let val := Re.group 0 clean_mst in
    let ignored := is_ignored val
                   || existsb (fun ign => Str.contains val ign) ignore_mst in
    if Nat.leb 9 (length val) && Nat.leb (length val) 14 && negb ignored
    then [val] else []
  | None => []
  end.

(** [for line in full_text.split('\n')]: is there a line that holds
    the candidate and reads like a provider's credit? *)
Fixpoint bad_context (c : pystr) (lines : list pystr) : bool :=
  match lines with
  | [] => false
  | line :: more =>
    if Str.contains c (Str.replace space empty line)
       && Str.contains_any PROVIDER_CONTEXT (lower line)
    then true else bad_context c more
  end.

Definition extract_seller_tax_code (full_text : pystr) (data : dict) : dict :=
  (* Priority 0: spaced digits *)
  let data :=
    match Re.search Re.IGNORECASE RE_SPACED_MST full_text with
    | Some m =>
      let potential_mst := Str.strip (Str.replace space empty (Re.group 1 m)) in
      if negb (is_ignored potential_mst)
      then set data Keys.MA_SO_THUE potential_mst else data
    | None => data
    end in
  (* Priority 0.5: VAT Code *)
  let data :=
    if blank data Keys.MA_SO_THUE then
      match Re.search Re.IGNORECASE RE_VAT_CODE full_text with
      | Some m =>
        let potential_mst := Str.strip (Re.group 1 m) in
        if negb (is_ignored potential_mst)
        then set data Keys.MA_SO_THUE potential_mst else data
      | None => data
      end
    else data in
  (* Priority 1: near the seller label *)
  let data :=
    if blank data Keys.MA_SO_THUE then
      match Re.search Re.IGNORECASE_DOTALL RE_SELLER_BLOCK full_text with
      | Some m =>
        let potential_mst := Str.strip (Str.replace space empty (Re.group 2 m)) in
        if Nat.leb 10 (length potential_mst) && negb (is_ignored potential_mst)
        then set data Keys.MA_SO_THUE potential_mst else data
      | None => data
      end
    else data in
  (* Priority 2: every labelled code, filtered *)
  if blank data Keys.MA_SO_THUE then
    let candidates :=
      flat_map mst_candidate (Re.finditer Re.IGNORECASE RE_ANY_MST full_text) in
    let final_candidates :=
      filter (fun c => negb (bad_context c (Str.split newline full_text)))
             candidates in
    match final_candidates with
    | c :: _ => set data Keys.MA_SO_THUE c
    | [] => data
    end
  else data.

(** The invoice-number patterns with their extra flag. *)
Definition inv_patterns : list (Re.regex * Re.flags) := Eval vm_compute in
  [ (re "(\d{8})\nSố HĐ\s*/\s*Invoice No\.", Re.IGNORECASE);
    (re "(\d{4,8})\n\s*Số\s*\(?No\.?\)?[:\s]*", Re.IGNORECASE);
    (re "Số HĐ\s*/\s*Invoice No\.?[:\s]*[\n\s]*(\d{5,})", Re.IGNORECASE_DOTALL);
    (re "\(\s*VAT\s*INVOICE\s*\)[:\s]*(\d+)", Re.IGNORECASE);
    (re "Invoice No\.?[:\s]*[\n\s]*(\d{5,})", Re.IGNORECASE_DOTALL);
    (re "[Ss][ốo]\s*[(/]?\s*No\.?\s*[)/]?[:\s]*(\d{5,})", Re.IGNORECASE);
    (re "[Ss][ốo][/\s]*[(]?\s*Invoice No\.?\s*[)]?[:\s]*(\d+)", Re.IGNORECASE);
    (re "\(RESTAURANT BILL\)\s*(\d+)", Re.IGNORECASE);
    (re "Số:\s*(\d+)", Re.IGNORECASE);
    (re "Số hóa đơn[:\s]*(\d+)", Re.IGNORECASE);
    (re "[Ss][ốo]\s*[(/]?\s*No\.?\s*[)/]?[:\s]*(\d+)", Re.IGNORECASE);
    (re "s[éèẹẽe][: ]+\s*(\d+)", Re.IGNORECASE);
    (re "S[óố][: ]+\s*(\d+)", Re.IGNORECASE) ].

Definition ADDRESS_WORDS : list pystr := Eval vm_compute in map py
  [ "đường"; "phố"; "phường"; "quận"; "thành phố"; "district"; "ward";
    "street"; "thửa đất"; "tờ bản đồ"; "ấp "; "xã "; "tỉnh" ].

(** The body of [for match in matches]: an address-like line or a too
    short number is skipped. *)
Definition accept_invoice_number (full_text : pystr) (m : Re.mobj)
  : option pystr :=
  let num := Re.group 1 m in
  let line_content := lower (Str.line_around full_text (Re.m_start m) (Re.m_end m)) in
  if Str.contains_any ADDRESS_WORDS line_content then None
  else if Nat.ltb (length num) 3 then None
  else Some num.

Definition RE_NAME_SPLIT := Eval vm_compute in re "[_\-\s]".

Definition extract_invoice_number (env : Env) (filename : pystr)
  (full_text : pystr) (data : dict) : dict :=
  let data :=
    for_break inv_patterns
      (fun '(pattern, fl) data =>
         let data :=
           set_opt data Keys.SO_HOA_DON
             (OCR.first_some (accept_invoice_number full_text)
                (Re.finditer fl pattern full_text)) in
         (data, negb (blank data Keys.SO_HOA_DON)))
      data in
  if blank data Keys.SO_HOA_DON then
    let fname_for_num :=
      if Str.truthy filename then filename
      else match pdf_source env with
           | Some path => basename path
           | None => empty
           end in
    let fname := splitext_root fname_for_num in
    let parts := Re.split Re.NOFLAGS RE_NAME_SPLIT fname in
    let nums := filter (fun p => Str.isdigit p && Nat.ltb 2 (length p)) parts in
    match rev nums with
    | last :: _ => set data Keys.SO_HOA_DON last
    | [] => data
    end
  else data.


(** *** Seller name *)

Definition seller_patterns := Eval vm_compute in
  [ re "Đơn vị bán hàng\s*\([Ss]eller\)[:\s]*(.+)";
    re "Đơn vị bán\s*\([Ss]eller\)[:\s]*(.+)";
    re "Đơn vị bán\s*\(Seller\)[:\s]*(.+)";
    re "Tên người bán\s*\([Ss]eller\)[:\s]*(.+)";
    re "Đơn vị bán hàng\s*\([Cc]ompany\)[:\s]*(.+)";
    re "Đơn vị bán hàng[:\s]*(.+)";
    re "Tên đơn vị bán hàng[:\s]*(.+)";
    re "HỘ KINH DOANH[:\s]*(.+)";
    re "QUÁN[:\s]*(.+)" ].
Definition RE_NEXT_LINE := Eval vm_compute in re "\n([^\n]+)".
Definition RE_SELLER_LABEL := Eval vm_compute in
  re "^\s*[\(\[]?\s*(?:Seller|Company|Người bán|Doanh nghiệp|Tên đơn vị|Đơn vị bán)\s*[\)\]]?\s*[:\.\-]?\s*".
Definition RE_ISSUED := Eval vm_compute in re "^\s*\(?Issued\)?\s*[:\.\-]\s*".
Definition RE_LEADING_PUNCT := Eval vm_compute in re "^\s*[:\.\-]+\s*".
Definition RE_MST_TAIL := Eval vm_compute in re "\s*Mã số thuế.*$".
Definition RE_MST_ABBR_TAIL := Eval vm_compute in re "\s*MST.*$".
Definition RE_ADDRESS_TAIL := Eval vm_compute in re "\s*Địa chỉ.*$".
Definition RE_PAGE_LABEL := Eval vm_compute in re "^(Trang|Page)\s+\d".
Definition RE_PAREN_LABEL := Eval vm_compute in re "^\s*\([A-Za-z\s]+\)\s*$".

Definition SELLER_FOOTER_WORDS : list pystr := Eval vm_compute in map py
  [ "mã nhận hóa đơn"; "code for checking"; "tra cứu tại"; "địa chỉ"; "address" ].
Definition SELLER_PLACEHOLDERS : list pystr := Eval vm_compute in map py
  [ "(seller)"; "seller"; "người bán"; "tên đơn vị"; "(buyer)"; "buyer";
    "người mua" ].
Definition QUAN := Eval vm_compute in py "QUÁN".

(** The body of [for pattern in seller_patterns] once the pattern has
    matched; [None] is [continue] (or a too short name). *)
Definition seller_of_match (full_text : pystr) (m : Re.mobj) : option pystr :=
  let seller := Str.strip (Re.group 1 m) in
  let rest_of_text := Str.from (Re.m_end m) full_text in
  let seller :=
    match Re.rmatch Re.NOFLAGS RE_NEXT_LINE rest_of_text with
    | Some next_line_match =>
      let next_line := Str.strip (Re.group 1 next_line_match) in
      if Str.endswith (py ":") seller || Str.endswith (py "(") seller
         || Str.contains (py "DOANH NGHIỆP") (Str.take_last 15 seller)
      then seller ++ space ++ next_line else seller
    | None => seller
    end in
  let seller := Str.replace newline space seller in
  let seller := Re.sub Re.IGNORECASE RE_SELLER_LABEL empty seller in
  let seller := Re.sub Re.IGNORECASE RE_ISSUED empty seller in
  let seller := Re.sub Re.NOFLAGS RE_LEADING_PUNCT empty seller in
  let seller := Re.sub Re.IGNORECASE RE_MST_TAIL empty seller in
  let seller := Re.sub Re.IGNORECASE RE_MST_ABBR_TAIL empty seller in
  let seller := Re.sub Re.IGNORECASE RE_ADDRESS_TAIL empty seller in
  if Str.contains_any SELLER_FOOTER_WORDS (lower seller) then None
  else if Str.mem (Str.strip (Str.replace (py ":") empty (lower seller)))
                  SELLER_PLACEHOLDERS then None
  else if found (Re.rmatch Re.IGNORECASE RE_PAGE_LABEL (Str.strip seller)) then None
  else if found (Re.rmatch Re.NOFLAGS RE_PAREN_LABEL (Str.strip seller)) then None
  else if Nat.ltb 5 (length seller)
          || (Nat.ltb 3 (length seller) && Str.contains QUAN (upper seller))
  then Some seller
  else None.

Definition seller_by_label (full_text : pystr) (data : dict) : dict :=
  set_opt data Keys.DON_VI_BAN
    (OCR.first_some
       (fun p => match Re.search Re.NOFLAGS p full_text with
                 | Some m => seller_of_match full_text m
                 | None => None
                 end)
       seller_patterns).

Definition COMPANY_WORDS : list pystr := Eval vm_compute in map py
  [ "CÔNG TY"; "TẬP ĐOÀN"; "CHI NHÁNH"; "NHÀ HÀNG"; "DNTN"; "HỘ KINH DOANH";
    "QUÁN" ].
Definition bad_keywords_no_hoadon : list pystr := Eval vm_compute in map py
  [ "CỘNG HÒA"; "ĐỘC LẬP"; "TÊN NGƯỜI MUA"; "TÊN ĐƠN VỊ:";
    "PHÂN PHỐI TỔNG HỢP DẦU KHÍ"; "ĐÃ ĐƯỢC KÝ ĐIỆN TỬ" ].
Definition HOA_DON := Eval vm_compute in py "HÓA ĐƠN".

(** The body of [for idx, line in enumerate(lines_before_mst[:6])];
    [None] is "next line". *)
Definition header_seller (lines_before_mst : list pystr) (idx : nat)
  (line : pystr) : option pystr :=
  if Nat.ltb 10 (length line) && Str.contains_any COMPANY_WORDS (upper line) then
    let line_upper := upper line in
    let has_hoadon := Str.contains HOA_DON line_upper in
    if Str.contains_any bad_keywords_no_hoadon line_upper then None
    else
      let line_opt :=
        if has_hoadon then
          let line := Str.strip (Str.upto (Z.to_nat (Str.find HOA_DON line_upper)) line) in
          if Nat.leb (length line) 5 then None else Some line
        else Some line in
      match line_opt with
      | None => None
      | Some line =>
        if Nat.ltb (idx + 1) (length lines_before_mst) then
          let next_line := nth (idx + 1) lines_before_mst empty in
          if Str.truthy next_line
             && negb (Str.contains (py "Mã số") next_line)
             && negb (Str.contains (py "Địa chỉ") next_line)
             && (Str.isupper next_line
                 || (Nat.ltb (length next_line) 40
                     && negb (Str.contains (py ":") next_line)))
             && negb (Str.contains (py "PHÂN PHỐI") (upper next_line))
          then Some (line ++ space ++ next_line)
          else Some line
        else Some line
      end
  else None.

Fixpoint first_indexed {A B} (f : nat -> A -> option B) (i : nat) (l : list A)
  : option B :=
  match l with
  | [] => None
  | x :: l' =>
    match f i x with
    | Some y => Some y
    | None => first_indexed f (S i) l'
    end
  end.

(** "PRIORITY FALLBACK 1": the first company-like line above the first
    tax-code label. *)
Definition seller_above_tax_code (full_text : pystr) (data : dict) : dict :=
  if blank data Keys.DON_VI_BAN then
    let mst_pos := Str.find (py "Mã số thuế") full_text in
    let mst_pos := if mst_pos =? -1 then Str.find (py "MST") full_text else mst_pos in
    if 0 <? mst_pos then
      let text_before_mst := Str.strip (Str.upto (Z.to_nat mst_pos) full_text) in
      let lines_before_mst :=
        filter Str.truthy (map Str.strip (Str.split newline text_before_mst)) in
      set_opt data Keys.DON_VI_BAN
        (first_indexed (header_seller lines_before_mst) 0
           (firstn 6 lines_before_mst))
    else data
  else data.

Definition RE_SIGNED_BY := Eval vm_compute in
  re "(?:Ký bởi|Được ký bởi)[:\s]*([A-ZĐ][A-ZĐÀÁẢÃẠ\s]+(?:\n[A-ZĐÀÁẢÃẠ\s]+)?)".
Definition SIGNER_WORDS : list pystr := Eval vm_compute in map py
  [ "CÔNG TY"; "TẬP ĐOÀN"; "CHI NHÁNH"; "NHÀ HÀNG"; "DNTN" ].
Definition SIGNER_BAD : list pystr := Eval vm_compute in map py
  [ "địa chỉ"; "address"; "mã số"; "đã được ký" ].

(** "FALLBACK 2": the signature block. *)
Definition seller_from_signature (full_text : pystr) (data : dict) : dict :=
  if blank data Keys.DON_VI_BAN then
    match Re.search Re.NOFLAGS RE_SIGNED_BY full_text with
    | Some sign_match =>
      let signer := Str.strip (Str.replace newline space (Re.group 1 sign_match)) in
      if Nat.ltb 5 (length signer)
         && Str.contains_any SIGNER_WORDS (upper signer)
         && negb (Str.contains_any SIGNER_BAD (lower signer))
      then set data Keys.DON_VI_BAN signer else data
    | None => data
    end
  else data.

Definition BOTTOM_WORDS : list pystr := Eval vm_compute in map py
  [ "CÔNG TY"; "TẬP ĐOÀN"; "CHI NHÁNH"; "DNTN"; "HỘ KINH DOANH"; "HOTEL";
    "KHÁCH SẠN"; "QUÁN" ].
Definition BOTTOM_BAD : list pystr := Eval vm_compute in map py
  [ "HÓA ĐƠN"; "TRANG"; "PAGE"; "KÝ BỞI"; "GIẢI PHÁP"; "CUNG CẤP"; "ĐỊA CHỈ";
    "MST:"; "VAT CODE" ].

(** "FALLBACK 3": the last twenty lines. *)
Definition seller_from_bottom (full_text : pystr) (data : dict) : dict :=
  if blank data Keys.DON_VI_BAN then
    let lines := filter Str.truthy (map Str.strip (Str.split newline full_text)) in
    let ok line :=
      Nat.ltb 5 (length line)
      && Str.contains_any BOTTOM_WORDS (upper line)
      && (Str.isupper line || Str.contains (py "CÔNG TY") (upper line)
          || Str.contains QUAN (upper line))
      && negb (Str.contains_any BOTTOM_BAD (upper line)) in
    match filter ok (skipn (length lines - 20) lines) with
    | line :: _ => set data Keys.DON_VI_BAN line
    | [] => data
    end
  else data.


(** *** Codes and links *)

Definition RE_CQT_STANDARD := Eval vm_compute in
  re "(?:Mã|Ma)\s*(?:của)?\s*(?:CQ|cơ\s*quan)\s*thuế[:\s]*([A-Z0-9\-]+)".

Definition serial_patterns := Eval vm_compute in
  [ re "Ký hiệu\s*/\s*Serial[:\s]*([A-Z0-9]+)";
    re "[KK]ý hiệu\s*/\s*\([Ss]erial(?:\s*No\.?)?\)[:\s]*([A-Z0-9]+)";
    re "[KK]ý hiệu\s*\([Ss]erial\)[:\s]*([A-Z0-9]+)";
    re "[KK]ý hiệu\s*\([Ss]erial(?:\s*No\.?)?\)[:\s]*([A-Z0-9]+)";
    re "[KK]ý hiệu\s*\([Ss]eries\)[:\s]*([A-Z0-9]+)";
    re "[KK]ý hiệu[:\s]*([A-Z0-9]+)";
    re "Mẫu số\s*-\s*[KK]ý hiệu[^:]*[:\s]*([A-Z0-9]+)" ].

Definition security_patterns := Eval vm_compute in
  [ re "Mã tra cứu hoá đơn[:\s]*([A-Za-z0-9]+)";
    re "Mã nhận hóa đơn\s*\([Cc]ode for checking\)[:\s]*([A-Z0-9]+)";
    re "Mã nhận hóa đơn[:\s]*([A-Za-z0-9]+)";
    re "Mã tra cứu\s*\([Ll]ookup\s*code\)[:\s]*([A-Za-z0-9_]+)";
    re "Mã tra cứu hóa đơn\s*\([Ii]nvoice code\)[:\s]*([A-Za-z0-9_]+)";
    re "Mã tra cứu(?:\s*HĐĐT)?(?:\s*này)?[:\s]*([A-Za-z0-9_]+)";
    re "Mã tra cứu\(Invoice code\)[:\s]*([A-Za-z0-9_]+)";
    re "Mã số bí mật[:\s]*([A-Za-z0-9_]+)";
    re "Security Code\)[:\s]*([A-Z0-9]+)";
    re "Mã tra cứu[:\s]*([A-Za-z0-9]+)";
    re "[Ll]ookup\s*code[):\s]*([A-Za-z0-9]+)";
    re "Ma tra cuu[:\s]*([A-Za-z0-9]+)";
    re "Mã tra cứu\s*\([Cc]ode\)[:\s]*([A-Za-z0-9]+)";
    re "với mã[:\s]*([A-Za-z0-9]+)";
    re "nhập mã\s+([A-Za-z0-9]+)";
    re "provided code[^:]*[:\s]*([A-Za-z0-9]+)" ].

Definition CODE_NOISE : list pystr := Eval vm_compute in map py
  [ "http"; "tracuu"; "website"; "invoice"; "check"; ".com"; ".vn"; "please";
    "vui lòng"; "quý khách"; "access" ].

(** The body of [for pattern in security_patterns]. *)
Definition security_step (full_text : pystr) (pattern : Re.regex) (data : dict)
  : dict * bool :=
  match Re.search Re.IGNORECASE pattern full_text with
  | Some m =>
    let code := Re.group 1 m in
    if Str.contains_any CODE_NOISE (lower code) then (data, false)
    else if Nat.leb 5 (length code) && Nat.leb (length code) 35
    then (set data Keys.MA_TRA_CUU code, true)
    else if Nat.ltb 35 (length code) then
      (if blank data Keys.MA_CQT then set data Keys.MA_CQT code else data, false)
    else (data, false)
  | None => (data, false)
  end.

Definition RE_HEX_CODE := Eval vm_compute in re "\b[A-F0-9]{8,}\b".
Definition SERIAL_CONTEXT : list pystr := Eval vm_compute in map py
  [ "serial number"; "serial no"; "ký điện tử"; "ký điện tư"; "chữ ký số" ].

(** [for ft_line in footer_text.split('\n')]: the first line holding
    [p] decides. *)
Fixpoint on_serial_line (p : pystr) (lines : list pystr) : bool :=
  match lines with
  | [] => false
  | ft_line :: more =>
    if Str.contains p ft_line
    then Str.contains_any SERIAL_CONTEXT (lower ft_line)
    else on_serial_line p more
  end.

(** The unlabelled long code of the footer (the last 500 characters). *)
Definition footer_code (full_text : pystr) (data : dict) : dict :=
  if blank data Keys.MA_TRA_CUU then
    let footer_text := Str.take_last 500 full_text in
    let potentials := Re.findall0 Re.NOFLAGS RE_HEX_CODE footer_text in
    let ok p :=
      Nat.leb 10 (length p) && negb (Str.isdigit p)
      && negb (Str.contains (py "0100") p) && negb (Str.contains (py "030") p)
      && negb (on_serial_line p (Str.split newline footer_text)) in
    match filter ok potentials with
    | p :: _ => set data Keys.MA_TRA_CUU p
    | [] => data
    end
  else data.

Definition tax_patterns := Eval vm_compute in
  [ re "Mã số thuế\s*\([Tt]ax\s*code\)[:\s]*([\d\-\u00AD\s]+)";
    re "(?:MST|Mã số thuế)[/\s]*\([Tt]ax [Cc]ode\)[:\s]*([\d\-\u00AD\s]+)";
    re "MST/CCCD[^:]*[:\s]*([\d\-\u00AD\s]+)";
    re "(?:MST|Mã số thuế)[:\s]*([\d\-\u00AD\s]+)" ].

Definition tax_code_matches (full_text : pystr) (pattern : Re.regex)
  : list pystr :=
  filter (fun clean => Nat.leb 10 (length clean) && existsb is_digit_char clean)
    (map (fun m => Str.strip (Str.replace space empty (Str.replace [173%N] empty m)))
         (Re.findall1 Re.IGNORECASE pattern full_text)).

Definition RE_PETRO_MST := Eval vm_compute in
  re "(?:ma\s+s[eoc]\s+thue|ma\s+so\s+thue|ma\s+s.\s+thue|mst|tax code)[^0-9]*([0-9]{10,14})".

(** The accent folding of the Petrolimex rule, in the order written. *)
Definition ACCENT_FOLDS : list (pystr * pystr) := Eval vm_compute in
  map (fun '(a, b) => (py a, py b))
  [ ("á", "a"); ("à", "a"); ("ã", "a"); ("ạ", "a"); ("ả", "a");
    ("é", "e"); ("è", "e"); ("ẽ", "e"); ("ẹ", "e"); ("ẻ", "e");
    ("ô", "o"); ("ố", "o"); ("ồ", "o"); ("ỗ", "o"); ("ộ", "o"); ("ổ", "o");
    ("ê", "e"); ("ế", "e"); ("ề", "e"); ("ễ", "e"); ("ệ", "e"); ("ể", "e") ].

Definition fold_accents (s : pystr) : pystr :=
  fold_left (fun s '(a, b) => Str.replace a b s) ACCENT_FOLDS s.

Definition extract_tax_codes (full_text : pystr) (data : dict) : dict :=
  let tax_codes := flat_map (tax_code_matches full_text) tax_patterns in
  let data :=
    if Nat.leb 1 (length tax_codes) && blank data Keys.MA_SO_THUE then
      let valid_mst :=
        filter (fun t => negb (is_ignored t)
                         && negb (existsb (fun ign => Str.contains t ign) ignore_mst))
               tax_codes in
      match valid_mst with
      | t :: _ => set data Keys.MA_SO_THUE t
      | [] => data
      end
    else data in
  if blank data Keys.MA_SO_THUE then
    let norm_text := fold_accents (lower full_text) in
    match Re.search Re.NOFLAGS RE_PETRO_MST norm_text with
    | Some petro_mst =>
      let mst_cand := Re.group 1 petro_mst in
      if negb (is_ignored mst_cand) then set data Keys.MA_SO_THUE mst_cand else data
    | None => data
    end
  else data.

Definition cqt_patterns := Eval vm_compute in
  [ re "Mã\s*(?:của\s*)?[Cc]ơ quan thuế[:\s]*([A-Za-z0-9\-\u00AD]+)";
    re "Mã\s*(?:của\s*)?[Cc]ơ quan thuế\s*\([Tt]ax authority code\)[:\s]*([A-Za-z0-9\-\u00AD]+)";
    re "Mã\s*CQT\s*\([Cc]ode\)[:\s]*([A-Za-z0-9\-\u00AD]+)";
    re "Mã\s*CQT[:\s]*([A-Za-z0-9\-\u00AD]+)";
    re "MCQT\s*[:\s]+([A-Za-z0-9\-\u00AD]+)";
    re "Tax authority code[:\s]*([A-Za-z0-9\-\u00AD]+)" ].

Definition extract_cqt (full_text : pystr) (data : dict) : dict :=
  match OCR.first_some (fun p => Re.search Re.IGNORECASE p full_text) cqt_patterns with
  | Some m =>
    set data Keys.MA_CQT
      (Str.replace [173%N] (py "-") (Str.strip (Re.group 1 m)))
  | None => data
  end.

Definition link_patterns := Eval vm_compute in
  [ re "Tra cứu hóa đơn tại\s*\([^)]+\)[:\s]*(https?://[^\s]+)";
    re "Tra cứu hóa đơn tại[:\s]*(https?://[^\s]+)";
    re "(?:Tra cứu[^:]*tại|Trang tra cứu|website)[:\s]*(https?://[^\s]+)";
    re "(https?://[^\s]*(?:tracuu|tra-cuu|invoice|vnpt-invoice|minvoice|hddt)[^\s]*)";
    re "(?:tải|lấy|xem|download)\s+(?:về\s+)?hóa đơn[^\n]*(https?://[^\s]+)";
    re "(https?://[^\s]+)[^\n]*(?:hóa đơn|tải về|lấy hóa đơn)";
    re "(?:Tra cứu[^:]*tại|Trang tra cứu|website)[:\s]*([a-zA-Z0-9.-]+\.[a-zA-Z]{2,}(?:/[^\s]*)?)" ].

(** The body of [for pattern in link_patterns] once it has matched. *)
Definition link_of_match (m : Re.mobj) : option pystr :=
  let link := Str.rstrip_chars comma (Str.rstrip_chars dot (Re.group 1 m)) in
  let link :=
    if negb (Str.startswith (py "http") (lower link))
       && negb (Str.startswith (py "www") (lower link))
    then py "http://" ++ link else link in
  let link :=
    if Str.contains (py "www") (lower link)
       && negb (Str.startswith (py "http") (lower link))
    then py "http://" ++ link else link in
  if Str.contains dot link && Nat.ltb 5 (length link) then Some link else None.

Definition extract_link (full_text : pystr) (data : dict) : dict :=
  set_opt data Keys.LINK
    (OCR.first_some
       (fun p => match Re.search Re.IGNORECASE p full_text with
                 | Some m => link_of_match m
                 | None => None
                 end)
       link_patterns).

Definition prox_patterns := Eval vm_compute in
  [ re "(?:https?://[^\s]+)[\s\n]+([A-Za-z0-9]{6,50})\b";
    re "\b([A-Za-z0-9]{6,50})[\s\n]+(?:https?://[^\s]+)" ].
Definition PROX_NOISE : list pystr := Eval vm_compute in map py
  [ "website"; "http"; "https"; "link"; "tại"; "vnbox"; "vnpt"; "invoice" ].

(** "Code near Link": the first acceptable neighbour of a URL. *)
Definition code_near_link (full_text : pystr) (data : dict) : dict :=
  if blank data Keys.MA_TRA_CUU then
    for_break prox_patterns
      (fun p data =>
         let ok m :=
           let cand := Re.group 1 m in
           if Str.mem (lower cand) PROX_NOISE then None
           else if Str.contains (py "tracuu") (lower cand) then None
           else if Str.truthy (item data Keys.MA_SO_THUE)
                   && Str.eqb cand (item data Keys.MA_SO_THUE) then None
           else if Nat.leb 6 (length cand) && Nat.leb (length cand) 50
           then Some cand else None in
         let data :=
           set_opt data Keys.MA_TRA_CUU
             (OCR.first_some ok (Re.finditer Re.IGNORECASE p full_text)) in
         (data, negb (blank data Keys.MA_TRA_CUU)))
      data
  else data.

Definition extract_codes (full_text : pystr) (data : dict) : dict :=
  let data :=
    set_opt data Keys.MA_CQT
      (option_map (Re.group 1) (Re.search Re.IGNORECASE RE_CQT_STANDARD full_text)) in
  let data :=
    set_opt data Keys.KY_HIEU
      (option_map (Re.group 1)
         (OCR.first_some (fun p => Re.search Re.IGNORECASE p full_text)
            serial_patterns)) in
  let data := for_break security_patterns (security_step full_text) data in
  let data := footer_code full_text data in
  let data := extract_tax_codes full_text data in
  let data := extract_cqt full_text data in
  let data := extract_link full_text data in
  code_near_link full_text data.


(** *** Amounts *)

Definition before_tax_patterns := Eval vm_compute in
  [ re "Cộng tiền hàng\s*/\s*Total charges[:\s]*([\d\.,]+)";
    re "Cộng tiền hàng[^:]*[:\s]*([\d\.,]+)";
    re "Cộng ti[êề]n hàng[^:]*[:\s]*([\d\.,]+)";
    re "Tổng tiền chưa thuế[^:]*[:\s]*([\d\.,]+)";
    re "Thành ti[êềẫ]n trước thuế[^:]*[:\s]*([\d\.,]+)";
    re "Amount before VAT[^:]*[:\s]*([\d\.,]+)";
    re "Sub total[^:]*[:\s]*([\d\.,]+)" ].
Definition RE_TIEN_HANG := Eval vm_compute in re "Tiền hàng[:\s]+([\d\s.,]+)".
Definition RE_NUMBER := Eval vm_compute in re "[\d]+(?:[.,][\d]+)*".

Definition last_opt {A} (l : list A) : option A :=
  match rev l with x :: _ => Some x | [] => None end.

(** [for pattern in patterns: matches = re.findall(...); if matches:
    ... matches[-1]; break] *)
Definition last_match_of_first (patterns : list Re.regex) (full_text : pystr)
  : option pystr :=
  OCR.first_some (fun p => last_opt (Re.findall1 Re.IGNORECASE p full_text)) patterns.

(** [for n in reversed(nums_list): if parse_money(n) > 0: ...; break] *)
Definition last_positive (row : pystr) : option pystr :=
  let nums_list := Re.findall0 Re.NOFLAGS RE_NUMBER (Str.strip row) in
  match filter (fun n => 0 <? parse_money n) (rev nums_list) with
  | n :: _ => Some n
  | [] => None
  end.

Definition extract_before_tax (full_text : pystr) (data : dict) : dict :=
  let data := set_opt data Keys.TRUOC_THUE
                (last_match_of_first before_tax_patterns full_text) in
  if blank data Keys.TRUOC_THUE then
    match Re.search Re.IGNORECASE RE_TIEN_HANG full_text with
    | Some m => set_opt data Keys.TRUOC_THUE (last_positive (Re.group 1 m))
    | None => data
    end
  else data.

Definition vat_patterns := Eval vm_compute in
  [ re "Tiền thuế GTGT\s*/\s*VAT[:\s]*([\d\.,]+)";
    re "Tổng tiền thuế GTGT \d+%[:\s]*([\d\.,]+)";
    re "\|?Tiền thu[êế] GTGT\s*\(\s*\d+\s*%\s*\)\s*([\d\.,]+)";
    re "\|?Tiền thu[êế] GTGT[^:]*[:\s]+(\d[\d\.,]+)";
    re "Tiền thuế\s*\(VAT\s*Amount\)[^:]*[:\s]*([\d\.,]+)";
    re "Tổng tiền thuế[^:]*[:\s]*([\d\.,]+)";
    re "Tiền thu[êế] GTGT[^:]*[:\s]+(\d[\d\.,]+)";
    re "VAT amount[^:]*[:\s]*([\d\.,]+)";
    re "Cộng tiền thuế GTGT[^:]*[:\s]*([\d\.,]+)" ].

(** The rate breakdown tables: pattern, column, group. *)
Definition multi_col_patterns : list (Re.regex * pystr * nat) :=
  Eval vm_compute in
  [ (re "Thuế suất\s*0\s*%[^:\n]*[:\s]+(\d[\d\.,]*)\s+(\d[\d\.,]*)\s+(\d[\d\.,]*)", Keys.THUE_0, 2%nat);
    (re "Thuế suất\s*5\s*%[^:\n]*[:\s]+(\d[\d\.,]*)\s+(\d[\d\.,]*)\s+(\d[\d\.,]*)", Keys.THUE_5, 2%nat);
    (re "Thuế suất\s*8\s*%[^:\n]*[:\s]+(\d[\d\.,]*)\s+(\d[\d\.,]*)\s+(\d[\d\.,]*)", Keys.THUE_8, 2%nat);
    (re "Thuế suất\s*10\s*%[^:\n]*[:\s]+(\d[\d\.,]*)\s+(\d[\d\.,]*)\s+(\d[\d\.,]*)", Keys.THUE_10, 2%nat);
    (re "Thuế suất\s*khác[^0-9\n]*8\s*%\s+(\d[\d\.,]*)\s+(\d[\d\.,]*)\s+(\d[\d\.,]*)\s+(\d[\d\.,]*)\s+(\d[\d\.,]*)", Keys.THUE_8, 4%nat);
    (re "Thuế suất\s*khác[^0-9\n]*10\s*%\s+(\d[\d\.,]*)\s+(\d[\d\.,]*)\s+(\d[\d\.,]*)\s+(\d[\d\.,]*)\s+(\d[\d\.,]*)", Keys.THUE_10, 4%nat);
    (re "Thuế suất\s*khác[^0-9\n]*5\s*%\s+(\d[\d\.,]*)\s+(\d[\d\.,]*)\s+(\d[\d\.,]*)\s+(\d[\d\.,]*)\s+(\d[\d\.,]*)", Keys.THUE_5, 4%nat);
    (re "Tổng tiền chịu thuế suất[^:\n]*:\s*0\s*%\s+(\d[\d\.,]*)\s+(\d[\d\.,]*)\s+(\d[\d\.,]*)", Keys.THUE_0, 2%nat);
    (re "Tổng tiền chịu thuế suất[^:\n]*:\s*5\s*%\s+(\d[\d\.,]*)\s+(\d[\d\.,]*)\s+(\d[\d\.,]*)", Keys.THUE_5, 2%nat);
    (re "Tổng tiền chịu thuế suất[^:\n]*:\s*8\s*%\s+(\d[\d\.,]*)\s+(\d[\d\.,]*)\s+(\d[\d\.,]*)", Keys.THUE_8, 2%nat);
    (re "Tổng tiền chịu thuế suất[^:\n]*:\s*10\s*%\s+(\d[\d\.,]*)\s+(\d[\d\.,]*)\s+(\d[\d\.,]*)", Keys.THUE_10, 2%nat);
    (re "Thuế suất(?:\s*GTGT)?[:\s]*8\s*%\s*Tiền thuế GTGT[:\s]*(\d[\d\.,]*)", Keys.THUE_8, 1%nat);
    (re "Thuế suất(?:\s*GTGT)?[:\s]*10\s*%\s*Tiền thuế GTGT[:\s]*(\d[\d\.,]*)", Keys.THUE_10, 1%nat);
    (re "Thuế suất(?:\s*GTGT)?[:\s]*5\s*%\s*Tiền thuế GTGT[:\s]*(\d[\d\.,]*)", Keys.THUE_5, 1%nat);
    (re "Tiền thuế GTGT[:\s]*[\(\[]?\s*8\s*%\s*[\)\]]?\s*(\d[\d\.,]*)", Keys.THUE_8, 1%nat);
    (re "Tiền thuế GTGT[:\s]*[\(\[]?\s*10\s*%\s*[\)\]]?\s*(\d[\d\.,]*)", Keys.THUE_10, 1%nat);
    (re "Tiền thuế GTGT[:\s]*[\(\[]?\s*5\s*%\s*[\)\]]?\s*(\d[\d\.,]*)", Keys.THUE_5, 1%nat);
    (re "Tiền thuế[:\s]*[\(\[]?\s*10\s*%\s*[\)\]]?[:\s]*(\d[\d\.,]*)", Keys.THUE_10, 1%nat);
    (re "Tiền thuế[:\s]*[\(\[]?\s*8\s*%\s*[\)\]]?[:\s]*(\d[\d\.,]*)", Keys.THUE_8, 1%nat);
    (re "Tiền thuế[:\s]*[\(\[]?\s*5\s*%\s*[\)\]]?[:\s]*(\d[\d\.,]*)", Keys.THUE_5, 1%nat);
    (re "Tiền thuế[^%\d]*10\s*%.*?(\d[\d\.,]*)", Keys.THUE_10, 1%nat);
    (re "Tiền thuế[^%\d]*8\s*%.*?(\d[\d\.,]*)", Keys.THUE_8, 1%nat);
    (re "Tiền thuế[^%\d]*5\s*%.*?(\d[\d\.,]*)", Keys.THUE_5, 1%nat) ].

Definition simple_patterns : list (Re.regex * pystr) := Eval vm_compute in
  [ (re "Tổng tiền thuế GTGT\s*0\s*%\s*[:\s]*(\d[\d\.,]*)", Keys.THUE_0);
    (re "Tổng tiền thuế GTGT\s*5\s*%\s*[:\s]*(\d[\d\.,]*)", Keys.THUE_5);
    (re "Tổng tiền thuế GTGT\s*8\s*%\s*[:\s]*(\d[\d\.,]*)", Keys.THUE_8);
    (re "Tổng tiền thuế GTGT\s*10\s*%\s*[:\s]*(\d[\d\.,]*)", Keys.THUE_10);
    (re "(?:thuế gtgt|VAT)\s*[\(\[]?\s*0\s*%\s*[\)\]]?\s*[:\s]*(\d[\d\.,]*)", Keys.THUE_0);
    (re "(?:thuế gtgt|VAT)\s*[\(\[]?\s*5\s*%\s*[\)\]]?\s*[:\s]*(\d[\d\.,]*)", Keys.THUE_5);
    (re "(?:thuế gtgt|VAT)\s*[\(\[]?\s*8\s*%\s*[\)\]]?\s*[:\s]*(\d[\d\.,]*)", Keys.THUE_8);
    (re "(?:thuế gtgt|VAT)\s*[\(\[]?\s*10\s*%\s*[\)\]]?\s*[:\s]*(\d[\d\.,]*)", Keys.THUE_10);
    (re "Tiền thu[êế] GTGT\s*\(\s*0\s*%\s*\)\s*(\d[\d\.,]*)", Keys.THUE_0);
    (re "Tiền thu[êế] GTGT\s*\(\s*5\s*%\s*\)\s*(\d[\d\.,]*)", Keys.THUE_5);
    (re "Tiền thu[êế] GTGT\s*\(\s*8\s*%\s*\)\s*(\d[\d\.,]*)", Keys.THUE_8);
    (re "Tiền thu[êế] GTGT\s*\(\s*10\s*%\s*\)\s*(\d[\d\.,]*)", Keys.THUE_10) ].

Definition RATE_COLUMNS : list pystr :=
  [Keys.THUE_0; Keys.THUE_5; Keys.THUE_8; Keys.THUE_10].
Definition BUCKET_COLUMNS : list pystr := RATE_COLUMNS ++ [Keys.THUE_KHAC].

(** [any(data[c] for c in columns)] *)
Definition any_filled (data : dict) (columns : list pystr) : bool :=
  existsb (fun c => Str.truthy (item data c)) columns.

Definition RE_SIMPLE_TAX := Eval vm_compute in
  re "(?:Tiền thuế|Thuế GTGT|VAT)\s*[\(\d%]*\)?[:\s]*([0-9]+[.,][0-9]+)".
Definition RE_PHI_PV := Eval vm_compute in re "Phí\s*PV[^:]*[:\s]*([\d\.,]+)".

Definition extract_vat (full_text : pystr) (data : dict) : dict :=
  let data := set_opt data Keys.TIEN_THUE
                (last_match_of_first vat_patterns full_text) in
  let data :=
    fold_left (fun data '(pattern, column, group_idx) =>
                 match last_opt (Re.finditer Re.IGNORECASE pattern full_text) with
                 | Some m => set data column (Re.group group_idx m)
                 | None => data
                 end)
              multi_col_patterns data in
  let data :=
    if negb (any_filled data BUCKET_COLUMNS) then
      fold_left (fun data '(pattern, column) =>
                   set_opt data column
                     (last_opt (Re.findall1 Re.IGNORECASE pattern full_text)))
                simple_patterns data
    else data in
  let data :=
    if blank data Keys.TIEN_THUE then
      set_opt data Keys.TIEN_THUE
        (option_map (Re.group 1) (Re.search Re.IGNORECASE RE_SIMPLE_TAX full_text))
    else data in
  set_opt data Keys.PHI_PV
    (option_map (Re.group 1) (Re.search Re.IGNORECASE RE_PHI_PV full_text)).

(** [round(tax / before * 100)]: true division, a float product and
    rounding to the nearest integer; [None] is [OverflowError]. *)
Definition rate_percent (tax before : Z) : option Z :=
  match PyNum.int_truediv tax before with
  | Some q => PyNum.round_float (PyNum.fmul q (PyNum.of_int_exact 100))
  | None => None
  end.

Definition rate_key (rate : Z) : option pystr :=
  if rate =? 0 then Some Keys.THUE_0
  else if rate =? 5 then Some Keys.THUE_5
  else if rate =? 8 then Some Keys.THUE_8
  else if rate =? 10 then Some Keys.THUE_10
  else None.

(** "If we found total tax but no breakdown, calculate rate from
    amounts"; [None] is an exception raised by the division. *)
Definition rate_from_amounts (data : dict) : option dict :=
  if Str.truthy (item data Keys.TIEN_THUE) && negb (any_filled data RATE_COLUMNS)
  then
    let total_tax := parse_money (item data Keys.TIEN_THUE) in
    let before_tax := parse_money (item data Keys.TRUOC_THUE) in
    if negb (total_tax =? 0) && negb (before_tax =? 0) && (0 <? before_tax) then
      match rate_percent total_tax before_tax with
      | Some rate =>
        match rate_key rate with
        | Some key => Some (set data key (item data Keys.TIEN_THUE))
        | None => Some (set data Keys.THUE_KHAC (item data Keys.TIEN_THUE))
        end
      | None => None
      end
    else Some data
  else Some data.


Definition RE_SALES_TOTAL := Eval vm_compute in
  re "(?:Total amount|dịch vụ\s*\(Total amount\))[:\s]*([\d\.,]+)".
Definition RE_TRAVEL_SELLER := Eval vm_compute in
  re "HỘ KINH DOANH DỊCH VỤ DU LỊCH [^\n]+".

(** "Priority 3.5" and "Priority 4": sales invoices and travel
    services. *)
Definition sales_and_travel (full_text : pystr) (data : dict) : dict :=
  let full_text_upper := upper full_text in
  let is_sales_invoice :=
    Str.contains (py "HÓA ĐƠN BÁN HÀNG") full_text_upper
    || Str.contains (py "(SALES INVOICE)") full_text_upper in
  let data :=
    if is_sales_invoice then
      let data :=
        if blank data Keys.SO_TIEN_SAU then
          match Re.search Re.IGNORECASE RE_SALES_TOTAL full_text with
          | Some m => set data Keys.SO_TIEN_SAU (Str.strip (Re.group 1 m))
          | None => data
          end
        else data in
      if negb (blank data Keys.SO_TIEN_SAU) && blank data Keys.TRUOC_THUE
      then set data Keys.TRUOC_THUE (item data Keys.SO_TIEN_SAU) else data
    else data in
  let seller_upper := upper (get_or data Keys.DON_VI_BAN empty) in
  let data :=
    if Str.contains (py "DU LỊCH") seller_upper
       || Str.contains (py "TRAVEL") seller_upper
       || Str.contains (py "DỊCH VỤ DU LỊCH") full_text_upper
    then set data Keys.PHAN_LOAI (py "Dịch vụ du lịch") else data in
  if Str.contains (py "NHÂN LỢI PHÁT") full_text_upper && blank data Keys.DON_VI_BAN
  then set_opt data Keys.DON_VI_BAN
         (option_map (fun m => Str.strip (Re.group 0 m))
            (Re.search Re.IGNORECASE RE_TRAVEL_SELLER full_text))
  else data.

Definition after_tax_patterns := Eval vm_compute in
  [ re "Tổng cộng\s*/\s*Total Amount[:\s]*([\d\.,]+)";
    re "Tổng cộng tiền thanh toán\s*\(Total amount\)\s*([\d\.,\s]+)";
    re "Tổng cộng\s*\(Total amount\)\s*[:]\s*[\d\.,]+\s+([\d\.,]+)\s+([\d\.,]+)\s+([\d\.,]+)";
    re "Tổng tiền chịu thuế suất\s*\(Total amount\)\s*[:]\s*\d+%\s+[\d\.,]+\s+([\d\.,]+)\s+([\d\.,]+)\s+([\d\.,]+)";
    re "Tổng cộng\s*\(Total amount\)\s*[:]\s*([\d\.,]+)\s+([\d\.,]+)\s+([\d\.,]+)";
    re "Tổng\s*cộng\s*\([Tt]otal\)?[:\s]*([\d\.,]+)\s+([\d\.,]+)\s+([\d\.,]+)";
    re "Tổngcộng[:\s]*([\d\.,]+)\s+([\d\.,]+)\s+([\d\.,]+)";
    re "Tổng cộng\s*[:]\s*([\d\.,]+)\s+([\d\.,]+)\s+([\d\.,]+)";
    re "Tổng tiền chịu thuế suất.*[:\s]*[\d\.,]*%\s+([\d\.,]+)\s+([\d\.,]+)\s+([\d\.,]+)";
    re "[Tt]ổng\s*tiền\s*thanh\s*toán\s*\([^)]+\)[:\s]*([\d\.,]+)";
    re "[IT].{1,3}ng\s*số\s*ti[êề]n\s*thanh\s*toán[:\s]*([\d\.,]+)";
    re "Cộng tiền hàng hóa, dịch vụ[:\s]*[\d\.,]+\s+[\d\.,]+\s+([\d\.,]+)";
    re "[Tt]ổng\s*cộng\s*tiền\s*thanh\s*toán[^:]*[:\s]*([\d\.,]+)";
    re "[Tt]otal\s*payment[^:]*[:\s]*([\d\.,]+)";
    re "TỔNG CỘNG TIỀN THANH TOÁN[^:]*[:\s]*([\d\.,]+)";
    re "Tổng cộng[:\s]+([\d\.,]+)\s+[\d\.,]+\s+([\d\.,]+)";
    re "thuế suất:\s*\d+%\s+([\d\.,]+)\s+([\d\.,]+)\s+([\d\.,]+)" ].

(** [all(c in '0123456789.,' for c in ''.join(parts))] *)
Definition only_amount_chars (parts : list pystr) : bool :=
  forallb (fun c => Str.has_char c (py "0123456789.,")) (concat parts).

(** What the last match of an after-tax pattern writes. *)
Definition apply_total_match (m : Re.mobj) (data : dict) : dict :=
  let lastindex := match Re.lastindex m with Some i => i | None => 0%nat end in
  if Nat.leb 3 lastindex then
    set (set (set data Keys.SO_TIEN_SAU (Re.group lastindex m))
             Keys.TIEN_THUE (Re.group 2 m))
        Keys.TRUOC_THUE (Re.group 1 m)
  else if Nat.leb 2 lastindex then
    let data := set data Keys.SO_TIEN_SAU (Re.group lastindex m) in
    if blank data Keys.TRUOC_THUE
    then set data Keys.TRUOC_THUE (Re.group 1 m) else data
  else
    let val := Re.group 1 m in
    let parts := Str.split_ws (Str.strip val) in
    if (Nat.leb 5 (length parts) || Nat.leb 3 (length parts))
       && only_amount_chars parts
    then
      set (set (set data Keys.SO_TIEN_SAU (nth (length parts - 1) parts empty))
               Keys.TIEN_THUE (nth (length parts - 2) parts empty))
          Keys.TRUOC_THUE (nth 0 parts empty)
    else set data Keys.SO_TIEN_SAU val.

Definition RE_TIEN_THANH_TOAN := Eval vm_compute in
  re "Tiền thanh toán[:\s]+([\d\s.,]+)".
Definition RE_DIRECT_SALES := Eval vm_compute in
  re "Cộng tiền bán hàng hóa, dịch vụ[:\s]*([\d\.,]+)".
Definition RE_GOODS_AND_VAT := Eval vm_compute in
  re "Cộng tiền hàng hóa, dịch vụ[:\s]*([\d\.,]+)\s+([\d\.,]+)".
Definition RE_SALES_SUM := Eval vm_compute in
  re "Cộng tiền bán hàng[^:]*[:\s]*([\d\.,]+)".

Definition extract_totals (full_text : pystr) (data : dict) : dict :=
  let data :=
    match OCR.first_some
            (fun p => last_opt (Re.finditer Re.IGNORECASE p full_text))
            after_tax_patterns with
    | Some m => apply_total_match m data
    | None => data
    end in
  let data :=
    if blank data Keys.SO_TIEN_SAU then
      match Re.search Re.IGNORECASE RE_TIEN_THANH_TOAN full_text with
      | Some m => set_opt data Keys.SO_TIEN_SAU (last_positive (Re.group 1 m))
      | None => data
      end
    else data in
  let data :=
    if blank data Keys.SO_TIEN_SAU || blank data Keys.TRUOC_THUE then
      match Re.search Re.IGNORECASE RE_DIRECT_SALES full_text with
      | Some m =>
        let amount := Re.group 1 m in
        let data := if blank data Keys.SO_TIEN_SAU
                    then set data Keys.SO_TIEN_SAU amount else data in
        if blank data Keys.TRUOC_THUE
        then set data Keys.TRUOC_THUE amount else data
      | None => data
      end
    else data in
  let data :=
    match Re.search Re.IGNORECASE RE_GOODS_AND_VAT full_text with
    | Some m => set (set data Keys.TRUOC_THUE (Re.group 1 m))
                    Keys.TIEN_THUE (Re.group 2 m)
    | None => data
    end in
  if blank data Keys.SO_TIEN_SAU && negb (blank data Keys.TRUOC_THUE) then
    if Str.contains (py "SALES INVOICE") full_text
       || Str.contains (py "HÓA ĐƠN BÁN HÀNG") full_text
    then set data Keys.SO_TIEN_SAU (item data Keys.TRUOC_THUE)
    else set_opt data Keys.SO_TIEN_SAU
           (option_map (Re.group 1) (Re.search Re.NOFLAGS RE_SALES_SUM full_text))
  else data.


(** ** Tax reconciliation *)

(** "Validate money values - must be >= 1000".  The local
    [parse_money] never answers [None], so the test [val is not None]
    always holds. *)
Definition noise_floor (data : dict) : dict :=
  fold_left (fun data col =>
               if parse_money (item data col) <? 1000 then set data col empty
               else data)
            [Keys.TRUOC_THUE; Keys.TIEN_THUE; Keys.SO_TIEN_SAU] data.

(** "Calculate Số tiền sau if not found": with the local [parse_money]
    both [before] and [vat] are integers, so the first branch of the
    source is the one taken. *)
Definition derive_total (data : dict) : dict :=
  if blank data Keys.SO_TIEN_SAU then
    let before := parse_money (item data Keys.TRUOC_THUE) in
    let vat := parse_money (item data Keys.TIEN_THUE) in
    set data Keys.SO_TIEN_SAU (format_money (before + vat))
  else data.

(** "REVERSE CASE": the total is known and the pre-tax amount is not. *)
Definition derive_before_tax (data : dict) : dict :=
  if negb (blank data Keys.SO_TIEN_SAU) && blank data Keys.TRUOC_THUE then
    let after := parse_money (item data Keys.SO_TIEN_SAU) in
    let vat := parse_money (item data Keys.TIEN_THUE) in
    if vat =? 0 then set data Keys.TRUOC_THUE (item data Keys.SO_TIEN_SAU)
    else set data Keys.TRUOC_THUE (format_money (after - vat))
  else data.

(** "SPECIAL FIX for PSD.pdf": the total hidden in a garbage token. *)
Definition garbage_total (full_text : pystr) (data : dict) : dict :=
  if blank data Keys.SO_TIEN_SAU then
    match Re.search Re.NOFLAGS RE_GARBAGE full_text with
    | Some m =>
      let val := Re.group 1 m in
      let data := set data Keys.SO_TIEN_SAU val in
      if blank data Keys.TRUOC_THUE then set data Keys.TRUOC_THUE val else data
    | None => data
    end
  else data.

(** "Re-run Tax Calculation".  (The block before it sums the line
    items, but [line_items] is still the empty list there.) *)
Definition rerun_total (data : dict) : dict :=
  if negb (blank data Keys.TIEN_THUE) && blank data Keys.SO_TIEN_SAU
     && negb (blank data Keys.TRUOC_THUE) then
    let b := parse_money (item data Keys.TRUOC_THUE) in
    let t := parse_money (item data Keys.TIEN_THUE) in
    if negb (b =? 0) && negb (t =? 0)
    then set data Keys.SO_TIEN_SAU (format_money (b + t)) else data
  else data.

Definition RE_SUMMARY_LINE := Eval vm_compute in
  re "(?:Hàng hóa|Cộng HHDV|Thuế suất|Total amount).*?(10%|8%|5%|0%).*?([\d\.,]+)\s+([\d\.,]+)(?:\s+([\d\.,]+))?".

(** Insertion sort, standing for [vals.sort()]. *)
Fixpoint insert_sorted (x : Z) (l : list Z) : list Z :=
  match l with
  | [] => [x]
  | y :: l' => if x <=? y then x :: l else y :: insert_sorted x l'
  end.
Definition sort (l : list Z) : list Z := fold_right insert_sorted [] l.

Definition THUE_PREFIX := Eval vm_compute in py "Thuế ".

(** The body of [for rate_str, num1, num2, num3 in summary_lines]; the
    accumulator is the record and [tax_total_calc]. *)
Definition summary_step (acc : dict * Z) (groups : list pystr) : dict * Z :=
  let '(data, tax_total_calc) := acc in
  let rate_str := nth 0 groups empty in
  let vals := sort (map parse_money
                      (filter Str.truthy
                         [nth 1 groups empty; nth 2 groups empty; nth 3 groups empty])) in
  if Nat.leb 2 (length vals) then
    let current_tax := nth 0 vals 0 in
    (set data (THUE_PREFIX ++ rate_str) (format_money current_tax),
     tax_total_calc + current_tax)
  else (data, tax_total_calc).

Definition summary_tables (full_text : pystr) (data : dict) : dict :=
  let summary_lines := Re.findall_groups 4 Re.IGNORECASE RE_SUMMARY_LINE full_text in
  let '(data, tax_total_calc) := fold_left summary_step summary_lines (data, 0) in
  if 0 <? tax_total_calc then
    if blank data Keys.TIEN_THUE
       || negb (parse_money (item data Keys.TIEN_THUE) =? tax_total_calc)
    then set data Keys.TIEN_THUE (format_money tax_total_calc) else data
  else data.

Definition RE_GRAND_TOTAL := Eval vm_compute in
  re "(?:Tổng cộng tiền|Grand total).*?([\d\.,]+)\s+([\d\.,]+)\s+([\d\.,]+)".

Definition grand_total (full_text : pystr) (data : dict) : dict :=
  match Re.search Re.IGNORECASE RE_GRAND_TOTAL full_text with
  | Some m =>
    let vals := sort [parse_money (Re.group 1 m); parse_money (Re.group 2 m);
                      parse_money (Re.group 3 m)] in
    set (set (set data Keys.TIEN_THUE (format_money (nth 0 vals 0)))
             Keys.TRUOC_THUE (format_money (nth 1 vals 0)))
        Keys.SO_TIEN_SAU (format_money (nth 2 vals 0))
  | None => data
  end.

Definition RE_LONG_HEX_CODE := Eval vm_compute in
  re "(?:nhập mã|provided code).*?([a-f0-9]{30,})".
Definition RE_PC_CODE := Eval vm_compute in re "Mã tra cứu[:\s]*([A-Z0-9-]+)".

Definition late_lookup_code (full_text : pystr) (data : dict) : dict :=
  if blank data Keys.MA_TRA_CUU then
    let data := set_opt data Keys.MA_TRA_CUU
                  (option_map (Re.group 1)
                     (Re.search Re.IGNORECASE RE_LONG_HEX_CODE full_text)) in
    set_opt data Keys.MA_TRA_CUU
      (option_map (Re.group 1) (Re.search Re.IGNORECASE RE_PC_CODE full_text))
  else data.

Definition BARE_RATES : list pystr := Eval vm_compute in map py ["10"; "8"; "5"; "0"].

(** [int(round(pre * rate / 100))]; [None] is [OverflowError]. *)
Definition percent_of (pre rate : Z) : option Z :=
  match PyNum.int_truediv (pre * rate) 100 with
  | Some q => PyNum.round_float q
  | None => None
  end.

(** "If Tax Rate found (e.g. "Thuế khác": "10") but Column Empty, fill
    it". *)
Definition bare_rate_label (data : dict) : dict :=
  if Str.mem (item data Keys.THUE_KHAC) BARE_RATES then
    let rate_key := THUE_PREFIX ++ item data Keys.THUE_KHAC ++ py "%" in
    if blank data rate_key && negb (blank data Keys.TIEN_THUE) then
      set (set data rate_key (item data Keys.TIEN_THUE)) Keys.THUE_KHAC empty
    else if blank data rate_key && negb (blank data Keys.TRUOC_THUE) then
      match PyNum.int_of_str (item data Keys.THUE_KHAC) with
      | Some rate =>
        let pre := parse_money (item data Keys.TRUOC_THUE) in
        if negb (pre =? 0) then
          match percent_of pre rate with
          | Some calc_tax =>
            let data := set data rate_key (format_money calc_tax) in
            let data := if blank data Keys.TIEN_THUE
                        then set data Keys.TIEN_THUE (format_money calc_tax)
                        else data in
            let current_total := parse_money (item data Keys.SO_TIEN_SAU) in
            let pre_val := parse_money (item data Keys.TRUOC_THUE) in
            let data :=
              if blank data Keys.SO_TIEN_SAU
                 || (negb (current_total =? 0) && negb (pre_val =? 0)
                     && (Z.abs (current_total - pre_val) <? 100))
              then set data Keys.SO_TIEN_SAU (format_money (pre + calc_tax))
              else data in
            set data Keys.THUE_KHAC empty
          | None => data
          end
        else data
      | None => data
      end
    else data
  else data.


(** *** Line items *)

Definition RE_ITEM_GARBAGE := Eval vm_compute in re "0'}.*?([\d\.,]+).*?'\}'\}".

(** "POST-PROCESS: Clean garbage from items" for one field. *)
Definition clean_item_field (val : pystr) : pystr :=
  if Str.contains (py "0'}") val || Str.contains (py "}'}") val then
    match Re.search Re.DOTALL RE_ITEM_GARBAGE val with
    | Some garbage_match =>
        Str.strip (Str.replace (Re.group 0 garbage_match) empty val)
    | None => Str.strip (strip_garbage_tokens val)
    end
  else val.

Definition clean_item (it : Services.service) : Services.service :=
  {| Services.name := clean_item_field (Services.name it);
     Services.qty := Services.qty it;
     Services.unit_price := Services.unit_price it;
     Services.amount := clean_item_field (Services.amount it);
     Services.tax_rate := Services.tax_rate it |}.

(** [tax_map = {0: 0, 5: 0, 8: 0, 10: 0}] and [has_item_tax]. *)
Record tax_map := { t0 : Z; t5 : Z; t8 : Z; t10 : Z; has_item_tax : bool }.

Definition tax_of (tm : tax_map) (r : Z) : Z :=
  if r =? 0 then t0 tm else if r =? 5 then t5 tm
  else if r =? 8 then t8 tm else t10 tm.

Definition add_tax (tm : tax_map) (r tax_val : Z) : tax_map :=
  {| t0 := if r =? 0 then t0 tm + tax_val else t0 tm;
     t5 := if r =? 5 then t5 tm + tax_val else t5 tm;
     t8 := if r =? 8 then t8 tm + tax_val else t8 tm;
     t10 := if r =? 10 then t10 tm + tax_val else t10 tm;
     has_item_tax := true |}.

(** The body of the aggregation loop; an exception inside its [try]
    leaves the map as it is. *)
Definition item_tax (tm : tax_map) (it : Services.service) : tax_map :=
  match Services.tax_rate it with
  | Some r_str =>
    if Str.truthy r_str && Str.truthy (Services.amount it) then
      let amt := parse_money (Services.amount it) in
      match PyNum.int_of_str r_str with
      | Some r =>
        if (r =? 0) || (r =? 5) || (r =? 8) || (r =? 10) then
          match percent_of amt r with
          | Some tax_val => add_tax tm r tax_val
          | None => tm
          end
        else tm
      | None => tm
      end
    else tm
  | None => tm
  end.

(** Exact comparison [z > x] of an integer with a float. *)
Definition int_gt_float (z : Z) (x : PyNum.float) : bool :=
  match x with
  | S754_zero _ => 0 <? z
  | S754_finite s m e =>
    let v := if s then Zneg m else Zpos m in
    if 0 <=? e then v * 2 ^ e <? z else v <? z * 2 ^ (- e)
  | S754_infinity s => s
  | S754_nan => false
  end.

(** A computation that may raise: the record it leaves behind is kept
    either way. *)
Inductive flow : Type :=
| Ok (data : dict)
| Raised (data : dict).

(** "Fill missing tax buckets": [for r in [0, 5, 8, 10]].  The product
    [tax_map[r] * 0.5] converts the integer to a float and may raise. *)
Fixpoint fill_buckets (tm : tax_map) (rates : list (Z * pystr)) (data : dict)
  : flow :=
  match rates with
  | [] => Ok data
  | (r, key) :: more =>
    if 0 <? tax_of tm r then
      let curr_val := parse_money (item data key) in
      let diff := Z.abs (curr_val - tax_of tm r) in
      if curr_val =? 0 then
        fill_buckets tm more (set data key (format_money (tax_of tm r)))
      else
        match PyNum.float_of_int (tax_of tm r) with
        | Some f =>
          if int_gt_float diff (PyNum.fmul f (PyNum.float_of_decimal 5 1))
          then fill_buckets tm more (set data key (format_money (tax_of tm r)))
          else fill_buckets tm more data
        | None => Raised data
        end
    else fill_buckets tm more data
  end.

Definition RATE_TABLE : list (Z * pystr) :=
  [ (0, Keys.THUE_0); (5, Keys.THUE_5); (8, Keys.THUE_8); (10, Keys.THUE_10) ].

Definition aggregate_item_tax (line_items : list Services.service) (data : dict)
  : flow :=
  let tm := fold_left item_tax line_items
              {| t0 := 0; t5 := 0; t8 := 0; t10 := 0; has_item_tax := false |} in
  if has_item_tax tm then
    match fill_buckets tm RATE_TABLE data with
    | Ok data =>
      let total_item_tax := t0 tm + t5 tm + t8 tm + t10 tm in
      let curr_total_tax := parse_money (item data Keys.TIEN_THUE) in
      if (curr_total_tax =? 0)
         || ((curr_total_tax <? total_item_tax) && (1000 <? total_item_tax))
      then Ok (set data Keys.TIEN_THUE (format_money total_item_tax))
      else Ok data
    | Raised data => Raised data
    end
  else Ok data.

(** "FINAL CHECK: Sanity check Tax Amount". *)
Definition tax_sanity (data : dict) : dict :=
  if negb (blank data Keys.TIEN_THUE)
     && (negb (blank data Keys.TRUOC_THUE) || negb (blank data Keys.SO_TIEN_SAU))
  then
    let t_val := parse_money (item data Keys.TIEN_THUE) in
    let p_val := parse_money (item data Keys.TRUOC_THUE) in
    let p_val := if (p_val =? 0) && negb (blank data Keys.SO_TIEN_SAU)
                 then parse_money (item data Keys.SO_TIEN_SAU) else p_val in
    if negb (t_val =? 0) && negb (p_val =? 0) && (10000 <? p_val)
       && (p_val <=? t_val)
    then
      fold_left (fun data c =>
                   if parse_money (item data c) =? t_val then set data c empty
                   else data)
                BUCKET_COLUMNS (set data Keys.TIEN_THUE empty)
    else data
  else data.

(** The [if services:] block. *)
Definition with_services (services : list Services.service) (data : dict)
  : flow * list Services.service :=
  match services with
  | [] => (Ok data, [])
  | _ =>
    let line_items := map clean_item services in
    match aggregate_item_tax line_items data with
    | Ok data => (Ok (tax_sanity data), line_items)
    | Raised data => (Raised data, line_items)
    end
  end.

(** ** After the [try]: the final passes *)

(** "RE-CALCULATE TOTAL TAX from Components if missing" *)
Definition total_tax_from_buckets (data : dict) : dict :=
  if blank data Keys.TIEN_THUE then
    let calc_tax :=
      fold_left (fun acc c => acc + parse_money (item data c)) BUCKET_COLUMNS 0 in
    if 0 <? calc_tax then set data Keys.TIEN_THUE (format_money calc_tax)
    else data
  else data.

(** "RE-CALCULATE TAX RATE if missing (Final Pass)"; an exception
    inside its [try] changes nothing. *)
Definition final_rate_pass (data : dict) : dict :=
  if negb (blank data Keys.TIEN_THUE) && negb (blank data Keys.TRUOC_THUE)
     && negb (any_filled data RATE_COLUMNS)
  then
    let t_val := parse_money (item data Keys.TIEN_THUE) in
    let p_val := parse_money (item data Keys.TRUOC_THUE) in
    if (0 <? t_val) && (0 <? p_val) then
      match rate_percent t_val p_val with
      | Some rate =>
        match rate_key rate with
        | Some key => set data key (item data Keys.TIEN_THUE)
        | None => data
        end
      | None => data
      end
    else data
  else data.

(** "FINAL CLEANUP: Clean all data fields" *)
Definition clean_all (data : dict) : dict :=
  map (fun '(k, v) => (k, clean_string_value v)) data.

(** "Extra cleanup for Tax Rate fields" *)
Definition clean_other_rate (data : dict) : dict :=
  if negb (blank data Keys.THUE_KHAC) then
    let data :=
      if Str.mem (item data Keys.THUE_KHAC) BARE_RATES
         && negb (blank data (THUE_PREFIX ++ item data Keys.THUE_KHAC ++ py "%"))
      then set data Keys.THUE_KHAC empty else data in
    let v_num := parse_money (item data Keys.THUE_KHAC) in
    let t_num := parse_money (item data Keys.SO_TIEN_SAU) in
    let tax_num := parse_money (item data Keys.TIEN_THUE) in
    if negb (v_num =? 0) && ((v_num =? t_num) || (v_num =? tax_num))
    then set data Keys.THUE_KHAC empty else data
  else data.

Definition money_keys : list pystr :=
  [ Keys.TRUOC_THUE; Keys.TIEN_THUE; Keys.THUE_0; Keys.THUE_5; Keys.THUE_8;
    Keys.THUE_10; Keys.THUE_KHAC; Keys.SO_TIEN_SAU ].

(** "FINAL MONEY CLEANUP" *)
Definition money_cleanup (data : dict) : dict :=
  fold_left (fun data k =>
               if has_key data k && negb (blank data k) then
                 let val := parse_money (item data k) in
                 if negb (val =? 0) then set data k (format_money val) else data
               else data)
            money_keys data.

Definition SIGNATURE_WORDS : list pystr := Eval vm_compute in map py
  [ "đã được ký điện tử bởi"; "được ký bởi"; "ký bởi công ty";
    "digitally signed by" ].

(** "FINAL CLEANUP for Seller Name (Global)" *)
Definition seller_cleanup (full_text : pystr) (data : dict) : dict :=
  let data :=
    if negb (blank data Keys.DON_VI_BAN)
       && Str.contains_any SIGNATURE_WORDS (lower (item data Keys.DON_VI_BAN))
    then set data Keys.DON_VI_BAN empty else data in
  let data :=
    if blank data Keys.DON_VI_BAN && Str.contains (py "Quán 87") full_text
    then set data Keys.DON_VI_BAN (py "Quán 87") else data in
  if negb (blank data Keys.DON_VI_BAN) then
    let s := item data Keys.DON_VI_BAN in
    let s := Str.strip (Re.sub Re.IGNORECASE RE_ISSUED empty s) in
    let s := Re.sub Re.IGNORECASE RE_SELLER_LABEL empty s in
    let s := if Str.contains OCR.KY_HIEU_COLON s
             then Str.strip (nth 0 (Str.split OCR.KY_HIEU_COLON s) empty) else s in
    let s := if Str.contains_any SIGNATURE_WORDS (lower s) then empty else s in
    set data Keys.DON_VI_BAN s
  else data.

(** Everything after the [try] statement. *)
Definition final_passes (full_text : pystr) (data : dict) : dict :=
  let data := total_tax_from_buckets data in
  let data := final_rate_pass data in
  let data := clean_all data in
  let data := clean_other_rate data in
  let data := money_cleanup data in
  seller_cleanup full_text data.


(** ** The function *)

(** How the [try] statement ends: with an early [return], or (normally
    or through the [except] clause) with the code after it. *)
Inductive outcome : Type :=
| Return (data : dict) (line_items : list Services.service)
| Continue (data : dict) (line_items : list Services.service)
           (full_text : pystr).

(** The file name the record carries. *)
Definition effective_filename (env : Env) : pystr :=
  match pdf_source env with
  | Some path => basename path
  | None =>
    match filename_arg env with
    | Some f => f
    | None => py "Unknown.pdf"
    end
  end.

(** [for page in pdf.pages: ... full_text += page_text + "\n"] *)
Definition read_text_layer (env : Env) : pystr :=
  fold_left (fun full_text page_text =>
               if Str.truthy page_text then full_text ++ page_text ++ newline
               else full_text)
            (pages env) empty.

(** The scanned-PDF branch: "Return early for OCR path". *)
Definition ocr_path (env : Env) (filename : pystr) (full_text : pystr)
  (data : dict) : outcome :=
  let ocr_text := ocr_pdf_to_text env in
  if Str.truthy (Str.strip ocr_text) then
    match OCR.extract_ocr_invoice_fields ocr_text (Some filename) with
    | Some ocr_data =>
      let data := merge_ocr ocr_data data in
      let data := hd_retry env data in
      let data := set data Keys.PHAN_LOAI (ocr_category (lower ocr_text)) in
      Return data []
    | None => Continue data [] full_text
    end
  else Return data [].

Definition record_of (f : flow) : dict :=
  match f with Ok data => data | Raised data => data end.

(** The tax reconciliation, from "Calculate and validate money values"
    to the end of the [try] body. *)
Definition reconcile (full_text : pystr) (services : list Services.service)
  (data : dict) : flow * list Services.service :=
  let data := noise_floor data in
  let data := derive_total data in
  let data := derive_before_tax data in
  let data := garbage_total full_text data in
  let data := rerun_total data in
  let data := summary_tables full_text data in
  let data := grand_total full_text data in
  let data := late_lookup_code full_text data in
  let data := bare_rate_label data in
  with_services services data.

(** The reconciliation followed by the passes after the [try]: what
    the function returns for a record that has come out of the field
    cascade. *)
Definition reconcile_and_finish (full_text : pystr)
  (services : list Services.service) (data : dict)
  : dict * list Services.service :=
  let '(end_of_try, line_items) := reconcile full_text services data in
  (final_passes full_text (record_of end_of_try), line_items).

(** The field cascade and the reconciliation, from
    "Extract services from text" to the end of the [try] body. *)
Definition text_path (env : Env) (filename : pystr) (full_text : pystr)
  (data : dict) : outcome :=
  let services := Services.extract_services_from_text full_text in
  let data := extract_date full_text data in
  let data := extract_seller_tax_code full_text data in
  let data := extract_invoice_number env filename full_text data in
  let data := seller_by_label full_text data in
  let data := seller_above_tax_code full_text data in
  let data := seller_from_signature full_text data in
  let data := seller_from_bottom full_text data in
  let data := extract_codes full_text data in
  let data := extract_before_tax full_text data in
  let data := extract_vat full_text data in
  match rate_from_amounts data with
  | None => Continue data [] full_text
  | Some data =>
    let data := sales_and_travel full_text data in
    let data := extract_totals full_text data in
    let '(end_of_try, line_items) := reconcile full_text services data in
    Continue (record_of end_of_try) line_items full_text
  end.

(** The body of the [try] statement. *)
Definition try_body (env : Env) (filename : pystr) (data : dict) : outcome :=
  let full_text := read_text_layer env in
  if pdf_error env then Continue data [] full_text
  else if negb (Str.truthy (Str.strip full_text)) then
    ocr_path env filename full_text data
  else
    let '(data, full_text) := normalize_text full_text data in
    let after_fallback :=
      if negb (Str.truthy full_text) then
        match pdf_source env with
        | Some _ =>
          match fallback env with
          | FbError => None
          | FbNone => Some full_text
          | FbText t => Some t
          end
        | None => Some full_text
        end
      else Some full_text in
    match after_fallback with
    | None => Continue data [] full_text
    | Some full_text =>
      if negb (Str.truthy (Str.strip full_text))
      then Return (mark_unrecognized data) []
      else text_path env filename full_text data
    end.

(** [extract_invoice_data(pdf_source, filename)] *)
Definition extract_invoice_data (env : Env) : dict * list Services.service :=
  let filename := effective_filename env in
  match try_body env filename (initial_data filename) with
  | Return data line_items => (data, line_items)
  | Continue data line_items full_text =>
      (final_passes full_text data, line_items)
  end.

End Extract.

(* ================================================================== *)
(** * Classifying an invoice: [classify_content] *)
(* ================================================================== *)

Module Classify.

#[local] Open Scope Z_scope.

(** "Category mapping based on extracted services", in the order of
    the literal. *)
Definition CATEGORY_KEYWORDS : list (pystr * list pystr) := Eval vm_compute in
  [ (py "Dịch vụ ăn uống",
     map py
     [ "món"; "lẩu"; "gà"; "bò"; "heo"; "cá"; "cua"; "mực"; "tôm";
       "ghẹ"; "sò"; "gỏi"; "xào"; "nướng"; "chiên"; "hấp"; "hầm";
       "quay"; "cơm"; "xôi"; "soup"; "trà"; "cà phê"; "nước";
       "coca"; "matcha"; "oolong"; "trái cây"; "bánh"; "đậu";
       "trứng"; "lươn"; "hàu"; "khô mực"; "khăn lạnh"; "hủ tiếu";
       "baba"; "bồ câu"; "chả"; "dừa"; "khoáng"; "suối"; "sả";
       "rượu"; "coffee"; "cafe"; "katinat"; "highlands";
       "starbucks"; "phúc long"; "trung nguyên"; "golden gate";
       "pizza"; "kfc"; "lotteria"; "jollibee"; "mcdonald"; "domino";
       "Xa lach rau mam"; "buffet" ]);
    (py "Dịch vụ phòng nghỉ",
     map py
     [ "thuê phòng"; "phòng số"; "cho thuê phòng"; "phòng họp";
       "meeting room"; "hotel"; "khách sạn"; "homestay"; "resort" ]);
    (py "Hoa tươi",
     map py
     [ "hoa tươi"; "hoa"; "bó hoa"; "lãng hoa"; "kệ hoa" ]);
    (py "Thẻ cào điện thoại",
     map py
     [ "cước"; "di động"; "thẻ cào"; "sim"; "điện thoại";
       "internet"; "mạng"; "mệnh giá"; "THE CAO MENH GIA";
       "viettel"; "mobifone"; "vinaphone" ]);
    (py "Xăng xe",
     map py
     [ "xăng"; "dầu"; "diesel"; "ron95"; "ron92"; "e5"; "do 0.05s";
       "petrolimex" ]);
    (py "Quà tặng",
     map py
     [ "quà"; "gift"; "quà tặng"; "tặng phẩm" ]) ].

(** "F&B brand names for seller-based classification" *)
Definition FB_BRANDS : list pystr := Eval vm_compute in map py
  [ "KATINAT"; "HIGHLANDS"; "STARBUCKS"; "PHÚC LONG"; "COFFEE HOUSE";
    "TRUNG NGUYÊN"; "GOLDEN GATE"; "PIZZA"; "KFC"; "LOTTERIA";
    "JOLLIBEE"; "MCDONALD"; "DOMINO" ].

Definition FOOD_AND_DRINK : pystr := Eval vm_compute in py "Dịch vụ ăn uống".
Definition FUEL : pystr := Eval vm_compute in py "Xăng xe".
Definition OTHER : pystr := Eval vm_compute in py "Khác".

(** [re.escape]: a backslash before each special character. *)
Definition SPECIAL_CHARS : pystr := Eval vm_compute in
  py "()[]{}?*+-|^$\.&~# " ++ [9; 10; 13; 11; 12]%N.

Definition escape (pattern : pystr) : pystr :=
  flat_map (fun c => if Str.has_char c SPECIAL_CHARS then [92%N; c] else [c])
           pattern.

Definition WORD_BOUNDARY : pystr := Eval vm_compute in py "\b".

(** Whether the keyword [kw] of [category] counts on the lower-cased
    text: as a substring for "Xăng xe", as a whole word elsewhere. *)
Definition keyword_found (category kw text_lower : pystr) : bool :=
  if Str.eqb category FUEL then Str.contains (lower kw) text_lower
  else
    let pattern := WORD_BOUNDARY ++ escape (lower kw) ++ WORD_BOUNDARY in
    found (Re.search Re.NOFLAGS (Pattern.compile pattern) text_lower).

(** The inner loop: [score += 1] for each keyword found. *)
Definition score_of (category : pystr) (keywords : list pystr)
  (text_lower : pystr) : Z :=
  fold_left (fun score kw =>
               if keyword_found category kw text_lower then score + 1 else score)
            keywords 0.

(** [scores[category] = score] on the dictionary of scores. *)
Fixpoint set_score (scores : list (pystr * Z)) (k : pystr) (v : Z)
  : list (pystr * Z) :=
  match scores with
  | [] => [(k, v)]
  | (k', v') :: more =>
    if Str.eqb k' k then (k', v) :: more else (k', v') :: set_score more k v
  end.

(** The outer loop: the categories that score, with their scores. *)
Definition scores_of (text_lower : pystr) : list (pystr * Z) :=
  fold_left (fun scores '(category, keywords) =>
               let score := score_of category keywords text_lower in
               if 0 <? score then set_score scores category score else scores)
            CATEGORY_KEYWORDS [].

(** [max(scores, key=scores.get)] from the first entry on: a later key
    replaces the best one only with a strictly larger score. *)
Fixpoint max_by_score (best : pystr * Z) (rest : list (pystr * Z)) : pystr :=
  match rest with
  | [] => fst best
  | entry :: more =>
    if snd best <? snd entry then max_by_score entry more
    else max_by_score best more
  end.

(** [classify_content(services_text, seller_name)] *)
Definition classify_content (services_text seller_name : pystr) : pystr :=
  if Str.truthy seller_name
     && existsb (fun brand => Str.contains brand (upper seller_name)) FB_BRANDS
  then FOOD_AND_DRINK
  else if negb (Str.truthy services_text) then OTHER
  else
    let text_lower := lower services_text in
    match scores_of text_lower with
    | first :: more => max_by_score first more
    | [] => OTHER
    end.

End Classify.

(* ================================================================== *)
(** * The batch script: [main] *)
(* ================================================================== *)

Module Main.
Import Dict.

#[local] Open Scope Z_scope.

(** One turn of [for pdf_file in pdf_files], up to
    [all_rows.append(data)]: the record is extracted and its category
    is written from the line items. *)
Definition row_of (env : Extract.Env) : dict :=
  let '(data, line_items) := Extract.extract_invoice_data env in
  match line_items with
  | [] => set data Keys.PHAN_LOAI Classify.OTHER
  | _ =>
    let all_item_names := Str.join space (map Services.name line_items) in
    set data Keys.PHAN_LOAI
        (Classify.classify_content all_item_names
           (get_or data Keys.DON_VI_BAN empty))
  end.

(** What a cell of a money column holds after the conversion. *)
Inductive cell : Type :=
| Blank                 (* None *)
| Number (n : Z)
| Text (x : pystr).     (* the value as it was *)

Definition RE_COMMA_2 : Re.regex := Eval vm_compute in re ",\d{2}$".

(** [convert_to_number(x)] on the text of a cell.  [None] is the
    [OverflowError] of [round] on an infinity, which the [except]
    clause does not catch. *)
Definition convert_to_number (x : pystr) : option cell :=
  if Str.eqb x empty then Some Blank
  else
    let x_str := Str.strip x in
    let x_str :=
      if found (Re.search Re.NOFLAGS RE_COMMA_2 x_str)
      then Str.replace comma dot (Str.replace dot empty x_str)
      else Str.replace comma empty (Str.replace dot empty x_str) in
    match PyNum.float_of_str x_str with
    | None => Some (Text x)
    | Some S754_nan => Some (Text x)
    | Some (S754_infinity _) => None
    | Some f =>
      match PyNum.round_float f with
      | Some n => Some (Number n)
      | None => Some (Text x)
      end
    end.

End Main.

(* ================================================================== *)
(** * app.py: reading an amount of the record *)
(* ================================================================== *)

Module App.

#[local] Open Scope Z_scope.

(** The two patterns of [parse_money_str], as they are written in
    app.py: in the raw string the backslash is doubled, so each asks
    for a separator, a backslash and the letter d two (three) times. *)
Definition RE_SUFFIX_2 : Re.regex := Eval vm_compute in re "[,.]\\d{2}$".
Definition RE_SUFFIX_3 : Re.regex := Eval vm_compute in re "[,.]\\d{3}$".

(** [parse_money_str(s)] on a string. *)
Definition parse_money_str (s : pystr) : Z :=
  if negb (Str.truthy s) then 0
  else
    let s := Str.strip s in
    let s :=
      if Str.contains dot s && Str.contains comma s then
        if Str.rfind dot s <? Str.rfind comma s
        then Str.upto (Z.to_nat (Str.rfind comma s)) s
        else Str.upto (Z.to_nat (Str.rfind dot s)) s
      else if found (Re.search Re.NOFLAGS RE_SUFFIX_2 s)
              && negb (found (Re.search Re.NOFLAGS RE_SUFFIX_3 s))
      then Str.drop_last 3 s
      else s in
    let s := Str.replace dot empty (Str.replace comma empty s) in
    match PyNum.int_of_str s with
    | Some n => n
    | None => 0
    end.

End App.

(* ================================================================== *)
(** * Notions used in the statements *)
(* ================================================================== *)

#[local] Close Scope string_scope.
Arguments py s%_string.
Arguments re p%_string.
Import Re.

Definition with_cap (s : st) (n a b : nat) : st :=
  {| pos := pos s; prev := prev s; rest := rest s;
     caps := (n, (a, b)) :: caps s |}.

(** What it means for a pattern to match between two states. *)
Inductive Matches (fl : flags) : regex -> st -> st -> Prop :=
| M_Eps s : Matches fl REps s s
| M_Set neg items c s s' :
    step s = Some (c, s') -> set_match fl neg items c = true ->
    Matches fl (RSet neg items) s s'
| M_Any c s s' :
    step s = Some (c, s') -> dotall fl || negb (c =? 10)%N = true ->
    Matches fl RAny s s'
| M_Bol s : pos s = 0%nat -> Matches fl RBol s s
| M_Eol s : at_end s = true -> Matches fl REol s s
| M_WordB s : at_word_boundary s = true -> Matches fl RWordB s s
| M_Seq r1 r2 s s1 s2 :
    Matches fl r1 s s1 -> Matches fl r2 s1 s2 -> Matches fl (RSeq r1 r2) s s2
| M_AltL r1 r2 s s' : Matches fl r1 s s' -> Matches fl (RAlt r1 r2) s s'
| M_AltR r1 r2 s s' : Matches fl r2 s s' -> Matches fl (RAlt r1 r2) s s'
| M_Group n r s s' :
    Matches fl r s s' -> Matches fl (RGroup n r) s (with_cap s' n (pos s) (pos s'))
| M_Rep lo hi g r n s s' :
    Iter fl r n s s' -> (lo <= n)%nat ->
    (forall h, hi = Some h -> (n <= h)%nat) ->
    Matches fl (RRep lo hi g r) s s'
with Iter (fl : flags) : regex -> nat -> st -> st -> Prop :=
| I_Zero r s : Iter fl r 0 s s
| I_Succ r n s s1 s2 :
    Matches fl r s s1 -> Iter fl r n s1 s2 -> Iter fl r (S n) s s2.

Scheme Matches_ind2 := Minimality for Matches Sort Prop
  with Iter_ind2 := Minimality for Iter Sort Prop.
Combined Scheme Matches_Iter_ind from Matches_ind2, Iter_ind2.

(** The capturing groups of a pattern. *)
Fixpoint groups (r : regex) : list nat :=
  match r with
  | RSeq r1 r2 | RAlt r1 r2 => groups r1 ++ groups r2
  | RRep _ _ _ r1 => groups r1
  | RGroup n r1 => n :: groups r1
  | _ => []
  end.

(** A state is aligned with the text when what is left is the text
    from the position on. *)
Definition aligned (text : pystr) (s : st) : Prop := skipn (pos s) text = rest s.

Definition is_dig (c : char) : bool := in_range 48 57 c.

(** The value of a digit string, least significant digit first. *)
Fixpoint dval (ds : pystr) : N :=
  match ds with
  | [] => 0
  | d :: r => (d - 48) + 10 * dval r
  end.

Definition digit_step (a : Z) (c : char) : Z := (a * 10 + Z.of_N (c - 48))%Z.

(** Read from the end, such a string has a separator in third place,
    possibly behind a final newline. *)
Definition no_decimal_tail (R : pystr) : Prop :=
  match R with
  | [] => True
  | x :: R' =>
    x <> 10 /\ match R' with
               | _ :: z :: _ => z <> 44 /\ z <> 46
               | _ => True
               end
  end.

(** The item line of the specification, and the same line with the
    sequence number set off by a space instead of a full stop. *)
Definition dotted_item_line : pystr :=
  py "1. Cơm gà nướng PHẦN 2 45.000 90.000".
Definition spaced_item_line : pystr :=
  py "1 Cơm gà nướng PHẦN 2 45.000 90.000".

Definition com_ga_nuong : Services.service :=
  {| Services.name := py "Cơm gà nướng"; Services.qty := py "2";
     Services.unit_price := py "45,000"; Services.amount := py "90,000";
     Services.tax_rate := None |}.

(** The fields reported with a given severity, in the order of the
    report. *)
Definition severity_eqb (a b : Validate.severity) : bool :=
  match a, b with
  | Validate.error, Validate.error => true
  | Validate.warning, Validate.warning => true
  | _, _ => false
  end.

Definition fields_of (sev : Validate.severity) (issues : list Validate.issue)
  : list pystr :=
  map Validate.field
      (filter (fun i => severity_eqb (Validate.severity_of i) sev) issues).

Definition flag (b : bool) (k : pystr) : list pystr := if b then [k] else [].

Definition missing (d : Dict.dict) (k : pystr) : bool :=
  negb (Str.truthy (Str.strip (Dict.get_or d k empty))).

Definition well_formed_date (s : pystr) : bool :=
  found (Re.rmatch Re.NOFLAGS Validate.RE_DATE_FORMAT s).

Definition well_formed_mst (s : pystr) : bool :=
  found (Re.rmatch Re.NOFLAGS Validate.RE_MST_FORMAT s).

Definition amount_of (d : Dict.dict) (k : pystr) : Z :=
  Validate._parse_money (Dict.get_or d k empty).

(** A finished record whose only flaw is a date in ISO order. *)
Definition iso_dated_record : Dict.dict :=
  [ (Keys.TEN_FILE, py "a.pdf"); (Keys.NGAY_HOA_DON, py "2024-01-05");
    (Keys.SO_HOA_DON, py "0000123"); (Keys.DON_VI_BAN, py "CONG TY ABC");
    (Keys.PHAN_LOAI, py "Khác"); (Keys.TRUOC_THUE, py "1.000.000");
    (Keys.THUE_0, empty); (Keys.THUE_5, empty); (Keys.THUE_8, py "80.000");
    (Keys.THUE_10, empty); (Keys.THUE_KHAC, empty);
    (Keys.TIEN_THUE, py "80.000"); (Keys.SO_TIEN_SAU, py "1.080.000");
    (Keys.LINK, py "https://tracuu.example.vn"); (Keys.MA_TRA_CUU, py "ABC123");
    (Keys.MA_SO_THUE, py "0101234567"); (Keys.MA_CQT, empty);
    (Keys.KY_HIEU, py "1C24TAA"); (Keys.PHI_PV, empty) ].

(** The local parsers read a failure as zero. *)
Definition or_zero (o : option Z) : Z :=
  match o with Some n => n | None => 0%Z end.

(** A document without a text layer on a machine without OCR. *)
Definition scanned_without_ocr : Extract.Env :=
  {| Extract.pdf_source := None;
     Extract.filename_arg := Some (py "scan.pdf");
     Extract.pages := [];
     Extract.pdf_error := false;
     Extract.OCR_AVAILABLE := false;
     Extract.ocr_text := [];
     Extract.hd := Extract.HdError;
     Extract.fallback := Extract.FbNone |}.

(** The text layer of an invoice that states a pre-tax amount and the
    tax, and what the function is given for it. *)
Definition text_only (text : pystr) : Extract.Env :=
  {| Extract.pdf_source := None;
     Extract.filename_arg := Some (py "a.pdf");
     Extract.pages := [text];
     Extract.pdf_error := false;
     Extract.OCR_AVAILABLE := false;
     Extract.ocr_text := [];
     Extract.hd := Extract.HdError;
     Extract.fallback := Extract.FbNone |}.

Definition ten_percent_invoice : pystr :=
  py "Cộng tiền hàng: 1.000.000" ++ newline ++ py "Tiền thuế GTGT: 100.000" ++ newline.

(** The buckets of a record that are filled. *)
Definition filled_buckets (d : Dict.dict) : list pystr :=
  filter (fun c => Str.truthy (Dict.item d c)) Extract.BUCKET_COLUMNS.

Definition SUMMARY_COLUMNS : list pystr :=
  [Keys.TRUOC_THUE; Keys.TIEN_THUE; Keys.SO_TIEN_SAU].

(** The amount a field of the record parses to. *)
Definition amount (d : Dict.dict) (k : pystr) : Z :=
  Extract.parse_money (Dict.item d k).

(** The text layers of three invoices that state two of the three
    amounts, and of one whose summary line carries a small tax. *)
Definition pre_tax_and_tax : pystr :=
  py "Cộng tiền hàng: 1.000.000" ++ newline ++ py "Tiền thuế GTGT: 80.000" ++ newline.
Definition pre_tax_and_total : pystr :=
  py "Cộng tiền hàng: 1.000.000" ++ newline
  ++ py "Tổng cộng tiền thanh toán: 1.080.000" ++ newline.
Definition tax_and_total : pystr :=
  py "Tiền thuế GTGT: 80.000" ++ newline
  ++ py "Tổng tiền thanh toán (x): 1.080.000" ++ newline.
Definition small_summary_line : pystr :=
  py "Thuế suất 8% 5.000 400" ++ newline.

(** The word a pattern made of single characters below 'A' spells, and
    the words an alternation of such patterns offers. *)
Fixpoint lit_word (r : regex) : option pystr :=
  match r with
  | RSet false [CRange a b] => if (a =? b) && (a <? 65) then Some [a] else None
  | RSeq r1 r2 =>
    match lit_word r1, lit_word r2 with
    | Some a, Some b => Some (a ++ b)
    | _, _ => None
    end
  | _ => None
  end.

Fixpoint alt_words (r : regex) : option (list pystr) :=
  match r with
  | RAlt r1 r2 =>
    match alt_words r1, alt_words r2 with
    | Some a, Some b => Some (a ++ b)
    | _, _ => None
    end
  | _ => option_map (fun w => [w]) (lit_word r)
  end.

(** A record has the nineteen keys of the literal, in its order, and
    carries the file name [fn]. *)
Definition keeps (fn : pystr) (d : Dict.dict) : Prop :=
  Dict.keys d = Keys.ALL /\ Dict.item d Keys.TEN_FILE = fn.

(** A dictionary without the file-name key (the OCR extractor builds
    one). *)
Definition no_file_name (d : Dict.dict) : Prop :=
  Dict.get d Keys.TEN_FILE = None.

(** The record a run of the [try] body leaves behind. *)
Definition record_at (o : Extract.outcome) : Dict.dict :=
  match o with
  | Extract.Return d _ => d
  | Extract.Continue d _ _ => d
  end.

(** A file name with two spaces in a row, over a text layer with
    nothing to extract. *)
Definition double_space_name : Extract.Env :=
  {| Extract.pdf_source := None;
     Extract.filename_arg := Some (py "hoa don  01.pdf");
     Extract.pages := [py "hello"];
     Extract.pdf_error := false;
     Extract.OCR_AVAILABLE := false;
     Extract.ocr_text := [];
     Extract.hd := Extract.HdError;
     Extract.fallback := Extract.FbNone |}.

(** A property of the result of a computation that may raise. *)
Definition when_some {A} (P : A -> Prop) (o : option A) : Prop :=
  match o with Some d => P d | None => True end.

(** The record as the rate inference inside the [try] finds it: what
    the field cascade of [text_path], from the date to the VAT
    amounts, has made of the record. *)
Definition field_cascade (env : Extract.Env) (filename full_text : pystr)
  (data : Dict.dict) : Dict.dict :=
  let data := Extract.extract_date full_text data in
  let data := Extract.extract_seller_tax_code full_text data in
  let data := Extract.extract_invoice_number env filename full_text data in
  let data := Extract.seller_by_label full_text data in
  let data := Extract.seller_above_tax_code full_text data in
  let data := Extract.seller_from_signature full_text data in
  let data := Extract.seller_from_bottom full_text data in
  let data := Extract.extract_codes full_text data in
  let data := Extract.extract_before_tax full_text data in
  Extract.extract_vat full_text data.

Definition record_at_rate_inference (env : Extract.Env) : Dict.dict :=
  let filename := Extract.effective_filename env in
  let '(data, full_text) :=
    Extract.normalize_text (Extract.read_text_layer env)
                           (Extract.initial_data filename) in
  field_cascade env filename full_text data.

(** An invoice that states 1.000.000 before tax and 100.000 of tax, and
    one line item taxed at 8%. *)
Definition ten_percent_invoice_with_8_percent_item : pystr :=
  py "Cộng tiền hàng: 1.000.000" ++ newline
  ++ py "Tiền thuế GTGT: 100.000" ++ newline
  ++ py "1 Cơm gà nướng PHẦN 2 45.000 90.000 8%" ++ newline.

(** A word of a cleaned string: not empty, no white space, no soft
    hyphen. *)
Definition clean_word (t : pystr) : Prop :=
  t <> [] /\ Forall (fun c => is_space c = false /\ c <> 173) t.

Definition words_nonneg (w : OCR.words_state) : Prop :=
  (0 <= OCR.result w /\ 0 <= OCR.hundreds w /\ 0 <= OCR.pending w)%Z.

(** The text layer of an invoice taxed at 7%. *)
Definition seven_percent_invoice : pystr :=
  py "Cộng tiền hàng: 1.000.000" ++ newline
  ++ py "Tiền thuế GTGT: 70.000" ++ newline.

(** What the final money cleanup leaves in an amount column: nothing,
    a text the local [parse_money] reads as 0 (it is left as found), or
    the formatter's rendering of a non-zero amount. *)
Definition canonical_amount (v : pystr) : Prop :=
  v = empty \/ Extract.parse_money v = 0%Z
  \/ exists n : Z, n <> 0%Z /\ v = Extract.format_money n.

(** The record of sentinels: the file name, and "khong nhan dien duoc"
    (with its accents) under each of the other eighteen keys. *)
Definition sentinel_record (fn : pystr) : Dict.dict :=
  (Keys.TEN_FILE, fn) :: map (fun k => (k, Extract.SENTINEL)) (tl Keys.ALL).

(** A text layer of one line that opens with a brace: the line filter
    drops it. *)
Definition garbage_only : Extract.Env :=
  {| Extract.pdf_source := None;
     Extract.filename_arg := Some (py "a.pdf");
     Extract.pages := [py "{'0'}"];
     Extract.pdf_error := false;
     Extract.OCR_AVAILABLE := true;
     Extract.ocr_text := py "HOA DON 123";
     Extract.hd := Extract.HdNoImage;
     Extract.fallback := Extract.FbNone |}.

(** The score of one entry of the keyword table on a lower-cased text. *)
Definition entry_score (text_lower : pystr) (entry : pystr * list pystr) : Z :=
  Classify.score_of (fst entry) (snd entry) text_lower.

(** The seller name holds one of the food and drink brands. *)
Definition brand_seller (seller_name : pystr) : bool :=
  Str.truthy seller_name
  && existsb (fun brand => Str.contains brand (upper seller_name))
             Classify.FB_BRANDS.

(** No key of the table comes twice, nor is one of [seen]. *)
Fixpoint fresh_keys (seen : list pystr) (tbl : list (pystr * list pystr)) : bool :=
  match tbl with
  | [] => true
  | e :: more => negb (Str.mem (fst e) seen) && fresh_keys (fst e :: seen) more
  end.

(** The seven categories [classify_content] can answer. *)
Definition CATEGORIES : list pystr :=
  Classify.OTHER :: map fst Classify.CATEGORY_KEYWORDS.

(** A scanned petrol receipt: no text layer, and the OCR engine reads
    a seller and a total. *)
Definition scanned_petrol_receipt : Extract.Env :=
  {| Extract.pdf_source := Some (py "/in/scan.pdf");
     Extract.filename_arg := None;
     Extract.pages := [];
     Extract.pdf_error := false;
     Extract.OCR_AVAILABLE := true;
     Extract.ocr_text := py "CONG TY XANG DAU PETROLIMEX" ++ newline
                         ++ py "Tong cong: 500.000" ++ newline;
     Extract.hd := Extract.HdNoImage;
     Extract.fallback := Extract.FbNone |}.

(** The four rates a line item may carry. *)
Definition ITEM_RATES : list pystr := [py "0"; py "5"; py "8"; py "10"].

Definition rate_ok (tax_rate : option pystr) : Prop :=
  match tax_rate with
  | None => True
  | Some r => In r ITEM_RATES
  end.

(** A line item as the extractor lets it through: a name of three
    characters or more that is not junk text, the three numbers in the
    form [format_price_value] leaves them in, and one of the four
    rates, or none. *)
Definition well_formed_item (it : Services.service) : Prop :=
  (3 <= length (Services.name it))%nat
  /\ is_junk_text (Services.name it) = false
  /\ format_price_value (Services.qty it) = Services.qty it
  /\ format_price_value (Services.unit_price it) = Services.unit_price it
  /\ format_price_value (Services.amount it) = Services.amount it
  /\ rate_ok (Services.tax_rate it).

(** The fifteen keys the OCR extractor may write; the file name, the
    category, the 0% bucket and the service fee are not among them. *)
Definition OCR_KEYS : list pystr :=
  [ Keys.KY_HIEU; Keys.DON_VI_BAN; Keys.SO_HOA_DON; Keys.NGAY_HOA_DON;
    Keys.MA_SO_THUE; Keys.TRUOC_THUE; Keys.TIEN_THUE; Keys.THUE_5; Keys.THUE_8;
    Keys.THUE_10; Keys.THUE_KHAC; Keys.SO_TIEN_SAU; Keys.MA_TRA_CUU;
    Keys.MA_CQT; Keys.LINK ].

(** Every key of the dictionary is one of [OCR_KEYS], and no key comes
    twice. *)
Definition ocr_keys_only (d : Dict.dict) : Prop :=
  incl (Dict.keys d) OCR_KEYS /\ NoDup (Dict.keys d).

(** A scanned receipt as the OCR engine reads it. *)
Definition scanned_receipt : pystr :=
  py "CONG TY TNHH AN PHAT" ++ newline
  ++ py "Ky hieu: 1C25TAA" ++ newline
  ++ py "Tong cong: 500.000" ++ newline.

(* ================================================================== *)
(** * Properties *)
(* ================================================================== *)

(** * Facts about the matcher *)

Lemma orelse_some {A} (a b : option A) (x : A) :
  orelse a b = Some x -> a = Some x \/ b = Some x.
Proof. destruct a; simpl; auto. Qed.

Lemma rep_loop_sound fl r body lo hi g k :
  (forall s k' res, body s k' = Some res ->
     exists s', Matches fl r s s' /\ k' s' = Some res) ->
  forall fuel i s res,
    (forall h, hi = Some h -> (i <= h)%nat) ->
    rep_loop body lo hi g k fuel i s = Some res ->
    exists n s', Iter fl r n s s' /\ (lo <= i + n)%nat
                 /\ (forall h, hi = Some h -> (i + n <= h)%nat)
                 /\ k s' = Some res.
Proof.
  intros Hbody. induction fuel as [|f IH]; intros i s res Hi H.
  - assert (Hstop : (if Nat.leb lo i then k s else None) = Some res).
    { simpl in H.
      destruct (match hi with Some h => Nat.ltb i h | None => true end);
        destruct g; simpl in H;
        try (apply orelse_some in H; destruct H as [H|H]; try discriminate);
        auto. }
    destruct (Nat.leb lo i) eqn:Hlo; [|discriminate].
    apply Nat.leb_le in Hlo.
    exists 0%nat, s. split; [constructor|]. rewrite Nat.add_0_r. auto.
  - simpl in H.
    set (stop := if Nat.leb lo i then k s else None) in *.
    set (more := if match hi with Some h => Nat.ltb i h | None => true end
                 then body s (fun s' =>
                        if Nat.ltb (pos s) (pos s') || Nat.ltb i lo
                        then rep_loop body lo hi g k f (S i) s' else None)
                 else None) in *.
    assert (Hcase : stop = Some res \/ more = Some res).
    { destruct g; apply orelse_some in H; tauto. }
    destruct Hcase as [Hs|Hm].
    + subst stop. destruct (Nat.leb lo i) eqn:Hlo; [|discriminate].
      apply Nat.leb_le in Hlo.
      exists 0%nat, s. split; [constructor|]. rewrite Nat.add_0_r. auto.
    + subst more.
      destruct (match hi with Some h => Nat.ltb i h | None => true end) eqn:Hhi;
        [|discriminate].
      apply Hbody in Hm. destruct Hm as (s1 & Hm1 & Hk).
      destruct (Nat.ltb (pos s) (pos s1) || Nat.ltb i lo); [|discriminate].
      apply IH in Hk.
      * destruct Hk as (n & s' & Hit & Hlo & Hh & Hk).
        exists (S n), s'. split; [econstructor; eauto|].
        rewrite Nat.add_succ_r. auto.
      * intros h Eh. subst hi. apply Nat.ltb_lt in Hhi. lia.
Qed.

Theorem run_sound fl r :
  forall s k res, run fl r s k = Some res ->
    exists s', Matches fl r s s' /\ k s' = Some res.
Proof.
  induction r; intros s k res H; simpl in H.
  - exists s. split; [constructor|auto].
  - discriminate.
  - destruct (step s) as [[c s']|] eqn:Hs; [|discriminate].
    destruct (set_match fl neg items c) eqn:Hm; [|discriminate].
    exists s'. split; [econstructor; eauto|auto].
  - destruct (step s) as [[c s']|] eqn:Hs; [|discriminate].
    destruct (dotall fl || negb (c =? 10)%N) eqn:Hm; [|discriminate].
    exists s'. split; [econstructor; eauto|auto].
  - destruct (Nat.eqb (pos s) 0) eqn:Hp; [|discriminate].
    apply Nat.eqb_eq in Hp. exists s. split; [constructor; auto|auto].
  - destruct (at_end s) eqn:Hp; [|discriminate].
    exists s. split; [constructor; auto|auto].
  - destruct (at_word_boundary s) eqn:Hp; [|discriminate].
    exists s. split; [constructor; auto|auto].
  - apply IHr1 in H. destruct H as (s1 & H1 & H).
    apply IHr2 in H. destruct H as (s2 & H2 & H).
    exists s2. split; [econstructor; eauto|auto].
  - apply orelse_some in H. destruct H as [H|H].
    + apply IHr1 in H. destruct H as (s1 & H1 & H).
      exists s1. split; [apply M_AltL; auto|auto].
    + apply IHr2 in H. destruct H as (s1 & H1 & H).
      exists s1. split; [apply M_AltR; auto|auto].
  - eapply rep_loop_sound in H; [|exact IHr|intros; lia].
    destruct H as (n & s' & Hit & Hlo & Hh & Hk).
    exists s'. split; [|auto]. econstructor; eauto.
  - apply IHr in H. destruct H as (s1 & H1 & H).
    exists (with_cap s1 n (pos s) (pos s1)). split; [constructor; auto|auto].
Qed.

Lemma step_inv s c s' :
  step s = Some (c, s') ->
  rest s = c :: rest s' /\ pos s' = S (pos s) /\ caps s' = caps s.
Proof.
  unfold step. destruct (rest s) eqn:E; [discriminate|].
  intros H. inversion H; subst. simpl. auto.
Qed.

(** A match consumes a prefix of what is left and moves the position
    by its length. *)
Lemma Matches_consumes fl :
  (forall r s s', Matches fl r s s' ->
     exists w, rest s = w ++ rest s' /\ pos s' = (pos s + length w)%nat)
  /\ (forall r n s s', Iter fl r n s s' ->
     exists w, rest s = w ++ rest s' /\ pos s' = (pos s + length w)%nat).
Proof.
  apply Matches_Iter_ind; intros;
    try (exists []; simpl; split; [reflexivity|lia]).
  - apply step_inv in H. destruct H as (Hr & Hp & _).
    exists [c]. simpl. split; [auto|lia].
  - apply step_inv in H. destruct H as (Hr & Hp & _).
    exists [c]. simpl. split; [auto|lia].
  - destruct H0 as (w1 & Hr1 & Hp1). destruct H2 as (w2 & Hr2 & Hp2).
    exists (w1 ++ w2). rewrite <- app_assoc, <- Hr2, length_app. split; [auto|lia].
  - auto.
  - auto.
  - destruct H0 as (w & Hr & Hp). exists w. simpl. auto.
  - auto.
  - destruct H0 as (w1 & Hr1 & Hp1). destruct H2 as (w2 & Hr2 & Hp2).
    exists (w1 ++ w2). rewrite <- app_assoc, <- Hr2, length_app. split; [auto|lia].
Qed.

(** A match only adds captures, and only for its own groups. *)
Lemma Matches_caps fl :
  (forall r s s', Matches fl r s s' ->
     exists new, caps s' = new ++ caps s
                 /\ forall n ab, In (n, ab) new -> In n (groups r))
  /\ (forall r n s s', Iter fl r n s s' ->
     exists new, caps s' = new ++ caps s
                 /\ forall n ab, In (n, ab) new -> In n (groups r)).
Proof.
  apply Matches_Iter_ind; intros;
    try (exists []; simpl; split; [reflexivity|intros ? ? []]).
  - apply step_inv in H. destruct H as (_ & _ & Hc).
    exists []. simpl. split; [auto|intros ? ? []].
  - apply step_inv in H. destruct H as (_ & _ & Hc).
    exists []. simpl. split; [auto|intros ? ? []].
  - destruct H0 as (n1 & Hc1 & Hg1). destruct H2 as (n2 & Hc2 & Hg2).
    exists (n2 ++ n1). rewrite Hc2, Hc1, app_assoc. split; [auto|].
    intros n ab Hin. simpl. apply in_app_iff. apply in_app_iff in Hin.
    destruct Hin; eauto.
  - destruct H0 as (n1 & Hc1 & Hg1). exists n1. split; [auto|].
    intros n ab Hin. simpl. apply in_app_iff. eauto.
  - destruct H0 as (n1 & Hc1 & Hg1). exists n1. split; [auto|].
    intros n ab Hin. simpl. apply in_app_iff. eauto.
  - destruct H0 as (n1 & Hc1 & Hg1).
    exists ((n, (pos s, pos s')) :: n1). simpl. rewrite Hc1. split; [auto|].
    intros m ab [Hin|Hin]; [inversion Hin; auto|eauto].
  - destruct H0 as (n1 & Hc1 & Hg1). exists n1. simpl. split; auto.
  - destruct H0 as (n1 & Hc1 & Hg1). destruct H2 as (n2 & Hc2 & Hg2).
    exists (n2 ++ n1). rewrite Hc2, Hc1, app_assoc. split; [auto|].
    intros m ab Hin. apply in_app_iff in Hin. destruct Hin; eauto.
Qed.

Lemma Matches_aligned fl r text s s' :
  Matches fl r s s' -> aligned text s -> aligned text s'.
Proof.
  intros H Ha. apply (proj1 (Matches_consumes fl)) in H.
  destruct H as (w & Hr & Hp). unfold aligned in *.
  rewrite Hp, Nat.add_comm, <- skipn_skipn, Ha, Hr.
  now rewrite skipn_app, skipn_all, Nat.sub_diag.
Qed.

Lemma match_at_sound fl r text start prev0 rest0 ma m :
  match_at fl r text start prev0 rest0 ma = Some m ->
  exists s', Matches fl r {| pos := start; prev := prev0; rest := rest0; caps := [] |} s'
             /\ m = {| m_text := text; m_start := start; m_end := pos s';
                       m_caps := caps s' |}.
Proof.
  unfold match_at. intros H.
  destruct (run _ _ _ _) as [s'|] eqn:Hr; [|discriminate].
  apply run_sound in Hr. destruct Hr as (s1 & Hm & Hk).
  destruct (ma && Nat.eqb (pos s1) start); [discriminate|].
  inversion Hk; subst. inversion H; subst. eauto.
Qed.

Lemma scan_sound fl r text :
  forall rest0 start prev0 ma m,
    scan fl r text start prev0 rest0 ma = Some m ->
    exists w prev1 rest1 ma1,
      rest0 = w ++ rest1
      /\ match_at fl r text (start + length w) prev1 rest1 ma1 = Some m.
Proof.
  induction rest0 as [|c rest0 IH]; intros start prev0 ma m H; simpl in H.
  - destruct (match_at fl r text start prev0 [] ma) eqn:E; [|discriminate].
    inversion H; subst. exists [], prev0, [], ma. simpl.
    rewrite Nat.add_0_r. auto.
  - destruct (match_at fl r text start prev0 (c :: rest0) ma) eqn:E.
    + inversion H; subst. exists [], prev0, (c :: rest0), ma. simpl.
      rewrite Nat.add_0_r. auto.
    + apply IH in H. destruct H as (w & p1 & r1 & ma1 & Hr & Hm).
      exists (c :: w), p1, r1, ma1. simpl. rewrite Hr.
      rewrite Nat.add_succ_r. auto.
Qed.

(** A match found by scanning the text from [start] on starts at an
    aligned state. *)
Lemma scan_aligned fl r text start prev0 ma m :
  scan fl r text start prev0 (skipn start text) ma = Some m ->
  exists s0 s', aligned text s0 /\ caps s0 = [] /\ Matches fl r s0 s'
                /\ m = {| m_text := text; m_start := pos s0; m_end := pos s';
                          m_caps := caps s' |}.
Proof.
  intros H. apply scan_sound in H.
  destruct H as (w & p1 & r1 & ma1 & Hr & Hm).
  apply match_at_sound in Hm. destruct Hm as (s' & Hm & E).
  eexists; exists s'. split; [|split; [|split; [exact Hm|exact E]]].
  - unfold aligned. simpl. rewrite Nat.add_comm, <- skipn_skipn, Hr.
    now rewrite skipn_app, skipn_all, Nat.sub_diag.
  - reflexivity.
Qed.

Lemma search_sound fl r text m :
  search fl r text = Some m ->
  exists s0 s', aligned text s0 /\ caps s0 = [] /\ Matches fl r s0 s'
                /\ m = {| m_text := text; m_start := pos s0; m_end := pos s';
                          m_caps := caps s' |}.
Proof. unfold search. intros H. eapply scan_aligned with (start := 0%nat). exact H. Qed.

Lemma finditer_go_sound fl r text :
  forall fuel start ma m,
    In m (finditer_go fuel fl r text start ma) ->
    exists s0 s', aligned text s0 /\ caps s0 = [] /\ Matches fl r s0 s'
                  /\ m = {| m_text := text; m_start := pos s0; m_end := pos s';
                            m_caps := caps s' |}.
Proof.
  induction fuel as [|f IH]; intros start ma m H; simpl in H; [contradiction|].
  destruct (Nat.ltb (length text) start); [contradiction|].
  destruct (scan _ _ _ _ _ _ _) as [m0|] eqn:E; [|contradiction].
  destruct H as [H|H].
  - subst. eapply scan_aligned; eauto.
  - eapply IH; eauto.
Qed.

Lemma finditer_sound fl r text m :
  In m (finditer fl r text) ->
  exists s0 s', aligned text s0 /\ caps s0 = [] /\ Matches fl r s0 s'
                /\ m = {| m_text := text; m_start := pos s0; m_end := pos s';
                          m_caps := caps s' |}.
Proof. apply finditer_go_sound. Qed.

(** * Facts about strings *)

Lemma Str_eqb_refl (a : pystr) : Str.eqb a a = true.
Proof.
  induction a as [|x a IH]; simpl; [reflexivity|].
  now rewrite N.eqb_refl, IH.
Qed.

Lemma Str_eqb_eq (a b : pystr) : Str.eqb a b = true <-> a = b.
Proof.
  split.
  - revert b; induction a as [|x a IH]; intros [|y b]; simpl; try discriminate;
      [reflexivity|].
    intros H. apply andb_true_iff in H as [Hxy Hab].
    apply N.eqb_eq in Hxy. f_equal; auto.
  - intros ->. apply Str_eqb_refl.
Qed.

(** Removing a one-character separator is a filter. *)
Lemma replace_char_filter (c : char) (s : pystr) :
  Str.replace [c] [] s = filter (fun x => negb (x =? c)) s.
Proof.
  unfold Str.replace. induction s as [|a s IH]; simpl; [reflexivity|].
  rewrite andb_true_r, (N.eqb_sym c a).
  destruct (a =? c); simpl; rewrite IH; reflexivity.
Qed.

Lemma filter_id {A} (p : A -> bool) (l : list A) :
  Forall (fun x => p x = true) l -> filter p l = l.
Proof.
  induction 1 as [|x l Hx _ IH]; simpl; [reflexivity|].
  now rewrite Hx, IH.
Qed.

Lemma find_at_absent (c : char) (s : pystr) :
  Forall (fun x => x <> c) s -> forall i, Str.find_at [c] s i = (-1)%Z.
Proof.
  induction 1 as [|x s Hx _ IH]; intros i; simpl; [reflexivity|].
  destruct (c =? x) eqn:E; [apply N.eqb_eq in E; congruence|].
  simpl. apply IH.
Qed.

Lemma contains_absent (c : char) (s : pystr) :
  Forall (fun x => x <> c) s -> Str.contains [c] s = false.
Proof.
  intros H. unfold Str.contains, Str.find. now rewrite find_at_absent.
Qed.

Lemma dropwhile_head (p : char -> bool) (s : pystr) :
  match s with [] => True | c :: _ => p c = false end ->
  Str.dropwhile p s = s.
Proof. destruct s as [|c s]; simpl; [reflexivity|]. now intros ->. Qed.

(** [strip] leaves a string alone when neither end is white space. *)
Lemma strip_clean (s : pystr) :
  Forall (fun c => is_space c = false) s -> Str.strip s = s.
Proof.
  intros H. unfold Str.strip, Str.strip_by, Str.rstrip_by, Str.lstrip_by.
  rewrite (dropwhile_head is_space s).
  - rewrite dropwhile_head; [apply rev_involutive|].
    apply Forall_rev in H. destruct (rev s); [exact I|]. now inversion H.
  - destruct s; [exact I|]. now inversion H.
Qed.

(** * Decimal digits *)

Lemma in_range_spec lo hi c : in_range lo hi c = true <-> lo <= c <= hi.
Proof.
  unfold in_range. rewrite andb_true_iff, !N.leb_le. tauto.
Qed.

Lemma decimal_value_dig c : is_dig c = true -> decimal_value c = Some (c - 48).
Proof.
  intros H. unfold decimal_value, decimal_blocks. simpl.
  unfold is_dig in H. now rewrite H.
Qed.

Lemma dig_not_space c : is_dig c = true -> is_space c = false.
Proof.
  intros H. apply in_range_spec in H. unfold is_space.
  repeat match goal with
  | |- context [in_range ?a ?b c] =>
      let E := fresh in
      destruct (in_range a b c) eqn:E; [apply in_range_spec in E; lia|]
  | |- context [c =? ?a] =>
      let E := fresh in
      destruct (c =? a) eqn:E; [apply N.eqb_eq in E; lia|]
  end. reflexivity.
Qed.

(** Division by ten: name the quotient and the remainder for [lia]. *)
Ltac div10 n :=
  let H1 := fresh in let H2 := fresh in
  pose proof (N.div_mod n 10 ltac:(lia)) as H1;
  pose proof (N.mod_lt n 10 ltac:(lia)) as H2;
  generalize dependent (n / 10); generalize dependent (n mod 10); intros.

Lemma rev_digits_spec :
  forall fuel n, n < 2 ^ N.of_nat fuel ->
    dval (PyNum.rev_digits (S fuel) n) = n
    /\ Forall (fun c => is_dig c = true) (PyNum.rev_digits (S fuel) n)
    /\ PyNum.rev_digits (S fuel) n <> [].
Proof.
  induction fuel as [|f IH]; intros n Hn.
  - simpl in Hn. assert (n = 0) by lia. subst. simpl.
    repeat split; [repeat constructor|discriminate].
  - change (PyNum.rev_digits (S (S f)) n)
      with (if n <? 10 then [48 + n]
            else (48 + n mod 10) :: PyNum.rev_digits (S f) (n / 10)).
    destruct (n <? 10) eqn:E.
    + apply N.ltb_lt in E. repeat split; [unfold dval; lia| |discriminate].
      constructor; [|constructor]. apply in_range_spec. lia.
    + apply N.ltb_ge in E.
      assert (Hq : n / 10 < 2 ^ N.of_nat f).
      { rewrite Nat2N.inj_succ, N.pow_succ_r' in Hn.
        apply N.Div0.div_lt_upper_bound.
        generalize dependent (2 ^ N.of_nat f). intros; lia. }
      destruct (IH _ Hq) as (Hv & Hd & Hne).
      cbn [dval]. rewrite Hv. repeat split.
      * clear - E. div10 n. lia.
      * constructor; [|exact Hd]. apply in_range_spec.
        clear - E. div10 n. lia.
      * discriminate.
Qed.

Lemma size_nat_bound (n : N) : n < 2 ^ N.of_nat (N.size_nat n).
Proof.
  destruct n as [|p]; [reflexivity|].
  change (N.size_nat (N.pos p)) with (Pos.size_nat p).
  induction p as [p IH|p IH|].
  - change (Pos.size_nat p~1) with (S (Pos.size_nat p)).
    rewrite Nat2N.inj_succ, N.pow_succ_r'.
    generalize dependent (2 ^ N.of_nat (Pos.size_nat p)). intros; lia.
  - change (Pos.size_nat p~0) with (S (Pos.size_nat p)).
    rewrite Nat2N.inj_succ, N.pow_succ_r'.
    generalize dependent (2 ^ N.of_nat (Pos.size_nat p)). intros; lia.
  - reflexivity.
Qed.

Lemma int_digits_dig (s : pystr) :
  Forall (fun c => is_dig c = true) s ->
  forall acc b,
    PyNum.int_digits acc b s =
      match s with
      | [] => if b then Some acc else None
      | _ => Some (fold_left digit_step s acc)
      end.
Proof.
  induction 1 as [|c s Hc Hs IH]; intros acc b; simpl; [reflexivity|].
  rewrite (decimal_value_dig _ Hc), IH.
  destruct s; reflexivity.
Qed.

Lemma fold_digits_rev (ds : pystr) :
  fold_left digit_step (rev ds) 0%Z = Z.of_N (dval ds).
Proof.
  induction ds as [|d r IH]; [reflexivity|].
  cbn [rev dval]. rewrite fold_left_app. cbn [fold_left].
  unfold digit_step at 1. rewrite IH, N2Z.inj_add, N2Z.inj_mul.
  generalize (Z.of_N (d - 48)) (Z.of_N (dval r)). intros; lia.
Qed.

(** * Grouped digit strings and the decimal-suffix patterns *)

Lemma set_match_seps c :
  set_match NOFLAGS false [CRange 44 44; CRange 46 46] c = true ->
  c = 44 \/ c = 46.
Proof.
  unfold set_match, set_has. simpl. rewrite !orb_false_r.
  intros H. apply orb_true_iff in H.
  destruct H as [H|H]; apply in_range_spec in H; lia.
Qed.

Lemma at_end_inv s : at_end s = true -> rest s = [] \/ rest s = [10].
Proof.
  unfold at_end. destruct (rest s) as [|c [|d r]]; auto; [|discriminate].
  intros H. apply N.eqb_eq in H. subst. auto.
Qed.

(** A match of [[,.]\d{2}$]: a separator, two more characters, the end. *)
Lemma decimal_2_inv s s' :
  Matches NOFLAGS RE_DECIMAL_2 s s' ->
  exists c d1 d2 tl,
    rest s = c :: d1 :: d2 :: tl /\ (c = 44 \/ c = 46)
    /\ (tl = [] \/ tl = [10]).
Proof.
  unfold RE_DECIMAL_2. intros H.
  inversion H as [| | | | | |r1 r2 sa s1 sb H1 H2| | | |]; subst; clear H.
  inversion H1 as [|neg items c sa s1' Hstep Hset| | | | | | | | |]; subst; clear H1.
  apply set_match_seps in Hset. apply step_inv in Hstep.
  destruct Hstep as (Hr & _ & _).
  inversion H2 as [| | | | | |r1 r2 sa s2 sb H3 H4| | | |]; subst; clear H2.
  inversion H4 as [| | | |sa Hend| | | | | |]; subst; clear H4.
  inversion H3 as [| | | | | | | | | |lo hi g r n sa sb Hit Hlo Hhi]; subst; clear H3.
  assert (n = 2%nat) by (specialize (Hhi 2%nat eq_refl); lia). subst n.
  inversion Hit as [|r n sa sm sb Hm1 Hit1]; subst; clear Hit.
  inversion Hit1 as [|r n sa sm2 sb Hm2 Hit2]; subst; clear Hit1.
  inversion Hit2; subst; clear Hit2.
  inversion Hm1 as [|neg items d1 sa sb Hs1 _| | | | | | | | |]; subst; clear Hm1.
  inversion Hm2 as [|neg items d2 sa sb Hs2 _| | | | | | | | |]; subst; clear Hm2.
  apply step_inv in Hs1. apply step_inv in Hs2.
  destruct Hs1 as (Hr1 & _ & _). destruct Hs2 as (Hr2 & _ & _).
  exists c, d1, d2, (rest s'). rewrite Hr, Hr1, Hr2.
  split; [reflexivity|]. split; [assumption|]. now apply at_end_inv.
Qed.

Lemma no_decimal_2_match (f : pystr) :
  no_decimal_tail (rev f) -> search NOFLAGS RE_DECIMAL_2 f = None.
Proof.
  intros Hno. destruct (search NOFLAGS RE_DECIMAL_2 f) as [m|] eqn:E; [|reflexivity].
  exfalso. apply search_sound in E.
  destruct E as (s0 & s' & Hal & _ & Hm & _).
  apply decimal_2_inv in Hm. destruct Hm as (c & d1 & d2 & tl & Hr & Hc & Htl).
  unfold aligned in Hal. rewrite Hr in Hal.
  rewrite <- (firstn_skipn (pos s0) f), Hal, rev_app_distr in Hno.
  destruct Htl as [-> | ->]; simpl in Hno.
  - destruct Hno as (_ & H44 & H46). lia.
  - destruct Hno as (H10 & _). congruence.
Qed.

Lemma group3_rev_unfold sep a b c d more :
  PyNum.group3_rev sep (a :: b :: c :: d :: more)
  = a :: b :: c :: sep :: PyNum.group3_rev sep (d :: more).
Proof. reflexivity. Qed.

Lemma group3_rev_short sep ds :
  (length ds <= 3)%nat -> PyNum.group3_rev sep ds = ds.
Proof.
  destruct ds as [|a [|b [|c [|d more]]]]; simpl; auto. intros; lia.
Qed.

(** Induction over a list four elements at a time. *)
Lemma group3_ind (P : pystr -> Prop) :
  (forall ds, (length ds <= 3)%nat -> P ds) ->
  (forall a b c d more, P (d :: more) -> P (a :: b :: c :: d :: more)) ->
  forall ds, P ds.
Proof.
  intros Hshort Hstep.
  assert (H : forall n ds, (length ds <= n)%nat -> P ds).
  { induction n as [|n IH]; intros ds Hl.
    - apply Hshort. lia.
    - destruct ds as [|a [|b [|c [|d more]]]];
        try (apply Hshort; simpl; lia).
      apply Hstep. apply IH. simpl in *. lia. }
  intros ds. apply (H (length ds)). lia.
Qed.

Lemma group3_rev_filter sep ds :
  Forall (fun c => c <> sep) ds ->
  filter (fun x => negb (x =? sep)) (PyNum.group3_rev sep ds) = ds.
Proof.
  pattern ds; apply group3_ind; clear ds;
    [intros ds H | intros a b c d more IHds].
  - intros Hf. rewrite group3_rev_short by assumption.
    apply filter_id. eapply Forall_impl; [|exact Hf].
    intros c Hc. simpl. apply negb_true_iff. now apply N.eqb_neq.
  - intros Hf. rewrite group3_rev_unfold.
    inversion Hf as [|? ? Ha Hf1]; subst.
    inversion Hf1 as [|? ? Hb Hf2]; subst.
    inversion Hf2 as [|? ? Hc Hf3]; subst.
    cbn [filter]. rewrite N.eqb_refl. cbn [negb].
    apply N.eqb_neq in Ha, Hb, Hc. rewrite Ha, Hb, Hc. cbn [negb].
    now rewrite IHds.
Qed.

Lemma group3_rev_other sep other ds :
  other <> sep -> Forall (fun c => c <> other) ds ->
  filter (fun x => negb (x =? other)) (PyNum.group3_rev sep ds)
  = PyNum.group3_rev sep ds.
Proof.
  intros Hneq. pattern ds; apply group3_ind; clear ds;
    [intros ds H | intros a b c d more IHds].
  - intros Hf. rewrite group3_rev_short by assumption.
    apply filter_id. eapply Forall_impl; [|exact Hf].
    intros c Hc. simpl. apply negb_true_iff. now apply N.eqb_neq.
  - intros Hf. rewrite group3_rev_unfold.
    inversion Hf as [|? ? Ha Hf1]; subst.
    inversion Hf1 as [|? ? Hb Hf2]; subst.
    inversion Hf2 as [|? ? Hc Hf3]; subst.
    cbn [filter].
    apply N.eqb_neq in Ha, Hb, Hc. rewrite Ha, Hb, Hc.
    assert (Hs : (sep =? other) = false) by (apply N.eqb_neq; congruence).
    rewrite Hs. cbn [negb]. now rewrite IHds.
Qed.

Lemma group3_rev_tail sep ds :
  Forall (fun c => is_dig c = true) ds -> no_decimal_tail (PyNum.group3_rev sep ds).
Proof.
  intros Hd.
  assert (Hx : forall x, is_dig x = true -> x <> 10 /\ x <> 44 /\ x <> 46).
  { intros x Hx. apply in_range_spec in Hx. lia. }
  destruct ds as [|a [|b [|c [|d more]]]]; simpl; auto.
  - inversion Hd; subst. split; [apply Hx; auto|auto].
  - inversion Hd; subst. split; [apply Hx; auto|auto].
  - inversion Hd as [|? ? Ha H1]; subst. inversion H1 as [|? ? Hb H2]; subst.
    inversion H2 as [|? ? Hc H3]; subst.
    split; [apply Hx; auto|]. split; apply Hx; auto.
  - inversion Hd as [|? ? Ha H1]; subst. inversion H1 as [|? ? Hb H2]; subst.
    inversion H2 as [|? ? Hc H3]; subst.
    split; [apply Hx; auto|]. split; apply Hx; auto.
Qed.

Lemma group3_rev_chars sep ds :
  Forall (fun c => is_dig c = true) ds ->
  Forall (fun c => is_dig c = true \/ c = sep) (PyNum.group3_rev sep ds).
Proof.
  pattern ds; apply group3_ind; clear ds;
    [intros ds H | intros a b c d more IHds].
  - intros Hf. rewrite group3_rev_short by assumption.
    eapply Forall_impl; [|exact Hf]. auto.
  - intros Hf. rewrite group3_rev_unfold.
    inversion Hf as [|? ? Ha Hf1]; subst.
    inversion Hf1 as [|? ? Hb Hf2]; subst.
    inversion Hf2 as [|? ? Hc Hf3]; subst.
    repeat (constructor; auto).
Qed.

Lemma group3_rev_nonempty sep ds : ds <> [] -> PyNum.group3_rev sep ds <> [].
Proof. destruct ds as [|a [|b [|c [|d more]]]]; simpl; congruence. Qed.

(** * The grouped rendering of a number and what the parsers make of it *)

Lemma rev_digits_n (n : N) :
  dval (PyNum.rev_digits (S (N.size_nat n)) n) = n
  /\ Forall (fun c => is_dig c = true) (PyNum.rev_digits (S (N.size_nat n)) n)
  /\ PyNum.rev_digits (S (N.size_nat n)) n <> [].
Proof. apply rev_digits_spec, size_nat_bound. Qed.

Lemma dig_neq c x : is_dig c = true -> x = 44 \/ x = 46 -> c <> x.
Proof. intros H Hx. apply in_range_spec in H. lia. Qed.

Lemma digits_avoid (n : N) x :
  x = 44 \/ x = 46 ->
  Forall (fun c => c <> x) (PyNum.rev_digits (S (N.size_nat n)) n).
Proof.
  intros Hx. destruct (rev_digits_n n) as (_ & Hd & _).
  eapply Forall_impl; [|exact Hd]. intros c Hc. now apply dig_neq.
Qed.

Lemma digits_without (n : N) x :
  x = 44 \/ x = 46 ->
  filter (fun c => negb (c =? x)) (PyNum.digits n) = PyNum.digits n.
Proof.
  intros Hx. unfold PyNum.digits. rewrite filter_rev. f_equal.
  apply filter_id. eapply Forall_impl; [|exact (digits_avoid n Hx)].
  intros c Hc. simpl. apply negb_true_iff. now apply N.eqb_neq.
Qed.

(** * The digit limit of the conversions *)

Lemma digit_in_lt blocks c d : digit_in blocks c = Some d -> d < 10.
Proof.
  induction blocks as [|b bs IH]; simpl; [discriminate|].
  destruct (in_range b (b + 9) c) eqn:E; [|exact IH].
  apply in_range_spec in E. intros [= <-]. lia.
Qed.

Lemma decimal_value_lt c d : decimal_value c = Some d -> d < 10.
Proof. apply digit_in_lt. Qed.

Lemma count_digits_cons c s :
  PyNum.count_digits (c :: s)
  = if is_decimal c then S (PyNum.count_digits s) else PyNum.count_digits s.
Proof. unfold PyNum.count_digits. simpl. now destruct (is_decimal c). Qed.

Lemma count_digits_dig (s : pystr) :
  Forall (fun c => is_dig c = true) s -> PyNum.count_digits s = length s.
Proof.
  induction 1 as [|c s Hc _ IH]; [reflexivity|].
  rewrite count_digits_cons. unfold is_decimal.
  rewrite (decimal_value_dig _ Hc). simpl. now rewrite IH.
Qed.

(** What [int_digits] returns lies where its digit count puts it. *)
Lemma int_digits_bound (s : pystr) :
  forall acc b n, (0 <= acc)%Z -> PyNum.int_digits acc b s = Some n ->
    (acc * 10 ^ Z.of_nat (PyNum.count_digits s) <= n
     < (acc + 1) * 10 ^ Z.of_nat (PyNum.count_digits s))%Z.
Proof.
  induction s as [|c s IH]; intros acc b n Hacc H; cbn [PyNum.int_digits] in H.
  - destruct b; [|discriminate]. injection H as <-.
    change (PyNum.count_digits []) with 0%nat. simpl. lia.
  - rewrite count_digits_cons. unfold is_decimal.
    destruct (decimal_value c) as [d|] eqn:E.
    + apply decimal_value_lt in E.
      apply IH in H; [|lia].
      rewrite Nat2Z.inj_succ, Z.pow_succ_r by lia.
      pose proof (Z.pow_pos_nonneg 10 (Z.of_nat (PyNum.count_digits s))
                    ltac:(lia) ltac:(lia)) as Hp.
      generalize dependent (10 ^ Z.of_nat (PyNum.count_digits s))%Z.
      intros P HP Hn. nia.
    + destruct ((c =? 95) && b); [|discriminate]. now apply IH in H.
Qed.

(** An integer read by [int()] has at most [MAX_STR_DIGITS] digits. *)
Lemma int_of_str_bound (s : pystr) (n : Z) :
  PyNum.int_of_str s = Some n -> (Z.abs n < 10 ^ PyNum.MAX_STR_DIGITS)%Z.
Proof.
  unfold PyNum.int_of_str. destruct (Str.strip s) as [|c r]; [discriminate|].
  destruct (PyNum.MAX_STR_DIGITS <? Z.of_nat (PyNum.count_digits (c :: r)))%Z eqn:L;
    [discriminate|].
  apply Z.ltb_ge in L. intros H.
  assert (Hk : forall k m, (k <= PyNum.MAX_STR_DIGITS)%Z ->
             (0 * 10 ^ k <= m < (0 + 1) * 10 ^ k)%Z ->
             (Z.abs m < 10 ^ PyNum.MAX_STR_DIGITS)%Z
             /\ (Z.abs (- m) < 10 ^ PyNum.MAX_STR_DIGITS)%Z).
  { intros k m Hle Hm.
    pose proof (Z.pow_le_mono_r 10 k PyNum.MAX_STR_DIGITS ltac:(lia) Hle).
    rewrite Z.abs_opp. generalize dependent (10 ^ k)%Z.
    generalize (10 ^ PyNum.MAX_STR_DIGITS)%Z. intros; lia. }
  assert (Hr : (Z.of_nat (PyNum.count_digits r) <= PyNum.MAX_STR_DIGITS)%Z).
  { rewrite count_digits_cons in L. destruct (is_decimal c); lia. }
  destruct (c =? 45).
  { destruct (PyNum.int_digits 0 false r) as [m|] eqn:E; [|discriminate].
    injection H as <-. apply int_digits_bound in E; [|lia].
    exact (proj2 (Hk _ _ Hr E)). }
  destruct (c =? 43).
  { apply int_digits_bound in H; [|lia]. exact (proj1 (Hk _ _ Hr H)). }
  apply int_digits_bound in H; [|lia]. exact (proj1 (Hk _ _ L H)).
Qed.

(** The number of digits that [rev_digits] writes. *)
Lemma rev_digits_length_le :
  forall fuel n k, (1 <= k)%Z -> (Z.of_N n < 10 ^ k)%Z ->
    (Z.of_nat (length (PyNum.rev_digits fuel n)) <= k)%Z.
Proof.
  induction fuel as [|f IH]; intros n k Hk Hn; [simpl; lia|].
  cbn [PyNum.rev_digits]. destruct (n <? 10) eqn:E; [simpl; lia|].
  apply N.ltb_ge in E. cbn [length]. rewrite Nat2Z.inj_succ.
  assert (H2 : (2 <= k)%Z).
  { destruct (Z.eq_dec k 1) as [->|]; [|lia]. change (10 ^ 1)%Z with 10%Z in Hn. lia. }
  specialize (IH (n / 10) (k - 1)%Z ltac:(lia)).
  enough (Z.of_N (n / 10) < 10 ^ (k - 1))%Z by lia.
  rewrite N2Z.inj_div. change (Z.of_N 10) with 10%Z.
  apply Z.div_lt_upper_bound; [lia|].
  rewrite <- Z.pow_succ_r by lia. now replace (Z.succ (k - 1)) with k by lia.
Qed.

Lemma rev_digits_below :
  forall fuel n, n < 2 ^ N.of_nat fuel ->
    (Z.of_N n < 10 ^ Z.of_nat (length (PyNum.rev_digits (S fuel) n)))%Z.
Proof.
  induction fuel as [|f IH]; intros n Hn.
  - simpl in Hn. assert (n = 0) by lia. subst. reflexivity.
  - change (PyNum.rev_digits (S (S f)) n)
      with (if n <? 10 then [48 + n]
            else (48 + n mod 10) :: PyNum.rev_digits (S f) (n / 10)).
    destruct (n <? 10) eqn:E.
    + apply N.ltb_lt in E. cbn [length]. change (10 ^ Z.of_nat 1)%Z with 10%Z. lia.
    + assert (Hq : n / 10 < 2 ^ N.of_nat f).
      { rewrite Nat2N.inj_succ, N.pow_succ_r' in Hn.
        apply N.Div0.div_lt_upper_bound.
        generalize dependent (2 ^ N.of_nat f). intros; lia. }
      specialize (IH _ Hq). cbn [length].
      rewrite Nat2Z.inj_succ, Z.pow_succ_r by lia.
      rewrite N2Z.inj_div in IH. change (Z.of_N 10) with 10%Z in IH.
      generalize dependent (10 ^ Z.of_nat (length (PyNum.rev_digits (S f) (n / 10))))%Z.
      intros P HP.
      pose proof (Z.div_mod (Z.of_N n) 10 ltac:(lia)).
      pose proof (Z.mod_pos_bound (Z.of_N n) 10 ltac:(lia)). lia.
Qed.

(** [decimal_length] against the powers of ten. *)
Lemma decimal_length_le (n k : Z) :
  (1 <= k)%Z -> (Z.abs n < 10 ^ k)%Z -> (PyNum.decimal_length n <= k)%Z.
Proof.
  intros Hk Hn. unfold PyNum.decimal_length, PyNum.digits.
  rewrite length_rev. apply rev_digits_length_le; [assumption|].
  now rewrite N2Z.inj_abs_N.
Qed.

Lemma decimal_length_gt (n k : Z) :
  (0 <= k)%Z -> (10 ^ k <= Z.abs n)%Z -> (k < PyNum.decimal_length n)%Z.
Proof.
  intros Hk Hn. unfold PyNum.decimal_length, PyNum.digits.
  rewrite length_rev.
  pose proof (@rev_digits_below _ _ (size_nat_bound (Z.abs_N n))) as H.
  rewrite N2Z.inj_abs_N in H.
  apply (Z.pow_lt_mono_r_iff 10); lia.
Qed.

Lemma within_limit (n : Z) :
  (Z.abs n < 10 ^ PyNum.MAX_STR_DIGITS)%Z ->
  (PyNum.MAX_STR_DIGITS <? PyNum.decimal_length n)%Z = false.
Proof.
  intros H. apply Z.ltb_ge.
  apply decimal_length_le; [unfold PyNum.MAX_STR_DIGITS; lia|assumption].
Qed.

Lemma beyond_limit (n : Z) :
  (10 ^ PyNum.MAX_STR_DIGITS <= Z.abs n)%Z ->
  (PyNum.MAX_STR_DIGITS <? PyNum.decimal_length n)%Z = true.
Proof.
  intros H. apply Z.ltb_lt.
  apply decimal_length_gt; [unfold PyNum.MAX_STR_DIGITS; lia|assumption].
Qed.

(** [f"{n:,}"] writes [n] exactly when [n] is below [10 ^ MAX_STR_DIGITS]. *)
Lemma format_comma_within (n : Z) :
  (Z.abs n < 10 ^ PyNum.MAX_STR_DIGITS)%Z ->
  PyNum.format_comma n = Some (PyNum.comma_text n).
Proof. intros H. unfold PyNum.format_comma. now rewrite within_limit. Qed.

Lemma format_comma_beyond (n : Z) :
  (10 ^ PyNum.MAX_STR_DIGITS <= Z.abs n)%Z -> PyNum.format_comma n = None.
Proof. intros H. unfold PyNum.format_comma. now rewrite beyond_limit. Qed.

(** Amounts below 2^53 are far inside the limit. *)
Lemma small_within_limit (n : Z) :
  (Z.abs n < 2 ^ 53)%Z -> (Z.abs n < 10 ^ PyNum.MAX_STR_DIGITS)%Z.
Proof.
  intros H. apply Z.lt_le_trans with (10 ^ 16)%Z; [lia|].
  apply Z.pow_le_mono_r; unfold PyNum.MAX_STR_DIGITS; lia.
Qed.

Lemma small_amount_within_limit (n : Z) :
  (0 <= n < 2 ^ 53)%Z -> (n < 10 ^ PyNum.MAX_STR_DIGITS)%Z.
Proof.
  intros H. rewrite <- (Z.abs_eq n) by lia. apply small_within_limit.
  rewrite Z.abs_eq; lia.
Qed.

Lemma small_N_within_limit (n : Z) :
  (0 <= n < 2 ^ 53)%Z -> (Z.of_N (Z.to_N n) < 10 ^ PyNum.MAX_STR_DIGITS)%Z.
Proof.
  intros H. rewrite Z2N.id by lia. now apply small_amount_within_limit.
Qed.

(** [int()] on the digits of a number. *)
Lemma int_of_digits_limit (n : N) :
  PyNum.int_of_str (PyNum.digits n)
  = if (PyNum.MAX_STR_DIGITS <? PyNum.decimal_length (Z.of_N n))%Z
    then None else Some (Z.of_N n).
Proof.
  destruct (rev_digits_n n) as (Hv & Hd & Hne).
  assert (Hf : Forall (fun c => is_dig c = true) (PyNum.digits n))
    by (unfold PyNum.digits; now apply Forall_rev).
  unfold PyNum.int_of_str, PyNum.decimal_length.
  rewrite Zabs2N.id, strip_clean.
  2:{ eapply Forall_impl; [|exact Hf]. intros c; apply dig_not_space. }
  destruct (PyNum.digits n) as [|c r] eqn:E.
  - exfalso. apply Hne. unfold PyNum.digits in E.
    apply (f_equal (@rev char)) in E. now rewrite rev_involutive in E.
  - rewrite (count_digits_dig Hf).
    destruct (PyNum.MAX_STR_DIGITS <? Z.of_nat (length (c :: r)))%Z; [reflexivity|].
    assert (Hc : is_dig c = true) by now inversion Hf.
    apply in_range_spec in Hc.
    destruct (c =? 45) eqn:E45; [apply N.eqb_eq in E45; lia|].
    destruct (c =? 43) eqn:E43; [apply N.eqb_eq in E43; lia|].
    rewrite int_digits_dig by assumption.
    rewrite <- E. unfold PyNum.digits. now rewrite fold_digits_rev, Hv.
Qed.

Lemma int_of_digits (n : N) :
  (Z.of_N n < 10 ^ PyNum.MAX_STR_DIGITS)%Z ->
  PyNum.int_of_str (PyNum.digits n) = Some (Z.of_N n).
Proof.
  intros H. rewrite int_of_digits_limit, within_limit; [reflexivity|].
  now rewrite Z.abs_eq by apply N2Z.is_nonneg.
Qed.

Section Grouped.

Variable sep other : char.
Hypothesis sep_other :
  (sep = 44 /\ other = 46) \/ (sep = 46 /\ other = 44).
Variable n : N.

Lemma grouped_nonempty : PyNum.grouped sep n <> [].
Proof.
  unfold PyNum.grouped. destruct (rev_digits_n n) as (_ & _ & Hne).
  apply (group3_rev_nonempty sep) in Hne.
  intros E. apply Hne. apply (f_equal (@rev char)) in E.
  now rewrite rev_involutive in E.
Qed.

Lemma grouped_strip : Str.strip (PyNum.grouped sep n) = PyNum.grouped sep n.
Proof.
  apply strip_clean. unfold PyNum.grouped. apply Forall_rev.
  destruct (rev_digits_n n) as (_ & Hd & _).
  eapply Forall_impl; [|exact (group3_rev_chars sep Hd)].
  intros c [Hc | ->]; [now apply dig_not_space|].
  destruct sep_other as [[-> _] | [-> _]]; reflexivity.
Qed.

Lemma grouped_without_sep :
  filter (fun x => negb (x =? sep)) (PyNum.grouped sep n) = PyNum.digits n.
Proof.
  unfold PyNum.grouped, PyNum.digits. rewrite filter_rev. f_equal.
  apply group3_rev_filter, digits_avoid.
  destruct sep_other as [[-> _] | [-> _]]; auto.
Qed.

Lemma grouped_without_other :
  filter (fun x => negb (x =? other)) (PyNum.grouped sep n) = PyNum.grouped sep n.
Proof.
  unfold PyNum.grouped. rewrite filter_rev. f_equal.
  apply group3_rev_other.
  - destruct sep_other as [[-> ->] | [-> ->]]; discriminate.
  - apply digits_avoid. destruct sep_other as [[_ ->] | [_ ->]]; auto.
Qed.

Lemma grouped_cut : cut_decimals (PyNum.grouped sep n) = PyNum.grouped sep n.
Proof.
  unfold cut_decimals.
  assert (Hc : Str.contains [other] (PyNum.grouped sep n) = false).
  { apply contains_absent. unfold PyNum.grouped. apply Forall_rev.
    destruct (rev_digits_n n) as (_ & Hd & _).
    eapply Forall_impl; [|exact (group3_rev_chars sep Hd)].
    intros c [Hc | ->].
    - apply dig_neq; [assumption|].
      destruct sep_other as [[_ ->] | [_ ->]]; auto.
    - destruct sep_other as [[-> ->] | [-> ->]]; discriminate. }
  assert (Hb : Str.contains dot (PyNum.grouped sep n)
               && Str.contains comma (PyNum.grouped sep n) = false).
  { destruct sep_other as [[_ E] | [_ E]]; rewrite E in Hc.
    - replace (Str.contains dot (PyNum.grouped sep n)) with false
        by (symmetry; exact Hc).
      apply andb_false_l.
    - replace (Str.contains comma (PyNum.grouped sep n)) with false
        by (symmetry; exact Hc).
      apply andb_false_r. }
  rewrite Hb.
  rewrite no_decimal_2_match; [reflexivity|].
  unfold PyNum.grouped. rewrite rev_involutive.
  apply group3_rev_tail. apply (rev_digits_n n).
Qed.

End Grouped.

(** [parse_money] on a grouped number reads its digits with [int()]. *)
Lemma parse_money_grouped_digits (sep other : char) (n : N) :
  (sep = 44 /\ other = 46) \/ (sep = 46 /\ other = 44) ->
  parse_money (PyNum.grouped sep n) = PyNum.int_of_str (PyNum.digits n).
Proof.
  intros H. unfold parse_money.
  destruct (PyNum.grouped sep n) as [|c r] eqn:E;
    [now apply grouped_nonempty in E|].
  cbn [Str.truthy negb]. rewrite <- E.
  rewrite (grouped_strip H), (grouped_cut H).
  change dot with [46]. change comma with [44]. change empty with (@nil char).
  rewrite !replace_char_filter.
  destruct H as [[-> ->] | [-> ->]].
  - rewrite (grouped_without_other (sep:=44) (other:=46)) by auto.
    rewrite (grouped_without_sep (sep:=44) (other:=46)) by auto.
    reflexivity.
  - rewrite (grouped_without_sep (sep:=46) (other:=44)) by auto.
    rewrite digits_without by auto.
    reflexivity.
Qed.

Lemma parse_money_grouped (sep other : char) (n : N) :
  (sep = 44 /\ other = 46) \/ (sep = 46 /\ other = 44) ->
  (Z.of_N n < 10 ^ PyNum.MAX_STR_DIGITS)%Z ->
  parse_money (PyNum.grouped sep n) = Some (Z.of_N n).
Proof.
  intros H Hn. rewrite (@parse_money_grouped_digits _ _ n H). now apply int_of_digits.
Qed.

(** C5 (as the code has it): the money formatter is the exact inverse
    of the parser on the valid range, and the valid range ends at the
    digit limit of the interpreter.  For every integer n >= 1000 of at
    most 4300 digits, [format_money(n)] returns the comma-grouped text
    of n and [parse_money] reads that text back as n.  For an integer
    of more than 4300 digits [format_money(n)] raises [ValueError], and
    [parse_money] answers [None] on its comma-grouped text. *)
Theorem money_round_trip (n : Z) :
  (1000 <= n)%Z ->
  ((n < 10 ^ PyNum.MAX_STR_DIGITS)%Z ->
     format_money (Some n) = Some (PyNum.comma_text n)
     /\ parse_money (PyNum.comma_text n) = Some n)
  /\ ((10 ^ PyNum.MAX_STR_DIGITS <= n)%Z ->
     format_money (Some n) = None
     /\ parse_money (PyNum.comma_text n) = None).
Proof.
  intros Hn. destruct n as [|p|p]; try lia.
  cbn [format_money PyNum.comma_text].
  change (Z.to_N (Z.pos p)) with (N.pos p).
  rewrite (@parse_money_grouped_digits 44 46) by auto.
  rewrite int_of_digits_limit. change (Z.of_N (N.pos p)) with (Z.pos p).
  split; intros Hl.
  - split; [now apply format_comma_within|].
    now rewrite within_limit.
  - split; [now apply format_comma_beyond|].
    now rewrite beyond_limit.
Qed.

Lemma money_round_trip_witness :
  format_money (Some 1234567%Z) = Some (py "1,234,567")
  /\ parse_money (py "1,234,567") = Some 1234567%Z.
Proof.
  apply (proj1 (@money_round_trip 1234567%Z ltac:(lia))).
  apply (@small_within_limit 1234567%Z). reflexivity.
Defined.

(** C5, the sentence of the specification: 10^4300 is an integer
    n >= 1000, of 4301 digits, and [format_money(n)] raises
    [ValueError] instead of returning a text for [parse_money] to
    read. *)
Lemma money_round_trip_fails_beyond_the_digit_limit :
  (1000 <= 10 ^ PyNum.MAX_STR_DIGITS)%Z
  /\ format_money (Some (10 ^ PyNum.MAX_STR_DIGITS)%Z) = None.
Proof.
  assert (H : (10 ^ 3 <= 10 ^ PyNum.MAX_STR_DIGITS)%Z)
    by (apply Z.pow_le_mono_r; unfold PyNum.MAX_STR_DIGITS; lia).
  split; [exact H|].
  cbn [format_money]. apply format_comma_beyond.
  rewrite Z.abs_eq; [apply Z.le_refl|].
  apply Z.pow_nonneg. lia.
Qed.

(** * The money parser on the examples of the specification *)

(** C4: [parse_money] reads "1.234.567" as 1234567, "1.234,56" and
    "1,234.56" as 1234, and "79,600" as 79600. *)
Theorem parse_money_resolves_separators :
  parse_money (py "1.234.567") = Some 1234567%Z
  /\ parse_money (py "1.234,56") = Some 1234%Z
  /\ parse_money (py "1,234.56") = Some 1234%Z
  /\ parse_money (py "79,600") = Some 79600%Z.
Proof. vm_compute. repeat split; reflexivity. Qed.

(** * The line-item extractor on the example of the specification *)

(** C3 (what the code does): the first token of the line "1. Cơm gà
    nướng PHẦN 2 45.000 90.000" is "1.", which is not all digits, so
    the line is skipped and no item comes out; with the sequence number
    set off by a space the item is found, with the name "Cơm gà nướng",
    the quantity 2 and the prices re-written with commas, 45,000 and
    90,000, which parse to the same amounts as 45.000 and 90.000. *)
Theorem dotted_sequence_number_line_is_skipped :
  Services.extract_services_from_text dotted_item_line = []
  /\ Str.isdigit (nth 0 (Str.split_ws dotted_item_line) empty) = false
  /\ Services.extract_services_from_text spaced_item_line = [com_ga_nuong]
  /\ parse_money (Services.unit_price com_ga_nuong) = parse_money (py "45.000")
  /\ parse_money (Services.amount com_ga_nuong) = parse_money (py "90.000").
Proof. vm_compute. repeat split; reflexivity. Qed.

(** * The validation rules *)

Lemma fields_of_app sev a b :
  fields_of sev (a ++ b) = fields_of sev a ++ fields_of sev b.
Proof. unfold fields_of. now rewrite filter_app, map_app. Qed.

Lemma fields_of_when sev b i :
  fields_of sev (Validate.when b i)
  = flag (b && severity_eqb (Validate.severity_of i) sev) (Validate.field i).
Proof.
  unfold fields_of, Validate.when, flag. destruct b; simpl; [|reflexivity].
  now destruct (severity_eqb _ _).
Qed.

(** C9 (as the code has it): the validator leaves the record as it is;
    a missing or short seller name, a missing invoice number, a missing
    date, a zero pre-tax amount and a zero total are its errors, in this
    order; a date that is present but not of the form d/m/yyyy is among
    its warnings, with the tax code, the link, the lookup code, the
    serial and a total below the pre-tax amount. *)
Theorem validate_invoice_data_classification (d : Dict.dict) :
  let seller := Str.strip (Dict.get_or d Keys.DON_VI_BAN empty) in
  let date_val := Str.strip (Dict.get_or d Keys.NGAY_HOA_DON empty) in
  let mst := Str.strip (Dict.get_or d Keys.MA_SO_THUE empty) in
  let before_tax := amount_of d Keys.TRUOC_THUE in
  let after_tax := amount_of d Keys.SO_TIEN_SAU in
  snd (Validate.validate_invoice_data d) = d
  /\ fields_of Validate.error (fst (Validate.validate_invoice_data d))
     = flag (negb (Str.truthy seller) || Nat.ltb (length seller) 5) Keys.DON_VI_BAN
       ++ flag (missing d Keys.SO_HOA_DON) Keys.SO_HOA_DON
       ++ flag (negb (Str.truthy date_val)) Keys.NGAY_HOA_DON
       ++ flag (before_tax =? 0)%Z Keys.TRUOC_THUE
       ++ flag (after_tax =? 0)%Z Keys.SO_TIEN_SAU
  /\ fields_of Validate.warning (fst (Validate.validate_invoice_data d))
     = flag (Str.truthy date_val && negb (well_formed_date date_val))
            Keys.NGAY_HOA_DON
       ++ flag (negb (Str.truthy mst) || negb (well_formed_mst mst))
               Keys.MA_SO_THUE
       ++ flag (missing d Keys.LINK) Keys.LINK
       ++ flag (missing d Keys.MA_TRA_CUU) Keys.MA_TRA_CUU
       ++ flag (missing d Keys.KY_HIEU) Keys.KY_HIEU
       ++ flag ((0 <? before_tax)%Z && (0 <? after_tax)%Z
                && (after_tax <? before_tax)%Z) Keys.SO_TIEN_SAU.
Proof.
  cbv zeta.
  unfold Validate.validate_invoice_data, Validate.bind, Validate.data_get,
    Validate.ret, missing, well_formed_date, well_formed_mst, amount_of.
  cbn [fst snd].
  split; [reflexivity|].
  rewrite !fields_of_app, !fields_of_when. cbn [Validate.severity_of Validate.field severity_eqb].
  rewrite !andb_true_r, !andb_false_r.
  split.
  - destruct (Str.truthy (Str.strip (Dict.get_or d Keys.NGAY_HOA_DON empty)));
      cbn [negb];
      destruct (Str.truthy (Str.strip (Dict.get_or d Keys.MA_SO_THUE empty)));
      cbn [negb];
      repeat match goal with
      | |- context [if negb ?b then _ else _] => destruct b; cbn [negb]
      end;
      cbn [fields_of filter map Validate.severity_of severity_eqb flag app];
      rewrite ?app_nil_r; reflexivity.
  - destruct (Str.truthy (Str.strip (Dict.get_or d Keys.NGAY_HOA_DON empty)));
      cbn [negb andb orb];
      destruct (Str.truthy (Str.strip (Dict.get_or d Keys.MA_SO_THUE empty)));
      cbn [negb andb orb];
      repeat match goal with
      | |- context [if negb ?b then _ else _] => destruct b; cbn [negb]
      end;
      cbn [fields_of filter map Validate.severity_of Validate.field severity_eqb flag app];
      reflexivity.
Qed.

(** C9, the sentence of the specification: a record whose date is
    present but malformed gets no error at all, only a warning on the
    date. *)
Lemma malformed_date_is_a_warning :
  fields_of Validate.error (fst (Validate.validate_invoice_data iso_dated_record)) = []
  /\ fields_of Validate.warning (fst (Validate.validate_invoice_data iso_dated_record))
     = [Keys.NGAY_HOA_DON].
Proof. vm_compute. split; reflexivity. Qed.

(** * The record as a dictionary *)

Lemma item_set_same (d : Dict.dict) k v : Dict.item (Dict.set d k v) k = v.
Proof.
  unfold Dict.item, Dict.get_or.
  induction d as [|[k' v'] d IH]; simpl.
  - now rewrite Str_eqb_refl.
  - destruct (Str.eqb k' k) eqn:E; simpl; rewrite E; [reflexivity|exact IH].
Qed.

Lemma get_set_other (d : Dict.dict) k k' v :
  Str.eqb k k' = false -> Dict.get (Dict.set d k v) k' = Dict.get d k'.
Proof.
  intros Hk. induction d as [|[k0 v0] d IH]; simpl.
  - now rewrite Hk.
  - destruct (Str.eqb k0 k) eqn:E; simpl.
    + apply Str_eqb_eq in E. subst k0. now rewrite Hk.
    + now rewrite IH.
Qed.

Lemma item_set_other (d : Dict.dict) k k' v :
  Str.eqb k k' = false -> Dict.item (Dict.set d k v) k' = Dict.item d k'.
Proof. intros Hk. unfold Dict.item, Dict.get_or. now rewrite get_set_other. Qed.

Lemma has_key_set_other (d : Dict.dict) k k' v :
  Str.eqb k k' = false -> Dict.has_key (Dict.set d k v) k' = Dict.has_key d k'.
Proof. intros Hk. unfold Dict.has_key. now rewrite get_set_other. Qed.

Lemma Str_eqb_sym (a b : pystr) : Str.eqb a b = Str.eqb b a.
Proof.
  destruct (Str.eqb a b) eqn:E; symmetry.
  - apply Str_eqb_eq in E. subst. apply Str_eqb_refl.
  - destruct (Str.eqb b a) eqn:E'; [|reflexivity].
    apply Str_eqb_eq in E'. subst. now rewrite Str_eqb_refl in E.
Qed.

Lemma Str_eqb_neq (a b : pystr) : Str.eqb a b = false <-> a <> b.
Proof.
  split.
  - intros E H. subst. now rewrite Str_eqb_refl in E.
  - intros H. destruct (Str.eqb a b) eqn:E; [|reflexivity].
    apply Str_eqb_eq in E. contradiction.
Qed.

Lemma blank_set_same (d : Dict.dict) k v :
  Extract.blank (Dict.set d k v) k = negb (Str.truthy v).
Proof. unfold Extract.blank. now rewrite item_set_same. Qed.

Lemma blank_set_other (d : Dict.dict) k k' v :
  Str.eqb k k' = false -> Extract.blank (Dict.set d k v) k' = Extract.blank d k'.
Proof. intros H. unfold Extract.blank. now rewrite item_set_other. Qed.

(** * The local money parsers *)

Lemma filter_comm {A} (p q : A -> bool) (l : list A) :
  filter p (filter q l) = filter q (filter p l).
Proof.
  induction l as [|x l IH]; simpl; [reflexivity|].
  destruct (p x) eqn:Ep, (q x) eqn:Eq; simpl; rewrite ?Ep, ?Eq, IH; reflexivity.
Qed.

Lemma remove_separators_comm (s : pystr) :
  Str.replace dot empty (Str.replace comma empty s)
  = Str.replace comma empty (Str.replace dot empty s).
Proof.
  change dot with [46]. change comma with [44]. change empty with (@nil char).
  rewrite !replace_char_filter. apply filter_comm.
Qed.

Lemma extract_parse_money_or_zero (s : pystr) :
  Extract.parse_money s = or_zero (parse_money s).
Proof.
  unfold Extract.parse_money, parse_money.
  destruct (Str.truthy s); cbn [negb]; [|reflexivity].
  rewrite remove_separators_comm.
  now destruct (PyNum.int_of_str _).
Qed.

Lemma ocr_parse_money_or_zero (s : pystr) :
  OCR.parse_money s = or_zero (parse_money s).
Proof.
  unfold OCR.parse_money, parse_money.
  destruct (Str.truthy s); cbn [negb]; [|reflexivity].
  rewrite remove_separators_comm.
  now destruct (PyNum.int_of_str _).
Qed.

(** C6 (as the code has it): only the module-level [parse_money] keeps
    a failure apart from zero; the parser local to
    [extract_invoice_data] and the one local to the OCR extractor are
    the module-level parser with every failure read as 0. *)
Theorem local_parse_money_reads_failure_as_zero (s : pystr) :
  Extract.parse_money s = or_zero (parse_money s)
  /\ OCR.parse_money s = or_zero (parse_money s).
Proof.
  split; [apply extract_parse_money_or_zero | apply ocr_parse_money_or_zero].
Qed.

(** C6, the sentence of the specification: for the parsers the
    pipeline uses, text that is no number and a genuine zero give the
    same answer. *)
Lemma unparseable_amount_reads_as_zero :
  parse_money (py "abc") = None
  /\ parse_money (py "0") = Some 0%Z
  /\ Extract.parse_money (py "abc") = Extract.parse_money (py "0")
  /\ OCR.parse_money (py "abc") = OCR.parse_money (py "0")
  /\ Validate._parse_money (py "abc") = Validate._parse_money (py "0").
Proof. vm_compute. repeat split; reflexivity. Qed.

(** * The scanned-document branch *)

Lemma initial_data_blank (filename : pystr) :
  Forall (fun k => Dict.item (Extract.initial_data filename) k = empty)
         (tl Keys.ALL).
Proof. repeat constructor. Qed.

(** C1 (what the code does): when the text layer yields no text and
    OCR yields none either, [extract_invoice_data] returns the record
    as it was initialised -- the file name and eighteen empty strings,
    none of them the sentinel -- with an empty list of line items. *)
Theorem no_text_no_ocr_returns_blank_record (env : Extract.Env) :
  Extract.pdf_error env = false ->
  Str.truthy (Str.strip (Extract.read_text_layer env)) = false ->
  Str.truthy (Str.strip (Extract.ocr_pdf_to_text env)) = false ->
  Extract.extract_invoice_data env
  = (Extract.initial_data (Extract.effective_filename env), [])
  /\ Forall (fun k => Dict.item (fst (Extract.extract_invoice_data env)) k = empty
                      /\ Dict.item (fst (Extract.extract_invoice_data env)) k
                         <> Extract.SENTINEL)
            (tl Keys.ALL).
Proof.
  intros Herr Htext Hocr.
  assert (E : Extract.extract_invoice_data env
              = (Extract.initial_data (Extract.effective_filename env), [])).
  { unfold Extract.extract_invoice_data, Extract.try_body, Extract.ocr_path.
    now rewrite Herr, Htext, Hocr. }
  split; [exact E|]. rewrite E. cbn [fst].
  eapply Forall_impl; [|apply initial_data_blank].
  intros k Hk. split; [exact Hk|]. rewrite Hk. discriminate.
Qed.

Lemma no_text_no_ocr_returns_blank_record_witness :
  Extract.extract_invoice_data scanned_without_ocr
  = (Extract.initial_data (py "scan.pdf"), []).
Proof.
  apply (no_text_no_ocr_returns_blank_record scanned_without_ocr); reflexivity.
Defined.

(** * Rate inference *)

Lemma rate_key_column rate key :
  Extract.rate_key rate = Some key -> In key Extract.RATE_COLUMNS.
Proof.
  unfold Extract.rate_key, Extract.RATE_COLUMNS.
  repeat match goal with
  | |- context [if ?b then _ else _] => destruct b
  end; intros H; inversion H; subst; simpl; auto 6.
Qed.

Lemma any_filled_false (d : Dict.dict) cols c :
  Extract.any_filled d cols = false -> In c cols ->
  Str.truthy (Dict.item d c) = false.
Proof.
  unfold Extract.any_filled. intros H Hc.
  destruct (Str.truthy (Dict.item d c)) eqn:E; [|reflexivity].
  rewrite <- H. symmetry. apply existsb_exists. eauto.
Qed.

Lemma set_fills_one (d : Dict.dict) key v c :
  Str.truthy v = true ->
  Extract.any_filled d Extract.RATE_COLUMNS = false ->
  In c Extract.RATE_COLUMNS ->
  Str.truthy (Dict.item (Dict.set d key v) c) = Str.eqb key c.
Proof.
  intros Hv Hnone Hc. destruct (Str.eqb key c) eqn:E.
  - apply Str_eqb_eq in E. subst. now rewrite item_set_same.
  - rewrite item_set_other by assumption. eapply any_filled_false; eauto.
Qed.

(** Both rate-inference passes write the tax into the bucket of the
    rate and touch nothing else. *)
Lemma rate_inference_sets_bucket
  (data : Dict.dict) (rate : Z) (key : pystr) :
  let t_val := Extract.parse_money (Dict.item data Keys.TIEN_THUE) in
  let p_val := Extract.parse_money (Dict.item data Keys.TRUOC_THUE) in
  Extract.blank data Keys.TIEN_THUE = false ->
  Extract.blank data Keys.TRUOC_THUE = false ->
  Extract.any_filled data Extract.RATE_COLUMNS = false ->
  (0 < t_val)%Z -> (0 < p_val)%Z ->
  Extract.rate_percent t_val p_val = Some rate ->
  Extract.rate_key rate = Some key ->
  Extract.final_rate_pass data
  = Dict.set data key (Dict.item data Keys.TIEN_THUE)
  /\ Extract.rate_from_amounts data
     = Some (Dict.set data key (Dict.item data Keys.TIEN_THUE))
  /\ In key Extract.RATE_COLUMNS
  /\ (forall c, In c Extract.RATE_COLUMNS ->
        Str.truthy (Dict.item (Extract.final_rate_pass data) c) = Str.eqb key c)
  /\ (forall k, Str.eqb key k = false ->
        Dict.item (Extract.final_rate_pass data) k = Dict.item data k).
Proof.
  intros t_val p_val Ht Hp Hnone Htpos Hppos Hrate Hkey.
  assert (Htr : Str.truthy (Dict.item data Keys.TIEN_THUE) = true).
  { unfold Extract.blank in Ht. now apply negb_false_iff in Ht. }
  assert (E1 : Extract.final_rate_pass data
               = Dict.set data key (Dict.item data Keys.TIEN_THUE)).
  { unfold Extract.final_rate_pass. rewrite Ht, Hp, Hnone. cbn [negb andb].
    fold t_val p_val.
    apply Z.ltb_lt in Htpos, Hppos. rewrite Htpos, Hppos. cbn [andb].
    now rewrite Hrate, Hkey. }
  assert (E2 : Extract.rate_from_amounts data
               = Some (Dict.set data key (Dict.item data Keys.TIEN_THUE))).
  { unfold Extract.rate_from_amounts. rewrite Htr, Hnone. cbn [negb andb].
    fold t_val p_val.
    assert (Ht0 : (t_val =? 0)%Z = false) by (apply Z.eqb_neq; lia).
    assert (Hp0 : (p_val =? 0)%Z = false) by (apply Z.eqb_neq; lia).
    apply Z.ltb_lt in Hppos. rewrite Ht0, Hp0, Hppos. cbn [negb andb].
    now rewrite Hrate, Hkey. }
  split; [exact E1|]. split; [exact E2|].
  split; [eapply rate_key_column; eauto|].
  rewrite E1. split.
  - intros c Hc. now apply set_fills_one.
  - intros k Hk. now apply item_set_other.
Qed.

(** * Integers below 2^53 as binary64 floats *)

Lemma digits2_pos_bound (p : positive) :
  (Z.pos p < 2 ^ Z.pos (digits2_pos p))%Z.
Proof.
  induction p as [p IH|p IH|]; cbn [digits2_pos]; [| |reflexivity];
    rewrite Pos2Z.inj_succ, Z.pow_succ_r by lia; lia.
Qed.

Lemma digits2_pos_le (p : positive) (n : Z) :
  (0 <= n)%Z -> (Z.pos p < 2 ^ n)%Z -> (Z.pos (digits2_pos p) <= n)%Z.
Proof.
  revert n. induction p as [p IH|p IH|]; intros n Hn H; cbn [digits2_pos].
  - rewrite Pos2Z.inj_succ.
    assert (n <> 0)%Z by (intros ->; simpl in H; lia).
    replace n with (Z.succ (n - 1)) in H by lia.
    rewrite Z.pow_succ_r in H by lia.
    specialize (IH (n - 1)%Z ltac:(lia) ltac:(lia)). lia.
  - rewrite Pos2Z.inj_succ.
    assert (n <> 0)%Z by (intros ->; simpl in H; lia).
    replace n with (Z.succ (n - 1)) in H by lia.
    rewrite Z.pow_succ_r in H by lia.
    specialize (IH (n - 1)%Z ltac:(lia) ltac:(lia)). lia.
  - assert (n <> 0)%Z by (intros ->; simpl in H; lia). lia.
Qed.

Lemma iter_xO_digits (k p : positive) :
  digits2_pos (Pos.iter xO p k) = (digits2_pos p + k)%positive.
Proof.
  induction k as [|k IH] using Pos.peano_ind.
  - simpl. lia.
  - rewrite Pos.iter_succ. cbn [digits2_pos]. rewrite IH. lia.
Qed.

Lemma iter_xO_value (k p : positive) :
  Z.pos (Pos.iter xO p k) = (Z.pos p * 2 ^ Z.pos k)%Z.
Proof.
  induction k as [|k IH] using Pos.peano_ind.
  - simpl. lia.
  - rewrite Pos.iter_succ, Pos2Z.inj_xO, IH, Pos2Z.inj_succ, Z.pow_succ_r by lia.
    lia.
Qed.

Lemma binary_round_aux_exact (mz : positive) (ez : Z) :
  Z.pos (digits2_pos mz) = 53%Z -> (-1074 <= ez <= 971)%Z ->
  binary_round_aux 53 1024 false (Z.pos mz) ez loc_Exact
  = S754_finite false mz ez.
Proof.
  intros Hd He. unfold binary_round_aux, shr_fexp, fexp, emin.
  cbn [Zdigits2 shr_record_of_loc]. rewrite Hd.
  replace (Z.max (53 + ez - 53) (3 - 1024 - 53) - ez)%Z with 0%Z by lia.
  cbn [shr shr_m loc_of_shr_record round_nearest_even Zdigits2 shr_record_of_loc].
  rewrite Hd.
  replace (Z.max (53 + ez - 53) (3 - 1024 - 53) - ez)%Z with 0%Z by lia.
  cbn [shr shr_m].
  destruct (ez <=? 1024 - 53)%Z eqn:E; [reflexivity|].
  apply Z.leb_gt in E. lia.
Qed.

(** [float(n)] is exact for 0 < n < 2^53: the mantissa is [n] shifted
    up to 53 bits. *)
Lemma float_of_int_small (m : positive) :
  (Z.pos m < 2 ^ 53)%Z ->
  exists mz ez,
    PyNum.float_of_int (Z.pos m) = Some (S754_finite false mz ez)
    /\ (-52 <= ez <= 0)%Z /\ Z.pos mz = (Z.pos m * 2 ^ (- ez))%Z.
Proof.
  intros Hm.
  pose proof (@digits2_pos_le m 53 ltac:(lia) Hm) as Hd.
  unfold PyNum.float_of_int, PyNum.prec, PyNum.emax, binary_normalize, binary_round,
    shl_align, fexp, emin.
  replace (Z.max (Z.pos (digits2_pos m) + 0 - 53) (3 - 1024 - 53) - 0)%Z
    with (Z.pos (digits2_pos m) - 53)%Z by lia.
  destruct (Z.pos (digits2_pos m) - 53)%Z as [|k|k] eqn:Ek; [|lia|].
  - rewrite binary_round_aux_exact by lia.
    exists m, 0%Z. repeat split; try lia.
  - rewrite binary_round_aux_exact.
    + exists (Pos.iter xO m k), (Z.max (Z.pos (digits2_pos m) + 0 - 53) (3 - 1024 - 53)).
      split; [reflexivity|]. split; [lia|].
      rewrite iter_xO_value. f_equal. f_equal. lia.
    + rewrite iter_xO_digits. lia.
    + lia.
Qed.

Lemma round_half_even_exact (q d : Z) :
  (0 < d)%Z -> PyNum.round_half_even (q * d) d = q.
Proof.
  intros Hd. unfold PyNum.round_half_even.
  rewrite Z.mod_mul, Z.div_mul by lia. simpl.
  destruct d; try lia; reflexivity.
Qed.

Lemma format_comma_0f_small (m : positive) :
  (Z.pos m < 2 ^ 53)%Z ->
  exists f, PyNum.float_of_int (Z.pos m) = Some f
            /\ PyNum.format_comma_0f f = PyNum.grouped 44 (N.pos m).
Proof.
  intros Hm. destruct (float_of_int_small Hm) as (mz & ez & Hf & He & Hv).
  exists (S754_finite false mz ez). split; [exact Hf|].
  unfold PyNum.format_comma_0f, PyNum.round_float.
  assert (Hr : (if (0 <=? ez)%Z then (Z.pos mz * 2 ^ ez)%Z
                else PyNum.round_half_even (Z.pos mz) (2 ^ (- ez))) = Z.pos m).
  { destruct (0 <=? ez)%Z eqn:E.
    - apply Z.leb_le in E. assert (ez = 0%Z) by lia. subst ez.
      simpl in Hv. lia.
    - rewrite Hv. apply round_half_even_exact. apply Z.pow_pos_nonneg; lia. }
  rewrite Hr. reflexivity.
Qed.

(** * The local formatter and parser on amounts below 2^53 *)

Lemma replace_char_map (c d : char) (s : pystr) :
  Str.replace [c] [d] s = map (fun x => if x =? c then d else x) s.
Proof.
  unfold Str.replace. induction s as [|a s IH]; simpl; [reflexivity|].
  rewrite andb_true_r, (N.eqb_sym c a).
  destruct (a =? c); simpl; rewrite IH; reflexivity.
Qed.

Lemma map_id_on {A} (f : A -> A) (l : list A) :
  Forall (fun x => f x = x) l -> map f l = l.
Proof. induction 1 as [|x l Hx _ IH]; simpl; congruence. Qed.

Lemma group3_rev_map (f : char -> char) sep ds :
  Forall (fun x => f x = x) ds ->
  map f (PyNum.group3_rev sep ds) = PyNum.group3_rev (f sep) ds.
Proof.
  pattern ds; apply group3_ind; clear ds;
    [intros ds H | intros a b c d more IHds].
  - intros Hf. rewrite !group3_rev_short by assumption. now apply map_id_on.
  - intros Hf. rewrite !group3_rev_unfold.
    inversion Hf as [|? ? Ha Hf1]; subst.
    inversion Hf1 as [|? ? Hb Hf2]; subst.
    inversion Hf2 as [|? ? Hc Hf3]; subst.
    cbn [map]. rewrite Ha, Hb, Hc, IHds by assumption. reflexivity.
Qed.

Lemma grouped_dots (n : N) :
  Str.replace comma dot (PyNum.grouped 44 n) = PyNum.grouped 46 n.
Proof.
  change comma with [44]. change dot with [46].
  rewrite replace_char_map. unfold PyNum.grouped.
  rewrite map_rev. f_equal.
  rewrite group3_rev_map; [reflexivity|].
  destruct (rev_digits_n n) as (_ & Hd & _).
  eapply Forall_impl; [|exact Hd].
  intros x Hx. apply in_range_spec in Hx.
  destruct (x =? 44) eqn:E; [apply N.eqb_eq in E; lia|reflexivity].
Qed.

Lemma digits_tail (R : pystr) :
  Forall (fun c => is_dig c = true) R -> no_decimal_tail R.
Proof.
  intros H.
  assert (Hx : forall x, is_dig x = true -> x <> 10 /\ x <> 44 /\ x <> 46).
  { intros x Hx. apply in_range_spec in Hx. lia. }
  destruct R as [|a [|b [|c more]]]; simpl; auto.
  - inversion H; subst. split; [apply Hx; auto|auto].
  - inversion H; subst. split; [apply Hx; auto|auto].
  - inversion H as [|? ? Ha H1]; subst. inversion H1 as [|? ? Hb H2]; subst.
    inversion H2 as [|? ? Hc H3]; subst.
    split; [apply Hx; auto|]. split; apply Hx; auto.
Qed.

(** [parse_money(str(n))] for a natural number. *)
Lemma parse_money_digits (n : N) :
  (Z.of_N n < 10 ^ PyNum.MAX_STR_DIGITS)%Z ->
  parse_money (PyNum.digits n) = Some (Z.of_N n).
Proof.
  intros Hlim.
  destruct (rev_digits_n n) as (Hv & Hd & Hne).
  assert (Hf : Forall (fun c => is_dig c = true) (PyNum.digits n))
    by (unfold PyNum.digits; now apply Forall_rev).
  unfold parse_money.
  destruct (PyNum.digits n) as [|c r] eqn:E.
  - exfalso. apply Hne. unfold PyNum.digits in E.
    apply (f_equal (@rev char)) in E. now rewrite rev_involutive in E.
  - cbn [Str.truthy negb]. rewrite <- E in *.
    rewrite strip_clean
      by (eapply Forall_impl; [|exact Hf]; intros x; apply dig_not_space).
    assert (Hno : forall x, x = 44 \/ x = 46 ->
                            Str.contains [x] (PyNum.digits n) = false).
    { intros x Hx. apply contains_absent.
      eapply Forall_impl; [|exact Hf]. intros y Hy. now apply dig_neq. }
    unfold cut_decimals.
    replace (Str.contains dot (PyNum.digits n)) with false
      by (symmetry; apply (Hno 46); auto).
    cbn [andb].
    rewrite no_decimal_2_match.
    2:{ unfold PyNum.digits. rewrite rev_involutive. now apply digits_tail. }
    cbn [found andb].
    change dot with [46]. change comma with [44]. change empty with (@nil char).
    rewrite !replace_char_filter, !digits_without by auto.
    now apply int_of_digits.
Qed.

Lemma parse_money_int_small (n : Z) :
  (0 <= n < 10 ^ PyNum.MAX_STR_DIGITS)%Z -> Extract.parse_money_int n = n.
Proof.
  intros [Hn Hlim]. unfold Extract.parse_money_int.
  destruct (n =? 0)%Z eqn:E; [apply Z.eqb_eq in E; congruence|].
  destruct n as [|p|p]; try lia; try discriminate.
  cbn [PyNum.str_of_int]. change (Z.to_N (Z.pos p)) with (N.pos p).
  rewrite extract_parse_money_or_zero.
  now rewrite parse_money_digits.
Qed.

(** [format_money(n)] (local) writes an amount below 2^53 with dots
    between its groups of three digits. *)
Lemma format_money_small (n : Z) :
  (0 <= n < 2 ^ 53)%Z ->
  Extract.format_money n = PyNum.grouped 46 (Z.to_N n).
Proof.
  intros Hn. unfold Extract.format_money.
  rewrite parse_money_int_small
    by (split; [lia|now apply small_amount_within_limit]).
  destruct n as [|p|p]; try lia.
  - reflexivity.
  - destruct (@format_comma_0f_small p ltac:(lia)) as (f & -> & ->).
    apply grouped_dots.
Qed.

(** What the local formatter writes, the local parser reads back. *)
Lemma parse_format_money (n : Z) :
  (0 <= n < 2 ^ 53)%Z -> Extract.parse_money (Extract.format_money n) = n.
Proof.
  intros Hn. rewrite format_money_small by assumption.
  rewrite extract_parse_money_or_zero.
  rewrite (@parse_money_grouped 46 44)
    by (auto; now apply small_N_within_limit).
  cbn [or_zero]. lia.
Qed.

Lemma format_money_truthy (n : Z) :
  (0 <= n < 2 ^ 53)%Z -> Str.truthy (Extract.format_money n) = true.
Proof.
  intros Hn. rewrite format_money_small by assumption.
  pose proof (grouped_nonempty 46 (Z.to_N n)) as H.
  destruct (PyNum.grouped 46 (Z.to_N n)); [congruence|reflexivity].
Qed.

(** * The noise floor and the derivation of the missing amount *)

Lemma floor_step_item (d : Dict.dict) col k :
  Dict.item (if (Extract.parse_money (Dict.item d col) <? 1000)%Z
             then Dict.set d col empty else d) k
  = if Str.eqb col k && (Extract.parse_money (Dict.item d col) <? 1000)%Z
    then empty else Dict.item d k.
Proof.
  destruct (Extract.parse_money (Dict.item d col) <? 1000)%Z;
    destruct (Str.eqb col k) eqn:E; cbn [andb]; try reflexivity.
  - apply Str_eqb_eq in E. subst. apply item_set_same.
  - now apply item_set_other.
Qed.

Lemma noise_floor_item (data : Dict.dict) k :
  Dict.item (Extract.noise_floor data) k
  = if Str.mem k SUMMARY_COLUMNS && (amount data k <? 1000)%Z
    then empty else Dict.item data k.
Proof.
  unfold Extract.noise_floor, amount, SUMMARY_COLUMNS. cbn [fold_left].
  rewrite floor_step_item.
  rewrite (floor_step_item _ Keys.TIEN_THUE Keys.SO_TIEN_SAU).
  rewrite (floor_step_item _ Keys.TRUOC_THUE Keys.SO_TIEN_SAU).
  change (Str.eqb Keys.TIEN_THUE Keys.SO_TIEN_SAU) with false.
  change (Str.eqb Keys.TRUOC_THUE Keys.SO_TIEN_SAU) with false.
  cbn [andb].
  rewrite (floor_step_item _ Keys.TIEN_THUE k).
  rewrite (floor_step_item _ Keys.TRUOC_THUE Keys.TIEN_THUE).
  change (Str.eqb Keys.TRUOC_THUE Keys.TIEN_THUE) with false.
  cbn [andb].
  rewrite (floor_step_item _ Keys.TRUOC_THUE k).
  unfold Str.mem. cbn [existsb].
  rewrite (Str_eqb_sym k Keys.TRUOC_THUE), (Str_eqb_sym k Keys.TIEN_THUE),
    (Str_eqb_sym k Keys.SO_TIEN_SAU).
  destruct (Str.eqb Keys.SO_TIEN_SAU k) eqn:E3.
  { apply Str_eqb_eq in E3. subst k. cbn [andb orb].
    rewrite orb_true_r. cbn [andb].
    now destruct (_ <? 1000)%Z. }
  destruct (Str.eqb Keys.TIEN_THUE k) eqn:E2.
  { apply Str_eqb_eq in E2. subst k. cbn [andb orb].
    now destruct (_ <? 1000)%Z. }
  destruct (Str.eqb Keys.TRUOC_THUE k) eqn:E1.
  { apply Str_eqb_eq in E1. subst k. cbn [andb orb].
    now destruct (_ <? 1000)%Z. }
  reflexivity.
Qed.

Lemma mem_summary_in col :
  In col SUMMARY_COLUMNS -> Str.mem col SUMMARY_COLUMNS = true.
Proof.
  intros H. unfold Str.mem. apply existsb_exists. exists col.
  split; [exact H | apply Str_eqb_refl].
Qed.

(** C7 (as the code has it): the noise floor is one step at the head
    of the reconciliation, and it looks at three fields only -- the
    pre-tax amount, the total tax and the total.  There a value that
    parses below 1000 is cleared and any other is kept; every other
    field, the rate buckets among them, passes through untouched. *)
Theorem noise_floor_clears_summary_columns (data : Dict.dict) (col : pystr) :
  In col SUMMARY_COLUMNS ->
  ((amount data col < 1000)%Z ->
     Dict.item (Extract.noise_floor data) col = empty)
  /\ ((1000 <= amount data col)%Z ->
        Dict.item (Extract.noise_floor data) col = Dict.item data col)
  /\ (amount (Extract.noise_floor data) col = 0%Z
      \/ (1000 <= amount (Extract.noise_floor data) col)%Z)
  /\ (forall k, Str.mem k SUMMARY_COLUMNS = false ->
        Dict.item (Extract.noise_floor data) k = Dict.item data k).
Proof.
  intros Hcol. apply mem_summary_in in Hcol.
  unfold amount at 3 4. rewrite noise_floor_item, Hcol. cbn [andb].
  repeat split.
  - intros H. apply Z.ltb_lt in H. now rewrite H.
  - intros H. apply Z.ltb_ge in H. now rewrite H.
  - destruct (amount data col <? 1000)%Z eqn:E.
    + left. reflexivity.
    + right. apply Z.ltb_ge in E. exact E.
  - intros k Hk. rewrite noise_floor_item, Hk. reflexivity.
Qed.

Lemma noise_floor_clears_summary_columns_witness :
  Dict.item (Extract.noise_floor
               (Dict.set (Extract.initial_data (py "a.pdf"))
                         Keys.TIEN_THUE (py "400")))
            Keys.TIEN_THUE = empty.
Proof.
  apply (@noise_floor_clears_summary_columns
           (Dict.set (Extract.initial_data (py "a.pdf")) Keys.TIEN_THUE (py "400"))
           Keys.TIEN_THUE).
  - simpl. auto.
  - vm_compute. reflexivity.
Defined.

(** C7, the sentence of the specification: a summary line whose
    smallest number is 400 puts 400 into the 8% bucket and into the
    total tax of the returned record. *)
Lemma small_amount_survives_in_returned_record :
  amount (fst (Extract.extract_invoice_data (text_only small_summary_line)))
         Keys.THUE_8 = 400%Z
  /\ amount (fst (Extract.extract_invoice_data (text_only small_summary_line)))
            Keys.TIEN_THUE = 400%Z.
Proof. vm_compute. split; reflexivity. Qed.

(** * Deriving the missing amount *)

Lemma amount_blank (d : Dict.dict) k : Extract.blank d k = true -> amount d k = 0%Z.
Proof.
  unfold Extract.blank, amount. destruct (Dict.item d k); [reflexivity|discriminate].
Qed.

Lemma known_not_blank (d : Dict.dict) k :
  (1000 <= amount d k)%Z -> Extract.blank d k = false.
Proof.
  intros H. destruct (Extract.blank d k) eqn:E; [|reflexivity].
  apply amount_blank in E. lia.
Qed.

Lemma blank_item (d : Dict.dict) k :
  Extract.blank d k = true -> Dict.item d k = empty.
Proof.
  unfold Extract.blank. destruct (Dict.item d k); [reflexivity|discriminate].
Qed.

(** The OCR extractor, for its part, does fill in a missing tax. *)
Lemma auto_calc_derives_tax text (data d' : Dict.dict) :
  OCR.parse_money (Dict.get_or data Keys.TIEN_THUE empty) = 0%Z ->
  OCR.parse_money (Dict.get_or data Keys.TRUOC_THUE empty) <> 0%Z ->
  OCR.parse_money (Dict.get_or data Keys.SO_TIEN_SAU empty) <> 0%Z ->
  OCR.auto_calc text data = Some d' ->
  OCR.format_money (OCR.parse_money (Dict.get_or data Keys.SO_TIEN_SAU empty)
                    - OCR.parse_money (Dict.get_or data Keys.TRUOC_THUE empty))
  = Some (Dict.item d' Keys.TIEN_THUE).
Proof.
  intros Hv Hb Ht. unfold OCR.auto_calc. cbv zeta. rewrite Hv.
  apply Z.eqb_neq in Hb, Ht. rewrite Hb, Ht. cbn [negb andb Z.eqb].
  rewrite ?andb_false_r. cbn [andb].
  destruct (OCR.format_money _) as [sv|]; [|discriminate].
  destruct (PyNum.int_truediv _ _) as [q|]; [|discriminate].
  destruct (PyNum.round2_float q) as [rate|]; [|discriminate].
  repeat match goal with
  | |- context [if ?b then _ else _] => destruct b
  end; intros E; inversion E; subst;
    rewrite item_set_other by reflexivity; now rewrite item_set_same.
Qed.

(** C2 (as the code has it): in the reconciliation of the text-layer
    path, a missing total is the sum of the pre-tax amount and the tax,
    and a missing pre-tax amount is the total less the tax (the total
    itself when there is no tax); the sums are exact below 2^53, the
    formatter going through a float.  A missing tax is not derived
    from the other two there: the total tax stays blank.  Only the
    auto-calculation of the OCR extractor writes the total less the
    pre-tax amount into a missing tax. *)
Theorem reconciliation_derives_total_and_pre_tax (data : Dict.dict) :
  let data' :=
    Extract.derive_before_tax (Extract.derive_total (Extract.noise_floor data)) in
  let pre := amount data Keys.TRUOC_THUE in
  let tax := amount data Keys.TIEN_THUE in
  let total := amount data Keys.SO_TIEN_SAU in
  ((1000 <= pre)%Z -> (1000 <= tax)%Z -> Extract.blank data Keys.SO_TIEN_SAU = true ->
   (pre + tax < 2 ^ 53)%Z ->
     amount data' Keys.SO_TIEN_SAU = (pre + tax)%Z
     /\ Dict.item data' Keys.SO_TIEN_SAU = PyNum.grouped 46 (Z.to_N (pre + tax))
     /\ amount data' Keys.TRUOC_THUE = pre /\ amount data' Keys.TIEN_THUE = tax)
  /\ ((1000 <= total)%Z -> (1000 <= tax)%Z -> Extract.blank data Keys.TRUOC_THUE = true ->
      (tax <= total < 2 ^ 53)%Z ->
        amount data' Keys.TRUOC_THUE = (total - tax)%Z
        /\ amount data' Keys.SO_TIEN_SAU = total /\ amount data' Keys.TIEN_THUE = tax)
  /\ ((1000 <= total)%Z -> (tax < 1000)%Z -> Extract.blank data Keys.TRUOC_THUE = true ->
        Dict.item data' Keys.TRUOC_THUE = Dict.item data Keys.SO_TIEN_SAU
        /\ Dict.item data' Keys.TIEN_THUE = empty)
  /\ ((1000 <= pre)%Z -> (1000 <= total)%Z -> Extract.blank data Keys.TIEN_THUE = true ->
        Dict.item data' Keys.TIEN_THUE = empty
        /\ amount data' Keys.TRUOC_THUE = pre /\ amount data' Keys.SO_TIEN_SAU = total)
  /\ (forall text ocr_data,
        let ocr_amount k := OCR.parse_money (Dict.get_or data k empty) in
        ocr_amount Keys.TIEN_THUE = 0%Z ->
        ocr_amount Keys.TRUOC_THUE <> 0%Z -> ocr_amount Keys.SO_TIEN_SAU <> 0%Z ->
        OCR.auto_calc text data = Some ocr_data ->
        OCR.format_money (ocr_amount Keys.SO_TIEN_SAU - ocr_amount Keys.TRUOC_THUE)
        = Some (Dict.item ocr_data Keys.TIEN_THUE)).
Proof.
  cbv zeta.
  pose proof (noise_floor_item data Keys.TRUOC_THUE) as N1.
  pose proof (noise_floor_item data Keys.TIEN_THUE) as N2.
  pose proof (noise_floor_item data Keys.SO_TIEN_SAU) as N3.
  change (Str.mem Keys.TRUOC_THUE SUMMARY_COLUMNS) with true in N1.
  change (Str.mem Keys.TIEN_THUE SUMMARY_COLUMNS) with true in N2.
  change (Str.mem Keys.SO_TIEN_SAU SUMMARY_COLUMNS) with true in N3.
  cbn [andb] in N1, N2, N3.
  remember (Extract.noise_floor data) as d0 eqn:Hd0. clear Hd0.
  change empty with (@nil char) in *.
  assert (Hblank : forall k v, Dict.item d0 k = v ->
            Extract.blank d0 k = negb (Str.truthy v)).
  { intros k v <-. reflexivity. }
  assert (Hkept : forall k, Dict.item d0 k = Dict.item data k ->
            amount d0 k = amount data k).
  { intros k E. unfold amount. now rewrite E. }
  split; [|split; [|split; [|split]]];
    [| | | |intros text ocr_data; cbv zeta; apply auto_calc_derives_tax].
  - (* the total is missing *)
    intros Hp Ht Hb Hs.
    pose proof (known_not_blank _ _ Hp) as Hpb.
    apply Z.ltb_ge in Hp, Ht. rewrite Hp in N1. rewrite Ht in N2.
    rewrite (amount_blank _ _ Hb) in N3. cbn in N3.
    apply Z.ltb_ge in Hp, Ht.
    assert (E : Extract.derive_before_tax (Extract.derive_total d0)
                = Dict.set d0 Keys.SO_TIEN_SAU
                    (Extract.format_money (amount data Keys.TRUOC_THUE
                                           + amount data Keys.TIEN_THUE))).
    { unfold Extract.derive_total. rewrite (Hblank _ _ N3). cbn [Str.truthy negb].
      fold (amount d0 Keys.TRUOC_THUE) (amount d0 Keys.TIEN_THUE).
      rewrite (Hkept _ N1), (Hkept _ N2).
      unfold Extract.derive_before_tax.
      rewrite (@blank_set_other _ _ Keys.TRUOC_THUE) by reflexivity.
      rewrite (Hblank _ _ N1). fold (Extract.blank data Keys.TRUOC_THUE).
      rewrite Hpb. now rewrite andb_false_r. }
    rewrite E. clear E. repeat split.
    + unfold amount at 1. rewrite item_set_same. apply parse_format_money; lia.
    + rewrite item_set_same. apply format_money_small; lia.
    + unfold amount at 1. rewrite item_set_other by reflexivity. now rewrite N1.
    + unfold amount at 1. rewrite item_set_other by reflexivity. now rewrite N2.
  - (* the pre-tax amount is missing, the tax is known *)
    intros HT Ht Hb Hs.
    pose proof (known_not_blank _ _ HT) as HTb.
    apply Z.ltb_ge in HT, Ht. rewrite HT in N3. rewrite Ht in N2.
    rewrite (amount_blank _ _ Hb) in N1. cbn in N1.
    apply Z.ltb_ge in HT, Ht.
    assert (E : Extract.derive_before_tax (Extract.derive_total d0)
                = Dict.set d0 Keys.TRUOC_THUE
                    (Extract.format_money (amount data Keys.SO_TIEN_SAU
                                           - amount data Keys.TIEN_THUE))).
    { unfold Extract.derive_total. rewrite (Hblank _ _ N3).
      fold (Extract.blank data Keys.SO_TIEN_SAU). rewrite HTb.
      unfold Extract.derive_before_tax.
      rewrite (Hblank _ _ N3). fold (Extract.blank data Keys.SO_TIEN_SAU).
      rewrite HTb, (Hblank _ _ N1). cbn [Str.truthy negb andb].
      fold (amount d0 Keys.SO_TIEN_SAU) (amount d0 Keys.TIEN_THUE).
      rewrite (Hkept _ N3), (Hkept _ N2).
      destruct (amount data Keys.TIEN_THUE =? 0)%Z eqn:E0; [|reflexivity].
      apply Z.eqb_eq in E0. lia. }
    rewrite E. clear E. repeat split.
    + unfold amount at 1. rewrite item_set_same. apply parse_format_money; lia.
    + unfold amount at 1. rewrite item_set_other by reflexivity. now rewrite N3.
    + unfold amount at 1. rewrite item_set_other by reflexivity. now rewrite N2.
  - (* the pre-tax amount is missing, and so is the tax *)
    intros HT Ht Hb.
    pose proof (known_not_blank _ _ HT) as HTb.
    apply Z.ltb_ge in HT. apply Z.ltb_lt in Ht. rewrite HT in N3. rewrite Ht in N2.
    rewrite (amount_blank _ _ Hb) in N1. cbn in N1.
    assert (E : Extract.derive_before_tax (Extract.derive_total d0)
                = Dict.set d0 Keys.TRUOC_THUE (Dict.item data Keys.SO_TIEN_SAU)).
    { unfold Extract.derive_total. rewrite (Hblank _ _ N3).
      fold (Extract.blank data Keys.SO_TIEN_SAU). rewrite HTb.
      unfold Extract.derive_before_tax.
      rewrite (Hblank _ _ N3). fold (Extract.blank data Keys.SO_TIEN_SAU).
      rewrite HTb, (Hblank _ _ N1). cbn [Str.truthy negb andb].
      rewrite N2, N3. reflexivity. }
    rewrite E. rewrite item_set_same, item_set_other by reflexivity.
    split; [reflexivity|exact N2].
  - (* the tax is missing *)
    intros Hp HT Hb.
    pose proof (known_not_blank _ _ Hp) as Hpb.
    pose proof (known_not_blank _ _ HT) as HTb.
    apply Z.ltb_ge in Hp, HT. rewrite Hp in N1. rewrite HT in N3.
    rewrite (amount_blank _ _ Hb) in N2. cbn in N2.
    assert (E : Extract.derive_before_tax (Extract.derive_total d0) = d0).
    { unfold Extract.derive_total. rewrite (Hblank _ _ N3).
      fold (Extract.blank data Keys.SO_TIEN_SAU). rewrite HTb.
      unfold Extract.derive_before_tax.
      rewrite (Hblank _ _ N1). fold (Extract.blank data Keys.TRUOC_THUE).
      rewrite Hpb. now rewrite andb_false_r. }
    rewrite E. split; [exact N2|]. split; apply Hkept; assumption.
Qed.

Lemma reconciliation_derives_total_and_pre_tax_witness :
  amount (Extract.derive_before_tax (Extract.derive_total (Extract.noise_floor
            (Dict.set (Dict.set (Extract.initial_data (py "a.pdf"))
                                Keys.TRUOC_THUE (py "1.000.000"))
                      Keys.TIEN_THUE (py "80.000")))))
         Keys.SO_TIEN_SAU = 1080000%Z.
Proof.
  apply (proj1 (reconciliation_derives_total_and_pre_tax
                  (Dict.set (Dict.set (Extract.initial_data (py "a.pdf"))
                                      Keys.TRUOC_THUE (py "1.000.000"))
                            Keys.TIEN_THUE (py "80.000"))));
    vm_compute; congruence.
Defined.

(** C2, the instance of the specification, through the whole function:
    1.000.000 before tax and 80.000 of tax give the total 1.080.000,
    and a tax of 80.000 with the total 1.080.000 gives 1.000.000 before
    tax. *)
Lemma stated_amounts_are_completed :
  Dict.item (fst (Extract.extract_invoice_data (text_only pre_tax_and_tax)))
            Keys.SO_TIEN_SAU = py "1.080.000"
  /\ Dict.item (fst (Extract.extract_invoice_data (text_only tax_and_total)))
               Keys.TRUOC_THUE = py "1.000.000".
Proof. vm_compute. split; reflexivity. Qed.

(** C2, the third direction of the specification: with the pre-tax
    amount and the total stated and no tax, the record comes back with
    both amounts and a blank total tax. *)
Lemma missing_tax_is_not_derived :
  let r := fst (Extract.extract_invoice_data (text_only pre_tax_and_total)) in
  Dict.item r Keys.TRUOC_THUE = py "1.000.000"
  /\ Dict.item r Keys.SO_TIEN_SAU = py "1.080.000"
  /\ Dict.item r Keys.TIEN_THUE = empty.
Proof. vm_compute. repeat split; reflexivity. Qed.

(** * What a capturing group holds *)

Lemma case_variants_below_A (c d : char) :
  d < 65 -> (lower_char c = d \/ upper_char c = d) -> c = d.
Proof.
  intros Hd H.
  unfold lower_char, upper_char, is_ascii_upper, is_ascii_lower,
    even_upper_block, odd_upper_block in H.
  repeat match type of H with
  | context [in_range ?a ?b c] =>
      let E := fresh "E" in
      destruct (in_range a b c) eqn:E;
        [apply in_range_spec in E|]; cbn [andb orb negb] in H
  | context [c =? ?a] =>
      let E := fresh "E" in
      destruct (c =? a) eqn:E; [apply N.eqb_eq in E|]; cbn [andb orb negb] in H
  | context [N.even c] => destruct (N.even c); cbn [andb orb negb] in H
  | context [N.odd c] => destruct (N.odd c); cbn [andb orb negb] in H
  end; lia.
Qed.

Lemma set_match_single (fl : flags) (d c : char) :
  d < 65 -> set_match fl false [CRange d d] c = true -> c = d.
Proof.
  intros Hd H. unfold set_match, set_has in H. cbn [existsb item_has xorb] in H.
  rewrite !orb_false_r in H.
  apply orb_true_iff in H. destruct H as [H|H].
  - apply in_range_spec in H. lia.
  - apply andb_true_iff in H. destruct H as [_ H].
    apply orb_true_iff in H.
    apply case_variants_below_A; [assumption|].
    destruct H as [H|H]; apply in_range_spec in H; [left|right]; lia.
Qed.

Lemma lit_word_sound fl r :
  forall w s s', lit_word r = Some w -> Matches fl r s s' ->
    rest s = w ++ rest s' /\ pos s' = (pos s + length w)%nat.
Proof.
  induction r; intros w s s' Hw Hm; try discriminate.
  - (* a single character *)
    cbn [lit_word] in Hw. destruct neg; [discriminate|].
    destruct items as [|[a b| | | | | |] [|? ?]]; try discriminate.
    destruct ((a =? b) && (a <? 65)) eqn:E; [|discriminate].
    apply andb_true_iff in E. destruct E as [Eab Ea].
    apply N.eqb_eq in Eab. apply N.ltb_lt in Ea. subst b.
    inversion Hw; subst w. inversion Hm; subst.
    match goal with
    | Hs : step _ = Some _, Hc : set_match _ _ _ _ = true |- _ =>
        apply step_inv in Hs; apply set_match_single in Hc; [|assumption];
        destruct Hs as (Hr & Hp & _); subst
    end.
    split; [assumption|simpl; lia].
  - (* a sequence *)
    cbn [lit_word] in Hw.
    destruct (lit_word r1) as [a|] eqn:E1; [|discriminate].
    destruct (lit_word r2) as [b|] eqn:E2; [|discriminate].
    inversion Hw; subst w. inversion Hm; subst.
    match goal with
    | H1 : Matches _ r1 _ ?m, H2 : Matches _ r2 ?m _ |- _ =>
        destruct (IHr1 _ _ _ eq_refl H1) as (Ha & Hpa);
        destruct (IHr2 _ _ _ eq_refl H2) as (Hb & Hpb)
    end.
    rewrite Ha, Hb, Hpb, Hpa, <- app_assoc, length_app. split; [reflexivity|lia].
Qed.

Lemma alt_words_sound fl r :
  forall ws s s', alt_words r = Some ws -> Matches fl r s s' ->
    exists w, In w ws /\ rest s = w ++ rest s' /\ pos s' = (pos s + length w)%nat.
Proof.
  assert (Hlit : forall r0 ws s s',
            option_map (fun w => [w]) (lit_word r0) = Some ws ->
            Matches fl r0 s s' ->
            exists w, In w ws /\ rest s = w ++ rest s'
                      /\ pos s' = (pos s + length w)%nat).
  { intros r0 ws s s' Hw Hm. destruct (lit_word r0) as [w|] eqn:E; [|discriminate].
    inversion Hw; subst ws. exists w. split; [left; reflexivity|].
    eapply lit_word_sound; eauto. }
  induction r; intros ws s s' Hw Hm; try (eapply Hlit; eassumption).
  cbn [alt_words] in Hw.
  destruct (alt_words r1) as [a|] eqn:E1; [|discriminate].
  destruct (alt_words r2) as [b|] eqn:E2; [|discriminate].
  inversion Hw; subst ws.
  inversion Hm; subst.
  - destruct (IHr1 _ _ _ eq_refl H3) as (w & Hin & H).
    exists w. split; [apply in_or_app; auto|exact H].
  - destruct (IHr2 _ _ _ eq_refl H3) as (w & Hin & H).
    exists w. split; [apply in_or_app; auto|exact H].
Qed.

Lemma lookup_cap_skip (n : nat) new old :
  (forall i ab, In (i, ab) new -> i <> n) ->
  lookup_cap n (new ++ old) = lookup_cap n old.
Proof.
  induction new as [|[i se] new IH]; intros H; [reflexivity|].
  cbn [app lookup_cap].
  destruct (Nat.eqb i n) eqn:E.
  - apply Nat.eqb_eq in E. exfalso. eapply H; [left; reflexivity|exact E].
  - apply IH. intros j ab Hj. eapply H. right. exact Hj.
Qed.

Lemma slice_aligned text s w tl :
  aligned text s -> rest s = w ++ tl ->
  Str.slice (pos s) (pos s + length w) text = w.
Proof.
  unfold aligned, Str.slice. intros Ha Hr. rewrite Ha, Hr.
  replace (pos s + length w - pos s)%nat with (length w) by lia.
  rewrite firstn_app, firstn_all, Nat.sub_diag. simpl. apply app_nil_r.
Qed.

(** The first group of a summary line is one of the four rates. *)
Lemma summary_rate text m :
  In m (finditer IGNORECASE Extract.RE_SUMMARY_LINE text) ->
  In (group 1 m) [py "10%"; py "8%"; py "5%"; py "0%"].
Proof.
  intros Hin. apply finditer_sound in Hin.
  destruct Hin as (s0 & s' & Hal & _ & Hm & ->).
  unfold Extract.RE_SUMMARY_LINE in Hm.
  inversion Hm as [| | | | | |r1 r2 sa s1 sb Hpre Hrest| | | |]; subst; clear Hm.
  inversion Hrest as [| | | | | |r1 r2 sa s2 sb Hlazy Hrest2| | | |]; subst;
    clear Hrest.
  inversion Hrest2 as [| | | | | |r1 r2 sa s3 sb Hgrp Htail| | | |]; subst;
    clear Hrest2.
  inversion Hgrp as [| | | | | | | | |n r sa s3' Hbody|]; subst; clear Hgrp.
  pose proof (Matches_aligned Hlazy (Matches_aligned Hpre Hal)) as Hal2.
  apply (proj1 (Matches_caps IGNORECASE)) in Htail.
  destruct Htail as (new & Hcaps & Hnew).
  eapply alt_words_sound in Hbody; [|reflexivity].
  destruct Hbody as (w & Hw & Hr & Hp).
  unfold group, group_opt. cbn [m_caps m_text].
  rewrite Hcaps. unfold with_cap at 1. cbn [caps].
  rewrite lookup_cap_skip.
  2:{ intros i ab Hi. apply Hnew in Hi. cbn in Hi. intuition lia. }
  cbn [lookup_cap Nat.eqb]. rewrite Hp.
  rewrite (@slice_aligned _ _ _ _ Hal2 Hr). exact Hw.
Qed.

(** * The shape of the record *)

Lemma keys_set_present (d : Dict.dict) k v :
  Dict.has_key d k = true -> Dict.keys (Dict.set d k v) = Dict.keys d.
Proof.
  unfold Dict.has_key, Dict.keys.
  induction d as [|[k' v'] d IH]; simpl; [discriminate|].
  destruct (Str.eqb k' k) eqn:E; simpl; [reflexivity|].
  intros H. now rewrite IH.
Qed.

Lemma has_key_in_keys (d : Dict.dict) k :
  In k (Dict.keys d) -> Dict.has_key d k = true.
Proof.
  unfold Dict.has_key, Dict.keys.
  induction d as [|[k' v'] d IH]; simpl; [contradiction|].
  intros [->|H].
  - now rewrite Str_eqb_refl.
  - destruct (Str.eqb k' k); [reflexivity|]. apply IH, H.
Qed.

Lemma other_key_not_file_name k :
  In k (tl Keys.ALL) -> Str.eqb k Keys.TEN_FILE = false.
Proof.
  cbn [Keys.ALL tl In]. intros H.
  repeat (destruct H as [<-|H]; [reflexivity|]). contradiction.
Qed.

Lemma keeps_set fn (d : Dict.dict) k v :
  keeps fn d -> In k (tl Keys.ALL) -> keeps fn (Dict.set d k v).
Proof.
  intros [Hk Hf] Hin. split.
  - rewrite keys_set_present; [exact Hk|].
    apply has_key_in_keys. rewrite Hk. right. exact Hin.
  - rewrite item_set_other; [exact Hf|]. now apply other_key_not_file_name.
Qed.

Lemma keeps_set_opt fn (d : Dict.dict) k o :
  keeps fn d -> In k (tl Keys.ALL) -> keeps fn (Extract.set_opt d k o).
Proof. intros H Hin. destruct o; simpl; [now apply keeps_set|exact H]. Qed.

Lemma keeps_fold_left {A} fn (f : Dict.dict -> A -> Dict.dict) (l : list A) :
  (forall d x, keeps fn d -> keeps fn (f d x)) ->
  forall d, keeps fn d -> keeps fn (fold_left f l d).
Proof. intros Hf. induction l as [|x l IH]; simpl; auto. Qed.

Lemma keeps_for_break {A} fn (body : A -> Dict.dict -> Dict.dict * bool)
  (l : list A) :
  (forall x d, keeps fn d -> keeps fn (fst (body x d))) ->
  forall d, keeps fn d -> keeps fn (Extract.for_break l body d).
Proof.
  intros Hb. induction l as [|x l IH]; simpl; [auto|].
  intros d Hd. specialize (Hb x d Hd).
  destruct (body x d) as [d' stop]. simpl in Hb.
  destruct stop; auto.
Qed.

Lemma rate_columns_are_keys k : In k Extract.RATE_COLUMNS -> In k (tl Keys.ALL).
Proof.
  cbn. intros H.
  repeat (destruct H as [<-|H]; [cbn; tauto|]). contradiction.
Qed.

Lemma bucket_columns_are_keys k : In k Extract.BUCKET_COLUMNS -> In k (tl Keys.ALL).
Proof.
  cbn. intros H.
  repeat (destruct H as [<-|H]; [cbn; tauto|]). contradiction.
Qed.

Lemma keeps_fold_left_in {A} fn (f : Dict.dict -> A -> Dict.dict) (l : list A) :
  (forall d x, In x l -> keeps fn d -> keeps fn (f d x)) ->
  forall d, keeps fn d -> keeps fn (fold_left f l d).
Proof.
  induction l as [|x l IH]; simpl; [auto|].
  intros Hf d Hd. apply IH; [intros; apply Hf; auto|]. apply Hf; auto.
Qed.

Lemma keeps_fold_left_fst {A B} fn (f : Dict.dict * B -> A -> Dict.dict * B)
  (l : list A) :
  (forall acc x, In x l -> keeps fn (fst acc) -> keeps fn (fst (f acc x))) ->
  forall acc, keeps fn (fst acc) -> keeps fn (fst (fold_left f l acc)).
Proof.
  induction l as [|x l IH]; simpl; [auto|].
  intros Hf acc Hd. apply IH; [intros; apply Hf; auto|]. apply Hf; auto.
Qed.

Lemma mem_in k l : Str.mem k l = true -> In k l.
Proof.
  unfold Str.mem. intros H. apply existsb_exists in H.
  destruct H as (x & Hx & E). apply Str_eqb_eq in E. now subst.
Qed.

(** Side conditions: a literal key of the record. *)
Ltac in_keys :=
  solve [ cbn [Keys.ALL tl In]; repeat (first [left; reflexivity | right])
        | apply rate_columns_are_keys; assumption
        | apply bucket_columns_are_keys; assumption
        | assumption
        | match goal with
          | H : In ?k _ |- In ?k _ =>
              cbv in H;
              repeat (destruct H as [<-|H];
                      [solve [cbv; repeat (first [left; reflexivity | right])]|]);
              contradiction
          end ].

(** One step through the body of a function of the cascade: the
    record is threaded through [let], [if], [match] and the loops. *)
Ltac keeps_let fn v f :=
  first
    [ let T := type of v in
      unify T Dict.dict;
      let d := fresh "d" in
      let Hd := fresh "Hd" in
      assert (Hd : keeps fn v);
      [ | pose (d := v); change (keeps fn d) in Hd; change (keeps fn (f d));
          cbv beta; clearbody d ]
    | let y := fresh "y" in
      pose (y := v); change (keeps fn (f y)); cbv beta; clearbody y ].

Ltac keeps_step :=
  lazymatch goal with
  | H : keeps ?fn ?d |- keeps ?fn ?d => exact H
  | |- keeps _ (Dict.set _ _ _) => apply keeps_set; [|try in_keys]
  | |- keeps _ (Extract.set_opt _ _ _) => apply keeps_set_opt; [|try in_keys]
  | |- keeps _ (fst (_, _)) => cbn [fst]
  | |- keeps _ (Extract.for_break _ _ _) =>
      apply keeps_for_break; [intros ? ? ?; cbv beta|]
  | |- keeps _ (fold_left _ _ _) =>
      apply keeps_fold_left_in; [intros ? ? ? ?; cbv beta|]
  | |- keeps ?fn (let x := ?v in @?f x) => keeps_let fn v f
  | |- keeps ?fn (fst (let x := ?v in @?f x)) =>
      keeps_let fn v (fun x => fst (f x))
  | |- keeps _ (if ?b then _ else _) => destruct b
  | |- keeps _ (fst (if ?b then _ else _)) => destruct b
  | |- keeps _ (match ?o with _ => _ end) => destruct o; cbv beta iota
  | |- keeps _ (fst (match ?o with _ => _ end)) => destruct o; cbv beta iota
  | |- keeps _ (fst ((match ?o with _ => _ end) _)) => destruct o; cbv beta iota
  | |- keeps _ ((match ?o with _ => _ end) _) => destruct o; cbv beta iota
  end.

Create HintDb keeps.

Ltac keeps_auto := repeat keeps_step; eauto 20 with keeps.

Lemma hd_retry_keeps fn env d :
  keeps fn d -> keeps fn (Extract.hd_retry env d).
Proof.
  intros H. unfold Extract.hd_retry.
  destruct (_ && Extract.OCR_AVAILABLE env); [|exact H].
  destruct (Extract.hd env) as [| |number_crop top_crop]; try exact H.
  cbv zeta.
  match goal with
  | |- keeps fn (match ?s with _ => _ end) =>
      assert (Hs : forall d', s = Some d' -> keeps fn d');
      [|destruct s as [d'|]; [specialize (Hs _ eq_refl)|exact H]]
  end.
  - intros d' E. destruct (Extract.blank d Keys.SO_HOA_DON).
    + destruct number_crop; inversion E; subst. keeps_auto.
    + inversion E; subst. exact H.
  - keeps_auto.
Qed.
#[local] Hint Resolve hd_retry_keeps : keeps.

Lemma extract_date_keeps fn text d :
  keeps fn d -> keeps fn (Extract.extract_date text d).
Proof. intros H. cbv delta [Extract.extract_date]; cbv beta. keeps_auto. Qed.
#[local] Hint Resolve extract_date_keeps : keeps.

Lemma extract_seller_tax_code_keeps fn text d :
  keeps fn d -> keeps fn (Extract.extract_seller_tax_code text d).
Proof. intros H. cbv delta [Extract.extract_seller_tax_code]; cbv beta. keeps_auto. Qed.
#[local] Hint Resolve extract_seller_tax_code_keeps : keeps.

Lemma extract_invoice_number_keeps fn env f text d :
  keeps fn d -> keeps fn (Extract.extract_invoice_number env f text d).
Proof. intros H. cbv delta [Extract.extract_invoice_number]; cbv beta. keeps_auto. Qed.
#[local] Hint Resolve extract_invoice_number_keeps : keeps.

Lemma seller_by_label_keeps fn text d :
  keeps fn d -> keeps fn (Extract.seller_by_label text d).
Proof. intros H. cbv delta [Extract.seller_by_label]; cbv beta. keeps_auto. Qed.
#[local] Hint Resolve seller_by_label_keeps : keeps.

Lemma seller_above_tax_code_keeps fn text d :
  keeps fn d -> keeps fn (Extract.seller_above_tax_code text d).
Proof. intros H. cbv delta [Extract.seller_above_tax_code]; cbv beta. keeps_auto. Qed.
#[local] Hint Resolve seller_above_tax_code_keeps : keeps.

Lemma seller_from_signature_keeps fn text d :
  keeps fn d -> keeps fn (Extract.seller_from_signature text d).
Proof. intros H. cbv delta [Extract.seller_from_signature]; cbv beta. keeps_auto. Qed.
#[local] Hint Resolve seller_from_signature_keeps : keeps.

Lemma seller_from_bottom_keeps fn text d :
  keeps fn d -> keeps fn (Extract.seller_from_bottom text d).
Proof. intros H. cbv delta [Extract.seller_from_bottom]; cbv beta. keeps_auto. Qed.
#[local] Hint Resolve seller_from_bottom_keeps : keeps.

Lemma footer_code_keeps fn text d :
  keeps fn d -> keeps fn (Extract.footer_code text d).
Proof. intros H. cbv delta [Extract.footer_code]; cbv beta. keeps_auto. Qed.
#[local] Hint Resolve footer_code_keeps : keeps.

Lemma extract_tax_codes_keeps fn text d :
  keeps fn d -> keeps fn (Extract.extract_tax_codes text d).
Proof. intros H. cbv delta [Extract.extract_tax_codes]; cbv beta. keeps_auto. Qed.
#[local] Hint Resolve extract_tax_codes_keeps : keeps.

Lemma extract_cqt_keeps fn text d :
  keeps fn d -> keeps fn (Extract.extract_cqt text d).
Proof. intros H. cbv delta [Extract.extract_cqt]; cbv beta. keeps_auto. Qed.
#[local] Hint Resolve extract_cqt_keeps : keeps.

Lemma extract_link_keeps fn text d :
  keeps fn d -> keeps fn (Extract.extract_link text d).
Proof. intros H. cbv delta [Extract.extract_link]; cbv beta. keeps_auto. Qed.
#[local] Hint Resolve extract_link_keeps : keeps.

Lemma code_near_link_keeps fn text d :
  keeps fn d -> keeps fn (Extract.code_near_link text d).
Proof. intros H. cbv delta [Extract.code_near_link]; cbv beta. keeps_auto. Qed.
#[local] Hint Resolve code_near_link_keeps : keeps.

Lemma security_step_keeps fn text p d :
  keeps fn d -> keeps fn (fst (Extract.security_step text p d)).
Proof. intros H. cbv delta [Extract.security_step]; cbv beta. keeps_auto. Qed.
#[local] Hint Resolve security_step_keeps : keeps.

Lemma extract_codes_keeps fn text d :
  keeps fn d -> keeps fn (Extract.extract_codes text d).
Proof. intros H. cbv delta [Extract.extract_codes]; cbv beta. keeps_auto. Qed.
#[local] Hint Resolve extract_codes_keeps : keeps.

Lemma extract_before_tax_keeps fn text d :
  keeps fn d -> keeps fn (Extract.extract_before_tax text d).
Proof. intros H. cbv delta [Extract.extract_before_tax]; cbv beta. keeps_auto. Qed.
#[local] Hint Resolve extract_before_tax_keeps : keeps.

Lemma multi_col_keys x :
  In x Extract.multi_col_patterns -> In (snd (fst x)) (tl Keys.ALL).
Proof.
  intros H. apply mem_in. revert x H. apply forallb_forall.
  vm_compute. reflexivity.
Qed.

Lemma simple_pattern_keys x :
  In x Extract.simple_patterns -> In (snd x) (tl Keys.ALL).
Proof.
  intros H. apply mem_in. revert x H. apply forallb_forall.
  vm_compute. reflexivity.
Qed.

Lemma extract_vat_keeps fn text d :
  keeps fn d -> keeps fn (Extract.extract_vat text d).
Proof.
  intros H. cbv delta [Extract.extract_vat]; cbv beta. keeps_auto.
  - match goal with
    | Hin : In (_, ?c, _) Extract.multi_col_patterns |- In ?c _ =>
        exact (@multi_col_keys _ Hin)
    end.
  - match goal with
    | Hin : In (_, ?c) Extract.simple_patterns |- In ?c _ =>
        exact (@simple_pattern_keys _ Hin)
    end.
Qed.
#[local] Hint Resolve extract_vat_keeps : keeps.

Lemma sales_and_travel_keeps fn text d :
  keeps fn d -> keeps fn (Extract.sales_and_travel text d).
Proof. intros H. cbv delta [Extract.sales_and_travel]; cbv beta. keeps_auto. Qed.
#[local] Hint Resolve sales_and_travel_keeps : keeps.

Lemma apply_total_match_keeps fn m d :
  keeps fn d -> keeps fn (Extract.apply_total_match m d).
Proof. intros H. cbv delta [Extract.apply_total_match]; cbv beta. keeps_auto. Qed.
#[local] Hint Resolve apply_total_match_keeps : keeps.

Lemma extract_totals_keeps fn text d :
  keeps fn d -> keeps fn (Extract.extract_totals text d).
Proof. intros H. cbv delta [Extract.extract_totals]; cbv beta. keeps_auto. Qed.
#[local] Hint Resolve extract_totals_keeps : keeps.

Lemma noise_floor_keeps fn d :
  keeps fn d -> keeps fn (Extract.noise_floor d).
Proof. intros H. cbv delta [Extract.noise_floor]; cbv beta. keeps_auto. Qed.
#[local] Hint Resolve noise_floor_keeps : keeps.

Lemma derive_total_keeps fn d :
  keeps fn d -> keeps fn (Extract.derive_total d).
Proof. intros H. cbv delta [Extract.derive_total]; cbv beta. keeps_auto. Qed.
#[local] Hint Resolve derive_total_keeps : keeps.

Lemma derive_before_tax_keeps fn d :
  keeps fn d -> keeps fn (Extract.derive_before_tax d).
Proof. intros H. cbv delta [Extract.derive_before_tax]; cbv beta. keeps_auto. Qed.
#[local] Hint Resolve derive_before_tax_keeps : keeps.

Lemma garbage_total_keeps fn text d :
  keeps fn d -> keeps fn (Extract.garbage_total text d).
Proof. intros H. cbv delta [Extract.garbage_total]; cbv beta. keeps_auto. Qed.
#[local] Hint Resolve garbage_total_keeps : keeps.

Lemma rerun_total_keeps fn d :
  keeps fn d -> keeps fn (Extract.rerun_total d).
Proof. intros H. cbv delta [Extract.rerun_total]; cbv beta. keeps_auto. Qed.
#[local] Hint Resolve rerun_total_keeps : keeps.

Lemma grand_total_keeps fn text d :
  keeps fn d -> keeps fn (Extract.grand_total text d).
Proof. intros H. cbv delta [Extract.grand_total]; cbv beta. keeps_auto. Qed.
#[local] Hint Resolve grand_total_keeps : keeps.

Lemma late_lookup_code_keeps fn text d :
  keeps fn d -> keeps fn (Extract.late_lookup_code text d).
Proof. intros H. cbv delta [Extract.late_lookup_code]; cbv beta. keeps_auto. Qed.
#[local] Hint Resolve late_lookup_code_keeps : keeps.

Lemma tax_sanity_keeps fn d :
  keeps fn d -> keeps fn (Extract.tax_sanity d).
Proof. intros H. cbv delta [Extract.tax_sanity]; cbv beta. keeps_auto. Qed.
#[local] Hint Resolve tax_sanity_keeps : keeps.

Lemma total_tax_from_buckets_keeps fn d :
  keeps fn d -> keeps fn (Extract.total_tax_from_buckets d).
Proof. intros H. cbv delta [Extract.total_tax_from_buckets]; cbv beta. keeps_auto. Qed.
#[local] Hint Resolve total_tax_from_buckets_keeps : keeps.

Lemma clean_other_rate_keeps fn d :
  keeps fn d -> keeps fn (Extract.clean_other_rate d).
Proof. intros H. cbv delta [Extract.clean_other_rate]; cbv beta. keeps_auto. Qed.
#[local] Hint Resolve clean_other_rate_keeps : keeps.

Lemma money_cleanup_keeps fn d :
  keeps fn d -> keeps fn (Extract.money_cleanup d).
Proof. intros H. cbv delta [Extract.money_cleanup]; cbv beta. keeps_auto. Qed.
#[local] Hint Resolve money_cleanup_keeps : keeps.

Lemma seller_cleanup_keeps fn text d :
  keeps fn d -> keeps fn (Extract.seller_cleanup text d).
Proof. intros H. cbv delta [Extract.seller_cleanup]; cbv beta. keeps_auto. Qed.
#[local] Hint Resolve seller_cleanup_keeps : keeps.

Lemma clean_line_keeps fn acc line :
  keeps fn (fst acc) -> keeps fn (fst (Extract.clean_line acc line)).
Proof.
  destruct acc as [d ls]. cbn [fst]. intros H.
  cbv delta [Extract.clean_line]; cbv beta iota.
  keeps_step.
  match goal with
  | |- keeps fn (fst (let '(data, line) := ?p in _)) =>
      assert (Hp : keeps fn (fst p));
      [|destruct p as [d' l']; cbn [fst] in Hp; cbv beta iota]
  end.
  - keeps_auto.
  - keeps_auto.
Qed.

Lemma normalize_text_keeps fn text d :
  keeps fn d -> keeps fn (fst (Extract.normalize_text text d)).
Proof.
  intros H. cbv delta [Extract.normalize_text]; cbv beta.
  keeps_step.
  match goal with
  | |- keeps fn (fst (let '(data, clean_lines) := ?p in _)) =>
      assert (Hp : keeps fn (fst p));
      [|destruct p as [d' l']; cbn [fst] in Hp; cbv beta iota; exact Hp]
  end.
  apply keeps_fold_left_fst; [|exact H].
  intros acc x _. apply clean_line_keeps.
Qed.

Lemma mark_unrecognized_keeps fn d :
  keeps fn d -> keeps fn (Extract.mark_unrecognized d).
Proof.
  intros [Hk Hf]. unfold keeps, Extract.mark_unrecognized. split.
  - rewrite <- Hk. unfold Dict.keys. rewrite map_map. apply map_ext.
    intros [k v]. now destruct (negb _).
  - rewrite <- Hf. unfold Dict.item, Dict.get_or. f_equal. clear.
    induction d as [|[k v] d IH]; [reflexivity|]. cbn [map].
    destruct (Str.eqb k Keys.TEN_FILE) eqn:E; cbn [negb Dict.get]; rewrite E;
      [reflexivity|exact IH].
Qed.

Lemma rate_key_is_key rate key :
  Extract.rate_key rate = Some key -> In key (tl Keys.ALL).
Proof. intros H. apply rate_columns_are_keys. eapply rate_key_column; eauto. Qed.

Lemma rate_from_amounts_keeps fn d d' :
  keeps fn d -> Extract.rate_from_amounts d = Some d' -> keeps fn d'.
Proof.
  intros H. unfold Extract.rate_from_amounts.
  destruct (_ && negb (Extract.any_filled d Extract.RATE_COLUMNS));
    [|intros E; inversion E; subst; exact H].
  destruct (_ && _); [|intros E; inversion E; subst; exact H].
  destruct (Extract.rate_percent _ _) as [rate|]; [|discriminate].
  destruct (Extract.rate_key rate) as [key|] eqn:Ek;
    intros E; inversion E; subst.
  - apply keeps_set; [exact H|]. eapply rate_key_is_key; eauto.
  - keeps_auto.
Qed.

Lemma final_rate_pass_keeps fn d :
  keeps fn d -> keeps fn (Extract.final_rate_pass d).
Proof.
  intros H. unfold Extract.final_rate_pass.
  destruct (_ && negb (Extract.any_filled d Extract.RATE_COLUMNS)); [|exact H].
  destruct (_ && _); [|exact H].
  destruct (Extract.rate_percent _ _) as [rate|]; [|exact H].
  destruct (Extract.rate_key rate) as [key|] eqn:Ek; [|exact H].
  apply keeps_set; [exact H|]. eapply rate_key_is_key; eauto.
Qed.
#[local] Hint Resolve mark_unrecognized_keeps final_rate_pass_keeps : keeps.

(** The summary pass writes under "Thuế " followed by the rate the
    pattern captured: one of the four rate buckets. *)
Lemma summary_key_is_key rate_str :
  In rate_str [py "10%"; py "8%"; py "5%"; py "0%"] ->
  In (Extract.THUE_PREFIX ++ rate_str) (tl Keys.ALL).
Proof.
  intros H. cbn [In] in H.
  repeat (destruct H as [<-|H];
          [solve [cbv; repeat (first [left; reflexivity | right])]|]).
  contradiction.
Qed.

Lemma summary_step_keeps fn acc groups :
  In (nth 0 groups empty) [py "10%"; py "8%"; py "5%"; py "0%"] ->
  keeps fn (fst acc) -> keeps fn (fst (Extract.summary_step acc groups)).
Proof.
  destruct acc as [d t]. cbn [fst]. intros Hin H.
  unfold Extract.summary_step.
  destruct (Nat.leb 2 _); cbn [fst]; [|exact H].
  apply keeps_set; [exact H|]. now apply summary_key_is_key.
Qed.

Lemma summary_lines_rate text groups :
  In groups (findall_groups 4 IGNORECASE Extract.RE_SUMMARY_LINE text) ->
  In (nth 0 groups empty) [py "10%"; py "8%"; py "5%"; py "0%"].
Proof.
  unfold findall_groups. intros H. apply in_map_iff in H.
  destruct H as (m & <- & Hm). cbn [seq map nth]. eapply summary_rate. exact Hm.
Qed.

Lemma summary_tables_keeps fn text d :
  keeps fn d -> keeps fn (Extract.summary_tables text d).
Proof.
  intros H. unfold Extract.summary_tables.
  match goal with
  | |- keeps fn (let '(data, total) := ?p in _) =>
      assert (Hp : keeps fn (fst p));
      [|destruct p as [d' t']; cbn [fst] in Hp; cbv beta iota]
  end.
  - apply keeps_fold_left_fst; [|exact H].
    intros acc x Hx. apply summary_step_keeps.
    eapply summary_lines_rate. exact Hx.
  - keeps_auto.
Qed.

Lemma bare_rate_key_is_key v :
  Str.mem v Extract.BARE_RATES = true ->
  In (Extract.THUE_PREFIX ++ v ++ py "%") (tl Keys.ALL).
Proof.
  intros H. apply mem_in in H. cbn [Extract.BARE_RATES In] in H.
  repeat (destruct H as [<-|H];
          [solve [cbv; repeat (first [left; reflexivity | right])]|]).
  contradiction.
Qed.

Lemma bare_rate_label_keeps fn d :
  keeps fn d -> keeps fn (Extract.bare_rate_label d).
Proof.
  intros H. cbv delta [Extract.bare_rate_label]; cbv beta.
  destruct (Str.mem (Dict.item d Keys.THUE_KHAC) Extract.BARE_RATES) eqn:Em;
    [|exact H].
  apply bare_rate_key_is_key in Em.
  match goal with
  | |- keeps fn (let rate_key := ?v in @?f rate_key) =>
      change (keeps fn (f v)); cbv beta;
      generalize dependent v; intros rk Em
  end.
  keeps_auto.
Qed.
#[local] Hint Resolve summary_tables_keeps bare_rate_label_keeps : keeps.

Lemma fill_buckets_keeps fn tm rates :
  Forall (fun rk => In (snd rk) (tl Keys.ALL)) rates ->
  forall d, keeps fn d -> keeps fn (Extract.record_of (Extract.fill_buckets tm rates d)).
Proof.
  induction 1 as [|[r key] rates Hk _ IH]; intros d H; cbn [Extract.fill_buckets];
    [exact H|].
  cbn [snd] in Hk.
  destruct (0 <? Extract.tax_of tm r)%Z; [|now apply IH].
  destruct (_ =? 0)%Z; [apply IH; now apply keeps_set|].
  destruct (PyNum.float_of_int _); [|exact H].
  destruct (Extract.int_gt_float _ _); [apply IH; now apply keeps_set|now apply IH].
Qed.

Lemma rate_table_keys :
  Forall (fun rk : Z * pystr => In (snd rk) (tl Keys.ALL)) Extract.RATE_TABLE.
Proof.
  unfold Extract.RATE_TABLE.
  repeat (apply Forall_cons;
          [cbv; repeat (first [left; reflexivity | right])|]).
  apply Forall_nil.
Qed.

Lemma aggregate_item_tax_keeps fn items d :
  keeps fn d -> keeps fn (Extract.record_of (Extract.aggregate_item_tax items d)).
Proof.
  intros H. unfold Extract.aggregate_item_tax.
  destruct (Extract.has_item_tax _); [|exact H].
  pose proof (@fill_buckets_keeps fn
                (fold_left Extract.item_tax items
                   {| Extract.t0 := 0; Extract.t5 := 0; Extract.t8 := 0;
                      Extract.t10 := 0; Extract.has_item_tax := false |})
                _ rate_table_keys d H) as Hf.
  destruct (Extract.fill_buckets _ _ d) as [d'|d']; cbn [Extract.record_of] in *;
    [|exact Hf].
  destruct (_ || _); cbn [Extract.record_of]; [|exact Hf].
  now apply keeps_set; [|in_keys].
Qed.

Lemma with_services_keeps fn services d :
  keeps fn d ->
  keeps fn (Extract.record_of (fst (Extract.with_services services d))).
Proof.
  intros H. unfold Extract.with_services.
  destruct services as [|s services]; [exact H|].
  pose proof (@aggregate_item_tax_keeps fn
                (map Extract.clean_item (s :: services)) d H) as Ha.
  destruct (Extract.aggregate_item_tax _ d) as [d'|d'];
    cbn [fst Extract.record_of] in *; [|exact Ha].
  now apply tax_sanity_keeps.
Qed.

Lemma reconcile_keeps fn text services d :
  keeps fn d ->
  keeps fn (Extract.record_of (fst (Extract.reconcile text services d))).
Proof.
  intros H. unfold Extract.reconcile. apply with_services_keeps.
  eauto 20 with keeps.
Qed.

(** The final cleanup keeps the keys and squeezes every value, the
    file name with the others. *)
Lemma clean_all_keeps fn d :
  keeps fn d -> keeps (clean_string_value fn) (Extract.clean_all d).
Proof.
  intros [Hk Hf]. unfold keeps, Extract.clean_all. split.
  - rewrite <- Hk. unfold Dict.keys. rewrite map_map. apply map_ext.
    now intros [k v].
  - rewrite <- Hf. unfold Dict.item, Dict.get_or. clear.
    induction d as [|[k v] d IH]; [reflexivity|]. cbn [map Dict.get].
    destruct (Str.eqb k Keys.TEN_FILE); [reflexivity|exact IH].
Qed.

Lemma final_passes_keeps fn text d :
  keeps fn d -> keeps (clean_string_value fn) (Extract.final_passes text d).
Proof.
  intros H. unfold Extract.final_passes.
  apply seller_cleanup_keeps, money_cleanup_keeps, clean_other_rate_keeps,
    clean_all_keeps, final_rate_pass_keeps, total_tax_from_buckets_keeps, H.
Qed.

Lemma initial_data_keeps fn : keeps fn (Extract.initial_data fn).
Proof. split; reflexivity. Qed.

(** * The OCR extractor never writes the file name *)

Lemma no_file_name_set (d : Dict.dict) k v :
  no_file_name d -> Str.eqb k Keys.TEN_FILE = false ->
  no_file_name (Dict.set d k v).
Proof. unfold no_file_name. intros H Hk. now rewrite get_set_other. Qed.

Lemma no_file_name_set_opt (d : Dict.dict) k o :
  no_file_name d -> Str.eqb k Keys.TEN_FILE = false ->
  no_file_name (OCR.set_opt d k o).
Proof. intros H Hk. destruct o; simpl; [now apply no_file_name_set|exact H]. Qed.

Ltac nf_let P v f :=
  first
    [ let T := type of v in
      unify T Dict.dict;
      let d := fresh "d" in
      let Hd := fresh "Hd" in
      assert (Hd : no_file_name v);
      [ | pose (d := v); change (no_file_name d) in Hd; change (P (f d));
          cbv beta; clearbody d ]
    | let T := type of v in
      unify T (option Dict.dict);
      let d := fresh "o" in
      let Hd := fresh "Ho" in
      assert (Hd : when_some no_file_name v);
      [ | pose (d := v); change (when_some no_file_name d) in Hd;
          change (P (f d)); cbv beta; clearbody d ]
    | let y := fresh "y" in
      pose (y := v); change (P (f y)); cbv beta; clearbody y ].

Ltac nf_step :=
  lazymatch goal with
  | H : no_file_name ?d |- no_file_name ?d => exact H
  | H : when_some no_file_name ?d |- when_some no_file_name ?d => exact H
  | |- no_file_name (Dict.set _ _ _) => apply no_file_name_set; [|reflexivity]
  | |- no_file_name (OCR.set_opt _ _ _) =>
      apply no_file_name_set_opt; [|reflexivity]
  | |- when_some _ (Some _) => cbn [when_some]
  | |- when_some _ None => exact I
  | |- True => exact I
  | |- no_file_name (let x := ?v in @?f x) => nf_let no_file_name v f
  | |- when_some ?P (let x := ?v in @?f x) => nf_let (when_some P) v f
  | |- no_file_name (if ?b then _ else _) => destruct b
  | |- when_some _ (if ?b then _ else _) => destruct b
  | |- no_file_name (match ?o with _ => _ end) =>
      destruct o; cbn [when_some] in *; cbv beta iota
  | |- when_some _ (match ?o with _ => _ end) =>
      destruct o; cbn [when_some] in *; cbv beta iota
  end.

Lemma auto_calc_no_file_name text d :
  no_file_name d -> when_some no_file_name (OCR.auto_calc text d).
Proof.
  intros H. cbv delta [OCR.auto_calc]; cbv beta. repeat nf_step.
Qed.

Lemma extract_ocr_no_file_name text filename :
  when_some no_file_name (OCR.extract_ocr_invoice_fields text filename).
Proof.
  cbv delta [OCR.extract_ocr_invoice_fields]; cbv beta.
  assert (H0 : no_file_name []) by reflexivity.
  repeat first
    [ lazymatch goal with
      | H : no_file_name ?d
        |- when_some _ (match OCR.auto_calc ?t ?d with _ => _ end) =>
          let Ha := fresh "Ha" in
          pose proof (auto_calc_no_file_name t H) as Ha;
          destruct (OCR.auto_calc t d); cbn [when_some] in Ha; cbv beta iota
      end
    | nf_step ].
Qed.

Lemma no_file_name_entries (d : Dict.dict) k v :
  no_file_name d -> In (k, v) d -> Str.eqb k Keys.TEN_FILE = false.
Proof.
  unfold no_file_name. induction d as [|[k' v'] d IH]; simpl; [contradiction|].
  destruct (Str.eqb k' Keys.TEN_FILE) eqn:E; [discriminate|].
  intros H [Heq|Hin]; [inversion Heq; subst; exact E|auto].
Qed.

Lemma merge_ocr_keeps fn ocr_data d :
  no_file_name ocr_data -> keeps fn d -> keeps fn (Extract.merge_ocr ocr_data d).
Proof.
  intros Hnf. unfold Extract.merge_ocr.
  apply keeps_fold_left_in. intros d0 [k v] Hin [Hk Hf].
  destruct (Dict.has_key d0 k && Str.truthy v) eqn:E; [|now split].
  apply andb_true_iff in E. destruct E as [Eh _]. split.
  - rewrite keys_set_present; assumption.
  - rewrite item_set_other; [exact Hf|]. eapply no_file_name_entries; eauto.
Qed.

(** * The whole function *)

Lemma ocr_path_keeps fn env f text d :
  keeps fn d -> keeps fn (record_at (Extract.ocr_path env f text d)).
Proof.
  intros H. unfold Extract.ocr_path.
  destruct (Str.truthy _); [|exact H].
  pose proof (extract_ocr_no_file_name (Extract.ocr_pdf_to_text env) (Some f))
    as Hnf.
  destruct (OCR.extract_ocr_invoice_fields _ _) as [ocr_data|];
    cbn [when_some record_at] in *; [|exact H].
  apply keeps_set; [|in_keys].
  apply hd_retry_keeps. now apply merge_ocr_keeps.
Qed.

Lemma text_path_keeps fn env f text d :
  keeps fn d -> keeps fn (record_at (Extract.text_path env f text d)).
Proof.
  intros H. unfold Extract.text_path.
  match goal with
  | |- context [Extract.rate_from_amounts ?x] =>
      assert (Hx : keeps fn x) by eauto 20 with keeps;
      generalize dependent x; intros d0 Hx
  end.
  destruct (Extract.rate_from_amounts d0) as [d'|] eqn:E; [|exact Hx].
  apply (rate_from_amounts_keeps Hx) in E.
  match goal with
  | |- context [Extract.reconcile ?t ?s ?y] =>
      pose proof (@reconcile_keeps fn t s y ltac:(eauto 20 with keeps)) as Hr;
      destruct (Extract.reconcile t s y) as [end_of_try items]
  end.
  exact Hr.
Qed.

Lemma try_body_keeps fn env f d :
  keeps fn d -> keeps fn (record_at (Extract.try_body env f d)).
Proof.
  intros H. unfold Extract.try_body.
  destruct (Extract.pdf_error env); [exact H|].
  destruct (negb (Str.truthy (Str.strip (Extract.read_text_layer env))));
    [now apply ocr_path_keeps|].
  pose proof (@normalize_text_keeps fn (Extract.read_text_layer env) d H) as Hn.
  destruct (Extract.normalize_text _ d) as [d' text]. cbn [fst] in Hn.
  match goal with
  | |- keeps fn (record_at (match ?o with _ => _ end)) => destruct o as [t|]
  end; [|exact Hn].
  destruct (negb (Str.truthy (Str.strip t))).
  - now apply mark_unrecognized_keeps.
  - now apply text_path_keeps.
Qed.



(** * The rate computed from two amounts: [round(tax / before * 100)] *)

Lemma digits2_pos_lower (p : positive) :
  (2 ^ (Z.pos (digits2_pos p) - 1) <= Z.pos p)%Z.
Proof.
  induction p as [p IH|p IH|]; cbn [digits2_pos]; [| |simpl; lia];
    rewrite Pos2Z.inj_succ;
    replace (Z.succ (Z.pos (digits2_pos p)) - 1)%Z
      with (Z.succ (Z.pos (digits2_pos p) - 1)) by lia;
    rewrite Z.pow_succ_r by lia; lia.
Qed.

(** The number of bits of a number between two powers of two. *)
Lemma digits2_pos_eq (p : positive) (n : Z) :
  (2 ^ (n - 1) <= Z.pos p < 2 ^ n)%Z -> Z.pos (digits2_pos p) = n.
Proof.
  intros [Hlo Hhi].
  assert (Hn : (0 < n)%Z).
  { destruct (Z_lt_le_dec 0 n) as [|H]; [assumption|exfalso].
    destruct (Z.eq_dec n 0) as [->|]; [simpl in Hhi; lia|].
    rewrite (Z.pow_neg_r 2 n) in Hhi by lia. lia. }
  pose proof (@digits2_pos_le p n ltac:(lia) Hhi) as H1.
  pose proof (digits2_pos_bound p) as H2.
  destruct (Z.eq_dec (Z.pos (digits2_pos p)) n) as [|Hne]; [assumption|exfalso].
  assert (H3 : (2 ^ Z.pos (digits2_pos p) <= 2 ^ (n - 1))%Z)
    by (apply Z.pow_le_mono_r; lia).
  lia.
Qed.

(** Shifting a mantissa right by [k] bits divides it by [2 ^ k]. *)
Lemma shr_1_m (mrs : shr_record) :
  (0 <= shr_m mrs)%Z -> shr_m (shr_1 mrs) = (shr_m mrs / 2)%Z.
Proof.
  destruct mrs as [m r s]. cbn [shr_m]. intros Hm.
  rewrite <- Z.div2_div.
  destruct m as [|[p|p|]|p]; try lia; reflexivity.
Qed.

Lemma iter_shr_1_m (k : positive) :
  forall mrs, (0 <= shr_m mrs)%Z ->
    shr_m (iter_pos shr_1 k mrs) = (shr_m mrs / 2 ^ Z.pos k)%Z.
Proof.
  assert (Hpos : forall j, (0 < 2 ^ Z.pos j)%Z)
    by (intros j; apply Z.pow_pos_nonneg; lia).
  induction k as [k IH|k IH|]; intros mrs Hm; cbn [iter_pos].
  - assert (H1 : (0 <= shr_m (shr_1 mrs))%Z)
      by (rewrite shr_1_m by assumption; apply Z.div_pos; lia).
    assert (H2 : (0 <= shr_m (iter_pos shr_1 k (shr_1 mrs)))%Z)
      by (rewrite IH by assumption; apply Z.div_pos; [assumption|apply Hpos]).
    rewrite IH, IH, shr_1_m by assumption.
    pose proof (Hpos k).
    rewrite !Z.div_div by lia. f_equal.
    replace (Z.pos k~1) with (1 + (Z.pos k + Z.pos k))%Z by lia.
    rewrite !Z.pow_add_r by lia. reflexivity.
  - assert (H2 : (0 <= shr_m (iter_pos shr_1 k mrs))%Z)
      by (rewrite IH by assumption; apply Z.div_pos; [assumption|apply Hpos]).
    rewrite IH, IH by assumption.
    pose proof (Hpos k).
    rewrite !Z.div_div by lia. f_equal.
    replace (Z.pos k~0) with (Z.pos k + Z.pos k)%Z by lia.
    rewrite !Z.pow_add_r by lia. reflexivity.
  - now apply shr_1_m.
Qed.

Lemma shr_m_of_loc (m : Z) (l : location) : shr_m (shr_record_of_loc m l) = m.
Proof. destruct l as [|[| |]]; reflexivity. Qed.

Lemma round_nearest_even_range (m : Z) (l : location) :
  (m <= round_nearest_even m l <= m + 1)%Z.
Proof.
  destruct l as [|[| |]]; cbn [round_nearest_even]; try lia.
  destruct (Z.even m); lia.
Qed.

(** The first step of a rounding: the mantissa is cut to 53 bits. *)
Lemma shr_fexp_spec (m : positive) (e : Z) (l : location) :
  (0 <= Z.pos (digits2_pos m) - 53)%Z -> (-1074 <= e)%Z ->
  exists mrs,
    shr_fexp 53 1024 (Z.pos m) e l = (mrs, (e + (Z.pos (digits2_pos m) - 53))%Z)
    /\ shr_m mrs = (Z.pos m / 2 ^ (Z.pos (digits2_pos m) - 53))%Z.
Proof.
  intros Hk He. unfold shr_fexp, fexp, emin. cbn [Zdigits2].
  replace (Z.max (Z.pos (digits2_pos m) + e - 53) (3 - 1024 - 53) - e)%Z
    with (Z.pos (digits2_pos m) - 53)%Z by lia.
  destruct (Z.pos (digits2_pos m) - 53)%Z as [|k|k] eqn:E; [| |lia]; cbn [shr].
  - eexists. split; [f_equal; lia|].
    rewrite shr_m_of_loc. change (2 ^ 0)%Z with 1%Z. now rewrite Z.div_1_r.
  - eexists. split; [reflexivity|].
    rewrite iter_shr_1_m by (rewrite shr_m_of_loc; lia).
    now rewrite shr_m_of_loc.
Qed.

(** Rounding a positive mantissa of at least 53 bits: the result is a
    normal float within one unit of the last place kept. *)
Lemma binary_round_aux_bounds (mx : positive) (ex : Z) (lx : location) (k : Z) :
  k = (Z.pos (digits2_pos mx) - 53)%Z ->
  (0 <= k)%Z -> (-1074 <= ex)%Z -> (ex + k + 1 <= 971)%Z ->
  exists m e,
    binary_round_aux 53 1024 false (Z.pos mx) ex lx = S754_finite false m e
    /\ (ex + k <= e <= ex + k + 1)%Z
    /\ (2 ^ 52 <= Z.pos m < 2 ^ 53)%Z
    /\ (Z.pos mx - 2 ^ k < Z.pos m * 2 ^ (e - ex) <= Z.pos mx + 2 ^ k)%Z.
Proof.
  intros Ek Hk Hex Hhi.
  destruct (@shr_fexp_spec mx ex lx ltac:(lia) Hex) as (mrs & E1 & Hm).
  rewrite <- Ek in E1, Hm.
  unfold binary_round_aux. rewrite E1.
  pose proof (round_nearest_even_range (shr_m mrs) (loc_of_shr_record mrs)) as Hr.
  set (m1 := round_nearest_even (shr_m mrs) (loc_of_shr_record mrs)) in *.
  rewrite Hm in Hr. clear Hm E1.
  pose proof (digits2_pos_lower mx) as Hlo.
  pose proof (digits2_pos_bound mx) as Hup.
  replace (Z.pos (digits2_pos mx)) with (53 + k)%Z in Hlo, Hup by lia.
  replace (53 + k - 1)%Z with (52 + k)%Z in Hlo by lia.
  rewrite Z.pow_add_r in Hlo, Hup by lia.
  assert (Hp : (0 < 2 ^ k)%Z) by (apply Z.pow_pos_nonneg; lia).
  pose proof (Z.div_mod (Z.pos mx) (2 ^ k) ltac:(lia)) as Hdm.
  pose proof (Z.mod_pos_bound (Z.pos mx) (2 ^ k) Hp) as Hmod.
  set (q0 := (Z.pos mx / 2 ^ k)%Z) in *.
  assert (Hq0 : (2 ^ 52 <= q0 < 2 ^ 53)%Z).
  { split.
    - apply Z.div_le_lower_bound; lia.
    - apply Z.div_lt_upper_bound; lia. }
  clearbody q0 m1.
  remember (2 ^ k)%Z as P eqn:EP.
  destruct m1 as [|m1|m1]; try lia.
  destruct (Z_lt_le_dec (Z.pos m1) (2 ^ 53)) as [Hlt|Hge].
  - assert (Hd : Z.pos (digits2_pos m1) = 53%Z)
      by (apply digits2_pos_eq; change (53 - 1)%Z with 52%Z; lia).
    destruct (@shr_fexp_spec m1 (ex + k) loc_Exact ltac:(lia) ltac:(lia))
      as (mrs2 & E2 & Hm2).
    rewrite E2, Hm2, Hd. change (53 - 53)%Z with 0%Z.
    change (2 ^ 0)%Z with 1%Z. rewrite Z.div_1_r.
    replace (ex + k + 0 <=? 1024 - 53)%Z with true
      by (symmetry; apply Z.leb_le; lia).
    exists m1, (ex + k + 0)%Z. split; [reflexivity|].
    split; [lia|]. split; [lia|].
    replace (ex + k + 0 - ex)%Z with k by lia. rewrite <- EP. nia.
  - assert (Hm1 : Z.pos m1 = (2 ^ 53)%Z) by lia.
    assert (Hd : Z.pos (digits2_pos m1) = 54%Z)
      by (apply digits2_pos_eq; rewrite Hm1; split; [reflexivity|reflexivity]).
    destruct (@shr_fexp_spec m1 (ex + k) loc_Exact ltac:(lia) ltac:(lia))
      as (mrs2 & E2 & Hm2).
    rewrite E2, Hm2, Hd, Hm1. change (54 - 53)%Z with 1%Z.
    change (2 ^ 53 / 2 ^ 1)%Z with (Z.pos (2 ^ 52)%positive).
    replace (ex + k + 1 <=? 1024 - 53)%Z with true
      by (symmetry; apply Z.leb_le; lia).
    exists (2 ^ 52)%positive, (ex + k + 1)%Z. split; [reflexivity|].
    split; [lia|]. split; [split; [reflexivity|reflexivity]|].
    replace (ex + k + 1 - ex)%Z with (k + 1)%Z by lia.
    rewrite Z.pow_add_r by lia. rewrite <- EP.
    change (Z.pos (2 ^ 52)) with (2 ^ 52)%Z. change (2 ^ 1)%Z with 2%Z. nia.
Qed.

(** True division of a tax by a pre-tax amount that is at least as
    large, both below 2^53: a normal float within three units of the
    last place of the quotient scaled by [2 ^ s]. *)
Lemma int_truediv_bounds (t p : positive) :
  (Z.pos t <= Z.pos p < 2 ^ 53)%Z ->
  exists m e s,
    PyNum.int_truediv (Z.pos t) (Z.pos p) = Some (S754_finite false m e)
    /\ (2 ^ 52 <= Z.pos m < 2 ^ 53)%Z
    /\ (53 <= s <= 105)%Z /\ (0 <= e + s <= 2)%Z
    /\ (Z.pos t * 2 ^ s - 3 * Z.pos p
        < Z.pos m * 2 ^ (e + s) * Z.pos p
        <= Z.pos t * 2 ^ s + 2 * Z.pos p)%Z.
Proof.
  intros [Htp Hp].
  pose proof (digits2_pos_lower t) as Ht1. pose proof (digits2_pos_bound t) as Ht2.
  pose proof (digits2_pos_lower p) as Hp1. pose proof (digits2_pos_bound p) as Hp2.
  pose proof (@digits2_pos_le p 53 ltac:(lia) Hp) as Hd2.
  assert (Hd12 : (Z.pos (digits2_pos t) <= Z.pos (digits2_pos p))%Z)
    by (apply digits2_pos_le; lia).
  set (d1 := Z.pos (digits2_pos t)) in *. set (d2 := Z.pos (digits2_pos p)) in *.
  assert (Hd1 : (1 <= d1)%Z) by (unfold d1; lia).
  unfold PyNum.int_truediv. cbn [Z.abs xorb].
  unfold SFdiv_core_binary, PyNum.prec, PyNum.emax, fexp, emin. cbn [Zdigits2].
  fold d1 d2.
  replace (Z.min (Z.max (d1 + 0 - (d2 + 0) - 53) (3 - 1024 - 53)) (0 - 0))
    with (d1 - d2 - 53)%Z by lia.
  replace (0 - 0 - (d1 - d2 - 53))%Z with (53 + d2 - d1)%Z by lia.
  set (s := (53 + d2 - d1)%Z) in *.
  assert (Hs : (53 <= s <= 105)%Z) by (unfold s; lia).
  destruct s as [|sp|sp] eqn:Es; try lia. rewrite <- Es in *.
  rewrite Z.shiftl_mul_pow2 by lia.
  assert (HA : (0 < 2 ^ s)%Z) by (apply Z.pow_pos_nonneg; lia).
  (* the quotient has 53 or 54 bits *)
  assert (Hlow : (2 ^ 52 * Z.pos p <= Z.pos t * 2 ^ s)%Z).
  { apply Z.le_trans with (2 ^ 52 * 2 ^ d2)%Z; [nia|].
    apply Z.le_trans with (2 ^ (d1 - 1) * 2 ^ s)%Z; [|nia].
    rewrite <- !Z.pow_add_r by lia. apply Z.pow_le_mono_r; lia. }
  assert (Hhigh : (Z.pos t * 2 ^ s < 2 ^ 54 * Z.pos p)%Z).
  { apply Z.lt_le_trans with (2 ^ d1 * 2 ^ s)%Z; [nia|].
    apply Z.le_trans with (2 ^ 54 * 2 ^ (d2 - 1))%Z; [|nia].
    rewrite <- !Z.pow_add_r by lia. apply Z.pow_le_mono_r; lia. }
  pose proof (Z_div_mod (Z.pos t * 2 ^ s) (Z.pos p) ltac:(lia)) as Hdiv.
  destruct (Z.div_eucl (Z.pos t * 2 ^ s) (Z.pos p)) as [q r].
  destruct Hdiv as [Hq Hr].
  assert (Hq52 : (2 ^ 52 <= q < 2 ^ 54)%Z) by nia.
  destruct q as [|mq|mq]; try lia.
  assert (Hk : (0 <= Z.pos (digits2_pos mq) - 53 <= 1)%Z).
  { pose proof (digits2_pos_bound mq) as Hb.
    pose proof (@digits2_pos_le mq 54 ltac:(lia) ltac:(lia)) as Hle.
    split; [|lia].
    destruct (Z_lt_le_dec (Z.pos (digits2_pos mq)) 53) as [Hlt|]; [exfalso|lia].
    assert (2 ^ Z.pos (digits2_pos mq) <= 2 ^ 52)%Z
      by (apply Z.pow_le_mono_r; lia).
    lia. }
  destruct (@binary_round_aux_bounds mq (d1 - d2 - 53)
              (new_location (Z.pos p) r) _ eq_refl ltac:(lia) ltac:(lia) ltac:(lia))
    as (m & e & Hf & He & Hm & Hv).
  rewrite Hf. exists m, e, s. split; [reflexivity|].
  split; [exact Hm|]. split; [exact Hs|].
  replace (e - (d1 - d2 - 53))%Z with (e + s)%Z in Hv by lia.
  split; [lia|].
  assert (H2k : (1 <= 2 ^ (Z.pos (digits2_pos mq) - 53) <= 2)%Z).
  { destruct (Z.eq_dec (Z.pos (digits2_pos mq) - 53) 0) as [->|];
      [simpl; lia|].
    replace (Z.pos (digits2_pos mq) - 53)%Z with 1%Z by lia. simpl; lia. }
  generalize dependent (2 ^ (Z.pos (digits2_pos mq) - 53))%Z. intros K HvK HK.
  generalize dependent (2 ^ (e + s))%Z. intros J HJ.
  generalize dependent (2 ^ s)%Z. intros A HA Hlow Hhigh Hq.
  nia.
Qed.

(** The arithmetic behind the rate: two roundings, each within a few
    units of the last place, cannot move the product across a half. *)
Section RateArith.
#[local] Open Scope Z_scope.

Lemma rate_arith (T P M Y r A J1 J2 K2 TN B : Z) :
  0 < P -> 0 < B ->
  T * A - 3 * P < M * J1 * P <= T * A + 2 * P ->
  M * (100 * B) - K2 < Y * J2 <= M * (100 * B) + K2 ->
  0 < K2 <= 128 * B -> 1 <= J1 <= 4 -> 0 < J2 -> 812000 < A -> 0 < TN ->
  TN * (J2 * J1) = B * A ->
  1000 * Z.abs (100 * T - r * P) <= 499 * P ->
  2 * Z.abs (Y - r * TN) < TN.
Proof.
  intros HP HB H1 H2 HK2 HJ1 HJ2 HA HTN HU Hnear.
  (* a) *)
  assert (HJP : 0 < J1 * P) by (apply Z.mul_pos_pos; lia).
  assert (Ha : M * (100 * B) * (J1 * P) - K2 * (J1 * P) < Y * J2 * (J1 * P)
               <= M * (100 * B) * (J1 * P) + K2 * (J1 * P)).
  { destruct H2 as [H2a H2b].
    apply (Z.mul_lt_mono_pos_r (J1 * P)) in H2a; [|assumption].
    apply (Z.mul_le_mono_nonneg_r _ _ (J1 * P)) in H2b; [|lia].
    lia. }
  (* b) *)
  assert (Hb : K2 * (J1 * P) <= 512 * (B * P)).
  { assert (K2 * (J1 * P) <= (128 * B) * (4 * P)).
    { apply Z.mul_le_mono_nonneg; try lia.
      apply Z.mul_le_mono_nonneg_r; lia. }
    lia. }
  (* c) *)
  assert (Hc : 100 * B * (T * A) - 300 * (B * P) < 100 * B * (M * J1 * P)
               <= 100 * B * (T * A) + 200 * (B * P)).
  { destruct H1 as [H1a H1b].
    apply (Z.mul_lt_mono_pos_l (100 * B)) in H1a; [|lia].
    apply (Z.mul_le_mono_nonneg_l _ _ (100 * B)) in H1b; [|lia].
    lia. }
  (* d) *)
  set (S := Y * J2 * (J1 * P)) in *.
  assert (Hd : Z.abs (S - 100 * B * (T * A)) <= 812 * (B * P)).
  { replace (M * (100 * B) * (J1 * P)) with (100 * B * (M * J1 * P)) in Ha by ring.
    lia. }
  (* e) *)
  assert (He : (Y - r * TN) * (J2 * J1 * P)
               = (S - 100 * B * (T * A)) + B * A * (100 * T - r * P)).
  { transitivity (Y * J2 * (J1 * P) - r * P * (TN * (J2 * J1))); [ring|].
    rewrite HU. unfold S. ring. }
  (* f) *)
  assert (HBA : 0 < B * A) by (apply Z.mul_pos_pos; lia).
  assert (Hf : 1000 * Z.abs (B * A * (100 * T - r * P)) <= 499 * (B * A * P)).
  { rewrite Z.abs_mul, (Z.abs_eq (B * A)) by lia.
    apply (Z.mul_le_mono_nonneg_l _ _ (B * A)) in Hnear; [|lia]. lia. }
  (* g) *)
  assert (HBP : 0 < B * P) by (apply Z.mul_pos_pos; lia).
  assert (Hg0 : 812000 * (B * P) < A * (B * P))
    by (apply Z.mul_lt_mono_pos_r; assumption).
  assert (Hg : 1000 * Z.abs ((Y - r * TN) * (J2 * J1 * P)) < 500 * (B * A * P)).
  { rewrite He.
    pose proof (Z.abs_triangle (S - 100 * B * (T * A)) (B * A * (100 * T - r * P))).
    replace (B * A * P) with (A * (B * P)) in * by ring. lia. }
  (* h) *)
  assert (HW : 0 < J2 * J1 * P)
    by (apply Z.mul_pos_pos; [apply Z.mul_pos_pos|]; lia).
  rewrite Z.abs_mul, (Z.abs_eq (J2 * J1 * P)) in Hg by lia.
  replace (B * A * P) with (TN * (J2 * J1 * P)) in Hg by (rewrite <- HU; ring).
  apply (Z.mul_lt_mono_pos_r (J2 * J1 * P)); [assumption|]. lia.
Qed.

End RateArith.

Lemma round_half_even_near (num den r : Z) :
  (0 < den)%Z -> (2 * Z.abs (num - r * den) < den)%Z ->
  PyNum.round_half_even num den = r.
Proof.
  intros Hd H. unfold PyNum.round_half_even.
  pose proof (Z.div_mod num den ltac:(lia)) as Hdm.
  pose proof (Z.mod_pos_bound num den Hd) as Hm.
  set (q := (num / den)%Z) in *. set (m := (num mod den)%Z) in *.
  clearbody q m.
  assert (Hq : q = r \/ q = (r - 1)%Z) by nia.
  destruct (Z.compare_spec (2 * m) den) as [E|E|E]; nia.
Qed.

Lemma hundred_as_float :
  PyNum.of_int_exact 100 = S754_finite false (100 * 2 ^ 46)%positive (-46).
Proof. vm_compute. reflexivity. Qed.

(** [round(tax / before * 100)] is the integer rate [r] whenever the
    exact quotient is within 0.499 of it, for a tax that does not
    exceed the pre-tax amount and amounts below 2^53. *)
Lemma rate_percent_near (t p r : Z) :
  (0 < t <= p)%Z -> (p < 2 ^ 53)%Z ->
  (1000 * Z.abs (100 * t - r * p) <= 499 * p)%Z ->
  Extract.rate_percent t p = Some r.
Proof.
  intros [Ht Htp] Hp Hnear.
  destruct t as [|t|t]; try lia. destruct p as [|p|p]; try lia.
  destruct (@int_truediv_bounds t p ltac:(lia))
    as (m & e & s & Hdiv & Hm & Hs & Hes & Hv).
  unfold Extract.rate_percent. rewrite Hdiv, hundred_as_float.
  unfold PyNum.fmul, SFmul. cbn [xorb].
  set (c := (100 * 2 ^ 46)%positive).
  assert (Hc : Z.pos c = (100 * 2 ^ 46)%Z) by reflexivity.
  assert (Hmc : (2 ^ 104 <= Z.pos (m * c) < 2 ^ 106)%Z).
  { rewrite Pos2Z.inj_mul, Hc. clear - Hm. lia. }
  assert (Hk : (52 <= Z.pos (digits2_pos (m * c)) - 53 <= 53)%Z).
  { pose proof (digits2_pos_bound (m * c)) as Hb.
    pose proof (@digits2_pos_le (m * c) 106 ltac:(lia) ltac:(lia)) as Hle.
    split; [|lia].
    destruct (Z_lt_le_dec (Z.pos (digits2_pos (m * c))) 105) as [Hlt|]; [exfalso|lia].
    assert (2 ^ Z.pos (digits2_pos (m * c)) <= 2 ^ 104)%Z
      by (apply Z.pow_le_mono_r; lia).
    lia. }
  destruct (@binary_round_aux_bounds (m * c) (e + -46) loc_Exact _ eq_refl
              ltac:(lia) ltac:(lia) ltac:(lia))
    as (my & ey & Hf & Hey & Hmy & Hvy).
  change (binary_round_aux PyNum.prec PyNum.emax false (Z.pos (m * c)) (e + -46) loc_Exact)
    with (binary_round_aux 53 1024 false (Z.pos (m * c)) (e + -46) loc_Exact).
  rewrite Hf. unfold PyNum.round_float.
  replace (0 <=? ey)%Z with false by (symmetry; apply Z.leb_gt; lia).
  f_equal. apply round_half_even_near; [apply Z.pow_pos_nonneg; lia|].
  set (k2 := (Z.pos (digits2_pos (m * c)) - 53)%Z) in *.
  rewrite Pos2Z.inj_mul, Hc in Hvy.
  apply (@rate_arith (Z.pos t) (Z.pos p) (Z.pos m) (Z.pos my) r (2 ^ s)
           (2 ^ (e + s)) (2 ^ (ey - (e + -46))) (2 ^ k2) (2 ^ (- ey)) (2 ^ 46))%Z.
  - lia.
  - reflexivity.
  - exact Hv.
  - exact Hvy.
  - split; [apply Z.pow_pos_nonneg; lia|].
    change (128 * 2 ^ 46)%Z with (2 ^ 53)%Z. apply Z.pow_le_mono_r; lia.
  - split; [apply (Z.pow_le_mono_r 2 0 (e + s)); lia|
            apply (Z.pow_le_mono_r 2 (e + s) 2); lia].
  - apply Z.pow_pos_nonneg; lia.
  - apply Z.lt_le_trans with (2 ^ 53)%Z; [reflexivity|].
    apply Z.pow_le_mono_r; lia.
  - apply Z.pow_pos_nonneg; lia.
  - rewrite <- !Z.pow_add_r by lia. f_equal. lia.
  - exact Hnear.
Qed.

(** * An amount that parses has a digit, and survives the cleanup *)

Lemma in_range_false lo hi c : c < lo \/ hi < c -> in_range lo hi c = false.
Proof.
  intros H. destruct (in_range lo hi c) eqn:E; [|reflexivity].
  apply in_range_spec in E. lia.
Qed.

Ltac not_in_ranges c :=
  repeat match goal with
  | |- context [in_range ?a ?b c] =>
      rewrite (@in_range_false a b c) by lia
  | |- context [c =? ?a] =>
      let E := fresh in
      assert (E : (c =? a) = false) by (apply N.eqb_neq; lia);
      rewrite E; clear E
  end.

Lemma decimal_not_space c d :
  decimal_value c = Some d ->
  is_space c = false /\ c <> 173 /\ c <> 44 /\ c <> 46.
Proof.
  unfold decimal_value, decimal_blocks. cbn [digit_in].
  repeat match goal with
  | |- context [if in_range ?a ?b c then _ else _] =>
      let E := fresh "E" in
      destruct (in_range a b c) eqn:E;
      [ apply in_range_spec in E; intros _;
        split; [unfold is_space; not_in_ranges c; reflexivity | lia]
      | ]
  end.
  discriminate.
Qed.

Lemma in_dropwhile (p : char -> bool) c s : In c (Str.dropwhile p s) -> In c s.
Proof.
  induction s as [|a s IH]; simpl; [auto|].
  destruct (p a); [right; auto|auto].
Qed.

Lemma in_strip c s : In c (Str.strip s) -> In c s.
Proof.
  unfold Str.strip, Str.strip_by, Str.rstrip_by, Str.lstrip_by. intros H.
  apply in_rev, in_dropwhile, in_rev, in_dropwhile in H. exact H.
Qed.

Lemma in_firstn {A} (x : A) n l : In x (firstn n l) -> In x l.
Proof.
  revert l; induction n as [|n IH]; intros [|a l]; simpl; try tauto.
  intros [H|H]; auto.
Qed.

Lemma in_cut_decimals c s : In c (cut_decimals s) -> In c s.
Proof.
  unfold cut_decimals, Str.upto, Str.drop_last.
  repeat match goal with
  | |- context [if ?b then _ else _] => destruct b
  end; intros H; try exact H; eapply in_firstn; exact H.
Qed.

Lemma int_digits_has_digit s :
  forall acc b n, PyNum.int_digits acc b s = Some n ->
    b = true \/ exists c, In c s /\ decimal_value c <> None.
Proof.
  induction s as [|c s IH]; intros acc b n H; cbn [PyNum.int_digits] in H.
  - destruct b; [auto|discriminate].
  - destruct (decimal_value c) as [d|] eqn:E.
    + right. exists c. split; [left; reflexivity|congruence].
    + destruct (N.eqb c 95 && b) eqn:Eb; [|discriminate].
      apply IH in H. destruct H as [H|(x & Hx & Hd)]; [discriminate|].
      right. exists x. split; [right; exact Hx|exact Hd].
Qed.

Lemma int_of_str_has_digit s n :
  PyNum.int_of_str s = Some n -> exists c, In c s /\ decimal_value c <> None.
Proof.
  unfold PyNum.int_of_str. destruct (Str.strip s) as [|c r] eqn:E; [discriminate|].
  assert (Hsub : forall x, In x (c :: r) -> In x s)
    by (intros x Hx; apply in_strip; now rewrite E).
  destruct (PyNum.MAX_STR_DIGITS <? _)%Z; [discriminate|].
  intros H.
  assert (Hd : exists x, In x (c :: r) /\ decimal_value x <> None).
  { destruct (N.eqb c 45).
    - destruct (PyNum.int_digits 0 false r) as [m|] eqn:Em; [|discriminate].
      apply int_digits_has_digit in Em.
      destruct Em as [Em|(x & Hx & Hd)]; [discriminate|].
      exists x. split; [right; exact Hx|exact Hd].
    - destruct (N.eqb c 43).
      + apply int_digits_has_digit in H.
        destruct H as [H|(x & Hx & Hd)]; [discriminate|].
        exists x. split; [right; exact Hx|exact Hd].
      + apply int_digits_has_digit in H.
        destruct H as [H|(x & Hx & Hd)]; [discriminate|].
        exists x. split; [exact Hx|exact Hd]. }
  destruct Hd as (x & Hx & Hd). exists x. split; [apply Hsub, Hx|exact Hd].
Qed.

(** A string the local parser reads as a non-zero amount has a decimal
    digit in it. *)
Lemma parse_money_has_digit v :
  Extract.parse_money v <> 0%Z -> exists c, In c v /\ decimal_value c <> None.
Proof.
  unfold Extract.parse_money.
  destruct (negb (Str.truthy v)); [congruence|].
  destruct (PyNum.int_of_str _) as [n|] eqn:E; [|congruence].
  intros _. apply int_of_str_has_digit in E.
  destruct E as (c & Hc & Hd). exists c. split; [|exact Hd].
  change dot with [46] in Hc. change comma with [44] in Hc.
  change empty with (@nil char) in Hc.
  rewrite !replace_char_filter in Hc.
  apply filter_In in Hc. destruct Hc as [Hc _].
  apply filter_In in Hc. destruct Hc as [Hc _].
  apply in_cut_decimals, in_strip in Hc. exact Hc.
Qed.

Lemma split_ws_go_nonempty s :
  forall cur,
    cur <> [] \/ (exists c, In c s /\ is_space c = false) ->
    match Str.split_ws_go cur s with
    | t :: _ => t <> []
    | [] => False
    end.
Proof.
  induction s as [|a s IH]; intros cur H; cbn [Str.split_ws_go].
  - destruct H as [H|(c & [] & _)].
    destruct cur as [|x cur]; [congruence|].
    intros E. apply (f_equal (@length char)) in E.
    rewrite length_rev in E. discriminate.
  - destruct (is_space a) eqn:Ea.
    + destruct cur as [|x cur].
      * apply IH. right. destruct H as [H|(c & [Hc|Hc] & Hs)]; [congruence| |].
        -- subst. congruence.
        -- eauto.
      * intros E. apply (f_equal (@length char)) in E.
        rewrite length_rev in E. discriminate.
    + apply IH. left. discriminate.
Qed.

Lemma join_truthy sep t ts :
  t <> [] -> Str.truthy (Str.join sep (t :: ts)) = true.
Proof.
  intros Ht. cbn [Str.join]. destruct t as [|a t]; [congruence|].
  destruct ts; reflexivity.
Qed.

Lemma clean_string_value_empty : clean_string_value [] = [].
Proof. reflexivity. Qed.

Lemma clean_string_value_keeps_amount v :
  Extract.parse_money v <> 0%Z -> Str.truthy (clean_string_value v) = true.
Proof.
  intros H. apply parse_money_has_digit in H. destruct H as (c & Hc & Hd).
  destruct (decimal_value c) as [d|] eqn:E; [|congruence].
  apply decimal_not_space in E. destruct E as (Hs & H173 & _).
  unfold clean_string_value.
  change empty with (@nil char). change space with [32].
  rewrite !replace_char_filter, replace_char_map.
  pose proof (@split_ws_go_nonempty
                (map (fun x => if x =? 9 then 32 else x)
                   (filter (fun x => negb (x =? 173))
                      (filter (fun x => negb (x =? 13)) v))) []) as Hn.
  unfold Str.split_ws.
  destruct (Str.split_ws_go [] _) as [|t ts].
  - exfalso. apply Hn. right. exists c. split; [|exact Hs].
    apply in_map_iff. exists c. split.
    + destruct (c =? 9) eqn:E9; [|reflexivity].
      apply N.eqb_eq in E9. subst. discriminate.
    + apply filter_In. split.
      * apply filter_In. split; [exact Hc|].
        apply negb_true_iff, N.eqb_neq. intros ->. discriminate.
      * apply negb_true_iff, N.eqb_neq. exact H173.
  - assert (Ht : t <> []).
    { apply Hn. right. exists c. split; [|exact Hs].
      apply in_map_iff. exists c. split.
      + destruct (c =? 9) eqn:E9; [|reflexivity].
        apply N.eqb_eq in E9. subst. discriminate.
      + apply filter_In. split.
        * apply filter_In. split; [exact Hc|].
          apply negb_true_iff, N.eqb_neq. intros ->. discriminate.
        * apply negb_true_iff, N.eqb_neq. exact H173. }
    now apply join_truthy.
Qed.

(** * The passes after the [try], field by field *)

Lemma item_clean_all (d : Dict.dict) k :
  Dict.item (Extract.clean_all d) k = clean_string_value (Dict.item d k).
Proof.
  unfold Extract.clean_all, Dict.item, Dict.get_or.
  induction d as [|[k' v] d IH]; [reflexivity|]. cbn [map Dict.get].
  destruct (Str.eqb k' k); [reflexivity|exact IH].
Qed.

Lemma item_clean_other_rate (d : Dict.dict) c :
  Str.eqb Keys.THUE_KHAC c = false ->
  Dict.item (Extract.clean_other_rate d) c = Dict.item d c.
Proof.
  intros Hc. unfold Extract.clean_other_rate. cbv zeta.
  repeat match goal with
  | |- context [if ?b then _ else _] => destruct b
  end; rewrite ?item_set_other by assumption; reflexivity.
Qed.

Lemma item_seller_cleanup text (d : Dict.dict) c :
  Str.eqb Keys.DON_VI_BAN c = false ->
  Dict.item (Extract.seller_cleanup text d) c = Dict.item d c.
Proof.
  intros Hc. unfold Extract.seller_cleanup. cbv zeta.
  repeat match goal with
  | |- context [if ?b then _ else _] => destruct b
  end; rewrite ?item_set_other by assumption; reflexivity.
Qed.

Lemma str_of_int_truthy n : Str.truthy (PyNum.str_of_int n) = true.
Proof.
  destruct n as [|p|p]; cbn [PyNum.str_of_int]; [reflexivity| |reflexivity].
  destruct (rev_digits_n (Z.to_N (Z.pos p))) as (_ & _ & Hne).
  unfold PyNum.digits.
  destruct (PyNum.rev_digits _ _) as [|a r]; [congruence|].
  cbn [rev]. now destruct (rev r).
Qed.

Lemma grouped_truthy sep n : Str.truthy (PyNum.grouped sep n) = true.
Proof.
  pose proof (grouped_nonempty sep n) as H.
  now destruct (PyNum.grouped sep n).
Qed.

Lemma comma_text_truthy n : Str.truthy (PyNum.comma_text n) = true.
Proof. destruct n; cbn [PyNum.comma_text]; try reflexivity; apply grouped_truthy. Qed.

Lemma format_comma_0f_truthy f : Str.truthy (PyNum.format_comma_0f f) = true.
Proof.
  unfold PyNum.format_comma_0f.
  destruct (PyNum.round_float f) as [n|].
  - destruct f as [[|]| | |[|] m e]; try apply comma_text_truthy; try reflexivity.
    destruct n; try apply comma_text_truthy; reflexivity.
  - destruct f as [[|]|[|]| |[|] m e]; reflexivity.
Qed.

(** The local formatter never writes an empty string. *)
Lemma format_money_nonempty n : Str.truthy (Extract.format_money n) = true.
Proof.
  unfold Extract.format_money.
  destruct (PyNum.float_of_int _) as [f|]; [|apply str_of_int_truthy].
  change comma with [44]. change dot with [46]. rewrite replace_char_map.
  pose proof (format_comma_0f_truthy f) as H.
  destruct (PyNum.format_comma_0f f); [discriminate|reflexivity].
Qed.

Lemma money_cleanup_truthy (d : Dict.dict) c :
  Str.truthy (Dict.item (Extract.money_cleanup d) c) = Str.truthy (Dict.item d c).
Proof.
  unfold Extract.money_cleanup. generalize Extract.money_keys. intros ks.
  revert d. induction ks as [|k ks IH]; intros d; [reflexivity|].
  cbn [fold_left]. rewrite IH. clear IH.
  destruct (Dict.has_key d k && negb (Extract.blank d k)) eqn:E; [|reflexivity].
  cbv zeta. destruct (negb (_ =? 0)%Z); [|reflexivity].
  apply andb_true_iff in E. destruct E as [_ Eb].
  destruct (Str.eqb k c) eqn:Ek.
  - apply Str_eqb_eq in Ek. subst c. rewrite item_set_same, format_money_nonempty.
    unfold Extract.blank in Eb. apply negb_true_iff in Eb.
    apply negb_false_iff in Eb. now rewrite Eb.
  - now rewrite item_set_other.
Qed.

Lemma rate_column_not_other c :
  In c Extract.RATE_COLUMNS ->
  Str.eqb Keys.THUE_KHAC c = false /\ Str.eqb Keys.DON_VI_BAN c = false.
Proof.
  cbn. intros H.
  repeat (destruct H as [<-|H]; [split; reflexivity|]). contradiction.
Qed.

(** After the rate inference, the passes that follow leave the four
    rate buckets filled or blank as they are. *)
Lemma later_passes_keep_buckets text (d : Dict.dict) c :
  In c Extract.RATE_COLUMNS ->
  Str.truthy
    (Dict.item (Extract.seller_cleanup text (Extract.money_cleanup
                  (Extract.clean_other_rate (Extract.clean_all d)))) c)
  = Str.truthy (clean_string_value (Dict.item d c)).
Proof.
  intros Hc. apply rate_column_not_other in Hc. destruct Hc as [H1 H2].
  now rewrite item_seller_cleanup, money_cleanup_truthy, item_clean_other_rate,
    item_clean_all.
Qed.

(** * Rate inference, to the returned record *)

(** [text_path] runs the rate inference on the record of the field
    cascade, and the reconciliation on what the inference returns. *)
Lemma text_path_after_cascade env filename full_text data :
  Extract.text_path env filename full_text data
  = match Extract.rate_from_amounts (field_cascade env filename full_text data) with
    | None => Extract.Continue (field_cascade env filename full_text data) [] full_text
    | Some data' =>
      let '(end_of_try, line_items) :=
        Extract.reconcile full_text
          (Services.extract_services_from_text full_text)
          (Extract.extract_totals full_text
             (Extract.sales_and_travel full_text data')) in
      Extract.Continue (Extract.record_of end_of_try) line_items full_text
    end.
Proof. reflexivity. Qed.

(** The instance of the specification, through the whole function: an
    invoice stating 1.000.000 before tax and 100.000 of tax comes back
    with the 10% bucket filled and no other. *)
Lemma ten_percent_invoice_fills_the_10_bucket :
  filled_buckets (fst (Extract.extract_invoice_data (text_only ten_percent_invoice)))
  = [Keys.THUE_10]
  /\ Dict.item (fst (Extract.extract_invoice_data (text_only ten_percent_invoice)))
               Keys.THUE_10 = py "100.000".
Proof. vm_compute. split; reflexivity. Qed.

(** C8 (as the code has it): let a record hold the total tax and the
    pre-tax amount, both positive, with none of the four rate buckets
    filled, and let [round(tax / pre-tax * 100)] be one of 0, 5, 8, 10.
    Then each of the two rate inferences (the pass inside the [try] and
    the final pass), run on that record, writes the tax into the bucket
    of that rate and nothing else, so that right after it exactly that
    one of the four rate buckets is filled.  When that record is the
    one the [try] ends with, exactly that one bucket is filled in the
    record [extract_invoice_data] returns.  (When the premise holds
    only at the pass inside the [try], the steps that follow it in the
    [try] can fill another bucket.)  The rate is the one the amounts
    give: for a tax not above the pre-tax amount, both below 2^53,
    whenever 100 * tax / pre-tax is within 0.499 of an integer, the
    rate is that integer.  In particular an invoice that states only
    1.000.000 before tax and 100.000 of tax comes back with the 10%
    bucket filled and no other. *)
Theorem rate_inference_fills_exactly_one_bucket
  (data : Dict.dict) (rate : Z) (key : pystr) :
  let t_val := Extract.parse_money (Dict.item data Keys.TIEN_THUE) in
  let p_val := Extract.parse_money (Dict.item data Keys.TRUOC_THUE) in
  Extract.blank data Keys.TIEN_THUE = false ->
  Extract.blank data Keys.TRUOC_THUE = false ->
  Extract.any_filled data Extract.RATE_COLUMNS = false ->
  (0 < t_val)%Z -> (0 < p_val)%Z ->
  Extract.rate_percent t_val p_val = Some rate ->
  Extract.rate_key rate = Some key ->
  Extract.final_rate_pass data
  = Dict.set data key (Dict.item data Keys.TIEN_THUE)
  /\ Extract.rate_from_amounts data
     = Some (Dict.set data key (Dict.item data Keys.TIEN_THUE))
  /\ In key Extract.RATE_COLUMNS
  /\ (forall c, In c Extract.RATE_COLUMNS ->
        Str.truthy (Dict.item (Extract.final_rate_pass data) c) = Str.eqb key c)
  /\ (forall text c, In c Extract.RATE_COLUMNS ->
        Str.truthy (Dict.item (Extract.final_passes text data) c) = Str.eqb key c)
  /\ (forall data', Extract.rate_from_amounts data = Some data' ->
        forall c, In c Extract.RATE_COLUMNS ->
          Str.truthy (Dict.item data' c) = Str.eqb key c)
  /\ (forall env line_items text,
        Extract.try_body env (Extract.effective_filename env)
          (Extract.initial_data (Extract.effective_filename env))
        = Extract.Continue data line_items text ->
        forall c, In c Extract.RATE_COLUMNS ->
          Str.truthy (Dict.item (fst (Extract.extract_invoice_data env)) c)
          = Str.eqb key c)
  /\ ((t_val <= p_val < 2 ^ 53)%Z ->
      forall r, (1000 * Z.abs (100 * t_val - r * p_val) <= 499 * p_val)%Z ->
        rate = r)
  /\ filled_buckets
       (fst (Extract.extract_invoice_data (text_only ten_percent_invoice)))
     = [Keys.THUE_10].
Proof.
  intros t_val p_val Ht Hp Hnone Htpos Hppos Hrate Hkey.
  destruct (rate_inference_sets_bucket data Ht Hp Hnone Htpos Hppos Hrate Hkey)
    as (E1 & E2 & Hin & Hone & _).
  assert (Hfinal : forall text c, In c Extract.RATE_COLUMNS ->
            Str.truthy (Dict.item (Extract.final_passes text data) c)
            = Str.eqb key c).
  { intros text c Hc. unfold Extract.final_passes.
    assert (E0 : Extract.total_tax_from_buckets data = data)
      by (unfold Extract.total_tax_from_buckets; now rewrite Ht).
    rewrite E0, later_passes_keep_buckets by assumption.
    rewrite E1. destruct (Str.eqb key c) eqn:E.
    - apply Str_eqb_eq in E. subst c. rewrite item_set_same.
      apply clean_string_value_keeps_amount. fold t_val. lia.
    - rewrite item_set_other by assumption.
      pose proof (any_filled_false _ _ _ Hnone Hc) as Hb.
      destruct (Dict.item data c); [reflexivity|discriminate]. }
  repeat (split; [assumption|]).
  split.
  { intros data' E c Hc. rewrite E2 in E. injection E as <-.
    rewrite <- E1. now apply Hone. }
  split.
  { intros env line_items text E c Hc.
    unfold Extract.extract_invoice_data. rewrite E. cbn [fst].
    now apply Hfinal. }
  split; [|exact (proj1 ten_percent_invoice_fills_the_10_bucket)].
  intros [Hle Hlt] r Hr.
  pose proof (@rate_percent_near t_val p_val r ltac:(lia) Hlt Hr) as E.
  rewrite Hrate in E. now injection E.
Qed.

Lemma rate_inference_fills_exactly_one_bucket_witness :
  Extract.final_rate_pass
    (Dict.set (Dict.set (Extract.initial_data (py "a.pdf"))
                        Keys.TRUOC_THUE (py "1.000.000"))
              Keys.TIEN_THUE (py "100.000"))
  = Dict.set (Dict.set (Dict.set (Extract.initial_data (py "a.pdf"))
                                 Keys.TRUOC_THUE (py "1.000.000"))
                       Keys.TIEN_THUE (py "100.000"))
             Keys.THUE_10 (py "100.000").
Proof.
  apply (@rate_inference_fills_exactly_one_bucket
           (Dict.set (Dict.set (Extract.initial_data (py "a.pdf"))
                               Keys.TRUOC_THUE (py "1.000.000"))
                     Keys.TIEN_THUE (py "100.000"))
           10%Z Keys.THUE_10);
    vm_compute; reflexivity.
Defined.

(** C8, the sentence of the specification: the same two amounts with a
    line item taxed at 8%.  When the rate inference inside the [try]
    runs, the record holds the pre-tax amount and the tax, no rate
    bucket is filled, and the rate is 10: the inference fills the 10%
    bucket.  The line-item aggregation later in the [try] then writes
    the tax of the item, 7.200, into the 8% bucket, and the function
    returns two filled buckets. *)
Lemma item_rate_fills_a_second_bucket :
  Extract.try_body (text_only ten_percent_invoice_with_8_percent_item)
    (py "a.pdf") (Extract.initial_data (py "a.pdf"))
  = (let '(data, full_text) :=
       Extract.normalize_text
         (Extract.read_text_layer
            (text_only ten_percent_invoice_with_8_percent_item))
         (Extract.initial_data (py "a.pdf")) in
     Extract.text_path (text_only ten_percent_invoice_with_8_percent_item)
       (py "a.pdf") full_text data)
  /\ Dict.item (record_at_rate_inference
                  (text_only ten_percent_invoice_with_8_percent_item))
               Keys.TRUOC_THUE = py "1.000.000"
  /\ Dict.item (record_at_rate_inference
                  (text_only ten_percent_invoice_with_8_percent_item))
               Keys.TIEN_THUE = py "100.000"
  /\ Extract.any_filled
       (record_at_rate_inference
          (text_only ten_percent_invoice_with_8_percent_item))
       Extract.RATE_COLUMNS = false
  /\ Extract.rate_percent 100000 1000000 = Some 10%Z
  /\ Extract.rate_from_amounts
       (record_at_rate_inference
          (text_only ten_percent_invoice_with_8_percent_item))
     = Some (Dict.set (record_at_rate_inference
                         (text_only ten_percent_invoice_with_8_percent_item))
                      Keys.THUE_10 (py "100.000"))
  /\ filled_buckets
       (fst (Extract.extract_invoice_data
               (text_only ten_percent_invoice_with_8_percent_item)))
     = [Keys.THUE_8; Keys.THUE_10]
  /\ Dict.item (fst (Extract.extract_invoice_data
                       (text_only ten_percent_invoice_with_8_percent_item)))
               Keys.THUE_8 = py "7.200"
  /\ Dict.item (fst (Extract.extract_invoice_data
                       (text_only ten_percent_invoice_with_8_percent_item)))
               Keys.THUE_10 = py "100.000".
Proof. vm_compute. repeat split; reflexivity. Qed.

(** * The module-level formatter and parser, on every value *)

Lemma no_decimal_tail_minus (R : pystr) :
  no_decimal_tail R -> R <> [] -> no_decimal_tail (R ++ [45]).
Proof.
  destruct R as [|a [|b [|c more]]]; simpl; try congruence; intros H _;
    repeat split; try tauto; discriminate.
Qed.

Lemma parse_money_negative (p : positive) :
  parse_money (45 :: PyNum.grouped 44 (N.pos p))
  = if (PyNum.MAX_STR_DIGITS <? PyNum.decimal_length (Z.neg p))%Z
    then None else Some (Z.neg p).
Proof.
  set (n := N.pos p).
  destruct (rev_digits_n n) as (Hv & Hd & Hne).
  assert (Hsep : (44 = 44 /\ 46 = 46) \/ (44 = 46 /\ 46 = 44)) by auto.
  assert (Hchars : Forall (fun c => is_dig c = true \/ c = 44) (PyNum.grouped 44 n)).
  { unfold PyNum.grouped. apply Forall_rev. now apply group3_rev_chars. }
  assert (Hns : Forall (fun c => is_space c = false) (45 :: PyNum.grouped 44 n)).
  { constructor; [reflexivity|].
    eapply Forall_impl; [|exact Hchars].
    intros c [Hc | ->]; [now apply dig_not_space|reflexivity]. }
  unfold parse_money. cbn [Str.truthy negb].
  rewrite (strip_clean Hns).
  assert (Hcut : cut_decimals (45 :: PyNum.grouped 44 n) = 45 :: PyNum.grouped 44 n).
  { unfold cut_decimals.
    assert (Hdot : Str.contains dot (45 :: PyNum.grouped 44 n) = false).
    { change dot with [46]. apply contains_absent. constructor; [discriminate|].
      eapply Forall_impl; [|exact Hchars].
      intros c [Hc | ->]; [apply dig_neq; auto|discriminate]. }
    rewrite Hdot. cbn [andb].
    rewrite no_decimal_2_match; [reflexivity|].
    cbn [rev]. unfold PyNum.grouped. rewrite rev_involutive.
    apply no_decimal_tail_minus.
    - now apply group3_rev_tail.
    - now apply group3_rev_nonempty. }
  rewrite Hcut.
  change dot with [46]. change comma with [44]. change empty with (@nil char).
  rewrite !replace_char_filter. cbn [filter N.eqb Pos.eqb negb].
  rewrite (@grouped_without_other 44 46 Hsep n). cbn [filter N.eqb Pos.eqb negb].
  rewrite (@grouped_without_sep 44 46 Hsep n).
  unfold PyNum.int_of_str.
  assert (Hf : Forall (fun c => is_dig c = true) (PyNum.digits n))
    by (unfold PyNum.digits; now apply Forall_rev).
  rewrite strip_clean.
  2:{ constructor; [reflexivity|].
      eapply Forall_impl; [|exact Hf]. intros c; apply dig_not_space. }
  rewrite count_digits_cons. change (is_decimal 45) with false. cbv iota.
  rewrite (count_digits_dig Hf).
  change (PyNum.decimal_length (Z.neg p))
    with (Z.of_nat (length (PyNum.digits n))).
  destruct (PyNum.MAX_STR_DIGITS <? Z.of_nat (length (PyNum.digits n)))%Z;
    [reflexivity|].
  cbn [N.eqb Pos.eqb].
  rewrite int_digits_dig by assumption.
  destruct (PyNum.digits n) as [|c r] eqn:E.
  - exfalso. apply Hne. unfold PyNum.digits in E.
    apply (f_equal (@rev char)) in E. now rewrite rev_involutive in E.
  - rewrite <- E. unfold PyNum.digits. rewrite fold_digits_rev, Hv.
    reflexivity.
Qed.

(** [parse_money] on the comma-grouped text of an integer. *)
Lemma parse_money_comma_text (n : Z) :
  parse_money (PyNum.comma_text n)
  = if (PyNum.MAX_STR_DIGITS <? PyNum.decimal_length n)%Z then None else Some n.
Proof.
  destruct n as [|p|p]; cbn [PyNum.comma_text].
  - reflexivity.
  - change (Z.to_N (Z.pos p)) with (N.pos p).
    rewrite (@parse_money_grouped_digits 44 46) by auto.
    apply int_of_digits_limit.
  - apply parse_money_negative.
Qed.

Lemma parse_money_inverts_format_money_aux (n : Z) :
  (Z.abs n < 10 ^ PyNum.MAX_STR_DIGITS)%Z ->
  parse_money (PyNum.comma_text n) = Some n.
Proof. intros H. now rewrite parse_money_comma_text, within_limit. Qed.

(** An amount that [parse_money] returns is within the digit limit. *)
Lemma parse_money_bound (v : pystr) (n : Z) :
  parse_money v = Some n -> (Z.abs n < 10 ^ PyNum.MAX_STR_DIGITS)%Z.
Proof.
  unfold parse_money. destruct (negb (Str.truthy v)); [discriminate|].
  apply int_of_str_bound.
Qed.

(** X1: The module-level [format_money] and [parse_money] are inverse to
    each other on every value the formatter returns a text for: whenever
    [format_money(value)] returns, [parse_money] reads the text back as
    [value].  The formatter returns for [None], written as the empty
    string, and for every integer of at most 4300 digits -- negative,
    zero, below a thousand; on an integer of more digits it raises
    [ValueError], the interpreter's limit on converting an [int] to
    text. *)
Theorem parse_money_inverts_format_money (value : option Z) :
  (forall text, format_money value = Some text -> parse_money text = value)
  /\ match value with
     | Some n =>
         ((Z.abs n < 10 ^ PyNum.MAX_STR_DIGITS)%Z ->
            format_money value = Some (PyNum.comma_text n))
         /\ ((10 ^ PyNum.MAX_STR_DIGITS <= Z.abs n)%Z ->
            format_money value = None)
     | None => format_money value = Some empty
     end.
Proof.
  destruct value as [n|]; cbn [format_money].
  - split; [|split; [apply format_comma_within|apply format_comma_beyond]].
    intros text. unfold PyNum.format_comma.
    destruct (PyNum.MAX_STR_DIGITS <? PyNum.decimal_length n)%Z eqn:L;
      [discriminate|].
    intros [= <-]. now rewrite parse_money_comma_text, L.
  - split; [|reflexivity]. now intros text [= <-].
Qed.

(** * [format_price_value] *)

Lemma dropwhile_split (p : char -> bool) (s : pystr) :
  exists pre, s = pre ++ Str.dropwhile p s.
Proof.
  induction s as [|c s (pre & IH)]; [exists []; reflexivity|].
  cbn [Str.dropwhile]. destruct (p c).
  - exists (c :: pre). cbn. now rewrite <- IH.
  - exists []. reflexivity.
Qed.

Lemma dropwhile_head_false (p : char -> bool) (s : pystr) :
  match Str.dropwhile p s with [] => True | c :: _ => p c = false end.
Proof.
  induction s as [|c s IH]; [exact I|]. cbn [Str.dropwhile].
  destruct (p c) eqn:E; [exact IH|exact E].
Qed.

Lemma strip_by_idempotent (p : char -> bool) (s : pystr) :
  Str.strip_by p (Str.strip_by p s) = Str.strip_by p s.
Proof.
  unfold Str.strip_by, Str.rstrip_by, Str.lstrip_by.
  set (t := Str.dropwhile p s).
  set (u := Str.dropwhile p (rev t)).
  assert (Hu : Str.dropwhile p u = u).
  { apply dropwhile_head. apply dropwhile_head_false. }
  assert (Hr : Str.dropwhile p (rev u) = rev u).
  { apply dropwhile_head.
    destruct (dropwhile_split p (rev t)) as (pre & Hpre). fold u in Hpre.
    apply (f_equal (@rev char)) in Hpre.
    rewrite rev_involutive, rev_app_distr in Hpre.
    pose proof (dropwhile_head_false p s) as Ht. fold t in Ht.
    destruct (rev u) as [|c r]; [exact I|].
    rewrite Hpre in Ht. exact Ht. }
  rewrite Hr, rev_involutive, Hu. reflexivity.
Qed.

Lemma strip_idempotent (s : pystr) : Str.strip (Str.strip s) = Str.strip s.
Proof. apply strip_by_idempotent. Qed.

Lemma format_price_value_spec (v : pystr) :
  format_price_value v
  = match parse_money v with
    | Some n => PyNum.comma_text n
    | None => Str.strip v
    end.
Proof.
  unfold format_price_value, parse_money.
  destruct v as [|c v]; [reflexivity|]. cbn [Str.truthy negb]. cbv zeta.
  rewrite strip_idempotent. unfold cut_decimals.
  destruct (PyNum.int_of_str _) as [n|] eqn:E; [|reflexivity].
  apply int_of_str_bound in E. now rewrite format_comma_within.
Qed.

Lemma parse_money_strip (v : pystr) : parse_money (Str.strip v) = parse_money v.
Proof.
  unfold parse_money at 1.
  destruct (Str.strip v) as [|c r] eqn:E.
  - cbn [Str.truthy negb]. unfold parse_money.
    destruct v as [|a v]; [reflexivity|]. cbn [Str.truthy negb].
    rewrite E. reflexivity.
  - cbn [Str.truthy negb]. rewrite <- E, strip_idempotent.
    unfold parse_money. destruct v as [|a v]; [discriminate|]. reflexivity.
Qed.

Lemma format_price_value_parse (v : pystr) :
  parse_money (format_price_value v) = parse_money v.
Proof.
  rewrite format_price_value_spec.
  destruct (parse_money v) as [n|] eqn:E.
  - apply parse_money_inverts_format_money_aux. exact (parse_money_bound _ E).
  - now rewrite parse_money_strip.
Qed.

Lemma format_price_value_idem (v : pystr) :
  format_price_value (format_price_value v) = format_price_value v.
Proof.
  rewrite (format_price_value_spec (format_price_value v)).
  rewrite format_price_value_parse, format_price_value_spec.
  destruct (parse_money v); [reflexivity|apply strip_idempotent].
Qed.

(** X2: [format_price_value] re-writes a price that [parse_money] can read
    as that amount with commas -- the text [format_money] returns for
    it, without raising -- and gives back the stripped text otherwise.
    So it never changes the amount a price parses to, and formatting
    twice is formatting once. *)
Theorem format_price_value_keeps_the_amount (v : pystr) :
  parse_money (format_price_value v) = parse_money v
  /\ format_price_value (format_price_value v) = format_price_value v
  /\ (forall n, parse_money v = Some n ->
        format_money (Some n) = Some (format_price_value v))
  /\ (parse_money v = None -> format_price_value v = Str.strip v).
Proof.
  split; [apply format_price_value_parse|].
  split; [apply format_price_value_idem|].
  split.
  - intros n E. rewrite format_price_value_spec, E. cbn [format_money].
    apply format_comma_within. exact (parse_money_bound _ E).
  - intros E. now rewrite format_price_value_spec, E.
Qed.

(** * [clean_string_value] *)

Lemma split_ws_go_words (s : pystr) :
  forall cur,
    Forall (fun c => is_space c = false /\ c <> 173) cur ->
    Forall (fun c => c <> 173) s ->
    Forall clean_word (Str.split_ws_go cur s).
Proof.
  induction s as [|a s IH]; intros cur Hcur Hs; cbn [Str.split_ws_go].
  - destruct cur as [|x cur]; [constructor|].
    constructor; [|constructor]. split.
    + intros E. apply (f_equal (@length char)) in E.
      rewrite length_rev in E. discriminate.
    + now apply Forall_rev.
  - inversion Hs as [|? ? Ha Hs']; subst.
    destruct (is_space a) eqn:Ea.
    + destruct cur as [|x cur]; [apply IH; auto|].
      constructor; [|apply IH; auto]. split.
      * intros E. apply (f_equal (@length char)) in E.
        rewrite length_rev in E. discriminate.
      * now apply Forall_rev.
    + apply IH; auto.
Qed.

Lemma split_ws_go_app (t s cur : pystr) :
  Forall (fun c => is_space c = false) t ->
  Str.split_ws_go cur (t ++ s) = Str.split_ws_go (rev t ++ cur) s.
Proof.
  revert cur. induction t as [|a t IH]; intros cur Ht; [reflexivity|].
  inversion Ht as [|? ? Ha Ht']; subst.
  cbn [app Str.split_ws_go]. rewrite Ha, IH by assumption.
  cbn [rev]. now rewrite <- app_assoc.
Qed.

Lemma split_ws_join (ts : list pystr) :
  Forall clean_word ts -> Str.split_ws (Str.join [32] ts) = ts.
Proof.
  unfold Str.split_ws.
  induction 1 as [|t ts [Hne Ht] Hts IH]; [reflexivity|].
  assert (Hns : Forall (fun c => is_space c = false) t)
    by (eapply Forall_impl; [|exact Ht]; intros c Hc; apply Hc).
  assert (Hrev : rev t <> []).
  { intros E. apply (f_equal (@length char)) in E.
    rewrite length_rev in E. destruct t; [congruence|discriminate]. }
  cbn [Str.join]. destruct ts as [|t' ts].
  - rewrite <- (app_nil_r t) at 1. rewrite split_ws_go_app by assumption.
    cbn [Str.split_ws_go]. rewrite app_nil_r.
    destruct (rev t) eqn:E; [congruence|]. rewrite <- E, rev_involutive.
    reflexivity.
  - rewrite split_ws_go_app by assumption. rewrite app_nil_r.
    cbn [app Str.split_ws_go]. change (is_space 32) with true. cbv iota.
    destruct (rev t) eqn:E; [congruence|]. rewrite <- E, rev_involutive.
    f_equal. exact IH.
Qed.

Lemma join_chars (ts : list pystr) c :
  In c (Str.join [32] ts) -> c = 32 \/ exists t, In t ts /\ In c t.
Proof.
  induction ts as [|t ts IH]; [contradiction|].
  cbn [Str.join]. destruct ts as [|t' ts].
  - intros H. right. exists t. split; [left; reflexivity|exact H].
  - intros H. apply in_app_or in H. destruct H as [H|H].
    + right. exists t. split; [left; reflexivity|exact H].
    + cbn [app] in H. destruct H as [H|H]; [left; congruence|].
      apply IH in H. destruct H as [H|(x & Hx & Hc)]; [left; exact H|].
      right. exists x. split; [right; exact Hx|exact Hc].
Qed.

Lemma clean_string_value_words (v : pystr) :
  exists ts, clean_string_value v = Str.join [32] ts /\ Forall clean_word ts.
Proof.
  unfold clean_string_value.
  change empty with (@nil char). change space with [32].
  rewrite !replace_char_filter, replace_char_map.
  eexists. split; [reflexivity|].
  apply split_ws_go_words; [constructor|].
  apply Forall_forall. intros c Hc. apply in_map_iff in Hc.
  destruct Hc as (x & Hx & Hin). apply filter_In in Hin.
  destruct Hin as [_ Hne]. apply negb_true_iff, N.eqb_neq in Hne.
  destruct (x =? 9) eqn:E9; subst; [discriminate|exact Hne].
Qed.

Lemma is_space_13 c : is_space c = false -> c <> 13 /\ c <> 9.
Proof. intros H. split; intros ->; discriminate. Qed.

(** X3: [clean_string_value] writes its input as words separated by single
    spaces: the result holds no tab, carriage return or soft hyphen, no
    white space other than the single spaces between the words, and
    cleaning it again changes nothing. *)
Theorem clean_string_value_is_idempotent (v : pystr) :
  clean_string_value (clean_string_value v) = clean_string_value v
  /\ (exists words, clean_string_value v = Str.join space words
                    /\ Forall clean_word words)
  /\ (forall c, In c (clean_string_value v) ->
        c = 32 \/ (is_space c = false /\ c <> 173)).
Proof.
  destruct (clean_string_value_words v) as (ts & E & Hts).
  assert (Hchars : forall c, In c (Str.join [32] ts) ->
                     c = 32 \/ (is_space c = false /\ c <> 173)).
  { intros c Hc. apply join_chars in Hc.
    destruct Hc as [Hc|(t & Ht & Hc)]; [left; exact Hc|right].
    rewrite Forall_forall in Hts. destruct (Hts t Ht) as [_ Hall].
    rewrite Forall_forall in Hall. now apply Hall. }
  split; [|split].
  - rewrite E. unfold clean_string_value.
    change empty with (@nil char). change space with [32].
    rewrite !replace_char_filter, replace_char_map.
    rewrite (@filter_id _ _ (Str.join [32] ts)).
    2:{ apply Forall_forall. intros c Hc. apply negb_true_iff, N.eqb_neq.
        destruct (Hchars c Hc) as [->|[Hs _]]; [discriminate|].
        now apply is_space_13. }
    rewrite (@filter_id _ _ (Str.join [32] ts)).
    2:{ apply Forall_forall. intros c Hc. apply negb_true_iff, N.eqb_neq.
        destruct (Hchars c Hc) as [->|[_ H]]; [discriminate|exact H]. }
    rewrite map_id_on.
    2:{ apply Forall_forall. intros c Hc.
        destruct (c =? 9) eqn:E9; [|reflexivity].
        apply N.eqb_eq in E9. subst.
        destruct (Hchars 9 Hc) as [H|[H _]]; discriminate. }
    now rewrite split_ws_join.
  - exists ts. split; assumption.
  - rewrite E. exact Hchars.
Qed.

(** * The amount in words *)

Lemma lookup_digit_nonneg m token d :
  Forall (fun kv : pystr * Z => (0 <= snd kv)%Z) m ->
  OCR.lookup_digit m token = Some d -> (0 <= d)%Z.
Proof.
  induction 1 as [|[k v] m Hk _ IH]; cbn [OCR.lookup_digit]; [discriminate|].
  destruct (Str.eqb k token); [|exact IH].
  intros E. inversion E; subst. exact Hk.
Qed.

Lemma digit_map_nonneg :
  Forall (fun kv : pystr * Z => (0 <= snd kv)%Z) OCR.digit_map.
Proof.
  unfold OCR.digit_map.
  repeat (apply Forall_cons; [cbn [snd]; lia|]). apply Forall_nil.
Qed.

Lemma flush_group_nonneg m w :
  (0 <= m)%Z -> words_nonneg w -> words_nonneg (OCR.flush_group m w).
Proof.
  unfold words_nonneg, OCR.flush_group. cbn. intros Hm (H1 & H2 & H3).
  repeat split; nia.
Qed.

Lemma flush_scaled_nonneg m w :
  (0 <= m)%Z -> words_nonneg w -> words_nonneg (OCR.flush_scaled m w).
Proof.
  intros Hm Hw. unfold OCR.flush_scaled.
  apply flush_group_nonneg; [exact Hm|].
  destruct (_ && _); [|exact Hw].
  destruct Hw as (H1 & H2 & H3). unfold words_nonneg. cbn. lia.
Qed.

Lemma word_step_nonneg w token :
  words_nonneg w -> words_nonneg (OCR.word_step w token).
Proof.
  intros Hw. pose proof Hw as (H1 & H2 & H3). unfold OCR.word_step.
  destruct (OCR.lookup_digit OCR.digit_map token) as [d|] eqn:E.
  - apply (@lookup_digit_nonneg _ _ _ digit_map_nonneg) in E.
    unfold words_nonneg. cbn. lia.
  - repeat match goal with
    | |- context [if ?b then _ else _] => destruct b
    end; try (apply flush_scaled_nonneg; [lia|exact Hw]);
      try exact Hw; unfold words_nonneg; cbn; nia.
Qed.

(** X4: [_parse_vietnamese_words_to_number] never answers a negative
    number, whatever the text: the three accumulators of the parser
    stay non-negative through every word. *)
Theorem words_to_number_is_never_negative (text : pystr) :
  (0 <= OCR._parse_vietnamese_words_to_number text)%Z.
Proof.
  unfold OCR._parse_vietnamese_words_to_number. cbv zeta.
  destruct (Str.split_ws _) as [|t ts]; [lia|].
  assert (H : words_nonneg
                (OCR.flush_group 1
                   (fold_left OCR.word_step (t :: ts)
                      {| OCR.result := 0; OCR.hundreds := 0; OCR.pending := 0 |}))).
  { apply flush_group_nonneg; [lia|].
    generalize (t :: ts). intros l.
    assert (H0 : words_nonneg
                   {| OCR.result := 0; OCR.hundreds := 0; OCR.pending := 0 |})
      by (unfold words_nonneg; cbn; lia).
    revert H0.
    generalize {| OCR.result := 0%Z; OCR.hundreds := 0%Z; OCR.pending := 0%Z |}.
    induction l as [|x l IH]; intros w Hw; [exact Hw|].
    cbn [fold_left]. apply IH. now apply word_step_nonneg. }
  apply H.
Qed.

(** * The local formatter: dots, and exact below 2^53 *)

(** X5: The [format_money] local to [extract_invoice_data] writes an
    amount from 0 up to 2^53 - 1 as its digits in groups of three
    separated by dots, and the local [parse_money] reads that back as
    the same amount.  The bound is that of the float the formatter goes
    through: 2^53 + 1 is written as 9.007.199.254.740.992 and read back
    as 2^53. *)
Theorem local_format_money_round_trip (n : Z) :
  (0 <= n < 2 ^ 53)%Z ->
  Extract.format_money n = PyNum.grouped 46 (Z.to_N n)
  /\ Extract.parse_money (Extract.format_money n) = n
  /\ Extract.parse_money (Extract.format_money (2 ^ 53 + 1)) = (2 ^ 53)%Z.
Proof.
  intros Hn. split; [now apply format_money_small|].
  split; [now apply parse_format_money|].
  vm_compute. reflexivity.
Qed.

Lemma local_format_money_round_trip_witness :
  Extract.format_money 1080000 = py "1.080.000"
  /\ Extract.parse_money (Extract.format_money 1080000) = 1080000%Z.
Proof.
  destruct (@local_format_money_round_trip 1080000 ltac:(lia)) as (H1 & H2 & _).
  split; [rewrite H1; vm_compute; reflexivity|exact H2].
Defined.

(** * The validator reads what the extraction writes *)

(** The amounts the validator reads are within the digit limit, so
    [f"{n:,}"] in its message writes them. *)
Lemma validator_amount_formats (s : pystr) :
  PyNum.format_comma (Validate._parse_money s)
  = Some (PyNum.comma_text (Validate._parse_money s)).
Proof.
  apply format_comma_within. unfold Validate._parse_money.
  destruct (negb (Str.truthy s)); [now apply small_within_limit|].
  destruct (PyNum.int_of_str _) as [n|] eqn:E;
    [exact (int_of_str_bound _ E)|now apply small_within_limit].
Qed.

Lemma validator_reads_grouped (n : N) :
  (Z.of_N n < 10 ^ PyNum.MAX_STR_DIGITS)%Z ->
  Validate._parse_money (PyNum.grouped 46 n) = Z.of_N n.
Proof.
  intros Hlim.
  assert (Hsep : (46 = 44 /\ 44 = 46) \/ (46 = 46 /\ 44 = 44)) by auto.
  unfold Validate._parse_money.
  pose proof (grouped_truthy 46 n) as Ht. rewrite Ht. cbn [negb].
  rewrite (@grouped_strip 46 44 Hsep n).
  change dot with [46]. change comma with [44]. change empty with (@nil char).
  rewrite !replace_char_filter.
  rewrite (@grouped_without_other 46 44 Hsep n).
  rewrite (@grouped_without_sep 46 44 Hsep n).
  now rewrite int_of_digits.
Qed.

(** X6: The amounts the extraction writes with its local [format_money]
    are read by the validator's [_parse_money] as the same amounts,
    from 0 up to 2^53 - 1; the validator and the extraction agree on
    every amount field of a returned record in that range. *)
Theorem validator_reads_formatted_amounts (n : Z) :
  (0 <= n < 2 ^ 53)%Z ->
  Validate._parse_money (Extract.format_money n) = n
  /\ Validate._parse_money (Extract.format_money n)
     = Extract.parse_money (Extract.format_money n).
Proof.
  intros Hn. rewrite parse_format_money, format_money_small by assumption.
  rewrite validator_reads_grouped by now apply small_N_within_limit.
  split; lia.
Qed.

Lemma validator_reads_formatted_amounts_witness :
  Validate._parse_money (Extract.format_money 1080000) = 1080000%Z.
Proof. apply (@validator_reads_formatted_amounts 1080000). lia. Defined.

(** * A rate that is not recognised *)

Lemma truthy_false_empty (v : pystr) : Str.truthy v = false -> v = empty.
Proof. destruct v; [reflexivity|discriminate]. Qed.

(** An "other" amount that equals the total tax is dropped by the
    extra cleanup of the rate fields. *)
Lemma clean_other_rate_noise (d : Dict.dict) :
  Extract.parse_money (Dict.item d Keys.TIEN_THUE) <> 0%Z ->
  Dict.item d Keys.THUE_KHAC = Dict.item d Keys.TIEN_THUE ->
  Dict.item (Extract.clean_other_rate d) Keys.THUE_KHAC = empty.
Proof.
  intros Hnz Heq. unfold Extract.clean_other_rate.
  destruct (Extract.blank d Keys.THUE_KHAC) eqn:Eb; cbn [negb].
  - now apply blank_item.
  - cbv zeta.
    destruct (Str.mem (Dict.item d Keys.THUE_KHAC) Extract.BARE_RATES && _).
    + rewrite item_set_same.
      change (Extract.parse_money empty) with 0%Z. cbn [Z.eqb negb andb].
      apply item_set_same.
    + rewrite Heq, Z.eqb_refl, orb_true_r.
      apply Z.eqb_neq in Hnz. rewrite Hnz. cbn [negb andb].
      apply item_set_same.
Qed.

Lemma money_fold_untouched (ks : list pystr) (k : pystr) :
  Str.mem k ks = false ->
  forall d : Dict.dict,
    Dict.item
      (fold_left (fun data k =>
                    if Dict.has_key data k && negb (Extract.blank data k) then
                      let val := Extract.parse_money (Dict.item data k) in
                      if negb (val =? 0)%Z
                      then Dict.set data k (Extract.format_money val) else data
                    else data) ks d) k
    = Dict.item d k
    /\ Dict.has_key
         (fold_left (fun data k =>
                       if Dict.has_key data k && negb (Extract.blank data k) then
                         let val := Extract.parse_money (Dict.item data k) in
                         if negb (val =? 0)%Z
                         then Dict.set data k (Extract.format_money val) else data
                       else data) ks d) k
       = Dict.has_key d k.
Proof.
  induction ks as [|a ks IH]; intros Hm d; [split; reflexivity|].
  unfold Str.mem in Hm. cbn [existsb] in Hm.
  apply orb_false_iff in Hm. destruct Hm as [Ha Hm].
  rewrite Str_eqb_sym in Ha.
  cbn [fold_left].
  split; [etransitivity; [apply (proj1 (IH Hm _))|]
         |etransitivity; [apply (proj2 (IH Hm _))|]];
    cbv beta zeta;
    (destruct (Dict.has_key d a && negb (Extract.blank d a)); [|reflexivity]);
    (destruct (negb _); [|reflexivity]).
  - now apply item_set_other.
  - now apply has_key_set_other.
Qed.

(** The final money cleanup re-formats the total tax, when it is there
    and reads as a non-zero amount. *)
Lemma money_cleanup_total_tax (d : Dict.dict) :
  Dict.has_key d Keys.TIEN_THUE = true ->
  Extract.parse_money (Dict.item d Keys.TIEN_THUE) <> 0%Z ->
  Dict.item (Extract.money_cleanup d) Keys.TIEN_THUE
  = Extract.format_money (Extract.parse_money (Dict.item d Keys.TIEN_THUE)).
Proof.
  intros Hk Hnz.
  assert (Hb : Extract.blank d Keys.TIEN_THUE = false).
  { unfold Extract.blank. destruct (Dict.item d Keys.TIEN_THUE) eqn:E;
      [|reflexivity].
    exfalso. apply Hnz. reflexivity. }
  assert (Hpre : Str.mem Keys.TIEN_THUE [Keys.TRUOC_THUE] = false)
    by (vm_compute; reflexivity).
  assert (Hpost : Str.mem Keys.TIEN_THUE
                    [Keys.THUE_0; Keys.THUE_5; Keys.THUE_8; Keys.THUE_10;
                     Keys.THUE_KHAC; Keys.SO_TIEN_SAU] = false)
    by (vm_compute; reflexivity).
  unfold Extract.money_cleanup.
  change Extract.money_keys
    with ([Keys.TRUOC_THUE]
          ++ Keys.TIEN_THUE
             :: [Keys.THUE_0; Keys.THUE_5; Keys.THUE_8; Keys.THUE_10;
                 Keys.THUE_KHAC; Keys.SO_TIEN_SAU]).
  rewrite fold_left_app.
  set (d1 := fold_left _ [Keys.TRUOC_THUE] d).
  assert (H1 : Dict.item d1 Keys.TIEN_THUE = Dict.item d Keys.TIEN_THUE)
    by apply (proj1 (@money_fold_untouched _ _ Hpre d)).
  assert (H2 : Dict.has_key d1 Keys.TIEN_THUE = Dict.has_key d Keys.TIEN_THUE)
    by apply (proj2 (@money_fold_untouched _ _ Hpre d)).
  clearbody d1.
  cbn [fold_left].
  etransitivity; [apply (proj1 (@money_fold_untouched _ _ Hpost _))|].
  cbv beta. unfold Extract.blank. rewrite H2, H1, Hk.
  unfold Extract.blank in Hb. rewrite Hb. cbn [negb andb]. cbv zeta.
  apply Z.eqb_neq in Hnz. rewrite Hnz. cbn [negb].
  apply item_set_same.
Qed.

(** X7: A rate that is none of 0, 5, 8, 10 ends without any bucket.  With
    the total tax and the pre-tax amount known and positive, no rate
    bucket filled and [round(tax / pre-tax * 100)] not a known rate, the
    pass inside the [try] copies the tax into "Thue khac" (with its
    accents) and fills no rate bucket; and when the record reaches the
    passes after the [try] like this (the tax text being free of stray
    white space), the final cleanup takes that copy for noise, because
    it equals the total tax, and blanks it: the returned record has the
    tax in no bucket at all. *)
Theorem unrecognised_rate_ends_without_a_bucket
  (full_text : pystr) (data : Dict.dict) (rate : Z) :
  let tax := Dict.item data Keys.TIEN_THUE in
  let t_val := Extract.parse_money tax in
  let p_val := Extract.parse_money (Dict.item data Keys.TRUOC_THUE) in
  let in_try := Dict.set data Keys.THUE_KHAC tax in
  Extract.blank data Keys.TRUOC_THUE = false ->
  Extract.any_filled data Extract.RATE_COLUMNS = false ->
  (0 < t_val)%Z -> (0 < p_val)%Z ->
  Extract.rate_percent t_val p_val = Some rate ->
  Extract.rate_key rate = None ->
  clean_string_value tax = tax ->
  Extract.rate_from_amounts data = Some in_try
  /\ Dict.item in_try Keys.THUE_KHAC = tax
  /\ Extract.any_filled in_try Extract.RATE_COLUMNS = false
  /\ Dict.item (Extract.final_passes full_text in_try) Keys.THUE_KHAC = empty
  /\ Extract.any_filled (Extract.final_passes full_text in_try)
       Extract.BUCKET_COLUMNS = false
  /\ Dict.item (Extract.final_passes full_text in_try) Keys.TIEN_THUE
     = Extract.format_money t_val.
Proof.
  intros tax t_val p_val in_try Hp Hnone Htpos Hppos Hrate Hkey Hclean.
  assert (Htr : Str.truthy tax = true).
  { destruct (Str.truthy tax) eqn:E; [reflexivity|].
    apply truthy_false_empty in E. unfold t_val in Htpos.
    rewrite E in Htpos.
    change (Extract.parse_money empty) with 0%Z in Htpos. lia. }
  assert (Ht : Extract.blank data Keys.TIEN_THUE = false).
  { unfold Extract.blank. fold tax. now rewrite Htr. }
  assert (Ht0 : (t_val =? 0)%Z = false) by (apply Z.eqb_neq; lia).
  assert (Hp0 : (p_val =? 0)%Z = false) by (apply Z.eqb_neq; lia).
  assert (Htl : (0 <? t_val)%Z = true) by now apply Z.ltb_lt.
  assert (Hpl : (0 <? p_val)%Z = true) by now apply Z.ltb_lt.
  (* the pass inside the try *)
  assert (E2 : Extract.rate_from_amounts data = Some in_try).
  { unfold Extract.rate_from_amounts. fold tax. rewrite Htr, Hnone.
    cbn [negb andb]. fold t_val p_val. rewrite Ht0, Hp0, Hpl. cbn [negb andb].
    now rewrite Hrate, Hkey. }
  (* the record it leaves *)
  assert (Itax : Dict.item in_try Keys.TIEN_THUE = tax)
    by (unfold in_try; now rewrite item_set_other by reflexivity).
  assert (Ipre : Dict.item in_try Keys.TRUOC_THUE = Dict.item data Keys.TRUOC_THUE)
    by (unfold in_try; now rewrite item_set_other by reflexivity).
  assert (Ioth : Dict.item in_try Keys.THUE_KHAC = tax)
    by apply item_set_same.
  assert (Hnone' : Extract.any_filled in_try Extract.RATE_COLUMNS = false).
  { unfold Extract.any_filled in *. rewrite <- Hnone.
    unfold Extract.RATE_COLUMNS, in_try. cbn [existsb].
    now rewrite !item_set_other by reflexivity. }
  (* the first two passes after the try change nothing *)
  assert (F1 : Extract.total_tax_from_buckets in_try = in_try).
  { unfold Extract.total_tax_from_buckets, Extract.blank.
    now rewrite Itax, Htr. }
  assert (F2 : Extract.final_rate_pass in_try = in_try).
  { unfold Extract.final_rate_pass, Extract.blank. rewrite Itax, Ipre, Htr.
    unfold Extract.blank in Hp. rewrite Hp, Hnone'. cbn [negb andb].
    fold t_val p_val. rewrite Htl, Hpl. cbn [andb]. now rewrite Hrate, Hkey. }
  split; [exact E2|]. split; [exact Ioth|]. split; [exact Hnone'|].
  unfold Extract.final_passes. cbv zeta. rewrite F1, F2.
  set (d3 := Extract.clean_all in_try).
  assert (C1 : Dict.item d3 Keys.TIEN_THUE = tax)
    by (unfold d3; now rewrite item_clean_all, Itax).
  assert (C2 : Dict.item d3 Keys.THUE_KHAC = tax)
    by (unfold d3; now rewrite item_clean_all, Ioth).
  assert (Hoth : Dict.item (Extract.clean_other_rate d3) Keys.THUE_KHAC = empty).
  { apply clean_other_rate_noise.
    - rewrite C1. fold t_val. lia.
    - now rewrite C1, C2. }
  assert (Hfin : Dict.item (Extract.seller_cleanup full_text
                              (Extract.money_cleanup (Extract.clean_other_rate d3)))
                           Keys.THUE_KHAC = empty).
  { rewrite item_seller_cleanup by reflexivity.
    apply truthy_false_empty. rewrite money_cleanup_truthy, Hoth. reflexivity. }
  split; [exact Hfin|]. split.
  - unfold Extract.any_filled, Extract.BUCKET_COLUMNS, Extract.RATE_COLUMNS.
    cbn [app existsb]. rewrite Hfin. cbn [Str.truthy].
    unfold d3.
    rewrite !later_passes_keep_buckets by (cbn; tauto).
    assert (Hb : forall c, In c Extract.RATE_COLUMNS ->
                   Str.truthy (clean_string_value (Dict.item in_try c)) = false).
    { intros c Hc.
      pose proof (any_filled_false _ _ _ Hnone' Hc) as H.
      apply truthy_false_empty in H. rewrite H. reflexivity. }
    rewrite !Hb by (cbn; tauto). reflexivity.
  - rewrite item_seller_cleanup by reflexivity.
    (* the money cleanup re-formats the total tax *)
    assert (C1' : Dict.item (Extract.clean_other_rate d3) Keys.TIEN_THUE = tax)
      by (rewrite item_clean_other_rate by reflexivity; exact C1).
    assert (K : Dict.has_key (Extract.clean_other_rate d3) Keys.TIEN_THUE = true).
    { unfold Dict.has_key, Dict.item, Dict.get_or in *.
      destruct (Dict.get (Extract.clean_other_rate d3) Keys.TIEN_THUE);
        [reflexivity|].
      rewrite <- C1' in Htr. discriminate. }
    rewrite money_cleanup_total_tax.
    + now rewrite C1'.
    + exact K.
    + rewrite C1'. fold t_val. lia.
Qed.

Lemma unrecognised_rate_ends_without_a_bucket_witness :
  Extract.any_filled
    (Extract.final_passes seven_percent_invoice
       (Dict.set (Dict.set (Dict.set (Extract.initial_data (py "a.pdf"))
                                     Keys.TRUOC_THUE (py "1.000.000"))
                           Keys.TIEN_THUE (py "70.000"))
                 Keys.THUE_KHAC (py "70.000")))
    Extract.BUCKET_COLUMNS = false
  /\ filled_buckets
       (fst (Extract.extract_invoice_data (text_only seven_percent_invoice)))
     = [].
Proof.
  split; [|vm_compute; reflexivity].
  pose proof (@unrecognised_rate_ends_without_a_bucket seven_percent_invoice
                (Dict.set (Dict.set (Extract.initial_data (py "a.pdf"))
                                    Keys.TRUOC_THUE (py "1.000.000"))
                          Keys.TIEN_THUE (py "70.000"))
                7%Z) as H.
  cbv zeta in H.
  destruct H as (_ & _ & _ & _ & H & _).
  - vm_compute. reflexivity.
  - vm_compute. reflexivity.
  - vm_compute. reflexivity.
  - vm_compute. reflexivity.
  - vm_compute. reflexivity.
  - vm_compute. reflexivity.
  - vm_compute. reflexivity.
  - exact H.
Defined.

(** * No amount found *)

Lemma amount_empty_item (d : Dict.dict) k :
  Dict.item d k = empty -> Extract.blank d k = true.
Proof. unfold Extract.blank. now intros ->. Qed.

(** X8: When none of the pre-tax amount, the total tax and the total
    reaches 1000 (none was found, say), the head of the reconciliation
    clears the three and then writes "0" into the total and into the
    pre-tax amount, while the total tax stays empty: the record does
    not keep three blanks. *)
Theorem no_amount_reconciles_to_zero (full_text : pystr) (data : Dict.dict) :
  (amount data Keys.TRUOC_THUE < 1000)%Z ->
  (amount data Keys.TIEN_THUE < 1000)%Z ->
  (amount data Keys.SO_TIEN_SAU < 1000)%Z ->
  let data' :=
    Extract.rerun_total
      (Extract.garbage_total full_text
         (Extract.derive_before_tax
            (Extract.derive_total (Extract.noise_floor data)))) in
  Dict.item data' Keys.SO_TIEN_SAU = py "0"
  /\ Dict.item data' Keys.TRUOC_THUE = py "0"
  /\ Dict.item data' Keys.TIEN_THUE = empty.
Proof.
  intros Hp Ht Hs.
  apply Z.ltb_lt in Hp, Ht, Hs.
  assert (Fp : Dict.item (Extract.noise_floor data) Keys.TRUOC_THUE = empty).
  { rewrite noise_floor_item, Hp. reflexivity. }
  assert (Ft : Dict.item (Extract.noise_floor data) Keys.TIEN_THUE = empty).
  { rewrite noise_floor_item, Ht. reflexivity. }
  assert (Fs : Dict.item (Extract.noise_floor data) Keys.SO_TIEN_SAU = empty).
  { rewrite noise_floor_item, Hs. reflexivity. }
  remember (Extract.noise_floor data) as d0 eqn:Hd0. clear Hd0 Hp Ht Hs.
  assert (E1 : Extract.derive_total d0 = Dict.set d0 Keys.SO_TIEN_SAU (py "0")).
  { unfold Extract.derive_total. rewrite (amount_empty_item _ _ Fs).
    cbv zeta. rewrite Fp, Ft. reflexivity. }
  assert (E2 : Extract.derive_before_tax (Extract.derive_total d0)
               = Dict.set (Dict.set d0 Keys.SO_TIEN_SAU (py "0"))
                          Keys.TRUOC_THUE (py "0")).
  { rewrite E1. unfold Extract.derive_before_tax.
    unfold Extract.blank.
    rewrite !item_set_same, !item_set_other by reflexivity.
    rewrite Fp, Ft. reflexivity. }
  cbv zeta. rewrite E2.
  set (d2 := Dict.set (Dict.set d0 Keys.SO_TIEN_SAU (py "0")) Keys.TRUOC_THUE (py "0")).
  assert (Gs : Dict.item d2 Keys.SO_TIEN_SAU = py "0").
  { unfold d2. rewrite item_set_other by reflexivity. apply item_set_same. }
  assert (Gp : Dict.item d2 Keys.TRUOC_THUE = py "0") by apply item_set_same.
  assert (Gt : Dict.item d2 Keys.TIEN_THUE = empty).
  { unfold d2. now rewrite !item_set_other by reflexivity. }
  assert (E3 : Extract.garbage_total full_text d2 = d2).
  { unfold Extract.garbage_total, Extract.blank. now rewrite Gs. }
  rewrite E3.
  assert (E4 : Extract.rerun_total d2 = d2).
  { unfold Extract.rerun_total, Extract.blank. now rewrite Gt. }
  rewrite E4. auto.
Qed.

Lemma no_amount_reconciles_to_zero_witness :
  Dict.item
    (Extract.rerun_total
       (Extract.garbage_total (py "hello")
          (Extract.derive_before_tax
             (Extract.derive_total
                (Extract.noise_floor (Extract.initial_data (py "a.pdf")))))))
    Keys.SO_TIEN_SAU = py "0".
Proof.
  apply (@no_amount_reconciles_to_zero (py "hello") (Extract.initial_data (py "a.pdf")));
    vm_compute; reflexivity.
Defined.

(** * The amounts of the returned record *)

Lemma has_key_false_item (d : Dict.dict) k :
  Dict.has_key d k = false -> Dict.item d k = empty.
Proof.
  unfold Dict.has_key, Dict.item, Dict.get_or.
  destruct (Dict.get d k); [discriminate|reflexivity].
Qed.

Lemma money_step_canonical (d : Dict.dict) k c :
  (Str.eqb k c = true \/ canonical_amount (Dict.item d c)) ->
  canonical_amount
    (Dict.item
       (if Dict.has_key d k && negb (Extract.blank d k)
        then
          let val := Extract.parse_money (Dict.item d k) in
          if negb (val =? 0)%Z then Dict.set d k (Extract.format_money val) else d
        else d) c).
Proof.
  intros H. cbv zeta.
  destruct (Str.eqb k c) eqn:Ek.
  - apply Str_eqb_eq in Ek. subst c.
    destruct (Dict.has_key d k) eqn:Eh; cbn [andb].
    + destruct (Extract.blank d k) eqn:Eb; cbn [negb].
      * left. now apply blank_item.
      * destruct (Extract.parse_money (Dict.item d k) =? 0)%Z eqn:Ez; cbn [negb].
        -- right. left. now apply Z.eqb_eq.
        -- right. right. exists (Extract.parse_money (Dict.item d k)).
           split; [now apply Z.eqb_neq|apply item_set_same].
    + left. now apply has_key_false_item.
  - destruct H as [H|H]; [discriminate|].
    destruct (Dict.has_key d k && negb (Extract.blank d k)); [|exact H].
    destruct (negb _); [|exact H].
    now rewrite item_set_other.
Qed.

Lemma money_fold_canonical (ks : list pystr) (d : Dict.dict) c :
  (Str.mem c ks = true \/ canonical_amount (Dict.item d c)) ->
  canonical_amount
    (Dict.item
       (fold_left (fun data k =>
                     if Dict.has_key data k && negb (Extract.blank data k) then
                       let val := Extract.parse_money (Dict.item data k) in
                       if negb (val =? 0)%Z
                       then Dict.set data k (Extract.format_money val) else data
                     else data) ks d) c).
Proof.
  revert d. induction ks as [|k ks IH]; intros d H.
  - destruct H as [H|H]; [discriminate|exact H].
  - cbn [fold_left]. apply IH.
    unfold Str.mem in H. cbn [existsb] in H.
    destruct (existsb (Str.eqb c) ks) eqn:Em; [left; exact Em|].
    right. apply money_step_canonical.
    rewrite orb_false_r in H. rewrite (Str_eqb_sym k c). exact H.
Qed.



(** * The seller name of the returned record *)


(** * A text layer that is cleaned away *)

Lemma mark_unrecognized_tail (d : Dict.dict) :
  Forall (fun k => Str.eqb k Keys.TEN_FILE = false) (Dict.keys d) ->
  Extract.mark_unrecognized d = map (fun k => (k, Extract.SENTINEL)) (Dict.keys d).
Proof.
  unfold Extract.mark_unrecognized, Dict.keys.
  induction d as [|[k v] d IH]; intros H; [reflexivity|].
  cbn [map fst] in *. inversion H as [|? ? Hk Hd]; subst.
  rewrite Hk. cbn [negb]. now rewrite IH.
Qed.

Lemma mark_unrecognized_sentinels fn (d : Dict.dict) :
  keeps fn d -> Extract.mark_unrecognized d = sentinel_record fn.
Proof.
  intros [Hk Hf]. destruct d as [|[k v] d]; [discriminate|].
  unfold Dict.keys in Hk. cbn [map fst] in Hk.
  injection Hk as Hk1 Hk2. subst k.
  unfold Dict.item, Dict.get_or in Hf. cbn in Hf. subst v.
  change (Extract.mark_unrecognized ((Keys.TEN_FILE, fn) :: d))
    with ((Keys.TEN_FILE, fn) :: Extract.mark_unrecognized d).
  unfold sentinel_record. f_equal.
  rewrite mark_unrecognized_tail.
  - unfold Dict.keys. rewrite Hk2. reflexivity.
  - unfold Dict.keys. rewrite Hk2.
    repeat (apply Forall_cons; [reflexivity|]). apply Forall_nil.
Qed.

(** X11: When the text layer has text but the line filter leaves nothing
    but white space of it (and no companion text file steps in), the
    function returns at once the record of sentinels -- the file name,
    and the sentinel under every other key -- with no line item.  This
    holds whatever the OCR engine would have read: OCR is not tried on
    this branch. *)
Theorem cleaned_away_text_gives_the_sentinel_record (env : Extract.Env) :
  let fn := Extract.effective_filename env in
  let cleaned :=
    snd (Extract.normalize_text (Extract.read_text_layer env)
           (Extract.initial_data fn)) in
  Extract.pdf_error env = false ->
  Str.truthy (Str.strip (Extract.read_text_layer env)) = true ->
  Str.truthy (Str.strip cleaned) = false ->
  (Str.truthy cleaned = true \/ Extract.pdf_source env = None
   \/ Extract.fallback env = Extract.FbNone) ->
  Extract.extract_invoice_data env = (sentinel_record fn, []).
Proof.
  intros fn cleaned He Ht Hc Hf.
  unfold Extract.extract_invoice_data. fold fn.
  unfold Extract.try_body. rewrite He, Ht. cbn [negb].
  pose proof (@normalize_text_keeps fn (Extract.read_text_layer env)
                (Extract.initial_data fn) (initial_data_keeps fn)) as Hn.
  subst cleaned.
  destruct (Extract.normalize_text (Extract.read_text_layer env)
              (Extract.initial_data fn)) as [d t].
  cbn [fst snd] in *.
  assert (Hm : Extract.mark_unrecognized d = sentinel_record fn)
    by now apply mark_unrecognized_sentinels.
  destruct (Str.truthy t) eqn:Et; cbn [negb].
  - rewrite Hc. cbn [negb]. now rewrite Hm.
  - destruct Hf as [Hf|[Hf|Hf]]; [discriminate| |].
    + rewrite Hf, Hc. cbn [negb]. now rewrite Hm.
    + rewrite Hf. destruct (Extract.pdf_source env);
        rewrite Hc; cbn [negb]; now rewrite Hm.
Qed.

Lemma cleaned_away_text_gives_the_sentinel_record_witness :
  Extract.extract_invoice_data garbage_only = (sentinel_record (py "a.pdf"), []).
Proof.
  apply (@cleaned_away_text_gives_the_sentinel_record garbage_only).
  - reflexivity.
  - vm_compute. reflexivity.
  - vm_compute. reflexivity.
  - right. left. reflexivity.
Defined.

(** * app.py: the amount reader *)

Lemma set_match_backslash c :
  set_match NOFLAGS false [CRange 92 92] c = true -> c = 92.
Proof.
  unfold set_match, set_has. simpl. rewrite !orb_false_r.
  intros H. apply in_range_spec in H. lia.
Qed.

(** A match of either suffix pattern of app.py has a backslash in
    second place. *)
Lemma suffix_inv (r : regex) s s' :
  Matches NOFLAGS
    (RSeq (RSet false [CRange 44 44; CRange 46 46])
          (RSeq (RSet false [CRange 92 92]) r)) s s' ->
  exists c tl, rest s = c :: 92 :: tl.
Proof.
  intros H.
  inversion H as [| | | | | |r1 r2 sa s1 sb H1 H2| | | |]; subst; clear H.
  inversion H1 as [|neg items c sa s1' Hstep Hset| | | | | | | | |]; subst; clear H1.
  apply step_inv in Hstep. destruct Hstep as (Hr & _ & _).
  inversion H2 as [| | | | | |r1 r2 sa s2 sb H3 H4| | | |]; subst; clear H2.
  inversion H3 as [|neg items b sa sb Hstep2 Hset2| | | | | | | | |]; subst; clear H3.
  apply set_match_backslash in Hset2. subst b.
  apply step_inv in Hstep2. destruct Hstep2 as (Hr2 & _ & _).
  exists c, (rest s2). now rewrite Hr, Hr2.
Qed.

Lemma no_backslash_no_suffix (r : regex) (f : pystr) :
  ~ In 92 f ->
  search NOFLAGS
    (RSeq (RSet false [CRange 44 44; CRange 46 46])
          (RSeq (RSet false [CRange 92 92]) r)) f = None.
Proof.
  intros Hno.
  match goal with |- ?x = None => destruct x as [m|] eqn:E; [|reflexivity] end.
  exfalso. apply search_sound in E.
  destruct E as (s0 & s' & Hal & _ & Hm & _).
  apply suffix_inv in Hm. destruct Hm as (c & tl & Hr).
  unfold aligned in Hal. apply Hno.
  rewrite <- (firstn_skipn (pos s0) f), Hal, Hr.
  apply in_or_app. right. right. left. reflexivity.
Qed.

(** Without a backslash in the text, the branch that cuts a two-digit
    decimal suffix is never taken. *)
Lemma parse_money_str_plain (s : pystr) :
  ~ In 92 s ->
  Str.contains dot (Str.strip s) && Str.contains comma (Str.strip s) = false ->
  App.parse_money_str s
  = or_zero (PyNum.int_of_str
               (Str.replace dot empty (Str.replace comma empty (Str.strip s)))).
Proof.
  intros Hno Hsep. unfold App.parse_money_str.
  destruct s as [|c s]; [reflexivity|]. cbn [Str.truthy negb].
  cbv zeta. rewrite Hsep.
  unfold App.RE_SUFFIX_2.
  rewrite no_backslash_no_suffix; [reflexivity|].
  intros H. apply Hno. now apply in_strip.
Qed.

(** X12: app.py, [parse_money_str]: on a text without a backslash that does
    not hold both separators, no decimal suffix is ever cut -- the
    separators are removed and the digits are read, so "1234,56" reads
    as 123456 (0 when the rest is no integer).  The engine's own
    [parse_money] cuts such a suffix. *)
Theorem app_reader_never_cuts_a_decimal_suffix (s : pystr) :
  ~ In 92 s ->
  Str.contains dot (Str.strip s) && Str.contains comma (Str.strip s) = false ->
  App.parse_money_str s
  = or_zero (PyNum.int_of_str
               (Str.replace dot empty (Str.replace comma empty (Str.strip s))))
  /\ App.parse_money_str (py "1234,56") = 123456%Z
  /\ Extract.parse_money (py "1234,56") = 1234%Z.
Proof.
  intros Hno Hsep. split; [now apply parse_money_str_plain|].
  split; vm_compute; reflexivity.
Qed.

Lemma app_reader_never_cuts_a_decimal_suffix_witness :
  App.parse_money_str (py "50,05")
  = or_zero (PyNum.int_of_str
               (Str.replace dot empty
                  (Str.replace comma empty (Str.strip (py "50,05"))))).
Proof.
  apply (@app_reader_never_cuts_a_decimal_suffix (py "50,05")).
  - vm_compute. intuition discriminate.
  - vm_compute. reflexivity.
Defined.

Lemma grouped_chars sep n :
  Forall (fun c => is_dig c = true \/ c = sep) (PyNum.grouped sep n).
Proof.
  unfold PyNum.grouped. apply Forall_rev, group3_rev_chars.
  destruct (rev_digits_n n) as (_ & Hd & _). exact Hd.
Qed.

Lemma is_dig_range c : is_dig c = true -> 48 <= c <= 57.
Proof. unfold is_dig. now rewrite in_range_spec. Qed.

Lemma app_reads_grouped (n : N) :
  (Z.of_N n < 10 ^ PyNum.MAX_STR_DIGITS)%Z ->
  App.parse_money_str (PyNum.grouped 46 n) = Z.of_N n.
Proof.
  intros Hlim.
  assert (Hsep : (46 = 44 /\ 44 = 46) \/ (46 = 46 /\ 44 = 44)) by auto.
  pose proof (grouped_chars 46 n) as Hc.
  rewrite parse_money_str_plain.
  - rewrite (@grouped_strip 46 44 Hsep n).
    change dot with [46]. change comma with [44]. change empty with (@nil char).
    rewrite !replace_char_filter.
    rewrite (@grouped_without_other 46 44 Hsep n).
    rewrite (@grouped_without_sep 46 44 Hsep n).
    now rewrite int_of_digits.
  - intros H. rewrite Forall_forall in Hc. apply Hc in H.
    destruct H as [H|H]; [apply is_dig_range in H|]; lia.
  - rewrite (@grouped_strip 46 44 Hsep n).
    replace (Str.contains comma (PyNum.grouped 46 n)) with false;
      [apply andb_false_r|].
    symmetry. apply contains_absent.
    eapply Forall_impl; [|exact Hc]. intros c [H|H];
      [apply is_dig_range in H|]; lia.
Qed.

(** X13: app.py reads an amount the extraction has written with its local
    [format_money] as the same amount, from 0 up to 2^53 - 1. *)
Theorem app_reads_formatted_amounts (n : Z) :
  (0 <= n < 2 ^ 53)%Z ->
  App.parse_money_str (Extract.format_money n) = n.
Proof.
  intros Hn. rewrite format_money_small by assumption.
  rewrite app_reads_grouped by now apply small_N_within_limit.
  lia.
Qed.

Lemma app_reads_formatted_amounts_witness :
  App.parse_money_str (Extract.format_money 1080000) = 1080000%Z.
Proof. apply (@app_reads_formatted_amounts 1080000). lia. Defined.

(** * The category of an invoice *)

Lemma score_fold_nonneg category text_lower keywords (z : Z) :
  (0 <= z)%Z ->
  (0 <= fold_left (fun score kw =>
                     if Classify.keyword_found category kw text_lower
                     then score + 1 else score) keywords z)%Z.
Proof.
  revert z. induction keywords as [|kw kws IH]; intros z Hz; [exact Hz|].
  cbn [fold_left]. apply IH. destruct (Classify.keyword_found _ _ _); lia.
Qed.

Lemma entry_score_nonneg t e : (0 <= entry_score t e)%Z.
Proof. unfold entry_score, Classify.score_of. apply score_fold_nonneg. lia. Qed.

Lemma set_score_fresh (scores : list (pystr * Z)) k v :
  Forall (fun a => Str.eqb (fst a) k = false) scores ->
  Classify.set_score scores k v = scores ++ [(k, v)].
Proof.
  induction scores as [|[k' v'] l IH]; intros H; [reflexivity|].
  inversion H as [|? ? Hk Hl]; subst. cbn [fst] in Hk.
  cbn [Classify.set_score app]. rewrite Hk. now rewrite IH.
Qed.

Lemma mem_of_in (k : pystr) (l : list pystr) : In k l -> Str.mem k l = true.
Proof.
  intros H. unfold Str.mem. apply existsb_exists. exists k.
  split; [exact H|apply Str_eqb_refl].
Qed.

Lemma scores_fold t (tbl : list (pystr * list pystr)) :
  forall (seen : list pystr) (acc : list (pystr * Z)),
    fresh_keys seen tbl = true ->
    incl (map fst acc) seen ->
    fold_left (fun scores '(category, keywords) =>
                 let score := Classify.score_of category keywords t in
                 if (0 <? score)%Z then Classify.set_score scores category score
                 else scores) tbl acc
    = acc ++ filter (fun x => (0 <? snd x)%Z)
                    (map (fun e => (fst e, entry_score t e)) tbl).
Proof.
  induction tbl as [|[c kws] tbl IH]; intros seen acc Hf Hi.
  - cbn. now rewrite app_nil_r.
  - cbn [fresh_keys fst] in Hf. apply andb_true_iff in Hf.
    destruct Hf as [Hc Hf]. apply negb_true_iff in Hc.
    cbn [fold_left map filter fst snd]. cbv zeta.
    change (entry_score t (c, kws)) with (Classify.score_of c kws t).
    destruct (0 <? Classify.score_of c kws t)%Z eqn:Es.
    + rewrite set_score_fresh.
      * rewrite (IH (c :: seen)); [now rewrite <- app_assoc|exact Hf|].
        rewrite map_app. cbn [map fst]. intros k Hk.
        apply in_app_or in Hk. destruct Hk as [Hk|[<-|[]]];
          [right; now apply Hi|left; reflexivity].
      * apply Forall_forall. intros a Ha.
        destruct (Str.eqb (fst a) c) eqn:E; [|reflexivity].
        apply Str_eqb_eq in E. subst c.
        assert (Hin : In (fst a) seen) by (apply Hi; now apply in_map).
        apply mem_of_in in Hin. congruence.
    + apply (IH (c :: seen)); [exact Hf|].
      intros k Hk. right. now apply Hi.
Qed.

Lemma max_by_score_spec (rest pre mid : list (pystr * Z)) (b : pystr * Z) :
  Forall (fun e => (snd e < snd b)%Z) pre ->
  Forall (fun e => (snd e <= snd b)%Z) mid ->
  exists pre' s post',
    pre ++ b :: mid ++ rest = pre' ++ (Classify.max_by_score b rest, s) :: post'
    /\ Forall (fun e => (snd e < s)%Z) pre'
    /\ Forall (fun e => (snd e <= s)%Z) post'.
Proof.
  revert pre mid b. induction rest as [|e more IH]; intros pre mid b Hp Hm.
  - exists pre, (snd b), mid. cbn [Classify.max_by_score].
    rewrite app_nil_r. destruct b. auto.
  - cbn [Classify.max_by_score].
    destruct (snd b <? snd e)%Z eqn:E.
    + apply Z.ltb_lt in E.
      destruct (IH (pre ++ b :: mid) [] e) as (pre' & s & post' & H1 & H2 & H3).
      * apply Forall_app. split.
        -- eapply Forall_impl; [|exact Hp]. cbn. intros; lia.
        -- constructor; [exact E|].
           eapply Forall_impl; [|exact Hm]. cbn. intros; lia.
      * constructor.
      * exists pre', s, post'. split; [|auto].
        rewrite <- H1. cbn [app]. now rewrite <- app_assoc.
    + apply Z.ltb_ge in E.
      destruct (IH pre (mid ++ [e]) b Hp) as (pre' & s & post' & H1 & H2 & H3).
      * apply Forall_app. split; [exact Hm|]. constructor; [exact E|constructor].
      * exists pre', s, post'. split; [|auto].
        rewrite <- H1. now rewrite <- app_assoc.
Qed.

Lemma filter_map_split {A B} (p : B -> bool) (g : A -> B) (tbl : list A) :
  forall pre x post,
    filter p (map g tbl) = pre ++ x :: post ->
    exists tp e tq,
      tbl = tp ++ e :: tq /\ g e = x /\ p x = true
      /\ filter p (map g tp) = pre /\ filter p (map g tq) = post.
Proof.
  induction tbl as [|e0 m IH]; intros pre x post H.
  - destruct pre; discriminate.
  - cbn [map filter] in H. destruct (p (g e0)) eqn:E.
    + destruct pre as [|a pre].
      * cbn [app] in H. injection H as H1 H2.
        exists [], e0, m. cbn [map filter app]. subst. auto.
      * cbn [app] in H. injection H as H1 H2.
        destruct (IH _ _ _ H2) as (tp & e & tq & -> & Hg & Hp & Hf1 & Hf2).
        exists (e0 :: tp), e, tq. cbn [map filter app]. rewrite E, Hf1.
        subst. auto.
    + destruct (IH _ _ _ H) as (tp & e & tq & -> & Hg & Hp & Hf1 & Hf2).
      exists (e0 :: tp), e, tq. cbn [map filter app]. rewrite E. auto.
Qed.

Lemma below_of_filtered t (R : Z -> Z -> Prop) (s : Z)
  (tbl : list (pystr * list pystr)) :
  (forall z, (z <= 0)%Z -> R z s) ->
  Forall (fun x => R (snd x) s)
         (filter (fun x => (0 <? snd x)%Z)
                 (map (fun e => (fst e, entry_score t e)) tbl)) ->
  Forall (fun e => R (entry_score t e) s) tbl.
Proof.
  intros H0. induction tbl as [|e m IH]; intros H; [constructor|].
  cbn [map filter snd] in H.
  destruct (0 <? entry_score t e)%Z eqn:E.
  - inversion H; subst. constructor; auto.
  - apply Z.ltb_ge in E. constructor; auto.
Qed.

Lemma category_keys_fresh : fresh_keys [] Classify.CATEGORY_KEYWORDS = true.
Proof. vm_compute. reflexivity. Qed.

Lemma scores_of_filter t :
  Classify.scores_of t
  = filter (fun x => (0 <? snd x)%Z)
           (map (fun e => (fst e, entry_score t e)) Classify.CATEGORY_KEYWORDS).
Proof.
  pose proof category_keys_fresh as Hf.
  cbv delta [Classify.scores_of]. cbv beta.
  revert Hf. generalize Classify.CATEGORY_KEYWORDS. intros tbl Hf.
  rewrite (@scores_fold t tbl [] [] Hf); [reflexivity|].
  intros k [].
Qed.

(** X14: [classify_content]: a seller name that holds a food and drink brand
    decides the category whatever the items say; otherwise an empty
    item text gives "Khac" (with its accent); otherwise the category is
    the entry of the keyword table with the highest score, the earliest
    such entry on a tie -- every entry before it scores strictly less,
    none after it scores more -- and "Khac" when no entry scores. *)
Theorem classify_content_takes_the_first_best_score
  (services_text seller_name : pystr) :
  let t := lower services_text in
  let r := Classify.classify_content services_text seller_name in
  (brand_seller seller_name = true -> r = Classify.FOOD_AND_DRINK)
  /\ (brand_seller seller_name = false -> services_text = empty ->
        r = Classify.OTHER)
  /\ (brand_seller seller_name = false -> services_text <> empty ->
        (r = Classify.OTHER
         /\ Forall (fun e => entry_score t e = 0%Z) Classify.CATEGORY_KEYWORDS)
        \/ exists pre keywords post,
             Classify.CATEGORY_KEYWORDS = pre ++ (r, keywords) :: post
             /\ (0 < entry_score t (r, keywords))%Z
             /\ Forall (fun e => (entry_score t e < entry_score t (r, keywords))%Z) pre
             /\ Forall (fun e => (entry_score t e <= entry_score t (r, keywords))%Z) post).
Proof.
  intros t r. subst r. unfold Classify.classify_content.
  fold (brand_seller seller_name).
  split; [intros ->; reflexivity|].
  split; [intros -> ->; reflexivity|].
  intros -> Hne.
  assert (Htr : Str.truthy services_text = true).
  { destruct services_text; [now elim Hne|reflexivity]. }
  rewrite Htr. cbn [negb]. cbv zeta. fold t.
  rewrite (scores_of_filter t).
  destruct (filter _ _) as [|first more] eqn:EL.
  - left. split; [reflexivity|].
    assert (H : Forall (fun e => (entry_score t e <= 0)%Z) Classify.CATEGORY_KEYWORDS).
    { apply (@below_of_filtered t (fun z _ => (z <= 0)%Z) 0%Z).
      - auto.
      - rewrite EL. constructor. }
    eapply Forall_impl; [|exact H]. cbn. intros e He.
    pose proof (entry_score_nonneg t e). lia.
  - right.
    destruct (@max_by_score_spec more [] [] first) as (pre & s & post & H1 & H2 & H3);
      [constructor|constructor|].
    cbn [app] in H1. rewrite <- EL in H1.
    apply filter_map_split in H1.
    destruct H1 as (tp & e & tq & Ht & Hg & Hp & Hf1 & Hf2).
    destruct e as [c kws]. cbn [fst] in Hg. injection Hg as Hc Hs.
    exists tp, kws, tq. rewrite <- Hc.
    cbn [snd] in Hp. apply Z.ltb_lt in Hp.
    split; [exact Ht|]. rewrite Hs. split; [exact Hp|]. split.
    + apply (@below_of_filtered t Z.lt s); [intros; lia|]. now rewrite Hf1.
    + apply (@below_of_filtered t Z.le s); [intros; lia|]. now rewrite Hf2.
Qed.

Lemma classify_content_takes_the_first_best_score_witness :
  Classify.classify_content (py "com ga") (py "KFC Viet Nam")
  = Classify.FOOD_AND_DRINK
  /\ (Classify.classify_content (py "hoa") empty = Classify.OTHER
      \/ exists pre keywords post,
           Classify.CATEGORY_KEYWORDS
           = pre ++ (Classify.classify_content (py "hoa") empty, keywords) :: post).
Proof.
  split.
  - destruct (@classify_content_takes_the_first_best_score (py "com ga")
                (py "KFC Viet Nam")) as [H _].
    apply H. vm_compute. reflexivity.
  - destruct (@classify_content_takes_the_first_best_score (py "hoa") empty)
      as (_ & _ & H).
    destruct H as [[H _]|(pre & keywords & post & H & _)].
    + reflexivity.
    + vm_compute. discriminate.
    + left. exact H.
    + right. exists pre, keywords, post. exact H.
Defined.

(** * The batch script *)

Lemma max_by_score_in (rest : list (pystr * Z)) (b : pystr * Z) :
  In (Classify.max_by_score b rest) (map fst (b :: rest)).
Proof.
  revert b. induction rest as [|e more IH]; intros b.
  - left. reflexivity.
  - cbn [Classify.max_by_score]. destruct (snd b <? snd e)%Z.
    + right. apply IH.
    + destruct (IH b) as [H|H]; [left; exact H|right; right; exact H].
Qed.

Lemma classify_content_in_categories (services_text seller_name : pystr) :
  In (Classify.classify_content services_text seller_name) CATEGORIES.
Proof.
  unfold Classify.classify_content.
  destruct (Str.truthy seller_name && _);
    [right; left; reflexivity|].
  destruct (negb (Str.truthy services_text)); [left; reflexivity|].
  cbv zeta. rewrite scores_of_filter.
  destruct (filter _ _) as [|first more] eqn:EL; [left; reflexivity|].
  right.
  pose proof (max_by_score_in more first) as H. rewrite <- EL in H.
  apply in_map_iff in H. destruct H as (x & Hx & Hin).
  apply filter_In in Hin. destruct Hin as [Hin _].
  apply in_map_iff in Hin. destruct Hin as (e & He & Hin).
  rewrite <- Hx, <- He. cbn [fst]. now apply in_map.
Qed.

Lemma early_return_has_no_items env fn d d' items :
  Extract.try_body env fn d = Extract.Return d' items -> items = [].
Proof.
  unfold Extract.try_body, Extract.ocr_path, Extract.text_path.
  repeat match goal with
  | |- Extract.Return _ _ = Extract.Return _ _ -> _ =>
      let H := fresh in intros H; injection H; intros; subst; reflexivity
  | |- Extract.Continue _ _ _ = Extract.Return _ _ -> _ => discriminate
  | |- (let '(_, _) := ?p in _) = _ -> _ => destruct p
  | |- (if ?b then _ else _) = _ -> _ => destruct b
  | |- (match ?o with _ => _ end) = _ -> _ => destruct o
  end.
Qed.



(** * The export: amounts back to numbers *)

(** A 54-bit even mantissa is rounded exactly, by one shift. *)
Lemma binary_round_aux_even (mz : positive) (ez : Z) :
  Z.pos (digits2_pos mz) = 53%Z -> (-1075 <= ez <= 970)%Z ->
  binary_round_aux 53 1024 false (Z.pos mz~0) ez loc_Exact
  = S754_finite false mz (ez + 1).
Proof.
  intros Hd He. unfold binary_round_aux, shr_fexp, fexp, emin.
  cbn [Zdigits2 shr_record_of_loc digits2_pos]. rewrite Pos2Z.inj_succ, Hd.
  replace (Z.max (Z.succ 53 + ez - 53) (3 - 1024 - 53) - ez)%Z with 1%Z by lia.
  cbn [shr iter_pos shr_1 shr_m loc_of_shr_record round_nearest_even Zdigits2
         shr_record_of_loc orb].
  rewrite Hd.
  replace (Z.max (53 + (ez + 1) - 53) (3 - 1024 - 53) - (ez + 1))%Z with 0%Z by lia.
  cbn [shr shr_m].
  destruct (ez + 1 <=? 1024 - 53)%Z eqn:E; [reflexivity|].
  apply Z.leb_gt in E. lia.
Qed.

Lemma div_eucl_1 (a : Z) : Z.div_eucl a 1 = (a, 0%Z).
Proof.
  pose proof (Z.div_1_r a) as Hq. pose proof (Z.mod_1_r a) as Hr.
  unfold Z.div, Z.modulo in *. destruct (Z.div_eucl a 1). now subst.
Qed.

(** The text of an integer 0 < n < 2^53 is read by [float] exactly. *)
Lemma float_of_scaled_small (m : positive) :
  (Z.pos m < 2 ^ 53)%Z ->
  exists mz ez,
    PyNum.float_of_scaled false (Z.pos m) 0 = S754_finite false mz ez
    /\ (-52 <= ez <= 0)%Z /\ Z.pos mz = (Z.pos m * 2 ^ (- ez))%Z.
Proof.
  intros Hm.
  pose proof (@digits2_pos_le m 53 ltac:(lia) Hm) as Hd.
  unfold PyNum.float_of_scaled. cbn [Z.leb Z.compare Z.pow Z.pow_pos Pos.iter].
  rewrite Z.mul_1_r.
  unfold SFdiv_core_binary, PyNum.prec, PyNum.emax, fexp, emin.
  cbn [Zdigits2 digits2_pos].
  replace (Z.min (Z.max (Z.pos (digits2_pos m) + 0 - (1 + 0) - 53) (3 - 1024 - 53))
                 (0 - 0))%Z
    with (Z.pos (digits2_pos m) - 54)%Z by lia.
  replace (0 - 0 - (Z.pos (digits2_pos m) - 54))%Z
    with (54 - Z.pos (digits2_pos m))%Z by lia.
  destruct (54 - Z.pos (digits2_pos m))%Z as [|k|k] eqn:Ek; [lia| |lia].
  rewrite div_eucl_1. cbn [new_location Z.even new_location_odd Z.eqb].
  assert (Hsh : Z.shiftl (Z.pos m) (Z.pos k) = Z.pos (Pos.iter xO m k)).
  { rewrite Z.shiftl_mul_pow2 by lia. now rewrite iter_xO_value. }
  rewrite Hsh.
  destruct (Pos.eq_dec k 1) as [->|Hk].
  - cbn [Pos.iter]. rewrite binary_round_aux_even by lia.
    exists m, (Z.pos (digits2_pos m) - 54 + 1)%Z.
    split; [reflexivity|]. split; [lia|].
    replace (- (Z.pos (digits2_pos m) - 54 + 1))%Z with 0%Z by lia. lia.
  - assert (Hk1 : exists j, k = Pos.succ j).
    { exists (Pos.pred k). rewrite Pos.succ_pred; auto. }
    destruct Hk1 as [j ->]. rewrite Pos.iter_succ.
    rewrite binary_round_aux_even.
    + exists (Pos.iter xO m j), (Z.pos (digits2_pos m) - 54 + 1)%Z.
      split; [reflexivity|]. split; [lia|].
      rewrite iter_xO_value. f_equal. f_equal. lia.
    + rewrite iter_xO_digits. lia.
    + lia.
Qed.

Lemma take_digits_dig (s : pystr) :
  Forall (fun c => is_dig c = true) s ->
  forall acc cnt,
    PyNum.take_digits acc cnt s
    = (fold_left digit_step s acc, (cnt + length s)%nat, []).
Proof.
  induction 1 as [|c s Hc Hs IH]; intros acc cnt.
  - cbn. now rewrite Nat.add_0_r.
  - cbn [PyNum.take_digits]. rewrite (decimal_value_dig _ Hc), IH.
    cbn [fold_left length]. unfold digit_step at 2.
    now rewrite Nat.add_succ_r.
Qed.

Lemma lower_dig c : is_dig c = true -> lower_char c = c.
Proof.
  intros H. apply is_dig_range in H. unfold lower_char.
  repeat match goal with
  | |- context [if ?b then _ else _] =>
      let E := fresh in
      destruct b eqn:E; [exfalso; revert E|clear E]
  end; try reflexivity;
  unfold is_ascii_upper, even_upper_block, odd_upper_block;
  rewrite ?andb_true_iff, ?orb_true_iff, ?in_range_spec, ?N.eqb_eq; lia.
Qed.

Lemma digits_shape (n : N) :
  Forall (fun c => is_dig c = true) (PyNum.digits n)
  /\ fold_left digit_step (PyNum.digits n) 0%Z = Z.of_N n
  /\ exists c r, PyNum.digits n = c :: r.
Proof.
  destruct (rev_digits_n n) as (Hv & Hd & Hne).
  split; [unfold PyNum.digits; now apply Forall_rev|].
  split; [unfold PyNum.digits; now rewrite fold_digits_rev, Hv|].
  destruct (PyNum.digits n) as [|c r] eqn:E; [|eauto].
  exfalso. apply Hne. unfold PyNum.digits in E.
  apply (f_equal (@rev char)) in E. now rewrite rev_involutive in E.
Qed.

Lemma eqb_head_neq (c d : char) (s t : pystr) :
  c <> d -> Str.eqb (c :: s) (d :: t) = false.
Proof.
  intros H. cbn [Str.eqb]. apply N.eqb_neq in H. now rewrite H.
Qed.

(** [round(float(s))] on the digits of an integer below 2^53. *)
Lemma round_float_of_digits (n : N) :
  (Z.of_N n < 2 ^ 53)%Z ->
  exists f, PyNum.float_of_str (PyNum.digits n) = Some f
            /\ f <> S754_nan /\ (forall s, f <> S754_infinity s)
            /\ PyNum.round_float f = Some (Z.of_N n).
Proof.
  intros Hn. destruct (digits_shape n) as (Hf & Hv & c & r & E).
  unfold PyNum.float_of_str. rewrite strip_clean.
  2:{ eapply Forall_impl; [|exact Hf]. intros x; apply dig_not_space. }
  rewrite E.
  assert (Hc : is_dig c = true) by (rewrite E in Hf; now inversion Hf).
  pose proof (is_dig_range _ Hc) as Hr.
  destruct (c =? 45) eqn:E45; [apply N.eqb_eq in E45; lia|].
  destruct (c =? 43) eqn:E43; [apply N.eqb_eq in E43; lia|].
  cbv zeta.
  unfold lower. cbn [map]. rewrite (lower_dig _ Hc).
  change (py "inf") with [105; 110; 102].
  change (py "infinity") with [105; 110; 102; 105; 110; 105; 116; 121].
  change (py "nan") with [110; 97; 110].
  rewrite !eqb_head_neq by lia. cbn [orb].
  pose proof (@take_digits_dig _ Hf 0%Z 0%nat) as Htd.
  rewrite Hv, E in Htd. rewrite Htd.
  cbn [Nat.add length PyNum.exponent_part].
  change (0 - Z.of_nat 0)%Z with 0%Z.
  destruct n as [|p].
  - exists (S754_zero false). cbn. repeat split; congruence.
  - change (Z.of_N (N.pos p)) with (Z.pos p) in *.
    destruct (float_of_scaled_small Hn) as (mz & ez & Hs & He & Hm).
    rewrite Hs. exists (S754_finite false mz ez).
    split; [reflexivity|]. split; [congruence|]. split; [congruence|].
    unfold PyNum.round_float. f_equal.
    destruct (0 <=? ez)%Z eqn:Ez.
    + apply Z.leb_le in Ez. assert (ez = 0%Z) by lia. subst ez.
      simpl in Hm. lia.
    + rewrite Hm. apply round_half_even_exact. apply Z.pow_pos_nonneg; lia.
Qed.

Lemma first_char_absent (c : char) (r : regex) (f : pystr) :
  ~ In c f -> search NOFLAGS (RSeq (RSet false [CRange c c]) r) f = None.
Proof.
  intros Hno.
  match goal with |- ?x = None => destruct x as [m|] eqn:E; [|reflexivity] end.
  exfalso. apply search_sound in E.
  destruct E as (s0 & s' & Hal & _ & Hm & _).
  inversion Hm as [| | | | | |r1 r2 sa s1 sb H1 H2| | | |]; subst; clear Hm.
  inversion H1 as [|neg items x sa s1' Hstep Hset| | | | | | | | |]; subst; clear H1.
  apply step_inv in Hstep. destruct Hstep as (Hr & _ & _).
  assert (x = c).
  { unfold set_match, set_has in Hset. simpl in Hset.
    rewrite !orb_false_r in Hset. apply in_range_spec in Hset. lia. }
  subst x. unfold aligned in Hal. apply Hno.
  rewrite <- (firstn_skipn (pos s0) f), Hal, Hr.
  apply in_or_app. right. left. reflexivity.
Qed.

Lemma convert_grouped (n : N) :
  (Z.of_N n < 2 ^ 53)%Z ->
  Main.convert_to_number (PyNum.grouped 46 n) = Some (Main.Number (Z.of_N n)).
Proof.
  intros Hn.
  assert (Hsep : (46 = 44 /\ 44 = 46) \/ (46 = 46 /\ 44 = 44)) by auto.
  pose proof (grouped_chars 46 n) as Hc.
  unfold Main.convert_to_number.
  assert (He : Str.eqb (PyNum.grouped 46 n) empty = false).
  { pose proof (grouped_truthy 46 n) as Ht.
    destruct (PyNum.grouped 46 n); [discriminate|reflexivity]. }
  rewrite He. cbv zeta.
  rewrite (@grouped_strip 46 44 Hsep n).
  unfold Main.RE_COMMA_2. rewrite first_char_absent.
  2:{ intros H. rewrite Forall_forall in Hc. apply Hc in H.
      destruct H as [H|H]; [apply is_dig_range in H|]; lia. }
  cbn [found].
  change dot with [46]. change comma with [44]. change empty with (@nil char).
  rewrite !replace_char_filter.
  rewrite (@grouped_without_sep 46 44 Hsep n).
  rewrite digits_without by auto.
  destruct (round_float_of_digits n Hn) as (f & Hf & Hnan & Hinf & Hr).
  rewrite Hf.
  destruct f as [s|s| |s m e].
  - now rewrite Hr.
  - now elim (Hinf s).
  - now elim Hnan.
  - now rewrite Hr.
Qed.

(** X16: [main], the export: an amount the extraction has written with its
    local [format_money] -- dots for the thousands -- is turned back by
    [convert_to_number] into the same number, from 0 up to 2^53 - 1:
    no amount below 2^53 changes on its way into the spreadsheet. *)
Theorem export_reads_formatted_amounts (n : Z) :
  (0 <= n < 2 ^ 53)%Z ->
  Main.convert_to_number (Extract.format_money n) = Some (Main.Number n).
Proof.
  intros Hn. rewrite format_money_small by assumption.
  rewrite convert_grouped by lia. do 2 f_equal. lia.
Qed.

Lemma export_reads_formatted_amounts_witness :
  Main.convert_to_number (Extract.format_money 1080000)
  = Some (Main.Number 1080000).
Proof. apply (@export_reads_formatted_amounts 1080000). lia. Defined.

(** * [parse_vietnamese_number] *)

(** Reading the digits of 0 < n < 2^53 gives the float [float(n)]. *)
Lemma float_of_scaled_is_float_of_int (m : positive) :
  (Z.pos m < 2 ^ 53)%Z ->
  PyNum.float_of_int (Z.pos m) = Some (PyNum.float_of_scaled false (Z.pos m) 0).
Proof.
  intros Hm.
  pose proof (@digits2_pos_le m 53 ltac:(lia) Hm) as Hd.
  (* the right-hand side *)
  assert (Hr : PyNum.float_of_scaled false (Z.pos m) 0
               = S754_finite false
                   (match (53 - Z.pos (digits2_pos m))%Z with
                    | Z.pos k => Pos.iter xO m k
                    | _ => m
                    end)
                   (Z.pos (digits2_pos m) - 53)).
  { unfold PyNum.float_of_scaled. cbn [Z.leb Z.compare Z.pow Z.pow_pos Pos.iter].
    rewrite Z.mul_1_r.
    unfold SFdiv_core_binary, PyNum.prec, PyNum.emax, fexp, emin.
    cbn [Zdigits2 digits2_pos].
    replace (Z.min (Z.max (Z.pos (digits2_pos m) + 0 - (1 + 0) - 53) (3 - 1024 - 53))
                   (0 - 0))%Z
      with (Z.pos (digits2_pos m) - 54)%Z by lia.
    replace (0 - 0 - (Z.pos (digits2_pos m) - 54))%Z
      with (54 - Z.pos (digits2_pos m))%Z by lia.
    destruct (54 - Z.pos (digits2_pos m))%Z as [|k|k] eqn:Ek; [lia| |lia].
    rewrite div_eucl_1. cbn [new_location Z.even new_location_odd Z.eqb].
    assert (Hsh : Z.shiftl (Z.pos m) (Z.pos k) = Z.pos (Pos.iter xO m k)).
    { rewrite Z.shiftl_mul_pow2 by lia. now rewrite iter_xO_value. }
    rewrite Hsh.
    destruct (Pos.eq_dec k 1) as [->|Hk].
    - cbn [Pos.iter]. rewrite binary_round_aux_even by lia.
      replace (53 - Z.pos (digits2_pos m))%Z with 0%Z by lia.
      f_equal. lia.
    - assert (Hk1 : exists j, k = Pos.succ j).
      { exists (Pos.pred k). rewrite Pos.succ_pred; auto. }
      destruct Hk1 as [j ->]. rewrite Pos.iter_succ.
      rewrite binary_round_aux_even; [| rewrite iter_xO_digits; lia | lia].
      replace (53 - Z.pos (digits2_pos m))%Z with (Z.pos j) by lia.
      f_equal. lia. }
  rewrite Hr. clear Hr.
  unfold PyNum.float_of_int, PyNum.prec, PyNum.emax, binary_normalize, binary_round,
    shl_align, fexp, emin.
  replace (Z.max (Z.pos (digits2_pos m) + 0 - 53) (3 - 1024 - 53) - 0)%Z
    with (Z.pos (digits2_pos m) - 53)%Z by lia.
  destruct (Z.pos (digits2_pos m) - 53)%Z as [|k|k] eqn:Ek; [|lia|].
  - rewrite binary_round_aux_exact by lia.
    replace (53 - Z.pos (digits2_pos m))%Z with 0%Z by lia. reflexivity.
  - rewrite binary_round_aux_exact; [| rewrite iter_xO_digits; lia | lia].
    replace (53 - Z.pos (digits2_pos m))%Z with (Z.pos k) by lia.
    f_equal. f_equal. lia.
Qed.

Lemma float_of_digits (n : N) :
  (Z.of_N n < 2 ^ 53)%Z ->
  PyNum.float_of_str (PyNum.digits n) = PyNum.float_of_int (Z.of_N n).
Proof.
  intros Hn. destruct (digits_shape n) as (Hf & Hv & c & r & E).
  unfold PyNum.float_of_str. rewrite strip_clean.
  2:{ eapply Forall_impl; [|exact Hf]. intros x; apply dig_not_space. }
  rewrite E.
  assert (Hc : is_dig c = true) by (rewrite E in Hf; now inversion Hf).
  pose proof (is_dig_range _ Hc) as Hr.
  destruct (c =? 45) eqn:E45; [apply N.eqb_eq in E45; lia|].
  destruct (c =? 43) eqn:E43; [apply N.eqb_eq in E43; lia|].
  cbv zeta.
  unfold lower. cbn [map]. rewrite (lower_dig _ Hc).
  change (py "inf") with [105; 110; 102].
  change (py "infinity") with [105; 110; 102; 105; 110; 105; 116; 121].
  change (py "nan") with [110; 97; 110].
  rewrite !eqb_head_neq by lia. cbn [orb].
  pose proof (@take_digits_dig _ Hf 0%Z 0%nat) as Htd.
  rewrite Hv, E in Htd. rewrite Htd.
  cbn [Nat.add length PyNum.exponent_part].
  change (0 - Z.of_nat 0)%Z with 0%Z.
  destruct n as [|p]; [reflexivity|].
  change (Z.of_N (N.pos p)) with (Z.pos p) in *.
  now rewrite float_of_scaled_is_float_of_int.
Qed.

(** X17: [parse_vietnamese_number]: an integer from 0 up to 2^53 - 1 written
    with dots for the thousands is read as exactly the float of that
    integer (the dots are dropped, nothing is rounded); the empty text
    and a text that is no number read as 0.0. *)
Theorem parse_vietnamese_number_reads_dotted_integers (n : N) :
  (Z.of_N n < 2 ^ 53)%Z ->
  PyNum.float_of_int (Z.of_N n)
  = Some (parse_vietnamese_number (PyNum.grouped 46 n))
  /\ parse_vietnamese_number empty = S754_zero false
  /\ (forall value, PyNum.float_of_str
                      (Str.replace comma dot (Str.replace dot empty value)) = None ->
        parse_vietnamese_number value = S754_zero false).
Proof.
  intros Hn.
  assert (Hsep : (46 = 44 /\ 44 = 46) \/ (46 = 46 /\ 44 = 44)) by auto.
  split; [|split].
  - unfold parse_vietnamese_number.
    rewrite (grouped_truthy 46 n). cbn [negb].
    change dot with [46]. change comma with [44]. change empty with (@nil char).
    rewrite replace_char_filter, (@grouped_without_sep 46 44 Hsep n).
    assert (Hnc : Str.replace [44] [46] (PyNum.digits n) = PyNum.digits n).
    { rewrite replace_char_map. apply map_id_on.
      destruct (digits_shape n) as (Hf & _).
      eapply Forall_impl; [|exact Hf]. intros c Hc. cbn beta.
      apply is_dig_range in Hc.
      destruct (c =? 44) eqn:E; [apply N.eqb_eq in E; lia|reflexivity]. }
    rewrite Hnc, float_of_digits by assumption.
    destruct (PyNum.float_of_int (Z.of_N n)) eqn:E; [reflexivity|].
    exfalso. destruct n as [|p]; [discriminate|].
    destruct (float_of_int_small (m:=p) Hn) as (mz & ez & Hs & _).
    change (Z.of_N (N.pos p)) with (Z.pos p) in E. congruence.
  - reflexivity.
  - intros value H. unfold parse_vietnamese_number.
    destruct (negb (Str.truthy value)); [reflexivity|]. now rewrite H.
Qed.

Lemma parse_vietnamese_number_reads_dotted_integers_witness :
  PyNum.float_of_int 1080000
  = Some (parse_vietnamese_number (py "1.080.000")).
Proof.
  apply (@parse_vietnamese_number_reads_dotted_integers 1080000). reflexivity.
Defined.

(** * What a line item looks like *)

(** The group of the rate pattern is one of the four rates. *)
Lemma rate_group line m :
  search NOFLAGS Services.RE_RATE line = Some m -> In (group 1 m) ITEM_RATES.
Proof.
  intros Hs. apply search_sound in Hs.
  destruct Hs as (s0 & s' & Hal & _ & Hm & ->).
  unfold Services.RE_RATE in Hm.
  inversion Hm as [| | | | | |r1 r2 sa s1 sb Hwb Hrest| | | |]; subst; clear Hm.
  inversion Hwb; subst; clear Hwb.
  inversion Hrest as [| | | | | |r1 r2 sa s2 sb Hgrp Htail| | | |]; subst;
    clear Hrest.
  inversion Hgrp as [| | | | | | | | |n r sa s3' Hbody|]; subst; clear Hgrp.
  apply (proj1 (Matches_caps NOFLAGS)) in Htail.
  destruct Htail as (new & Hcaps & Hnew).
  eapply alt_words_sound in Hbody; [|reflexivity].
  destruct Hbody as (w & Hw & Hr & Hp).
  unfold group, group_opt. cbn [m_caps m_text].
  rewrite Hcaps. unfold with_cap at 1. cbn [caps].
  rewrite lookup_cap_skip.
  2:{ intros i ab Hi. apply Hnew in Hi. cbn in Hi. intuition lia. }
  cbn [lookup_cap Nat.eqb]. rewrite Hp.
  rewrite (@slice_aligned _ _ _ _ Hal Hr). exact Hw.
Qed.

Ltac item_step :=
  lazymatch goal with
  | |- when_some _ None => exact I
  | |- when_some ?P (let x := ?v in @?f x) =>
      lazymatch v with
      | context [Services.RE_RATE] =>
          let Hrate := fresh "Hrate" in
          pose (tax_rate := v);
          assert (Hrate : rate_ok tax_rate);
          [ subst tax_rate;
            match goal with
            | |- rate_ok (match ?s with _ => _ end) =>
                let Es := fresh "Es" in
                destruct s eqn:Es;
                [cbn [rate_ok]; eapply rate_group; exact Es|exact I]
            end
          | change (when_some P (f tax_rate)); cbv beta; clearbody tax_rate ]
      | _ =>
          let y := fresh "y" in
          pose (y := v); change (when_some P (f y)); cbv beta; clearbody y
      end
  | |- when_some _ (if ?b then _ else _) =>
      let E := fresh "E" in destruct b eqn:E
  | |- when_some _ (match ?o with _ => _ end) => destruct o; cbv beta iota
  end.

Lemma line_item_well_formed lines line_idx raw :
  when_some well_formed_item (Services.line_item lines line_idx raw).
Proof.
  cbv delta [Services.line_item]; cbv beta.
  repeat item_step.
  cbn [when_some]. unfold well_formed_item.
  cbn [Services.name Services.qty Services.unit_price Services.amount
         Services.tax_rate].
  repeat split.
  - match goal with
    | E : Nat.ltb (length ?y) 3 = false |- (3 <= length ?y)%nat =>
        apply Nat.ltb_ge in E; exact E
    end.
  - assumption.
  - apply format_price_value_idem.
  - apply format_price_value_idem.
  - apply format_price_value_idem.
  - assumption.
Qed.

Lemma each_line_well_formed lines (todo : list pystr) :
  forall line_idx,
    Forall well_formed_item (Services.each_line lines line_idx todo)
    /\ (length (Services.each_line lines line_idx todo) <= length todo)%nat.
Proof.
  induction todo as [|raw more IH]; intros line_idx.
  - split; [constructor|reflexivity].
  - cbn [Services.each_line].
    pose proof (line_item_well_formed lines line_idx raw) as H.
    destruct (IH (S line_idx)) as [IH1 IH2].
    destruct (Services.line_item lines line_idx raw) as [it|].
    + split; [constructor; assumption|cbn [length]; lia].
    + split; [assumption|cbn [length]; lia].
Qed.

(** X18: [extract_services_from_text]: whatever the text, every line item
    returned has a name of at least three characters that
    [is_junk_text] does not reject, a quantity, a unit price and an
    amount that [format_price_value] leaves unchanged, and a rate that
    is missing or one of 0, 5, 8, 10; and there are never more items
    than lines. *)
Theorem line_items_are_well_formed (full_text : pystr) :
  Forall well_formed_item (Services.extract_services_from_text full_text)
  /\ (length (Services.extract_services_from_text full_text)
      <= length (Str.split newline full_text))%nat.
Proof.
  unfold Services.extract_services_from_text. cbv zeta.
  apply each_line_well_formed.
Qed.

(** * The keys the OCR extractor writes *)

Lemma keys_set (d : Dict.dict) k v :
  Dict.keys (Dict.set d k v)
  = if Dict.has_key d k then Dict.keys d else Dict.keys d ++ [k].
Proof.
  unfold Dict.keys, Dict.has_key.
  induction d as [|[k' v'] d IH]; [reflexivity|].
  cbn [Dict.set Dict.get]. destruct (Str.eqb k' k) eqn:E; [reflexivity|].
  cbn [map fst]. rewrite IH. now destruct (Dict.get d k).
Qed.

Lemma has_key_not_in (d : Dict.dict) k :
  Dict.has_key d k = false -> ~ In k (Dict.keys d).
Proof.
  intros H Hin. apply has_key_in_keys in Hin. congruence.
Qed.

Lemma ocr_keys_set (d : Dict.dict) k v :
  ocr_keys_only d -> In k OCR_KEYS -> ocr_keys_only (Dict.set d k v).
Proof.
  intros [Hi Hn] Hk. unfold ocr_keys_only. rewrite keys_set.
  destruct (Dict.has_key d k) eqn:E; [now split|]. split.
  - intros x Hx. apply in_app_or in Hx. destruct Hx as [Hx|[<-|[]]]; auto.
  - apply NoDup_app.
    + exact Hn.
    + constructor; [intros []|constructor].
    + intros x Hx [<-|[]]. revert Hx. now apply has_key_not_in.
Qed.

Lemma ocr_keys_set_opt (d : Dict.dict) k o :
  ocr_keys_only d -> In k OCR_KEYS -> ocr_keys_only (OCR.set_opt d k o).
Proof. intros H Hk. destruct o; simpl; [now apply ocr_keys_set|exact H]. Qed.

Ltac ok_key := cbn; tauto.

Ltac ok_let P v f :=
  first
    [ let T := type of v in
      unify T Dict.dict;
      let d := fresh "d" in
      let Hd := fresh "Hd" in
      assert (Hd : ocr_keys_only v);
      [ | pose (d := v); change (ocr_keys_only d) in Hd; change (P (f d));
          cbv beta; clearbody d ]
    | let T := type of v in
      unify T (option Dict.dict);
      let d := fresh "o" in
      let Hd := fresh "Ho" in
      assert (Hd : when_some ocr_keys_only v);
      [ | pose (d := v); change (when_some ocr_keys_only d) in Hd;
          change (P (f d)); cbv beta; clearbody d ]
    | let y := fresh "y" in
      pose (y := v); change (P (f y)); cbv beta; clearbody y ].

Ltac ok_step :=
  lazymatch goal with
  | H : ocr_keys_only ?d |- ocr_keys_only ?d => exact H
  | H : when_some ocr_keys_only ?d |- when_some ocr_keys_only ?d => exact H
  | |- ocr_keys_only (Dict.set _ _ _) => apply ocr_keys_set; [|ok_key]
  | |- ocr_keys_only (OCR.set_opt _ _ _) => apply ocr_keys_set_opt; [|ok_key]
  | |- when_some _ (Some _) => cbn [when_some]
  | |- when_some _ None => exact I
  | |- True => exact I
  | |- ocr_keys_only (let x := ?v in @?f x) => ok_let ocr_keys_only v f
  | |- when_some ?P (let x := ?v in @?f x) => ok_let (when_some P) v f
  | |- ocr_keys_only (if ?b then _ else _) => destruct b
  | |- when_some _ (if ?b then _ else _) => destruct b
  | |- ocr_keys_only (match ?o with _ => _ end) =>
      destruct o; cbn [when_some] in *; cbv beta iota
  | |- when_some _ (match ?o with _ => _ end) =>
      destruct o; cbn [when_some] in *; cbv beta iota
  end.

Lemma auto_calc_ocr_keys text d :
  ocr_keys_only d -> when_some ocr_keys_only (OCR.auto_calc text d).
Proof.
  intros H. cbv delta [OCR.auto_calc]; cbv beta. repeat ok_step.
Qed.

Lemma extract_ocr_keys text filename :
  when_some ocr_keys_only (OCR.extract_ocr_invoice_fields text filename).
Proof.
  cbv delta [OCR.extract_ocr_invoice_fields]; cbv beta.
  assert (H0 : ocr_keys_only []).
  { split; [intros x []|constructor]. }
  repeat first
    [ lazymatch goal with
      | H : ocr_keys_only ?d
        |- when_some _ (match OCR.auto_calc ?t ?d with _ => _ end) =>
          let Ha := fresh "Ha" in
          pose proof (auto_calc_ocr_keys t H) as Ha;
          destruct (OCR.auto_calc t d); cbn [when_some] in Ha; cbv beta iota
      end
    | ok_step ].
Qed.

(** X19: [extract_ocr_invoice_fields]: whatever the OCR text and the file
    name, the dictionary it returns holds only keys among fifteen of
    the record's keys, each at most once.  It never writes the file
    name, the category, the 0% bucket or the service fee, so merging an
    OCR result into the record cannot change these four. *)
Theorem ocr_extractor_writes_known_keys (text : pystr) (filename : option pystr)
  (ocr_data : Dict.dict) :
  OCR.extract_ocr_invoice_fields text filename = Some ocr_data ->
  incl (Dict.keys ocr_data) OCR_KEYS
  /\ NoDup (Dict.keys ocr_data)
  /\ (forall k, In k [Keys.TEN_FILE; Keys.PHAN_LOAI; Keys.THUE_0; Keys.PHI_PV] ->
        Dict.has_key ocr_data k = false
        /\ forall data, Dict.item (Extract.merge_ocr ocr_data data) k
                        = Dict.item data k).
Proof.
  intros E. pose proof (extract_ocr_keys text filename) as H.
  rewrite E in H. cbn [when_some] in H. destruct H as [Hi Hn].
  split; [exact Hi|]. split; [exact Hn|].
  intros k Hk.
  assert (Hout : ~ In k (Dict.keys ocr_data)).
  { intros Hin. apply Hi in Hin. cbn in Hk, Hin.
    repeat (destruct Hk as [<-|Hk]; [intuition discriminate|]). contradiction. }
  split.
  - destruct (Dict.has_key ocr_data k) eqn:Eh; [|reflexivity].
    exfalso. apply Hout. clear - Eh.
    unfold Dict.has_key, Dict.keys in *.
    induction ocr_data as [|[k' v'] d IH]; [discriminate|].
    cbn [Dict.get] in Eh. cbn [map fst].
    destruct (Str.eqb k' k) eqn:E.
    + left. now apply Str_eqb_eq.
    + right. now apply IH.
  - intros data. unfold Extract.merge_ocr.
    clear - Hout. revert data.
    induction ocr_data as [|[k' v'] d IH]; intros data; [reflexivity|].
    cbn [fold_left]. rewrite IH.
    + destruct (Dict.has_key data k' && Str.truthy v'); [|reflexivity].
      apply item_set_other. apply Str_eqb_neq. intros ->.
      apply Hout. left. reflexivity.
    + intros Hin. apply Hout. right. exact Hin.
Qed.

Lemma ocr_extractor_writes_known_keys_witness :
  exists ocr_data,
    OCR.extract_ocr_invoice_fields scanned_receipt (Some (py "scan_00123.pdf"))
    = Some ocr_data
    /\ Dict.has_key ocr_data Keys.PHAN_LOAI = false.
Proof.
  eexists. split; [vm_compute; reflexivity|].
  eapply (@ocr_extractor_writes_known_keys scanned_receipt
            (Some (py "scan_00123.pdf"))).
  - vm_compute. reflexivity.
  - cbn. tauto.
Defined.

(** * Merging an OCR result into the record *)

Lemma item_not_in (d : Dict.dict) k :
  ~ In k (Dict.keys d) -> Dict.item d k = empty.
Proof.
  intros H. unfold Dict.item, Dict.get_or.
  destruct (Dict.get d k) eqn:E; [|reflexivity].
  exfalso. apply H. clear H. unfold Dict.keys.
  induction d as [|[k' v'] d IH]; [discriminate|].
  cbn [Dict.get] in E. cbn [map fst].
  destruct (Str.eqb k' k) eqn:Ek.
  - left. now apply Str_eqb_eq.
  - right. now apply IH.
Qed.

Lemma has_key_set (d : Dict.dict) k v k' :
  Dict.has_key d k = true ->
  Dict.has_key (Dict.set d k v) k' = Dict.has_key d k'.
Proof.
  intros Hk. unfold Dict.has_key in *.
  induction d as [|[a b] d IH]; [discriminate|].
  cbn [Dict.set Dict.get] in *.
  destruct (Str.eqb a k) eqn:E.
  - cbn [Dict.get]. now destruct (Str.eqb a k').
  - cbn [Dict.get]. destruct (Str.eqb a k'); [reflexivity|]. now apply IH.
Qed.

(** X20: The OCR result is merged into the record field by field: a field
    of the record takes the OCR value exactly when the record has that
    key and the OCR value is non-empty, and keeps its own value
    otherwise; the record gains no key and loses none.  (The keys of
    the OCR result are distinct, as the keys of a dictionary are.) *)
Theorem ocr_merge_takes_non_empty_values (ocr_data : Dict.dict) :
  NoDup (Dict.keys ocr_data) ->
  forall data k,
    Dict.keys (Extract.merge_ocr ocr_data data) = Dict.keys data
    /\ Dict.item (Extract.merge_ocr ocr_data data) k
       = if Dict.has_key data k && Str.truthy (Dict.item ocr_data k)
         then Dict.item ocr_data k else Dict.item data k.
Proof.
  unfold Extract.merge_ocr.
  induction ocr_data as [|[k' v'] o IH]; intros Hn data k.
  - cbn [fold_left]. split; [reflexivity|].
    change (Dict.item [] k) with (@nil char). cbn [Str.truthy].
    now rewrite andb_false_r.
  - unfold Dict.keys in Hn. cbn [map fst] in Hn.
    inversion Hn as [|? ? Hout Hn']; subst.
    cbn [fold_left].
    set (d' := if Dict.has_key data k' && Str.truthy v'
               then Dict.set data k' v' else data).
    destruct (IH Hn' d' k) as [IHk IHi].
    assert (Hkeys : Dict.keys d' = Dict.keys data).
    { subst d'. destruct (Dict.has_key data k') eqn:Eh; cbn [andb];
        [|reflexivity].
      destruct (Str.truthy v'); [|reflexivity]. now apply keys_set_present. }
    assert (Hhas : Dict.has_key d' k = Dict.has_key data k).
    { subst d'. destruct (Dict.has_key data k') eqn:Eh; cbn [andb];
        [|reflexivity].
      destruct (Str.truthy v'); [|reflexivity]. now apply has_key_set. }
    split; [now rewrite IHk|].
    rewrite IHi, Hhas. clear IHk IHi.
    assert (Hitem : Dict.item ((k', v') :: o) k
                    = if Str.eqb k' k then v' else Dict.item o k).
    { unfold Dict.item, Dict.get_or. cbn [Dict.get].
      now destruct (Str.eqb k' k). }
    rewrite Hitem.
    destruct (Str.eqb k' k) eqn:Ek.
    + apply Str_eqb_eq in Ek. subst k'.
      rewrite (item_not_in o k Hout). cbn [Str.truthy].
      rewrite andb_false_r. subst d'.
      destruct (Dict.has_key data k) eqn:Eh; cbn [andb]; [|reflexivity].
      destruct (Str.truthy v'); [apply item_set_same|reflexivity].
    + assert (Hd : Dict.item d' k = Dict.item data k).
      { subst d'. destruct (Dict.has_key data k' && Str.truthy v');
          [now apply item_set_other|reflexivity]. }
      now rewrite Hd.
Qed.

Lemma ocr_merge_takes_non_empty_values_witness :
  Dict.item (Extract.merge_ocr [(Keys.SO_TIEN_SAU, py "500.000"); (Keys.LINK, empty)]
               (Extract.initial_data (py "a.pdf")))
            Keys.SO_TIEN_SAU
  = py "500.000".
Proof.
  assert (Hn : NoDup (Dict.keys [(Keys.SO_TIEN_SAU, py "500.000");
                                  (Keys.LINK, empty)])).
  { repeat constructor; cbn; intuition discriminate. }
  destruct (@ocr_merge_takes_non_empty_values
              [(Keys.SO_TIEN_SAU, py "500.000"); (Keys.LINK, empty)] Hn
              (Extract.initial_data (py "a.pdf")) Keys.SO_TIEN_SAU) as [_ H].
  rewrite H. vm_compute. reflexivity.
Defined.
